(** * MentorTestDeviceAgent (mtda/main.py): lease, power, SD-mux, write
      pipeline and USB registry, as a shallow embedding.

    The Python object [self] becomes the record [World]; every method is a
    computation in a state-and-exception monad over it.  The hardware
    drivers, the console logger and the two decompressor modules are
    collaborators that live outside main.py: they are records of methods,
    the drivers acting on an abstract hardware state [HW].  Every call
    that reaches a collaborator is appended to [trace], so that "the driver
    was not invoked" is a statement about the trace.  Readings of
    [time.monotonic()] are integers taken one after the other from
    [clock]; the drivers' methods return booleans, as main.py compares
    their results with [True].  A [while] loop is a fixpoint on fuel that
    ends in [Diverge] when the fuel is used up.

    Embedded: [_check_expired], [_check_locked] and every [console_*],
    [power_*], [target_*], [sd_*], [usb_*] method, and [toggle_timestamps].
    [__init__], [console_getkey], [console_remote], the [load_*] methods
    and [start], which read the configuration and create the collaborators,
    are embedded in the module [Startup], over a record [Agent] of the
    attributes they use and a monad of their own; the configuration
    parser, the import machinery and the environment of the process are
    the collaborators there.  The agent they leave is the [World] a
    property of the requests starts from. *)

From Stdlib Require Import ZArith List String Bool Lia DecimalString.
From Stdlib.Strings Require Import Byte.
Import ListNotations.
Local Open Scope string_scope.
Local Open Scope Z_scope.
Local Open Scope list_scope.

(** ** Python values used by the agent *)

Definition bytes := list byte.

Definition len {A} (l : list A) : Z := Z.of_nat (List.length l).

(** [str(n)] for an integer. *)
Definition str (n : Z) : string := NilZero.string_of_int (Z.to_int n).

(** A session token is [None] or a string. *)
Definition session := option string.

(** [if owner:] -- Python truthiness of a session token. *)
Definition truthy (s : session) : bool :=
  match s with
  | None => false
  | Some t => negb (t =? "")%string
  end.

(** [a == b] on session tokens. *)
Definition session_eqb (a b : session) : bool :=
  match a, b with
  | None, None => true
  | Some x, Some y => (x =? y)%string
  | _, _ => false
  end.

(** An attribute that [__init__] may not have created ([self.zdata]). *)
Inductive attr (A : Type) : Type :=
| Unset : attr A
| Value : A -> attr A.
Arguments Unset {A}.
Arguments Value {A} _.

(** Exceptions the methods can meet. *)
Inductive exn : Type :=
| TypeError
| AttributeError
| IndexError
| EOFError
| CodecError.

Definition is_IndexError (e : exn) : bool :=
  match e with IndexError => true | _ => false end.

Definition is_EOFError (e : exn) : bool :=
  match e with EOFError => true | _ => false end.

(** Outcome of a call: a value, an exception, or a loop that did not finish
    within the fuel it was given. *)
Inductive res (A : Type) : Type :=
| Ok : A -> res A
| Raise : exn -> res A
| Diverge : res A.
Arguments Ok {A} _.
Arguments Raise {A} _.
Arguments Diverge {A}.

(** ** Collaborators *)

Inductive logger_method : Type :=
| LClear | LFlush | LHead | LLines | LTail
| LPrint (data : string)
| LPrompt (newPrompt : option string)
| LRun (cmd : string)
| LWrite (data : string) (raw : bool)
| LResume | LPause | LResetTimer | LToggleTimestamps.

(** One entry per call that reaches a collaborator. *)
Inductive event : Type :=
| PowerOn | PowerOff | PowerToggle | PowerStatus
| MuxOpen | MuxClose | MuxStatus | MuxToHost | MuxToTarget
| MuxMount (part : option string)
| MuxUpdate (dst : string) (offset : Z) (data : bytes)
| MuxWrite (data : bytes)
| UsbOn (cls : string) | UsbOff (cls : string)
| UsbToggle (cls : string) | UsbStatus (cls : string)
| LoggerCall (m : logger_method).


(** The bytes the mux driver's [write] received, in order. *)
Fixpoint sink (t : list event) : bytes :=
  match t with
  | [] => []
  | MuxWrite d :: t' => d ++ sink t'
  | _ :: t' => sink t'
  end.

(** [zlib]: [decompressobj(16+MAX_WBITS)], [decompress(data, max_length)]
    and the attribute [unconsumed_tail] of the object. *)
Record ZlibModule (zobj : Type) : Type := {
  decompressobj : zobj;
  z_decompress : zobj -> bytes -> Z -> exn + (bytes * zobj);
  unconsumed_tail : zobj -> bytes
}.
Arguments decompressobj {zobj} _.
Arguments z_decompress {zobj} _ _ _ _.
Arguments unconsumed_tail {zobj} _ _.

(** [bz2]: [BZ2Decompressor()], [decompress(data, max_length)] and the
    attributes [needs_input] and [unused_data] of the object. *)
Record Bz2Module (bobj : Type) : Type := {
  BZ2Decompressor : bobj;
  b_decompress : bobj -> bytes -> Z -> exn + (bytes * bobj);
  needs_input : bobj -> bool;
  unused_data : bobj -> bytes
}.
Arguments BZ2Decompressor {bobj} _.
Arguments b_decompress {bobj} _ _ _ _.
Arguments needs_input {bobj} _ _.
Arguments unused_data {bobj} _ _.

Record PowerController (HW : Type) : Type := {
  pc_on : HW -> bool * HW;
  pc_off : HW -> bool * HW;
  pc_toggle : HW -> string * HW;
  pc_status : HW -> string * HW;
  POWER_OFF : string;
  POWER_LOCKED : string
}.
Arguments pc_on {HW} _ _.
Arguments pc_off {HW} _ _.
Arguments pc_toggle {HW} _ _.
Arguments pc_status {HW} _ _.
Arguments POWER_OFF {HW} _.
Arguments POWER_LOCKED {HW} _.

Record SdmuxController (HW : Type) : Type := {
  mx_open : HW -> bool * HW;
  mx_close : HW -> bool * HW;
  mx_mount : option string -> HW -> bool * HW;
  mx_update : string -> Z -> bytes -> HW -> Z * HW;
  mx_write : bytes -> HW -> bool * HW;
  mx_status : HW -> string * HW;
  mx_to_host : HW -> bool * HW;
  mx_to_target : HW -> bool * HW;
  SD_ON_HOST : string;
  SD_ON_TARGET : string
}.
Arguments mx_open {HW} _ _.
Arguments mx_close {HW} _ _.
Arguments mx_mount {HW} _ _ _.
Arguments mx_update {HW} _ _ _ _ _.
Arguments mx_write {HW} _ _ _.
Arguments mx_status {HW} _ _.
Arguments mx_to_host {HW} _ _.
Arguments mx_to_target {HW} _ _.
Arguments SD_ON_HOST {HW} _.
Arguments SD_ON_TARGET {HW} _.

Record UsbSwitch (HW : Type) : Type := {
  className : string;
  us_on : HW -> bool * HW;
  us_off : HW -> bool * HW;
  us_toggle : HW -> bool * HW;
  us_status : HW -> Z * HW;
  POWERED_OFF : Z;
  POWERED_ON : Z
}.
Arguments className {HW} _.
Arguments us_on {HW} _ _.
Arguments us_off {HW} _ _.
Arguments us_toggle {HW} _ _.
Arguments us_status {HW} _ _.
Arguments POWERED_OFF {HW} _.
Arguments POWERED_ON {HW} _.

Record ConsoleLogger (HW : Type) : Type := {
  cl_call : logger_method -> HW -> string * HW
}.
Arguments cl_call {HW} _ _ _.

(** ** The agent and its environment *)

Record World (HW zobj bobj : Type) : Type := {
  console_logger : option (ConsoleLogger HW);
  power_controller : option (PowerController HW);
  sdmux_controller : option (SdmuxController HW);
  _sd_bytes_written : Z;
  _sd_mounted : bool;
  _sd_opened : bool;
  blksz : Z;
  bz2dec : option bobj;
  zdec : option zobj;
  zdata : attr (option bytes);
  fbintvl : Z;
  usb_switches : list (UsbSwitch HW);
  _lock_owner : session;
  _lock_expiry : option Z;
  _lock_timeout : Z;
  (* environment *)
  zlib : ZlibModule zobj;
  bz2 : Bz2Module bobj;
  hw : HW;
  trace : list event;
  stderr : list string;
  clock : nat -> Z;      (* successive readings of time.monotonic() *)
  reads : nat            (* how many readings were taken so far *)
}.
Arguments console_logger {HW zobj bobj} _.
Arguments power_controller {HW zobj bobj} _.
Arguments sdmux_controller {HW zobj bobj} _.
Arguments _sd_bytes_written {HW zobj bobj} _.
Arguments _sd_mounted {HW zobj bobj} _.
Arguments _sd_opened {HW zobj bobj} _.
Arguments blksz {HW zobj bobj} _.
Arguments bz2dec {HW zobj bobj} _.
Arguments zdec {HW zobj bobj} _.
Arguments zdata {HW zobj bobj} _.
Arguments fbintvl {HW zobj bobj} _.
Arguments usb_switches {HW zobj bobj} _.
Arguments _lock_owner {HW zobj bobj} _.
Arguments _lock_expiry {HW zobj bobj} _.
Arguments _lock_timeout {HW zobj bobj} _.
Arguments zlib {HW zobj bobj} _.
Arguments bz2 {HW zobj bobj} _.
Arguments hw {HW zobj bobj} _.
Arguments trace {HW zobj bobj} _.
Arguments stderr {HW zobj bobj} _.
Arguments clock {HW zobj bobj} _.
Arguments reads {HW zobj bobj} _.

Section Agent.

Context {HW zobj bobj : Type}.

Local Abbreviation World := (World HW zobj bobj).

Definition set_sd_bytes_written (v : Z) (w : World) : World :=
  {| console_logger := console_logger w; power_controller := power_controller w;
     sdmux_controller := sdmux_controller w; _sd_bytes_written := v;
     _sd_mounted := _sd_mounted w; _sd_opened := _sd_opened w; blksz := blksz w;
     bz2dec := bz2dec w; zdec := zdec w; zdata := zdata w; fbintvl := fbintvl w;
     usb_switches := usb_switches w; _lock_owner := _lock_owner w;
     _lock_expiry := _lock_expiry w; _lock_timeout := _lock_timeout w; zlib := zlib w;
     bz2 := bz2 w; hw := hw w; trace := trace w; stderr := stderr w; clock := clock w;
     reads := reads w |}.

Definition set_sd_mounted (v : bool) (w : World) : World :=
  {| console_logger := console_logger w; power_controller := power_controller w;
     sdmux_controller := sdmux_controller w; _sd_bytes_written := _sd_bytes_written w;
     _sd_mounted := v; _sd_opened := _sd_opened w; blksz := blksz w;
     bz2dec := bz2dec w; zdec := zdec w; zdata := zdata w; fbintvl := fbintvl w;
     usb_switches := usb_switches w; _lock_owner := _lock_owner w;
     _lock_expiry := _lock_expiry w; _lock_timeout := _lock_timeout w; zlib := zlib w;
     bz2 := bz2 w; hw := hw w; trace := trace w; stderr := stderr w; clock := clock w;
     reads := reads w |}.

Definition set_sd_opened (v : bool) (w : World) : World :=
  {| console_logger := console_logger w; power_controller := power_controller w;
     sdmux_controller := sdmux_controller w; _sd_bytes_written := _sd_bytes_written w;
     _sd_mounted := _sd_mounted w; _sd_opened := v; blksz := blksz w;
     bz2dec := bz2dec w; zdec := zdec w; zdata := zdata w; fbintvl := fbintvl w;
     usb_switches := usb_switches w; _lock_owner := _lock_owner w;
     _lock_expiry := _lock_expiry w; _lock_timeout := _lock_timeout w; zlib := zlib w;
     bz2 := bz2 w; hw := hw w; trace := trace w; stderr := stderr w; clock := clock w;
     reads := reads w |}.

Definition set_bz2dec (v : option bobj) (w : World) : World :=
  {| console_logger := console_logger w; power_controller := power_controller w;
     sdmux_controller := sdmux_controller w; _sd_bytes_written := _sd_bytes_written w;
     _sd_mounted := _sd_mounted w; _sd_opened := _sd_opened w; blksz := blksz w;
     bz2dec := v; zdec := zdec w; zdata := zdata w; fbintvl := fbintvl w;
     usb_switches := usb_switches w; _lock_owner := _lock_owner w;
     _lock_expiry := _lock_expiry w; _lock_timeout := _lock_timeout w; zlib := zlib w;
     bz2 := bz2 w; hw := hw w; trace := trace w; stderr := stderr w; clock := clock w;
     reads := reads w |}.

Definition set_zdec (v : option zobj) (w : World) : World :=
  {| console_logger := console_logger w; power_controller := power_controller w;
     sdmux_controller := sdmux_controller w; _sd_bytes_written := _sd_bytes_written w;
     _sd_mounted := _sd_mounted w; _sd_opened := _sd_opened w; blksz := blksz w;
     bz2dec := bz2dec w; zdec := v; zdata := zdata w; fbintvl := fbintvl w;
     usb_switches := usb_switches w; _lock_owner := _lock_owner w;
     _lock_expiry := _lock_expiry w; _lock_timeout := _lock_timeout w; zlib := zlib w;
     bz2 := bz2 w; hw := hw w; trace := trace w; stderr := stderr w; clock := clock w;
     reads := reads w |}.

Definition set_zdata (v : attr (option bytes)) (w : World) : World :=
  {| console_logger := console_logger w; power_controller := power_controller w;
     sdmux_controller := sdmux_controller w; _sd_bytes_written := _sd_bytes_written w;
     _sd_mounted := _sd_mounted w; _sd_opened := _sd_opened w; blksz := blksz w;
     bz2dec := bz2dec w; zdec := zdec w; zdata := v; fbintvl := fbintvl w;
     usb_switches := usb_switches w; _lock_owner := _lock_owner w;
     _lock_expiry := _lock_expiry w; _lock_timeout := _lock_timeout w; zlib := zlib w;
     bz2 := bz2 w; hw := hw w; trace := trace w; stderr := stderr w; clock := clock w;
     reads := reads w |}.

Definition set_lock_owner (v : session) (w : World) : World :=
  {| console_logger := console_logger w; power_controller := power_controller w;
     sdmux_controller := sdmux_controller w; _sd_bytes_written := _sd_bytes_written w;
     _sd_mounted := _sd_mounted w; _sd_opened := _sd_opened w; blksz := blksz w;
     bz2dec := bz2dec w; zdec := zdec w; zdata := zdata w; fbintvl := fbintvl w;
     usb_switches := usb_switches w; _lock_owner := v; _lock_expiry := _lock_expiry w;
     _lock_timeout := _lock_timeout w; zlib := zlib w; bz2 := bz2 w; hw := hw w;
     trace := trace w; stderr := stderr w; clock := clock w; reads := reads w |}.

Definition set_lock_expiry (v : option Z) (w : World) : World :=
  {| console_logger := console_logger w; power_controller := power_controller w;
     sdmux_controller := sdmux_controller w; _sd_bytes_written := _sd_bytes_written w;
     _sd_mounted := _sd_mounted w; _sd_opened := _sd_opened w; blksz := blksz w;
     bz2dec := bz2dec w; zdec := zdec w; zdata := zdata w; fbintvl := fbintvl w;
     usb_switches := usb_switches w; _lock_owner := _lock_owner w; _lock_expiry := v;
     _lock_timeout := _lock_timeout w; zlib := zlib w; bz2 := bz2 w; hw := hw w;
     trace := trace w; stderr := stderr w; clock := clock w; reads := reads w |}.

Definition set_hw (v : HW) (w : World) : World :=
  {| console_logger := console_logger w; power_controller := power_controller w;
     sdmux_controller := sdmux_controller w; _sd_bytes_written := _sd_bytes_written w;
     _sd_mounted := _sd_mounted w; _sd_opened := _sd_opened w; blksz := blksz w;
     bz2dec := bz2dec w; zdec := zdec w; zdata := zdata w; fbintvl := fbintvl w;
     usb_switches := usb_switches w; _lock_owner := _lock_owner w;
     _lock_expiry := _lock_expiry w; _lock_timeout := _lock_timeout w; zlib := zlib w;
     bz2 := bz2 w; hw := v; trace := trace w; stderr := stderr w; clock := clock w;
     reads := reads w |}.

Definition set_trace (v : list event) (w : World) : World :=
  {| console_logger := console_logger w; power_controller := power_controller w;
     sdmux_controller := sdmux_controller w; _sd_bytes_written := _sd_bytes_written w;
     _sd_mounted := _sd_mounted w; _sd_opened := _sd_opened w; blksz := blksz w;
     bz2dec := bz2dec w; zdec := zdec w; zdata := zdata w; fbintvl := fbintvl w;
     usb_switches := usb_switches w; _lock_owner := _lock_owner w;
     _lock_expiry := _lock_expiry w; _lock_timeout := _lock_timeout w; zlib := zlib w;
     bz2 := bz2 w; hw := hw w; trace := v; stderr := stderr w; clock := clock w;
     reads := reads w |}.

Definition set_stderr (v : list string) (w : World) : World :=
  {| console_logger := console_logger w; power_controller := power_controller w;
     sdmux_controller := sdmux_controller w; _sd_bytes_written := _sd_bytes_written w;
     _sd_mounted := _sd_mounted w; _sd_opened := _sd_opened w; blksz := blksz w;
     bz2dec := bz2dec w; zdec := zdec w; zdata := zdata w; fbintvl := fbintvl w;
     usb_switches := usb_switches w; _lock_owner := _lock_owner w;
     _lock_expiry := _lock_expiry w; _lock_timeout := _lock_timeout w; zlib := zlib w;
     bz2 := bz2 w; hw := hw w; trace := trace w; stderr := v; clock := clock w;
     reads := reads w |}.

Definition set_reads (v : nat) (w : World) : World :=
  {| console_logger := console_logger w; power_controller := power_controller w;
     sdmux_controller := sdmux_controller w; _sd_bytes_written := _sd_bytes_written w;
     _sd_mounted := _sd_mounted w; _sd_opened := _sd_opened w; blksz := blksz w;
     bz2dec := bz2dec w; zdec := zdec w; zdata := zdata w; fbintvl := fbintvl w;
     usb_switches := usb_switches w; _lock_owner := _lock_owner w;
     _lock_expiry := _lock_expiry w; _lock_timeout := _lock_timeout w; zlib := zlib w;
     bz2 := bz2 w; hw := hw w; trace := trace w; stderr := stderr w; clock := clock w;
     reads := v |}.

(** ** The monad of methods *)

Definition M (A : Type) : Type := World -> res A * World.

Definition ret {A} (a : A) : M A := fun w => (Ok a, w).

Definition bind {A B} (c : M A) (k : A -> M B) : M B :=
  fun w =>
    match c w with
    | (Ok a, w') => k a w'
    | (Raise e, w') => (Raise e, w')
    | (Diverge, w') => (Diverge, w')
    end.

Definition raise {A} (e : exn) : M A := fun w => (Raise e, w).

Definition diverge {A} : M A := fun w => (Diverge, w).

Definition gets {A} (f : World -> A) : M A := fun w => (Ok (f w), w).

Definition modify (f : World -> World) : M unit := fun w => (Ok tt, f w).

(** [try: c  except E: h] *)
Definition try_except {A} (c : M A) (E : exn -> bool) (h : M A) : M A :=
  fun w =>
    match c w with
    | (Raise x, w') => if E x then h w' else (Raise x, w')
    | r => r
    end.

Notation "x <- c ;; k" := (bind c (fun x => k))
  (at level 61, c at next level, right associativity).
Notation "c ;; k" := (bind c (fun _ => k))
  (at level 61, right associativity).

(** [self.f.method(...)]: reading an attribute of [None] raises. *)
Definition deref {A} (f : World -> option A) : M A :=
  fun w =>
    match f w with
    | Some a => (Ok a, w)
    | None => (Raise AttributeError, w)
    end.

(** A call that reaches a collaborator: it acts on the hardware and is
    recorded. *)
Definition call {A} (ev : event) (f : HW -> A * HW) : M A :=
  fun w =>
    let (r, h) := f (hw w) in
    (Ok r, set_trace (trace w ++ [ev]) (set_hw h w)).

Definition time_monotonic : M Z :=
  fun w => (Ok (clock w (reads w)), set_reads (S (reads w)) w).

(** [print(msg, file=sys.stderr)] *)
Definition print_stderr (msg : string) : M unit :=
  modify (fun w => set_stderr (stderr w ++ [msg]) w).

(** [xs[i]] for a list: a negative index counts from the end. *)
Definition index {A} (xs : list A) (i : Z) : M A :=
  let j := if i <? 0 then len xs + i else i in
  if j <? 0 then raise IndexError else
  match nth_error xs (Z.to_nat j) with
  | Some x => ret x
  | None => raise IndexError
  end.

(** ** Lease *)

Definition _check_expired (session : session) : M unit :=
  owner <- gets _lock_owner ;;
  if truthy owner then
    now <- time_monotonic ;;
    if session_eqb session owner then
      timeout <- gets _lock_timeout ;;
      modify (set_lock_expiry (Some (now + timeout * 60)))
    else
      expiry <- gets _lock_expiry ;;
      match expiry with
      | None => raise TypeError       (* now >= None *)
      | Some e => if now >=? e then modify (set_lock_owner None) else ret tt
      end
  else ret tt.

Definition target_owner : M session := gets _lock_owner.

Definition _check_locked (session : session) : M bool :=
  owner <- target_owner ;;
  match owner with
  | None => ret false
  | Some _ => ret (if session_eqb session owner then false else true)
  end.

Definition target_lock (session : session) : M bool :=
  _check_expired session ;;
  owner <- target_owner ;;
  if match owner with None => true | _ => session_eqb owner session end then
    modify (set_lock_owner session) ;;
    ret true
  else ret false.

Definition target_locked (session : session) : M bool :=
  _check_expired session ;;
  _check_locked session.

Definition target_unlock (session : session) : M bool :=
  _check_expired session ;;
  owner <- target_owner ;;
  if session_eqb owner session then
    modify (set_lock_owner None) ;;
    ret true
  else ret false.

(** ** Console *)

Definition console_locked (session : session) : M bool :=
  _check_expired session ;;
  locked <- _check_locked session ;;
  if locked then ret true else ret false.

(** [if self.console_logger is not None: return self.console_logger.m()
     else: return None] *)
Definition logger_or_none (m : logger_method) : M (option string) :=
  cl <- gets console_logger ;;
  match cl with
  | Some l => r <- call (LoggerCall m) (cl_call l m) ;; ret (Some r)
  | None => ret None
  end.

Definition console_gated (m : logger_method) (session : session) : M (option string) :=
  _check_expired session ;;
  locked <- console_locked session ;;
  if locked then ret None else logger_or_none m.

Definition console_open (m : logger_method) (session : session) : M (option string) :=
  _check_expired session ;;
  logger_or_none m.

Definition console_clear := console_gated LClear.
Definition console_flush := console_gated LFlush.
Definition console_head := console_open LHead.
Definition console_lines := console_open LLines.
Definition console_print (data : string) := console_open (LPrint data).
Definition console_prompt (newPrompt : option string) := console_gated (LPrompt newPrompt).
Definition console_run (cmd : string) := console_gated (LRun cmd).
Definition console_send (data : string) (raw : bool) := console_gated (LWrite data raw).
Definition console_tail := console_gated LTail.

Definition toggle_timestamps : M (option string) :=
  cl <- gets console_logger ;;
  match cl with
  | Some l => r <- call (LoggerCall LToggleTimestamps) (cl_call l LToggleTimestamps) ;;
              ret (Some r)
  | None => print_stderr "no console configured/found!" ;; ret None
  end.

(** [self.console_logger.m()] with no test for [None] around it. *)
Definition logger_do (m : logger_method) : M unit :=
  l <- deref console_logger ;;
  call (LoggerCall m) (cl_call l m) ;;
  ret tt.

(** ** Power *)

Definition power_locked (session : session) : M bool :=
  _check_expired session ;;
  locked <- _check_locked session ;;
  if locked then ret true else
  pc <- gets power_controller ;;
  match pc with
  | None => ret true
  | Some _ => ret false
  end.

Definition target_status (session : session) : M string :=
  _check_expired session ;;
  pc <- gets power_controller ;;
  match pc with
  | None => ret "???"
  | Some p => call PowerStatus (pc_status p)
  end.

Definition target_on (session : session) : M bool :=
  cl <- gets console_logger ;;
  match cl with Some _ => logger_do LResume | None => ret tt end ;;
  _check_expired session ;;
  locked <- power_locked session ;;
  if negb locked then
    p <- deref power_controller ;;
    call PowerOn (pc_on p)
  else ret false.

Definition target_off (session : session) : M bool :=
  _check_expired session ;;
  locked <- power_locked session ;;
  if negb locked then
    p <- deref power_controller ;;
    status <- call PowerOff (pc_off p) ;;
    cl <- gets console_logger ;;
    match cl with Some _ => logger_do LResetTimer | None => ret tt end ;;
    (if status then logger_do LPause else ret tt) ;;
    ret status
  else ret false.

Definition target_toggle (session : session) : M string :=
  _check_expired session ;;
  locked <- power_locked session ;;
  if negb locked then
    p <- deref power_controller ;;
    status <- call PowerToggle (pc_toggle p) ;;
    cl <- gets console_logger ;;
    match cl with
    | Some _ =>
        (if (status =? POWER_OFF p)%string then logger_do LResume else ret tt) ;;
        (if (status =? POWER_OFF p)%string
         then logger_do LPause ;; logger_do LResetTimer
         else ret tt)
    | None => ret tt
    end ;;
    ret status
  else
    p <- deref power_controller ;;
    ret (POWER_LOCKED p).

(** ** SD-mux *)

Definition sd_bytes_written (session : session) : M Z :=
  _check_expired session ;;
  gets _sd_bytes_written.

Definition sd_close (session : session) : M bool :=
  _check_expired session ;;
  mux <- gets sdmux_controller ;;
  match mux with
  | None => ret false
  | Some _ =>
      modify (set_bz2dec None) ;;
      modify (set_zdec None) ;;
      opened <- gets _sd_opened ;;
      (if opened then
         m <- deref sdmux_controller ;;
         r <- call MuxClose (mx_close m) ;;
         modify (set_sd_opened (negb r))
       else ret tt) ;;
      opened' <- gets _sd_opened ;;
      ret (negb opened')
  end.

Definition sd_locked (session : session) : M bool :=
  _check_expired session ;;
  locked <- _check_locked session ;;
  if locked then ret true else
  mux <- gets sdmux_controller ;;
  match mux with
  | None => ret true
  | Some _ =>
      pc <- gets power_controller ;;
      match pc with
      | None => ret true
      | Some _ =>
          st <- target_status None ;;
          if negb (st =? "OFF")%string then ret true else
          opened <- gets _sd_opened ;;
          if opened then ret true else ret false
      end
  end.

Definition sd_mount (part : option string) (session : session) : M bool :=
  _check_expired session ;;
  mounted <- gets _sd_mounted ;;
  if mounted then ret true else
  mux <- gets sdmux_controller ;;
  match mux with
  | None => ret false
  | Some m =>
      status <- call (MuxMount part) (mx_mount m part) ;;
      modify (set_sd_mounted status) ;;
      ret status
  end.

Definition sd_update (dst : string) (offset : Z) (data : bytes) (session : session) : M Z :=
  _check_expired session ;;
  mux <- gets sdmux_controller ;;
  match mux with
  | None => ret (-1)
  | Some m =>
      (if offset =? 0 then modify (set_sd_bytes_written 0) else ret tt) ;;
      result <- call (MuxUpdate dst offset data) (mx_update m dst offset data) ;;
      (if result >? 0
       then modify (fun w => set_sd_bytes_written (_sd_bytes_written w + result) w)
       else ret tt) ;;
      ret result
  end.

Definition sd_open (session : session) : M bool :=
  _check_expired session ;;
  mux <- gets sdmux_controller ;;
  match mux with
  | None => ret false
  | Some _ =>
      sd_close None ;;
      modify (set_sd_bytes_written 0) ;;
      m <- deref sdmux_controller ;;
      status <- call MuxOpen (mx_open m) ;;
      modify (set_sd_opened status) ;;
      ret status
  end.

Definition sd_status (session : session) : M string :=
  _check_expired session ;;
  mux <- gets sdmux_controller ;;
  match mux with
  | None => ret "???"
  | Some m => call MuxStatus (mx_status m)
  end.

Definition sd_to_host (session : session) : M bool :=
  _check_expired session ;;
  locked <- sd_locked session ;;
  if negb locked then
    m <- deref sdmux_controller ;;
    call MuxToHost (mx_to_host m)
  else ret false.

Definition sd_to_target (session : session) : M bool :=
  _check_expired session ;;
  locked <- sd_locked session ;;
  if negb locked then
    sd_close None ;;
    m <- deref sdmux_controller ;;
    call MuxToTarget (mx_to_target m)
  else ret false.

Definition sd_toggle (session : session) : M string :=
  _check_expired session ;;
  locked <- sd_locked session ;;
  (if negb locked then
     status <- sd_status session ;;
     m <- deref sdmux_controller ;;
     if (status =? SD_ON_HOST m)%string then
       call MuxToTarget (mx_to_target m) ;; ret tt
     else if (status =? SD_ON_TARGET m)%string then
       call MuxToHost (mx_to_host m) ;; ret tt
     else ret tt
   else ret tt) ;;
  sd_status session.

(** ** Streaming write pipeline *)

Definition sd_write_raw (data : bytes) (session : session) : M Z :=
  _check_expired session ;;
  mux <- gets sdmux_controller ;;
  match mux with
  | None => ret (-1)
  | Some m =>
      status <- call (MuxWrite data) (mx_write m data) ;;
      if negb status then ret (-1) else
      modify (fun w => set_sd_bytes_written (_sd_bytes_written w + len data) w) ;;
      gets blksz
  end.

(** [self.zdec.decompress(data, self.blksz)]: the object is updated in
    place; [data] may be [None] when it was taken from [self.zdata]. *)
Definition zdec_decompress (data : option bytes) : M bytes :=
  d <- deref zdec ;;
  match data with
  | None => raise TypeError
  | Some b =>
      z <- gets zlib ;;
      n <- gets blksz ;;
      match z_decompress z d b n with
      | inl e => raise e
      | inr (out, d') => modify (set_zdec (Some d')) ;; ret out
      end
  end.

Definition _sd_write_gz (data : option bytes) : M Z :=
  uncompressed <- zdec_decompress data ;;
  m <- deref sdmux_controller ;;
  status <- call (MuxWrite uncompressed) (mx_write m uncompressed) ;;
  if negb status then ret (-1) else
  modify (fun w => set_sd_bytes_written (_sd_bytes_written w + len uncompressed) w) ;;
  d <- deref zdec ;;
  z <- gets zlib ;;
  if len (unconsumed_tail z d) >? 0 then ret 0 else
  gets blksz.

(** The [while cont == True] loop of [sd_write_gz]; it returns [status]. *)
Fixpoint sd_write_gz_loop (fuel : nat) (data : option bytes) (start : Z) : M Z :=
  match fuel with
  | O => diverge
  | S fuel' =>
      status <- _sd_write_gz data ;;
      modify (set_zdata (Value None)) ;;
      if negb (status =? 0) then ret status else
      d <- deref zdec ;;
      z <- gets zlib ;;
      let data' := unconsumed_tail z d in
      now <- time_monotonic ;;
      interval <- gets fbintvl ;;
      if now - start >=? interval then
        modify (set_zdata (Value (Some data'))) ;;
        ret status
      else sd_write_gz_loop fuel' (Some data') start
  end.

Definition sd_write_gz (fuel : nat) (data : bytes) (session : session) : M Z :=
  _check_expired session ;;
  mux <- gets sdmux_controller ;;
  match mux with
  | None => ret (-1)
  | Some _ =>
      zd <- gets zdec ;;
      match zd with
      | None => z <- gets zlib ;; modify (set_zdec (Some (decompressobj z)))
      | Some _ => ret tt
      end ;;
      data' <- (if len data =? 0 then
                  a <- gets zdata ;;
                  match a with
                  | Unset => raise AttributeError
                  | Value v => ret v
                  end
                else ret (Some data)) ;;
      start <- time_monotonic ;;
      sd_write_gz_loop fuel data' start
  end.

(** [self.bz2dec.decompress(data, self.blksz)]: the object is updated in
    place. *)
Definition bz2dec_decompress (data : bytes) : M bytes :=
  d <- deref bz2dec ;;
  b <- gets bz2 ;;
  n <- gets blksz ;;
  match b_decompress b d data n with
  | inl e => raise e
  | inr (out, d') => modify (set_bz2dec (Some d')) ;; ret out
  end.

Definition _sd_write_bz2 (data : bytes) : M Z :=
  uncompressed <- bz2dec_decompress data ;;
  m <- deref sdmux_controller ;;
  status <- call (MuxWrite uncompressed) (mx_write m uncompressed) ;;
  if negb status then ret (-1) else
  modify (fun w => set_sd_bytes_written (_sd_bytes_written w + len uncompressed) w) ;;
  d <- deref bz2dec ;;
  b <- gets bz2 ;;
  if negb (needs_input b d) then ret 0 else
  gets blksz.

(** What one turn of the [while cont == True] loop of [sd_write_bz2]
    decides: leave with [status], or go on with [data]. *)
Inductive turn : Type :=
| Leave (status : Z)
| Again (data : bytes).

Definition sd_write_bz2_turn (data : bytes) (start : Z) : M turn :=
  try_except
    (status <- _sd_write_bz2 data ;;
     if negb (status =? 0) then ret (Leave status) else
     now <- time_monotonic ;;
     interval <- gets fbintvl ;;
     if now - start >=? interval then ret (Leave status) else
     ret (Again []))
    is_EOFError
    (d <- deref bz2dec ;;
     b <- gets bz2 ;;
     let data' := unused_data b d in
     modify (set_bz2dec (Some (BZ2Decompressor b))) ;;
     if len data' >? 0 then ret (Again data') else ret (Leave 0)).

Fixpoint sd_write_bz2_loop (fuel : nat) (data : bytes) (start : Z) : M Z :=
  match fuel with
  | O => diverge
  | S fuel' =>
      t <- sd_write_bz2_turn data start ;;
      match t with
      | Leave status => ret status
      | Again data' => sd_write_bz2_loop fuel' data' start
      end
  end.

Definition sd_write_bz2 (fuel : nat) (data : bytes) (session : session) : M Z :=
  _check_expired session ;;
  mux <- gets sdmux_controller ;;
  match mux with
  | None => ret (-1)
  | Some _ =>
      bd <- gets bz2dec ;;
      match bd with
      | None => b <- gets bz2 ;; modify (set_bz2dec (Some (BZ2Decompressor b)))
      | Some _ => ret tt
      end ;;
      start <- time_monotonic ;;
      sd_write_bz2_loop fuel data start
  end.

(** ** USB switches *)

Fixpoint find_by_class (className' : string) (l : list (UsbSwitch HW)) : option (UsbSwitch HW) :=
  match l with
  | [] => None
  | usb_switch :: l' =>
      if (className usb_switch =? className')%string then Some usb_switch
      else find_by_class className' l'
  end.

Definition usb_find_by_class (className' : string) (session : session)
  : M (option (UsbSwitch HW)) :=
  _check_expired session ;;
  switches <- gets usb_switches ;;
  ret (find_by_class className' switches).

Definition usb_has_class (className' : string) (session : session) : M bool :=
  _check_expired session ;;
  usb_switch <- usb_find_by_class className' session ;;
  ret (match usb_switch with Some _ => true | None => false end).

Definition invalid_switch (ndx : Z) : string :=
  ("invalid USB switch #" ++ str ndx)%string.

Definition usb_off (ndx : Z) (session : session) : M unit :=
  _check_expired session ;;
  try_except
    (if ndx >? 0 then
       switches <- gets usb_switches ;;
       usb_switch <- index switches (ndx - 1) ;;
       call (UsbOff (className usb_switch)) (us_off usb_switch) ;;
       ret tt
     else ret tt)
    is_IndexError
    (print_stderr (invalid_switch ndx)).

Definition usb_off_by_class (className' : string) (session : session) : M bool :=
  _check_expired session ;;
  usb_switch <- usb_find_by_class className' session ;;
  match usb_switch with
  | Some sw => call (UsbOff (className sw)) (us_off sw)
  | None => ret false
  end.

Definition usb_on (ndx : Z) (session : session) : M unit :=
  _check_expired session ;;
  try_except
    (if ndx >? 0 then
       switches <- gets usb_switches ;;
       usb_switch <- index switches (ndx - 1) ;;
       call (UsbOn (className usb_switch)) (us_on usb_switch) ;;
       ret tt
     else ret tt)
    is_IndexError
    (print_stderr (invalid_switch ndx)).

Definition usb_on_by_class (className' : string) (session : session) : M bool :=
  _check_expired session ;;
  usb_switch <- usb_find_by_class className' session ;;
  match usb_switch with
  | Some sw => call (UsbOn (className sw)) (us_on sw)
  | None => ret false
  end.

Definition usb_ports (session : session) : M Z :=
  _check_expired session ;;
  switches <- gets usb_switches ;;
  ret (len switches).

(** [usb_status] returns inside the [try] when [ndx > 0]; the value
    [None] stands for falling out of the [try] to the last [return]. *)
Definition usb_status (ndx : Z) (session : session) : M string :=
  _check_expired session ;;
  r <- try_except
         (if ndx >? 0 then
            switches <- gets usb_switches ;;
            usb_switch <- index switches (ndx - 1) ;;
            status <- call (UsbStatus (className usb_switch)) (us_status usb_switch) ;;
            if status =? POWERED_OFF usb_switch then ret (Some "OFF")
            else if status =? POWERED_ON usb_switch then ret (Some "ON")
            else ret (Some "???")
          else ret None)
         is_IndexError
         (print_stderr (invalid_switch ndx) ;; ret (Some "ERR")) ;;
  match r with
  | Some v => ret v
  | None => ret "???"
  end.

Definition usb_toggle (ndx : Z) (session : session) : M unit :=
  _check_expired session ;;
  try_except
    (if ndx >? 0 then
       switches <- gets usb_switches ;;
       usb_switch <- index switches (ndx - 1) ;;
       call (UsbToggle (className usb_switch)) (us_toggle usb_switch) ;;
       ret tt
     else ret tt)
    is_IndexError
    (print_stderr (invalid_switch ndx)).

End Agent.

(** ** What the properties are stated with *)

(** The data-model invariant of the lease: an owner that the expiry check
    looks at has an expiry to compare with. *)
Definition lease_wf {HW zobj bobj} (w : World HW zobj bobj) : Prop :=
  truthy (_lock_owner w) = true -> _lock_expiry w <> None.

(** The world with its lease and its clock position erased: two worlds
    that agree on it differ at most in who holds the lease and until when. *)
Definition forget_lease {HW zobj bobj} (w : World HW zobj bobj) : World HW zobj bobj :=
  set_lock_owner None (set_lock_expiry None (set_reads O w)).

(** The next [n] readings of the clock all come before [e]. *)
Definition before_expiry {HW zobj bobj} (n : nat) (e : Z) (w : World HW zobj bobj) : Prop :=
  forall k, (k < n)%nat -> clock w (reads w + k) < e.

(** [a] owns the lease until [e], and the next [k] clock readings come
    before [e]. *)
Definition held_until {HW zobj bobj} (a : string) (e : Z) (k : nat)
    (w : World HW zobj bobj) : Prop :=
  _lock_owner w = Some a /\ _lock_expiry w = Some e /\ before_expiry k e w.

(** Calls that reached the power or the mux driver. *)
Definition is_driver (e : event) : bool :=
  match e with
  | LoggerCall _ => false
  | _ => true
  end.

Definition driver_calls (t : list event) : list event := filter is_driver t.


(** ** The request surface *)

(** One constructor per method that a caller of the agent can invoke. *)
Inductive request : Type :=
| Console_clear (s : session) | Console_flush (s : session)
| Console_head (s : session) | Console_lines (s : session)
| Console_locked (s : session)
| Console_print (data : string) (s : session)
| Console_prompt (newPrompt : option string) (s : session)
| Console_run (cmd : string) (s : session)
| Console_send (data : string) (raw : bool) (s : session)
| Console_tail (s : session)
| Toggle_timestamps
| Power_locked (s : session)
| Sd_bytes_written (s : session) | Sd_close (s : session)
| Sd_locked (s : session)
| Sd_mount (part : option string) (s : session)
| Sd_update (dst : string) (offset : Z) (data : bytes) (s : session)
| Sd_open (s : session) | Sd_status (s : session)
| Sd_write_bz2 (data : bytes) (s : session)
| Sd_write_gz (data : bytes) (s : session)
| Sd_write_raw (data : bytes) (s : session)
| Sd_to_host (s : session) | Sd_to_target (s : session) | Sd_toggle (s : session)
| Target_lock (s : session) | Target_locked (s : session) | Target_owner
| Target_on (s : session) | Target_off (s : session)
| Target_status (s : session) | Target_toggle (s : session)
| Target_unlock (s : session)
| Usb_find_by_class (cls : string) (s : session)
| Usb_has_class (cls : string) (s : session)
| Usb_off (ndx : Z) (s : session) | Usb_off_by_class (cls : string) (s : session)
| Usb_on (ndx : Z) (s : session) | Usb_on_by_class (cls : string) (s : session)
| Usb_ports (s : session) | Usb_status (ndx : Z) (s : session)
| Usb_toggle (ndx : Z) (s : session).

Section Serve.

Context {HW zobj bobj : Type}.

(** The call with its value dropped. *)
Definition void {A} (c : @M HW zobj bobj A) : @M HW zobj bobj unit :=
  bind c (fun _ => ret tt).

(** Serving one request; [fuel] bounds the write loops. *)
Definition serve (fuel : nat) (r : request) : @M HW zobj bobj unit :=
  match r with
  | Console_clear s => void (console_clear s)
  | Console_flush s => void (console_flush s)
  | Console_head s => void (console_head s)
  | Console_lines s => void (console_lines s)
  | Console_locked s => void (console_locked s)
  | Console_print data s => void (console_print data s)
  | Console_prompt p s => void (console_prompt p s)
  | Console_run cmd s => void (console_run cmd s)
  | Console_send data raw s => void (console_send data raw s)
  | Console_tail s => void (console_tail s)
  | Toggle_timestamps => void toggle_timestamps
  | Power_locked s => void (power_locked s)
  | Sd_bytes_written s => void (sd_bytes_written s)
  | Sd_close s => void (sd_close s)
  | Sd_locked s => void (sd_locked s)
  | Sd_mount part s => void (sd_mount part s)
  | Sd_update dst offset data s => void (sd_update dst offset data s)
  | Sd_open s => void (sd_open s)
  | Sd_status s => void (sd_status s)
  | Sd_write_bz2 data s => void (sd_write_bz2 fuel data s)
  | Sd_write_gz data s => void (sd_write_gz fuel data s)
  | Sd_write_raw data s => void (sd_write_raw data s)
  | Sd_to_host s => void (sd_to_host s)
  | Sd_to_target s => void (sd_to_target s)
  | Sd_toggle s => void (sd_toggle s)
  | Target_lock s => void (target_lock s)
  | Target_locked s => void (target_locked s)
  | Target_owner => void target_owner
  | Target_on s => void (target_on s)
  | Target_off s => void (target_off s)
  | Target_status s => void (target_status s)
  | Target_toggle s => void (target_toggle s)
  | Target_unlock s => void (target_unlock s)
  | Usb_find_by_class cls s => void (usb_find_by_class cls s)
  | Usb_has_class cls s => void (usb_has_class cls s)
  | Usb_off ndx s => void (usb_off ndx s)
  | Usb_off_by_class cls s => void (usb_off_by_class cls s)
  | Usb_on ndx s => void (usb_on ndx s)
  | Usb_on_by_class cls s => void (usb_on_by_class cls s)
  | Usb_ports s => void (usb_ports s)
  | Usb_status ndx s => void (usb_status ndx s)
  | Usb_toggle ndx s => void (usb_toggle ndx s)
  end.

(** The world after a sequence of requests, whatever each one returned or
    raised. *)
Fixpoint serve_all (fuel : nat) (rs : list request) (w : World HW zobj bobj)
  : World HW zobj bobj :=
  match rs with
  | [] => w
  | r :: rs' => serve_all fuel rs' (snd (serve fuel r w))
  end.

(** [c] relates every world to the one it leaves, by [R]. *)
Definition keeps {A} (R : World HW zobj bobj -> World HW zobj bobj -> Prop)
    (c : @M HW zobj bobj A) : Prop :=
  forall w, R w (snd (c w)).

(** A relation that every elementary step of the agent respects, the
    assignment to [_sd_mounted] apart. *)
Record stepwise (R : World HW zobj bobj -> World HW zobj bobj -> Prop) : Prop := {
  sw_refl : forall w, R w w;
  sw_trans : forall a b c, R a b -> R b c -> R a c;
  sw_reads : forall v w, R w (set_reads v w);
  sw_lock_owner : forall v w, R w (set_lock_owner v w);
  sw_lock_expiry : forall v w, R w (set_lock_expiry v w);
  sw_bz2dec : forall v w, R w (set_bz2dec v w);
  sw_zdec : forall v w, R w (set_zdec v w);
  sw_zdata : forall v w, R w (set_zdata v w);
  sw_sd_opened : forall v w, R w (set_sd_opened v w);
  sw_sd_bytes_written : forall v w, R w (set_sd_bytes_written v w);
  sw_stderr : forall v w, R w (set_stderr v w);
  sw_call : forall ev h w, R w (set_trace (trace w ++ [ev]) (set_hw h w))
}.

End Serve.

(** Once set, [_sd_mounted] is still set afterwards. *)
Definition mounted_stays {HW zobj bobj} (w w' : World HW zobj bobj) : Prop :=
  _sd_mounted w = true -> _sd_mounted w' = true.

(** The agent with [m] for its mux driver: what becomes of it when the
    driver is lost, or changed, behind its back. *)
Definition with_sdmux {HW zobj bobj} (m : option (SdmuxController HW))
    (w : World HW zobj bobj) : World HW zobj bobj :=
  {| console_logger := console_logger w; power_controller := power_controller w;
     sdmux_controller := m;
     _sd_bytes_written := _sd_bytes_written w; _sd_mounted := _sd_mounted w;
     _sd_opened := _sd_opened w; blksz := blksz w; bz2dec := bz2dec w; zdec := zdec w;
     zdata := zdata w; fbintvl := fbintvl w; usb_switches := usb_switches w;
     _lock_owner := _lock_owner w; _lock_expiry := _lock_expiry w;
     _lock_timeout := _lock_timeout w;
     zlib := zlib w; bz2 := bz2 w; hw := hw w; trace := trace w; stderr := stderr w;
     clock := clock w; reads := reads w |}.

(** The log of collaborator calls only grows. *)
Definition trace_grows {HW zobj bobj} (w w' : World HW zobj bobj) : Prop :=
  exists t, trace w' = trace w ++ t.



(** ** Driving the write pipeline *)

(** The mux driver's [write] never reports a failure. *)
Definition always_accepts {HW} (m : SdmuxController HW) : Prop :=
  forall data h, fst (mx_write m data h) = true.

(** What [zlib.decompressobj] promises for one gzip stream.
    [gz_rep d rc rx]: the object [d] is inside the stream, with the
    compressed bytes [rc] still to consume and the content [rx] still to
    emit.  Given the next bytes of the stream, [decompress] emits the next
    bytes of the content, at most [max_length] of them, and leaves in
    [unconsumed_tail] the input it did not consume, which happens only when
    the output limit was reached; when the whole stream is consumed the whole
    content has been emitted. *)
Record GzipContract {zobj} (Z : ZlibModule zobj) : Type := {
  gz_rep : zobj -> bytes -> bytes -> Prop;
  gz_step : forall d rc rx data rest max,
      gz_rep d rc rx -> 0 < max -> rc = data ++ rest ->
      exists out d' used rx',
        z_decompress Z d data max = inr (out, d') /\
        data = used ++ unconsumed_tail Z d' /\
        rx = out ++ rx' /\
        gz_rep d' (unconsumed_tail Z d' ++ rest) rx' /\
        len out <= max /\
        (unconsumed_tail Z d' <> [] -> len out = max);
  gz_done : forall d rx, gz_rep d [] rx -> rx = []
}.
Arguments gz_rep {zobj Z} _ _ _ _.
Arguments gz_step {zobj Z} _.
Arguments gz_done {zobj Z} _.

(** [c] is a gzip representation of [x]. *)
Definition gzip_of {zobj} {Z : ZlibModule zobj} (K : GzipContract Z) (c x : bytes) : Prop :=
  gz_rep K (decompressobj Z) c x.

(** What [bz2.BZ2Decompressor] promises.  [bz_rep d rc extra rx]: the
    object [d] is inside a stream, with the compressed bytes [rc] of that
    stream still to be given to it, the bytes [extra] given to it beyond the
    end of the stream, and the content [rx] still to emit.  The object keeps
    the input it is given; [decompress] emits the next bytes of the content,
    at most [max_length] of them.  At the end of the stream what was given
    beyond it is in [unused_data], and the next [decompress] raises
    [EOFError].  [needs_input] is true only when all the input given was
    consumed and the stream is not finished; while it is false and the
    stream is not finished, [decompress] of an empty buffer makes progress
    ([bz_mu] decreases).  A new object given an empty buffer emits nothing
    and stays as it is. *)
Record Bz2Contract {bobj} (Bz : Bz2Module bobj) : Type := {
  bz_eof : bobj -> bool;
  bz_rep : bobj -> bytes -> bytes -> bytes -> Prop;
  bz_mu : bobj -> nat;
  bz_step : forall d rc extra rx a b rc' max,
      bz_rep d rc extra rx -> bz_eof d = false -> 0 < max ->
      rc = a ++ rc' -> (b = [] \/ rc' = []) ->
      exists out d' rx',
        b_decompress Bz d (a ++ b) max = inr (out, d') /\
        rx = out ++ rx' /\ len out <= max /\
        bz_rep d' rc' (extra ++ b) rx';
  bz_raise : forall d data max,
      bz_eof d = true -> b_decompress Bz d data max = inl EOFError;
  bz_at_eof : forall d rc extra rx,
      bz_rep d rc extra rx -> bz_eof d = true ->
      rc = [] /\ rx = [] /\ unused_data Bz d = extra;
  bz_hungry : forall d rc extra rx,
      bz_rep d rc extra rx -> needs_input Bz d = true ->
      bz_eof d = false /\ rc <> [] /\ extra = [];
  bz_progress : forall d rc extra rx out d' max,
      bz_rep d rc extra rx -> bz_eof d = false -> needs_input Bz d = false ->
      0 < max -> b_decompress Bz d [] max = inr (out, d') ->
      (bz_mu d' < bz_mu d)%nat;
  bz_fresh : forall max,
      0 < max ->
      b_decompress Bz (BZ2Decompressor Bz) [] max = inr ([], BZ2Decompressor Bz);
  bz_fresh_hungry : needs_input Bz (BZ2Decompressor Bz) = true
}.
Arguments bz_eof {bobj Bz} _ _.
Arguments bz_rep {bobj Bz} _ _ _ _ _.
Arguments bz_mu {bobj Bz} _ _.
Arguments bz_step {bobj Bz} _.
Arguments bz_raise {bobj Bz} _.
Arguments bz_at_eof {bobj Bz} _.
Arguments bz_hungry {bobj Bz} _.
Arguments bz_progress {bobj Bz} _.
Arguments bz_fresh {bobj Bz} _.
Arguments bz_fresh_hungry {bobj Bz} _.

(** [c] is a bzip2 stream of content [x]. *)
Definition bzip2_of {bobj} {Bz : Bz2Module bobj} (K : Bz2Contract Bz) (c x : bytes) : Prop :=
  bz_rep K (BZ2Decompressor Bz) c [] x.

(** The compressed bytes and the contents of a sequence of streams. *)
Definition compressed (streams : list (bytes * bytes)) : bytes :=
  List.concat (map fst streams).

Definition contents (streams : list (bytes * bytes)) : bytes :=
  List.concat (map snd streams).

Section Caller.

Context {HW zobj bobj : Type}.

(** Modelled from the spec: the caller's side of the return contract of
    section 4.4 (the client that sends the image is not part of main.py).
    A status of 0 is answered with an empty buffer, to continue draining,
    until the status is not 0 any more. *)
Fixpoint drain (fuel : nat) (write : bytes -> @M HW zobj bobj Z) (status : Z)
  : @M HW zobj bobj Z :=
  if negb (status =? 0) then ret status else
  match fuel with
  | O => diverge
  | S fuel' => bind (write []) (fun status' => drain fuel' write status')
  end.

(** Modelled from the spec: the caller that takes a status of 0 as a
    request for an empty buffer.  It sends the fragments in order, each one
    after a positive status, drains after a status of 0 and gives up on a
    negative status. *)
Fixpoint feed (fuel : nat) (write : bytes -> @M HW zobj bobj Z)
    (fragments : list bytes) (status : Z) : @M HW zobj bobj Z :=
  match fragments with
  | [] => ret status
  | fragment :: rest =>
      bind (write fragment) (fun status1 =>
      bind (drain fuel write status1) (fun status2 =>
      if status2 <? 0 then ret status2 else feed fuel write rest status2))
  end.

(** Modelled from the spec: the caller that takes a status of 0 as a
    request for the next chunk, which the return contract of section 4.4
    allows as well ("send the next chunk (or an empty buffer to continue
    draining)").  It sends the next fragment after every status that is
    not negative, and drains with empty buffers only when it has no
    fragment left. *)
Fixpoint feed_next (fuel : nat) (write : bytes -> @M HW zobj bobj Z)
    (fragments : list bytes) (status : Z) : @M HW zobj bobj Z :=
  match fragments with
  | [] => drain fuel write status
  | fragment :: rest =>
      bind (write fragment) (fun status1 =>
      if status1 <? 0 then ret status1 else feed_next fuel write rest status1)
  end.

End Caller.

(** The decompressor in use: the one in place, or the one the next call
    creates. *)
Definition cur_zdec {HW zobj bobj} (w : World HW zobj bobj) : zobj :=
  match zdec w with
  | Some d => d
  | None => decompressobj (zlib w)
  end.

(** Between two turns of the gzip path: the decompressor still has [rc] to
    consume and [rx] to emit, and the sink and the counter hold the content
    [x] short of [rx] (after [x0], what the sink held before). *)
Definition gz_inv {HW zobj bobj} (m : SdmuxController HW) (Zl : ZlibModule zobj)
    (K : GzipContract Zl) (B : Z) (x0 x : bytes)
    (w : World HW zobj bobj) (rc rx : bytes) : Prop :=
  sdmux_controller w = Some m /\ zlib w = Zl /\ blksz w = B /\ lease_wf w /\
  gz_rep K (cur_zdec w) rc rx /\
  sink (trace w) ++ rx = x0 ++ x /\
  _sd_bytes_written w + len rx = len x.

(** The bzip2 decompressor in use: the one in place, or the one the next
    call creates. *)
Definition cur_bz2dec {HW zobj bobj} (w : World HW zobj bobj) : bobj :=
  match bz2dec w with
  | Some d => d
  | None => BZ2Decompressor (bz2 w)
  end.

(** What does not change along the bzip2 path, and the sink and the counter
    holding the contents [X] short of [todo] (after [X0], what the sink held
    before). *)
Definition bz_core {HW zobj bobj} (m : SdmuxController HW) (Bz : Bz2Module bobj)
    (B : Z) (X0 X : bytes) (w : World HW zobj bobj) (todo : bytes) : Prop :=
  sdmux_controller w = Some m /\ bz2 w = Bz /\ blksz w = B /\ lease_wf w /\
  sink (trace w) ++ todo = X0 ++ X /\
  _sd_bytes_written w + len todo = len X.

(** Where the bzip2 path stands, [R] being the input the caller has not sent
    yet: inside a stream, with the streams [later] to follow, [n] counting
    the streams not finished; or past the last stream. *)
Inductive bz_state {HW zobj bobj} (m : SdmuxController HW) (Bz : Bz2Module bobj)
    (K : Bz2Contract Bz) (B : Z) (X0 X : bytes) (w : World HW zobj bobj) (R : bytes)
  : nat -> Prop :=
| BzInside (rc extra rx : bytes) (later : list (bytes * bytes)) :
    bz_core m Bz B X0 X w (rx ++ contents later) ->
    bz_rep K (cur_bz2dec w) rc extra rx ->
    Forall (fun cx => bzip2_of K (fst cx) (snd cx)) later ->
    rc ++ compressed later = extra ++ R ->
    bz_state m Bz K B X0 X w R (S (List.length later))
| BzPast :
    bz_core m Bz B X0 X w [] ->
    cur_bz2dec w = BZ2Decompressor Bz ->
    R = [] ->
    bz_state m Bz K B X0 X w R O.

(** ** How the write loops end *)

Section GzipEnds.

Context {HW zobj bobj : Type}.
Variable m : SdmuxController HW.
Variable Zl : ZlibModule zobj.
Variable K : GzipContract Zl.
Variable B : Z.
Variables x0 x : bytes.
Implicit Types (w : World HW zobj bobj).

(** How a call of the gzip path ends: with status [B], asking for more
    input, everything it was given consumed; or with status 0, at the
    feedback interval, the unconsumed rest cached in [zdata] and at least one
    block written. *)
Definition gz_after (rest rx : bytes) (st : Z) w : Prop :=
  exists data' rx',
    gz_inv m Zl K B x0 x w (data' ++ rest) rx' /\ (exists d', zdec w = Some d') /\
    (List.length rx' <= List.length rx)%nat /\
    ((st = B /\ data' = [] /\ zdata w = Value None) \/
     (st = 0 /\ data' <> [] /\ zdata w = Value (Some data') /\
      (List.length rx' < List.length rx)%nat)).

End GzipEnds.

Section Bzip2Ends.

Context {HW zobj bobj : Type}.
Variable m : SdmuxController HW.
Variable Bz : Bz2Module bobj.
Variable K : Bz2Contract Bz.
Variable B : Z.
Variables X0 X : bytes.
Implicit Types (w : World HW zobj bobj).

(** The world after one decompress-and-write. *)
Definition bz_written (out : bytes) (d' : bobj) w : World HW zobj bobj :=
  set_sd_bytes_written (_sd_bytes_written w + len out)
    (set_trace (trace w ++ [MuxWrite out])
       (set_hw (snd (mx_write m out (hw w))) (set_bz2dec (Some d') w))).

(** The path waits for input: the decompressor wants some. *)
Definition bz_ready w (R : bytes) (n : nat) : Prop :=
  bz_state m Bz K B X0 X w R n /\ needs_input Bz (cur_bz2dec w) = true.

(** The path can go on with no input: the decompressor does not want any,
    or it was just replaced by a new one. *)
Definition bz_pend w (R : bytes) (n : nat) : Prop :=
  bz_state m Bz K B X0 X w R n /\
  (needs_input Bz (cur_bz2dec w) = false \/ cur_bz2dec w = BZ2Decompressor Bz) /\
  bz2dec w <> None.

(** How the loop ends when it was entered with input. *)
Definition bz_after_input (n : nat) (R : bytes) (st : Z) w : Prop :=
  (st = B /\ exists n', (n' <= n)%nat /\ bz_ready w R n') \/
  (st = 0 /\ exists n', (n' <= n)%nat /\ bz_pend w R n').

(** How the loop ends when it was entered with no input, the decompressor
    not wanting any: on a status of 0 a stream was finished or the
    decompressor made progress. *)
Definition bz_after_empty (n mu : nat) (R : bytes) (st : Z) w : Prop :=
  (st = B /\ exists n', (n' <= n)%nat /\ bz_ready w R n') \/
  (st = 0 /\ exists n', bz_pend w R n' /\
     ((n' < n)%nat \/
      (n' = n /\ needs_input Bz (cur_bz2dec w) = false /\
       (bz_mu K (cur_bz2dec w) < mu)%nat))).

(** The loop returns [st] in [w'] as soon as it has fuel [n]. *)
Definition bz_loop_ends (data : bytes) (start : Z) w (st : Z) w' (n : nat) : Prop :=
  forall fuel, (n <= fuel)%nat -> sd_write_bz2_loop fuel data start w = (Ok st, w').

(** Entered with no input, the decompressor not wanting any. *)
Definition bz_spec_empty (n : nat) : Prop :=
  forall mu w R start d,
    bz_state m Bz K B X0 X w R n -> bz2dec w = Some d -> needs_input Bz d = false ->
    bz_mu K d = mu ->
    exists k st w', bz_loop_ends [] start w st w' k /\ bz_after_empty n mu R st w'.

(** Entered with input [data], inside a stream of which nothing is buffered
    beyond its end. *)
Definition bz_spec_input (n : nat) : Prop :=
  forall w R data start d rc rx later,
    bz_core m Bz B X0 X w (rx ++ contents later) -> bz_rep K d rc [] rx ->
    Forall (fun cx => bzip2_of K (fst cx) (snd cx)) later ->
    rc ++ compressed later = data ++ R ->
    bz2dec w = Some d -> bz_eof K d = false -> n = S (List.length later) ->
    exists k st w', bz_loop_ends data start w st w' k /\ bz_after_input n R st w'.

End Bzip2Ends.

(** ** Sessions that the lease lets through *)

(** Nobody holds the lease, or [s] does: the lease check lets [s] pass.
    Nothing is asked of the expiry, which [target_lock] leaves unset. *)
Definition admits {HW zobj bobj} (s : session) (w : World HW zobj bobj) : Prop :=
  _lock_owner w = None \/ _lock_owner w = s.

(** [w'] is [w] but for the lease and the clock position. *)
Definition same_but_lease {HW zobj bobj} (w w' : World HW zobj bobj) : Prop :=
  forget_lease w' = forget_lease w.

(** The call [c] returns [r]; the collaborators have received the calls
    [evs], in this order and no other, which leave the hardware in [h]; the
    attributes of the agent have changed as [f] says, and nothing else has
    changed but the lease and the clock position. *)
Definition yields_after {HW zobj bobj A} (f : World HW zobj bobj -> World HW zobj bobj)
    (c : World HW zobj bobj -> res A * World HW zobj bobj)
    (w : World HW zobj bobj) (r : A) (evs : list event) (h : HW) : Prop :=
  exists w', c w = (Ok r, w') /\
             same_but_lease (set_trace (trace w ++ evs) (set_hw h (f w))) w'.

(** The same with no attribute of the agent changed. *)
Definition yields {HW zobj bobj A} (c : World HW zobj bobj -> res A * World HW zobj bobj)
    (w : World HW zobj bobj) (r : A) (evs : list event) (h : HW) : Prop :=
  yields_after (fun x => x) c w r evs h.

(** The call [c] hands the method [m] to the console logger [l] and
    returns what the logger returns. *)
Definition passes_to_logger {HW zobj bobj}
    (c : World HW zobj bobj -> res (option string) * World HW zobj bobj)
    (w : World HW zobj bobj) (l : ConsoleLogger HW) (m : logger_method) : Prop :=
  yields c w (Some (fst (cl_call l m (hw w)))) [LoggerCall m] (snd (cl_call l m (hw w))).

(** The write session forgotten: no decompressor is kept. *)
Definition without_decoders {HW zobj bobj} (w : World HW zobj bobj) : World HW zobj bobj :=
  set_zdec None (set_bz2dec None w).

(** The calls [ms] as the console logger [l] receives them, if there is
    one, and the hardware after them. *)
Definition logger_calls {HW} (l : option (ConsoleLogger HW)) (ms : list logger_method)
  : list event :=
  match l with
  | Some _ => map LoggerCall ms
  | None => []
  end.

Definition logged {HW} (l : option (ConsoleLogger HW)) (ms : list logger_method) (h : HW)
  : HW :=
  match l with
  | Some l => fold_left (fun h m => snd (cl_call l m h)) ms h
  | None => h
  end.

(** The call [c] raises [e], the collaborators having received the calls
    [evs] before, which leave the hardware in [h]. *)
Definition raises {HW zobj bobj A} (c : World HW zobj bobj -> res A * World HW zobj bobj)
    (w : World HW zobj bobj) (e : exn) (evs : list event) (h : HW) : Prop :=
  exists w', c w = (Raise e, w') /\
             same_but_lease (set_trace (trace w ++ evs) (set_hw h w)) w'.

(** What is set up before the agent serves requests: the collaborators,
    the sizes and delays, the decompressor modules and the clock. *)
Definition same_setup {HW zobj bobj} (w w' : World HW zobj bobj) : Prop :=
  console_logger w' = console_logger w /\
  power_controller w' = power_controller w /\
  sdmux_controller w' = sdmux_controller w /\
  usb_switches w' = usb_switches w /\
  blksz w' = blksz w /\
  fbintvl w' = fbintvl w /\
  _lock_timeout w' = _lock_timeout w /\
  zlib w' = zlib w /\
  bz2 w' = bz2 w /\
  clock w' = clock w.

(** ** A bench to run the agent on *)

Module Demo.

(** Hardware: the power line, the side the card is on, three USB lines. *)
Record Bench : Type := {
  powered : bool;
  on_host : bool;
  usb1 : bool;
  usb2 : bool;
  usb3 : bool
}.

Definition bench0 : Bench :=
  {| powered := false; on_host := true; usb1 := false; usb2 := false; usb3 := false |}.

Definition set_powered (b : bool) (h : Bench) : Bench :=
  {| powered := b; on_host := on_host h; usb1 := usb1 h; usb2 := usb2 h; usb3 := usb3 h |}.

Definition set_on_host (b : bool) (h : Bench) : Bench :=
  {| powered := powered h; on_host := b; usb1 := usb1 h; usb2 := usb2 h; usb3 := usb3 h |}.

Definition power_name (b : bool) : string := if b then "ON" else "OFF".

Definition relay : PowerController Bench :=
  {| pc_on := fun h => (true, set_powered true h);
     pc_off := fun h => (true, set_powered false h);
     pc_toggle := fun h => (power_name (negb (powered h)), set_powered (negb (powered h)) h);
     pc_status := fun h => (power_name (powered h), h);
     POWER_OFF := "OFF";
     POWER_LOCKED := "LOCKED" |}.

Definition mux : SdmuxController Bench :=
  {| mx_open := fun h => (true, h);
     mx_close := fun h => (true, h);
     mx_mount := fun _ h => (true, h);
     mx_update := fun _ _ data h => (len data, h);
     mx_write := fun _ h => (true, h);
     mx_status := fun h => (if on_host h then "HOST" else "TARGET", h);
     mx_to_host := fun h => (true, set_on_host true h);
     mx_to_target := fun h => (true, set_on_host false h);
     SD_ON_HOST := "HOST";
     SD_ON_TARGET := "TARGET" |}.

Definition switch (cls : string) (get : Bench -> bool) (set : bool -> Bench -> Bench)
  : UsbSwitch Bench :=
  {| className := cls;
     us_on := fun h => (true, set true h);
     us_off := fun h => (true, set false h);
     us_toggle := fun h => (true, set (negb (get h)) h);
     us_status := fun h => (if get h then 1 else 0, h);
     POWERED_OFF := 0;
     POWERED_ON := 1 |}.

Definition three_switches : list (UsbSwitch Bench) :=
  [ switch "HID" usb1
      (fun b h => {| powered := powered h; on_host := on_host h; usb1 := b;
                     usb2 := usb2 h; usb3 := usb3 h |});
    switch "STORAGE" usb2
      (fun b h => {| powered := powered h; on_host := on_host h; usb1 := usb1 h;
                     usb2 := b; usb3 := usb3 h |});
    switch "NET" usb3
      (fun b h => {| powered := powered h; on_host := on_host h; usb1 := usb1 h;
                     usb2 := usb2 h; usb3 := b |}) ].

(** A stand-in for zlib: the stream is its content, stored as it is.  The
    object is the input it has not consumed. *)
Definition stored_zlib : ZlibModule bytes :=
  {| decompressobj := [];
     z_decompress := fun _ data max =>
       inr (firstn (Z.to_nat max) data, skipn (Z.to_nat max) data);
     unconsumed_tail := fun d => d |}.

(** A stand-in for bz2: a stream is one byte of content and an end marker.
    The object waits for the content byte, then for the marker, and then
    holds what it was given beyond the marker. *)
Inductive phase : Type :=
| Content
| Marker
| Finished (unused : bytes).

Definition pair_decompress (d : phase) (data : bytes) (max : Z) : exn + (bytes * phase) :=
  match d with
  | Finished _ => inl EOFError
  | Content =>
      match data with
      | [] => inr ([], Content)
      | [b] => inr ([b], Marker)
      | b :: _ :: t => inr ([b], Finished t)
      end
  | Marker =>
      match data with
      | [] => inr ([], Marker)
      | _ :: t => inr ([], Finished t)
      end
  end.

Definition pair_bz2 : Bz2Module phase :=
  {| BZ2Decompressor := Content;
     b_decompress := pair_decompress;
     needs_input := fun d => match d with Finished _ => false | _ => true end;
     unused_data := fun d => match d with Finished u => u | _ => [] end |}.

(** What the stand-in for bz2 holds, in the terms of [Bz2Contract]. *)
Definition pair_rep (d : phase) (rc extra rx : bytes) : Prop :=
  match d with
  | Content => exists b e, rc = [b; e] /\ rx = [b] /\ extra = []
  | Marker => exists e, rc = [e] /\ rx = [] /\ extra = []
  | Finished u => rc = [] /\ rx = [] /\ u = extra
  end.

Definition pair_eof (d : phase) : bool :=
  match d with
  | Finished _ => true
  | _ => false
  end.

(** The agent as [__init__] leaves it, with the drivers named and a clock. *)
Definition agent (pc : option (PowerController Bench)) (mx : option (SdmuxController Bench))
    (usb : list (UsbSwitch Bench)) (timeout : Z) (clk : nat -> Z)
  : World Bench bytes phase :=
  {| console_logger := None; power_controller := pc; sdmux_controller := mx;
     _sd_bytes_written := 0; _sd_mounted := false; _sd_opened := false;
     blksz := 65536; bz2dec := None; zdec := None; zdata := Unset; fbintvl := 8;
     usb_switches := usb; _lock_owner := None; _lock_expiry := None;
     _lock_timeout := timeout;
     zlib := stored_zlib; bz2 := pair_bz2; hw := bench0; trace := []; stderr := [];
     clock := clk; reads := O |}.

(** A fully equipped agent whose clock stands still at [t]. *)
Definition equipped (t : Z) : World Bench bytes phase :=
  agent (Some relay) (Some mux) three_switches 5 (fun _ => t).

(** No driver configured at all. *)
Definition bare (t : Z) : World Bench bytes phase :=
  agent None None [] 5 (fun _ => t).

(** [owner] holds the lease until [expiry]. *)
Definition leased (owner : string) (expiry : Z) (w : World Bench bytes phase)
  : World Bench bytes phase :=
  set_lock_expiry (Some expiry) (set_lock_owner (Some owner) w).

(** As [__init__] leaves it but for a lease timeout of one time unit. *)
Definition fresh : World Bench bytes phase := agent None None [] 1 (fun _ => 0).

(** "S1" held the lease until 100 and it is now 200. *)
Definition late : World Bench bytes phase := leased "S1" 100 (equipped 200).

(** "A" holds the lease until 1000 and it is now 0. *)
Definition held : World Bench bytes phase := leased "A" 1000 (equipped 0).

(** A write session is open. *)
Definition writing : World Bench bytes phase := set_sd_opened true (equipped 0).

(** A partition is mounted. *)
Definition mounted : World Bench bytes phase := set_sd_mounted true (equipped 0).

(** The equipped agent with blocks of two bytes and a clock that moves ten
    time units between two readings, so that every turn of a write loop
    reaches the feedback interval. *)
Definition hurried : World Bench bytes phase :=
  {| console_logger := None; power_controller := Some relay;
     sdmux_controller := Some mux;
     _sd_bytes_written := 0; _sd_mounted := false; _sd_opened := false;
     blksz := 2; bz2dec := None; zdec := None; zdata := Unset; fbintvl := 8;
     usb_switches := three_switches; _lock_owner := None; _lock_expiry := None;
     _lock_timeout := 5;
     zlib := stored_zlib; bz2 := pair_bz2; hw := bench0; trace := []; stderr := [];
     clock := fun k => 10 * Z.of_nat k; reads := O |}.

(** Requests that follow a mount. *)
Definition after_mount : list request :=
  [ Sd_close None; Sd_open (Some "S1"); Target_lock (Some "S1");
    Sd_to_target (Some "S1"); Sd_to_host (Some "S2"); Sd_close (Some "S1");
    Target_toggle None ].

End Demo.

(** ** Configuration and start-up *)

(** [load_config] and [start] prepare the agent before it serves requests,
    and [console_getkey] and [console_remote] create the console endpoints
    of a client.  Beside the drivers they use attributes that the requests
    do not look at (the configuration files, the ports, the remote host,
    the console endpoints) and collaborators of their own: the
    configuration parser, the import machinery, the environment of the
    process and the message socket.  They are embedded in a module of their
    own, the attributes under the names main.py gives them. *)
Module Startup.

(** Exceptions that loading can meet. *)
Inductive load_exn : Type :=
| NoSectionError
| NoOptionError
| ImportError
| ValueError
| UnboundLocalError
| OtherError.

Definition is_NoOptionError (e : load_exn) : bool :=
  match e with NoOptionError => true | _ => false end.

Definition is_ImportError (e : load_exn) : bool :=
  match e with ImportError => true | _ => false end.

(** [configparser.ConfigParser] once the files are read: what it answers. *)
Record ConfigParser : Type := {
  has_section : string -> bool;
  get : string -> string -> load_exn + string;
  items : string -> load_exn + list (string * string)
}.

(** [parser.get(section, option, fallback=x)]: the fallback stands in for a
    missing section or option, and for nothing else. *)
Definition get_fallback {A} (parser : ConfigParser) (section option : string)
    (fallback : A) : load_exn + (string + A) :=
  match get parser section option with
  | inr v => inr (inl v)
  | inl NoSectionError => inr (inr fallback)
  | inl NoOptionError => inr (inr fallback)
  | inl e => inl e
  end.

(** One entry per call that reaches a collaborator of the start-up. *)
Inductive start_event : Type :=
| Instantiated (module_name : string)
| Configured (what : string) (settings : list (string * string))
| Probed (what : string)
| Bound (port : string)
| LoggerStarted
| InputStarted
| KeyRead
| OutputStarted (host : string) (port : Z).

(** The characters ["/"] and the double quote. *)
Definition slash : Ascii.ascii := Ascii.ascii_of_nat 47.

Definition dquote : string := String (Ascii.ascii_of_nat 34) EmptyString.

(** [os.path.join] for two components. *)
Definition ends_with_slash (path : string) : bool :=
  match String.get (String.length path - 1)%nat path with
  | Some c => Ascii.eqb c slash
  | None => false
  end.

Definition starts_with_slash (path : string) : bool :=
  match path with
  | String c _ => Ascii.eqb c slash
  | EmptyString => false
  end.

Definition path_join (path b : string) : string :=
  if starts_with_slash b then b
  else if orb (path =? "")%string (ends_with_slash path) then (path ++ b)%string
  else (path ++ "/" ++ b)%string.

(** How a start-up method ends. *)
Inductive outcome (A : Type) : Type :=
| Done : A -> outcome A
| Failed : load_exn -> outcome A.
Arguments Done {A} _.
Arguments Failed {A} _.

Section Agent.

Context {HW Con : Type}.

(** A driver object as its factory returns it: the methods that the
    requests use, and those that only loading and starting use.
    [configure] is given the items of the section, in the order of the
    section; like the methods that the requests use, [configure] and
    [probe] return. *)
Record Device (C : Type) : Type := {
  methods : C;
  configure : list (string * string) -> HW -> HW;
  probe : HW -> bool * HW
}.
Arguments methods {C} _.
Arguments configure {C} _ _ _.
Arguments probe {C} _ _.

(** What the process is run with.  [instantiate_*] stands for
    [importlib.import_module(name)], [getattr(mod, 'instantiate')] and the
    call of the factory; its second argument counts the objects created
    before, so that two objects of one module are two objects. *)
Record Platform : Type := {
  environ : string -> option string;
  path_exists : string -> bool;
  read : list string -> ConfigParser;
  int_of_str : string -> option Z;
  instantiate_console : string -> nat -> load_exn + Device Con;
  instantiate_power : string -> nat -> load_exn + Device (PowerController HW);
  instantiate_sdmux : string -> nat -> load_exn + Device (SdmuxController HW);
  instantiate_usb : string -> nat -> load_exn + Device (UsbSwitch HW);
  new_logger : Con -> option string -> option (PowerController HW) -> ConsoleLogger HW;
  getkey : HW -> string * HW
}.

Record Agent : Type := {
  config_files : list string;
  console : option (Device Con);
  console_logger : option (ConsoleLogger HW);
  console_input : bool;   (* a ConsoleInput was created *)
  console_output : option (string * Z);   (* RemoteConsoleOutput(host, port) *)
  power_controller : option (Device (PowerController HW));
  sdmux_controller : option (Device (SdmuxController HW));
  usb_switches : list (UsbSwitch HW);
  ctrlport : Z;
  conport : Z;
  is_remote : bool;
  is_server : bool;
  remote : option string;
  (* environment *)
  hw : HW;
  log : list start_event;
  stderr : list string;
  objects : nat   (* driver objects created so far *)
}.

Definition set_console (v : option (Device Con)) (a : Agent) : Agent :=
  {| config_files := config_files a; console := v; console_logger := console_logger a;
     console_input := console_input a; console_output := console_output a;
     power_controller := power_controller a; sdmux_controller := sdmux_controller a;
     usb_switches := usb_switches a; ctrlport := ctrlport a; conport := conport a;
     is_remote := is_remote a; is_server := is_server a; remote := remote a; hw := hw a;
     log := log a; stderr := stderr a; objects := objects a |}.

Definition set_console_logger (v : option (ConsoleLogger HW)) (a : Agent) : Agent :=
  {| config_files := config_files a; console := console a; console_logger := v;
     console_input := console_input a; console_output := console_output a;
     power_controller := power_controller a; sdmux_controller := sdmux_controller a;
     usb_switches := usb_switches a; ctrlport := ctrlport a; conport := conport a;
     is_remote := is_remote a; is_server := is_server a; remote := remote a; hw := hw a;
     log := log a; stderr := stderr a; objects := objects a |}.

Definition set_console_input (v : bool) (a : Agent) : Agent :=
  {| config_files := config_files a; console := console a; console_logger :=
     console_logger a; console_input := v; console_output := console_output a;
     power_controller := power_controller a; sdmux_controller := sdmux_controller a;
     usb_switches := usb_switches a; ctrlport := ctrlport a; conport := conport a;
     is_remote := is_remote a; is_server := is_server a; remote := remote a; hw := hw a;
     log := log a; stderr := stderr a; objects := objects a |}.

Definition set_console_output (v : option (string * Z)) (a : Agent) : Agent :=
  {| config_files := config_files a; console := console a; console_logger :=
     console_logger a; console_input := console_input a; console_output := v;
     power_controller := power_controller a; sdmux_controller := sdmux_controller a;
     usb_switches := usb_switches a; ctrlport := ctrlport a; conport := conport a;
     is_remote := is_remote a; is_server := is_server a; remote := remote a; hw := hw a;
     log := log a; stderr := stderr a; objects := objects a |}.

Definition set_power_controller (v : option (Device (PowerController HW))) (a : Agent) : Agent :=
  {| config_files := config_files a; console := console a; console_logger :=
     console_logger a; console_input := console_input a; console_output :=
     console_output a; power_controller := v; sdmux_controller := sdmux_controller a;
     usb_switches := usb_switches a; ctrlport := ctrlport a; conport := conport a;
     is_remote := is_remote a; is_server := is_server a; remote := remote a; hw := hw a;
     log := log a; stderr := stderr a; objects := objects a |}.

Definition set_sdmux_controller (v : option (Device (SdmuxController HW))) (a : Agent) : Agent :=
  {| config_files := config_files a; console := console a; console_logger :=
     console_logger a; console_input := console_input a; console_output :=
     console_output a; power_controller := power_controller a; sdmux_controller := v;
     usb_switches := usb_switches a; ctrlport := ctrlport a; conport := conport a;
     is_remote := is_remote a; is_server := is_server a; remote := remote a; hw := hw a;
     log := log a; stderr := stderr a; objects := objects a |}.

Definition set_usb_switches (v : list (UsbSwitch HW)) (a : Agent) : Agent :=
  {| config_files := config_files a; console := console a; console_logger :=
     console_logger a; console_input := console_input a; console_output :=
     console_output a; power_controller := power_controller a; sdmux_controller :=
     sdmux_controller a; usb_switches := v; ctrlport := ctrlport a; conport := conport
     a; is_remote := is_remote a; is_server := is_server a; remote := remote a; hw := hw
     a; log := log a; stderr := stderr a; objects := objects a |}.

Definition set_ctrlport (v : Z) (a : Agent) : Agent :=
  {| config_files := config_files a; console := console a; console_logger :=
     console_logger a; console_input := console_input a; console_output :=
     console_output a; power_controller := power_controller a; sdmux_controller :=
     sdmux_controller a; usb_switches := usb_switches a; ctrlport := v; conport :=
     conport a; is_remote := is_remote a; is_server := is_server a; remote := remote a;
     hw := hw a; log := log a; stderr := stderr a; objects := objects a |}.

Definition set_conport (v : Z) (a : Agent) : Agent :=
  {| config_files := config_files a; console := console a; console_logger :=
     console_logger a; console_input := console_input a; console_output :=
     console_output a; power_controller := power_controller a; sdmux_controller :=
     sdmux_controller a; usb_switches := usb_switches a; ctrlport := ctrlport a; conport
     := v; is_remote := is_remote a; is_server := is_server a; remote := remote a; hw :=
     hw a; log := log a; stderr := stderr a; objects := objects a |}.

Definition set_is_remote (v : bool) (a : Agent) : Agent :=
  {| config_files := config_files a; console := console a; console_logger :=
     console_logger a; console_input := console_input a; console_output :=
     console_output a; power_controller := power_controller a; sdmux_controller :=
     sdmux_controller a; usb_switches := usb_switches a; ctrlport := ctrlport a; conport
     := conport a; is_remote := v; is_server := is_server a; remote := remote a; hw :=
     hw a; log := log a; stderr := stderr a; objects := objects a |}.

Definition set_is_server (v : bool) (a : Agent) : Agent :=
  {| config_files := config_files a; console := console a; console_logger :=
     console_logger a; console_input := console_input a; console_output :=
     console_output a; power_controller := power_controller a; sdmux_controller :=
     sdmux_controller a; usb_switches := usb_switches a; ctrlport := ctrlport a; conport
     := conport a; is_remote := is_remote a; is_server := v; remote := remote a; hw :=
     hw a; log := log a; stderr := stderr a; objects := objects a |}.

Definition set_remote (v : option string) (a : Agent) : Agent :=
  {| config_files := config_files a; console := console a; console_logger :=
     console_logger a; console_input := console_input a; console_output :=
     console_output a; power_controller := power_controller a; sdmux_controller :=
     sdmux_controller a; usb_switches := usb_switches a; ctrlport := ctrlport a; conport
     := conport a; is_remote := is_remote a; is_server := is_server a; remote := v; hw
     := hw a; log := log a; stderr := stderr a; objects := objects a |}.

Definition set_hw (v : HW) (a : Agent) : Agent :=
  {| config_files := config_files a; console := console a; console_logger :=
     console_logger a; console_input := console_input a; console_output :=
     console_output a; power_controller := power_controller a; sdmux_controller :=
     sdmux_controller a; usb_switches := usb_switches a; ctrlport := ctrlport a; conport
     := conport a; is_remote := is_remote a; is_server := is_server a; remote := remote
     a; hw := v; log := log a; stderr := stderr a; objects := objects a |}.

Definition set_log (v : list start_event) (a : Agent) : Agent :=
  {| config_files := config_files a; console := console a; console_logger :=
     console_logger a; console_input := console_input a; console_output :=
     console_output a; power_controller := power_controller a; sdmux_controller :=
     sdmux_controller a; usb_switches := usb_switches a; ctrlport := ctrlport a; conport
     := conport a; is_remote := is_remote a; is_server := is_server a; remote := remote
     a; hw := hw a; log := v; stderr := stderr a; objects := objects a |}.

Definition set_stderr (v : list string) (a : Agent) : Agent :=
  {| config_files := config_files a; console := console a; console_logger :=
     console_logger a; console_input := console_input a; console_output :=
     console_output a; power_controller := power_controller a; sdmux_controller :=
     sdmux_controller a; usb_switches := usb_switches a; ctrlport := ctrlport a; conport
     := conport a; is_remote := is_remote a; is_server := is_server a; remote := remote
     a; hw := hw a; log := log a; stderr := v; objects := objects a |}.

Definition set_objects (v : nat) (a : Agent) : Agent :=
  {| config_files := config_files a; console := console a; console_logger :=
     console_logger a; console_input := console_input a; console_output :=
     console_output a; power_controller := power_controller a; sdmux_controller :=
     sdmux_controller a; usb_switches := usb_switches a; ctrlport := ctrlport a; conport
     := conport a; is_remote := is_remote a; is_server := is_server a; remote := remote
     a; hw := hw a; log := log a; stderr := stderr a; objects := v |}.
(** [usb_switch.className = className] *)
Definition set_className (v : string) (sw : UsbSwitch HW) : UsbSwitch HW :=
  {| className := v; us_on := us_on sw; us_off := us_off sw; us_toggle := us_toggle sw;
     us_status := us_status sw; POWERED_OFF := POWERED_OFF sw;
     POWERED_ON := POWERED_ON sw |}.

(** *** The monad of the start-up methods *)

Definition L (A : Type) : Type := Agent -> outcome A * Agent.

Definition pure {A} (x : A) : L A := fun a => (Done x, a).

Definition throw {A} (e : load_exn) : L A := fun a => (Failed e, a).

Definition andthen {A B} (c : L A) (k : A -> L B) : L B :=
  fun a =>
    match c a with
    | (Done x, a') => k x a'
    | (Failed e, a') => (Failed e, a')
    end.

(** [try: c  except ...: h e] *)
Definition catch {A} (c : L A) (h : load_exn -> L A) : L A :=
  fun a =>
    match c a with
    | (Failed e, a') => h e a'
    | r => r
    end.

Definition attr {A} (f : Agent -> A) : L A := fun a => (Done (f a), a).

Definition update (f : Agent -> Agent) : L unit := fun a => (Done tt, f a).

Definition lift {A} (r : load_exn + A) : L A :=
  match r with
  | inr x => pure x
  | inl e => throw e
  end.

Definition record (ev : start_event) : L unit :=
  update (fun a => set_log (log a ++ [ev]) a).

Definition print_stderr (msg : string) : L unit :=
  update (fun a => set_stderr (stderr a ++ [msg]) a).

Notation "x <- c ;; k" := (andthen c (fun x => k))
  (at level 61, c at next level, right associativity).
Notation "c ;; k" := (andthen c (fun _ => k))
  (at level 61, right associativity).

Variable P : Platform.

(** [int(x)] where [x] is a string of the configuration or an integer
    given as fallback. *)
Definition int (x : string + Z) : L Z :=
  match x with
  | inr n => pure n
  | inl s => match int_of_str P s with
             | Some n => pure n
             | None => throw ValueError
             end
  end.

(** *** The agent as [__init__] leaves it *)

Definition __init__ (h : HW) : Agent :=
  let home := match environ P "HOME" with Some v => v | None => "" end in
  {| config_files :=
       ["mtda.ini"]
       ++ (if negb (home =? "")%string
           then [path_join (path_join home ".mtda") "config"] else [])
       ++ (if path_exists P "/etc"
           then [path_join (path_join "/etc" "mtda") "config"] else []);
     console := None; console_logger := None; console_input := false;
     console_output := None; power_controller := None; sdmux_controller := None;
     usb_switches := []; ctrlport := 5556; conport := 5557;
     is_remote := false; is_server := false; remote := None;
     hw := h; log := []; stderr := []; objects := O |}.

(** *** Console endpoints *)

Definition console_getkey : L string :=
  created <- attr console_input ;;
  (if negb created then
     update (set_console_input true) ;;
     record InputStarted
   else pure tt) ;;
  record KeyRead ;;
  fun a => let (key, h) := getkey P (hw a) in (Done key, set_hw h a).

Definition console_remote (host : string) : L unit :=
  r <- attr is_remote ;;
  if r then
    port <- attr conport ;;
    update (set_console_output (Some (host, port))) ;;
    record (OutputStarted host port)
  else pure tt.

(** *** Loading the configuration *)

(** A new object of the module [name], made by [make]. *)
Definition instantiate {C} (make : string -> nat -> load_exn + Device C) (name : string)
  : L (Device C) :=
  n <- attr objects ;;
  d <- lift (make name n) ;;
  update (set_objects (S n)) ;;
  record (Instantiated name) ;;
  pure d.

(** [obj.configure(dict(parser.items(section)))] *)
Definition configure_with {C} (parser : ConfigParser) (section : string) (d : Device C)
  : L unit :=
  settings <- lift (items parser section) ;;
  update (fun a => set_hw (configure d settings (hw a)) a) ;;
  record (Configured section settings).

(** The two handlers of the loading methods.  [variant] is bound when the
    exception comes from after its assignment. *)
Definition on_ImportError (msg : string -> string) (variant : string) (e : load_exn)
  : L unit :=
  if is_ImportError e then print_stderr (msg variant) else throw e.

Definition on_NoOptionError (msg : string) (e : load_exn) : L unit :=
  if is_NoOptionError e then print_stderr msg
  else if is_ImportError e then throw UnboundLocalError
  else throw e.

Definition not_found (what variant : string) : string :=
  (what ++ " " ++ dquote ++ variant ++ dquote ++ " could not be found/loaded!")%string.

Definition load_console_config (parser : ConfigParser) : L unit :=
  catch
    (variant <- lift (get parser "console" "variant") ;;
     catch
       (d <- instantiate (instantiate_console P) ("mtda.console." ++ variant) ;;
        update (set_console (Some d)) ;;
        configure_with parser "console" d)
       (on_ImportError (not_found "console") variant))
    (on_NoOptionError "console variant not defined!").

Definition load_power_config (parser : ConfigParser) : L unit :=
  catch
    (variant <- lift (get parser "power" "variant") ;;
     catch
       (d <- instantiate (instantiate_power P) ("mtda.power." ++ variant) ;;
        update (set_power_controller (Some d)) ;;
        configure_with parser "power" d)
       (on_ImportError (not_found "power controller") variant))
    (on_NoOptionError "power controller variant not defined!").

Definition load_sdmux_config (parser : ConfigParser) : L unit :=
  catch
    (variant <- lift (get parser "sdmux" "variant") ;;
     catch
       (d <- instantiate (instantiate_sdmux P) ("mtda.sdmux." ++ variant) ;;
        update (set_sdmux_controller (Some d)) ;;
        configure_with parser "sdmux" d)
       (on_ImportError (not_found "power controller") variant))
    (on_NoOptionError "sdmux controller variant not defined!").

Definition load_remote_config (parser : ConfigParser) : L unit :=
  port <- attr conport ;;
  v <- lift (get_fallback parser "remote" "console" port) ;;
  n <- int v ;;
  update (set_conport n) ;;
  port <- attr ctrlport ;;
  v <- lift (get_fallback parser "remote" "control" port) ;;
  n <- int v ;;
  update (set_ctrlport n) ;;
  server <- attr is_server ;;
  (if negb server then
     r <- attr remote ;;
     match r with
     | None =>
         v <- lift (get_fallback parser "remote" "host" r) ;;
         update (set_remote (match v with inl host => Some host | inr r => r end)) ;;
         r <- attr remote ;;
         update (set_remote (match environ P "MTDA_REMOTE" with
                             | Some host => Some host
                             | None => r
                             end))
     | Some _ => pure tt
     end
   else update (set_remote None)) ;;
  r <- attr remote ;;
  update (set_is_remote (match r with Some _ => true | None => false end)).

Definition load_usb_port_config (parser : ConfigParser) (section : string) : L unit :=
  catch
    (v <- lift (get_fallback parser section "class" "") ;;
     let className := match v with inl c => c | inr c => c end in
     variant <- lift (get parser section "variant") ;;
     catch
       (d <- instantiate (instantiate_usb P) ("mtda.usb." ++ variant) ;;
        configure_with parser section d ;;
        (fun a => (Done tt, set_hw (snd (probe d (hw a))) a)) ;;
        record (Probed section) ;;
        let usb_switch := set_className className (methods d) in
        update (fun a => set_usb_switches (usb_switches a ++ [usb_switch]) a))
       (on_ImportError (not_found "usb switch") variant))
    (on_NoOptionError "usb switch variant not defined!").

(** [for port in range(0, usb_ports)] *)
Fixpoint for_range (n : nat) (start : Z) (body : Z -> L unit) : L unit :=
  match n with
  | O => pure tt
  | S n' => body start ;; for_range n' (start + 1) body
  end.

Definition load_usb_config (parser : ConfigParser) : L unit :=
  catch
    (v <- lift (get parser "usb" "ports") ;;
     usb_ports <- int (inl v) ;;
     for_range (Z.to_nat usb_ports) 0 (fun port =>
       let port := port + 1 in
       let section := ("usb" ++ str port)%string in
       if has_section parser section then load_usb_port_config parser section
       else pure tt))
    (fun e => if is_NoOptionError e then pure tt else throw e).

Definition load_config (remote' : option string) (is_server' : bool) : L unit :=
  update (set_remote remote') ;;
  update (set_is_remote (match remote' with Some _ => true | None => false end)) ;;
  update (set_is_server is_server') ;;
  files <- attr config_files ;;
  let parser := read P files in
  (if has_section parser "remote" then load_remote_config parser else pure tt) ;;
  r <- attr is_remote ;;
  if negb r then
    (if has_section parser "console" then load_console_config parser else pure tt) ;;
    (if has_section parser "power" then load_power_config parser else pure tt) ;;
    (if has_section parser "sdmux" then load_sdmux_config parser else pure tt) ;;
    (if has_section parser "usb" then load_usb_config parser else pure tt)
  else pure tt.

(** *** Starting *)

(** [status = obj.probe()] *)
Definition probe_call {C} (what : string) (d : Device C) : L bool :=
  andthen (fun a => let (status, h) := probe d (hw a) in (Done status, set_hw h a))
    (fun status => record (Probed what) ;; pure status).

Definition start : L bool :=
  r <- attr is_remote ;;
  if r then pure true else
  pc <- attr power_controller ;;
  ok <- match pc with
        | Some d =>
            status <- probe_call "power" d ;;
            if negb status then
              print_stderr "Probe of the Power Controller failed!" ;; pure false
            else pure true
        | None => pure true
        end ;;
  if negb ok then pure false else
  mx <- attr sdmux_controller ;;
  ok <- match mx with
        | Some d =>
            status <- probe_call "sdmux" d ;;
            if negb status then
              print_stderr "Probe of the SDMUX Controller failed!" ;; pure false
            else pure true
        | None => pure true
        end ;;
  if negb ok then pure false else
  c <- attr console ;;
  match c with
  | Some d =>
      server <- attr is_server ;;
      socket <- (if server then
                   port <- attr conport ;;
                   let address := ("tcp://*:" ++ str port)%string in
                   record (Bound address) ;; pure (Some address)
                 else pure None) ;;
      probe_call "console" d ;;
      pc <- attr power_controller ;;
      let logger := new_logger P (methods d) socket
                      (match pc with Some p => Some (methods p) | None => None end) in
      update (set_console_logger (Some logger)) ;;
      record LoggerStarted
  | None => pure tt
  end ;;
  pure true.

(** *** What the properties of the start-up are stated with *)

(** [int(parser.get('remote', option, fallback=port))] as a value. *)
Definition port_setting (parser : ConfigParser) (option : string) (port : Z)
  : load_exn + Z :=
  match get_fallback parser "remote" option port with
  | inl e => inl e
  | inr (inr n) => inr n
  | inr (inl s) => match int_of_str P s with
                   | Some n => inr n
                   | None => inl ValueError
                   end
  end.

(** The drivers, the hardware, the calls made and the messages printed are
    the same in [a'] as in [a]. *)
Definition same_drivers (a a' : Agent) : Prop :=
  console a' = console a /\
  console_logger a' = console_logger a /\
  power_controller a' = power_controller a /\
  sdmux_controller a' = sdmux_controller a /\
  usb_switches a' = usb_switches a /\
  hw a' = hw a /\
  log a' = log a /\
  stderr a' = stderr a /\
  objects a' = objects a.

(** The role of the agent is the same in [a'] as in [a]: the remote
    host, whether it is remote, whether it is a server, and the ports. *)
Definition same_role (a a' : Agent) : Prop :=
  remote a' = remote a /\
  is_remote a' = is_remote a /\
  is_server a' = is_server a /\
  conport a' = conport a /\
  ctrlport a' = ctrlport a.

(** The remote host a client ends with, when it was given none: the
    environment first, then the configuration. *)
Definition remote_host (parser : ConfigParser) : option string :=
  match environ P "MTDA_REMOTE" with
  | Some host => Some host
  | None => match get parser "remote" "host" with
            | inr host => Some host
            | inl _ => None
            end
  end.

(** The USB registry of [a'] is the one of [a] with at most [k] switches
    added at the end, and the other drivers are the same. *)
Definition grows_by (k : nat) (a a' : Agent) : Prop :=
  (exists new, usb_switches a' = usb_switches a ++ new /\ (List.length new <= k)%nat) /\
  console a' = console a /\
  console_logger a' = console_logger a /\
  power_controller a' = power_controller a /\
  sdmux_controller a' = sdmux_controller a.

End Agent.

Arguments Agent : clear implicits.
Arguments Platform : clear implicits.
Arguments L : clear implicits.
Arguments methods {HW C} _.
Arguments configure {HW C} _ _ _.
Arguments probe {HW C} _ _.

End Startup.

(** ** More of the bench *)

Module Rig.

Local Abbreviation World := (World Demo.Bench bytes Demo.phase).

(** A console logger that answers every call with the same text and leaves
    the hardware alone. *)
Definition logger : ConsoleLogger Demo.Bench :=
  {| cl_call := fun _ h => ("ok", h) |}.

(** What [start] and the bench set and no request does. *)
Definition with_logger (l : option (ConsoleLogger Demo.Bench)) (w : World) : World :=
  {| console_logger := l; power_controller := power_controller w;
     sdmux_controller := sdmux_controller w;
     _sd_bytes_written := _sd_bytes_written w; _sd_mounted := _sd_mounted w;
     _sd_opened := _sd_opened w; blksz := blksz w; bz2dec := bz2dec w; zdec := zdec w;
     zdata := zdata w; fbintvl := fbintvl w; usb_switches := usb_switches w;
     _lock_owner := _lock_owner w; _lock_expiry := _lock_expiry w;
     _lock_timeout := _lock_timeout w;
     zlib := zlib w; bz2 := bz2 w; hw := hw w; trace := trace w; stderr := stderr w;
     clock := clock w; reads := reads w |}.

Definition with_codecs (z : ZlibModule bytes) (b : Bz2Module Demo.phase) (w : World)
  : World :=
  {| console_logger := console_logger w; power_controller := power_controller w;
     sdmux_controller := sdmux_controller w;
     _sd_bytes_written := _sd_bytes_written w; _sd_mounted := _sd_mounted w;
     _sd_opened := _sd_opened w; blksz := blksz w; bz2dec := bz2dec w; zdec := zdec w;
     zdata := zdata w; fbintvl := fbintvl w; usb_switches := usb_switches w;
     _lock_owner := _lock_owner w; _lock_expiry := _lock_expiry w;
     _lock_timeout := _lock_timeout w;
     zlib := z; bz2 := b; hw := hw w; trace := trace w; stderr := stderr w;
     clock := clock w; reads := reads w |}.

(** The equipped agent with a console logger; the same while "A" holds the
    lease until 1000. *)
Definition logging : World := with_logger (Some logger) (Demo.equipped 0).

Definition logging_held : World := with_logger (Some logger) Demo.held.

(** A mux driver that refuses to open, close, mount and write, and
    updates nothing. *)
Definition refusing : SdmuxController Demo.Bench :=
  {| mx_open := fun h => (false, h);
     mx_close := fun h => (false, h);
     mx_mount := fun _ h => (false, h);
     mx_update := fun _ _ _ h => (0, h);
     mx_write := fun _ h => (false, h);
     mx_status := fun h => (if Demo.on_host h then "HOST" else "TARGET", h);
     mx_to_host := fun h => (false, h);
     mx_to_target := fun h => (false, h);
     SD_ON_HOST := "HOST";
     SD_ON_TARGET := "TARGET" |}.

(** The equipped agent with that driver, and with a write session open. *)
Definition refused : World := with_sdmux (Some refusing) (Demo.equipped 0).

Definition refused_writing : World := set_sd_opened true refused.


(** Decompressor modules that find every input corrupt. *)
Definition corrupt_zlib : ZlibModule bytes :=
  {| decompressobj := [];
     z_decompress := fun _ _ _ => inl CodecError;
     unconsumed_tail := fun d => d |}.

Definition corrupt_bz2 : Bz2Module Demo.phase :=
  {| BZ2Decompressor := Demo.Content;
     b_decompress := fun _ _ _ => inl CodecError;
     needs_input := fun _ => true;
     unused_data := fun _ => [] |}.

Definition corrupt : World := with_codecs corrupt_zlib corrupt_bz2 (Demo.equipped 0).

(** *** A configuration to load *)

(** The settings of a section, by name. *)
Fixpoint setting (name : string) (settings : list (string * string)) : option string :=
  match settings with
  | [] => None
  | (k, v) :: rest => if (k =? name)%string then Some v else setting name rest
  end.

Fixpoint section_of (name : string) (ini : list (string * list (string * string)))
  : option (list (string * string)) :=
  match ini with
  | [] => None
  | (k, settings) :: rest =>
      if (k =? name)%string then Some settings else section_of name rest
  end.

(** A parser that has read the sections [ini]. *)
Definition parser_of (ini : list (string * list (string * string)))
  : Startup.ConfigParser :=
  {| Startup.has_section := fun name =>
       match section_of name ini with Some _ => true | None => false end;
     Startup.get := fun name key =>
       match section_of name ini with
       | None => inl Startup.NoSectionError
       | Some settings =>
           match setting key settings with
           | Some v => inr v
           | None => inl Startup.NoOptionError
           end
       end;
     Startup.items := fun name =>
       match section_of name ini with
       | None => inl Startup.NoSectionError
       | Some settings => inr settings
       end |}.

(** A laboratory set-up: a remote section with a console port and a host,
    a power section with no variant, an sdmux section whose variant is not
    installed, and two USB ports, the second without a class. *)
Definition lab : list (string * list (string * string)) :=
  [ ("remote", [("console", "6000"); ("host", "lab")]);
    ("power", [("pin", "7")]);
    ("sdmux", [("variant", "samsung")]);
    ("console", [("variant", "serial"); ("rate", "115200")]);
    ("usb", [("ports", "2")]);
    ("usb1", [("variant", "hub"); ("class", "HID")]);
    ("usb2", [("variant", "hub")]) ].

(** The drivers that are installed: the console [serial], the power
    controller [relay] and the USB switch [hub]. *)
Definition device {C} (x : C) : Startup.Device (HW := Demo.Bench) C :=
  {| Startup.methods := x;
     Startup.configure := fun _ h => h;
     Startup.probe := fun h => (true, h) |}.

(** A power controller whose probe fails. *)
Definition absent_relay : Startup.Device (HW := Demo.Bench) (PowerController Demo.Bench) :=
  {| Startup.methods := Demo.relay;
     Startup.configure := fun _ h => h;
     Startup.probe := fun h => (false, h) |}.

Definition hub : UsbSwitch Demo.Bench :=
  Demo.switch "" Demo.usb1
    (fun b h => {| Demo.powered := Demo.powered h; Demo.on_host := Demo.on_host h;
                   Demo.usb1 := b; Demo.usb2 := Demo.usb2 h; Demo.usb3 := Demo.usb3 h |}).

(** [int] on the strings of the bench: decimal digits, and no empty string. *)
Definition int_of_str (s : string) : option Z :=
  if (s =? "")%string then None
  else match NilZero.int_of_string s with
       | Some n => Some (Z.of_int n)
       | None => None
       end.

Definition platform (ini : list (string * list (string * string)))
  : Startup.Platform Demo.Bench unit :=
  {| Startup.environ := fun name =>
       if (name =? "HOME")%string then Some "/home/lab" else None;
     Startup.path_exists := fun _ => true;
     Startup.read := fun _ => parser_of ini;
     Startup.int_of_str := int_of_str;
     Startup.instantiate_console := fun name _ =>
       if (name =? "mtda.console.serial")%string then inr (device tt)
       else inl Startup.ImportError;
     Startup.instantiate_power := fun name _ =>
       if (name =? "mtda.power.relay")%string then inr (device Demo.relay)
       else inl Startup.ImportError;
     Startup.instantiate_sdmux := fun _ _ => inl Startup.ImportError;
     Startup.instantiate_usb := fun name _ =>
       if (name =? "mtda.usb.hub")%string then inr (device hub)
       else inl Startup.ImportError;
     Startup.new_logger := fun _ _ _ => logger;
     Startup.getkey := fun h => ("k", h) |}.

(** A set-up with drivers and no remote section. *)
Definition standalone : list (string * list (string * string)) :=
  [ ("power", [("variant", "relay")]);
    ("console", [("variant", "serial")]) ].

(** The agent of the laboratory as [__init__] leaves it, and the one of a
    machine with no configuration. *)
Definition lab_agent : Startup.Agent Demo.Bench unit :=
  Startup.__init__ (platform lab) Demo.bench0.

Definition plain_agent : Startup.Agent Demo.Bench unit :=
  Startup.__init__ (platform []) Demo.bench0.

Definition standalone_agent : Startup.Agent Demo.Bench unit :=
  Startup.__init__ (platform standalone) Demo.bench0.

End Rig.

(** * Properties *)

Lemma session_eqb_eq (a b : session) : session_eqb a b = true <-> a = b.
Proof.
  destruct a as [x|], b as [y|]; simpl; try (split; congruence).
  rewrite String.eqb_eq. split; congruence.
Qed.

Lemma session_eqb_refl (a : session) : session_eqb a a = true.
Proof. apply session_eqb_eq. reflexivity. Qed.

Lemma session_eqb_neq (a b : session) : a <> b -> session_eqb a b = false.
Proof.
  intros H. destruct (session_eqb a b) eqn:E; [|reflexivity].
  apply session_eqb_eq in E. contradiction.
Qed.

Lemma session_eqb_sym (a b : session) : session_eqb a b = session_eqb b a.
Proof.
  destruct (session_eqb b a) eqn:E.
  - apply session_eqb_eq in E. subst. apply session_eqb_refl.
  - apply session_eqb_neq. intros ->. rewrite session_eqb_refl in E. discriminate.
Qed.

(** Methods are unfolded by name, never by [cbn]. *)
Arguments _check_expired : simpl never.
Arguments _check_locked : simpl never.
Arguments power_locked : simpl never.
Arguments target_status : simpl never.
Arguments sd_locked : simpl never.
Arguments sd_close : simpl never.
Arguments sd_status : simpl never.
Arguments usb_find_by_class : simpl never.
Arguments console_locked : simpl never.

(** Unfold the monad and compute. *)
Ltac mrun :=
  unfold bind, gets, ret, modify, deref, call, raise, diverge, try_except,
    time_monotonic, print_stderr; cbn.

Section Lease.

Context {HW zobj bobj : Type}.
Implicit Types (w : World HW zobj bobj) (s : session).

(** The expiry check as a case table. *)
Lemma check_expired_falsy s w :
  truthy (_lock_owner w) = false -> _check_expired s w = (Ok tt, w).
Proof. intros H. unfold _check_expired, bind, gets. rewrite H. reflexivity. Qed.

Lemma check_expired_owner s w :
  truthy s = true -> _lock_owner w = s ->
  _check_expired s w =
    (Ok tt, set_lock_expiry (Some (clock w (reads w) + _lock_timeout w * 60))
              (set_reads (S (reads w)) w)).
Proof.
  intros T O. unfold _check_expired, bind, gets, time_monotonic, modify.
  rewrite O, T. cbn. rewrite session_eqb_refl. reflexivity.
Qed.

Lemma check_expired_other s w e :
  truthy (_lock_owner w) = true -> s <> _lock_owner w -> _lock_expiry w = Some e ->
  _check_expired s w =
    (Ok tt, if clock w (reads w) >=? e
            then set_lock_owner None (set_reads (S (reads w)) w)
            else set_reads (S (reads w)) w).
Proof.
  intros T N E. unfold _check_expired, bind, gets, time_monotonic, modify.
  rewrite T. cbn. rewrite (session_eqb_neq _ _ N). cbn. rewrite E.
  destruct (clock w (reads w) >=? e); reflexivity.
Qed.

Lemma check_expired_no_expiry s w :
  truthy (_lock_owner w) = true -> s <> _lock_owner w -> _lock_expiry w = None ->
  _check_expired s w = (Raise TypeError, set_reads (S (reads w)) w).
Proof.
  intros T N E. unfold _check_expired, bind, gets, time_monotonic, modify.
  rewrite T. cbn. rewrite (session_eqb_neq _ _ N). cbn. rewrite E. reflexivity.
Qed.

Lemma bind_ok {A B} (c : M A) (k : A -> M B) w a w' :
  c w = (Ok a, w') -> bind c k w = k a w'.
Proof. intros H. unfold bind. rewrite H. reflexivity. Qed.

Lemma bind_raise {A B} (c : M A) (k : A -> M B) w e w' :
  c w = (Raise e, w') -> bind c k w = (Raise e, w').
Proof. intros H. unfold bind. rewrite H. reflexivity. Qed.

(** With a well-formed lease the expiry check returns, keeps the lease
    well-formed and touches nothing but the lease and the clock. *)
Lemma check_expired_total s w :
  lease_wf w ->
  exists w0, _check_expired s w = (Ok tt, w0) /\ lease_wf w0 /\
             forget_lease w0 = forget_lease w.
Proof.
  intros WF. destruct (truthy (_lock_owner w)) eqn:T.
  - destruct (session_eqb s (_lock_owner w)) eqn:E.
    + apply session_eqb_eq in E. subst s.
      rewrite (check_expired_owner _ w T eq_refl).
      eexists. split; [reflexivity|]. split; [|reflexivity].
      intros _. cbn. discriminate.
    + assert (N : s <> _lock_owner w).
      { intros ->. rewrite session_eqb_refl in E. discriminate. }
      destruct (_lock_expiry w) as [e|] eqn:X; [|exfalso; apply (WF T); exact X].
      rewrite (check_expired_other s w e T N X).
      destruct (clock w (reads w) >=? e); eexists; (split; [reflexivity|]);
        (split; [|reflexivity]); intros H; cbn in *; congruence.
  - rewrite (check_expired_falsy s w T). eauto.
Qed.

(** Whatever it does, the expiry check touches nothing but the lease and
    the clock. *)
Lemma check_expired_frame s w :
  forget_lease (snd (_check_expired s w)) = forget_lease w.
Proof.
  unfold _check_expired, bind, gets, time_monotonic, modify, ret, raise.
  destruct (truthy (_lock_owner w)); [|reflexivity]. cbn.
  destruct (session_eqb s (_lock_owner w)); [reflexivity|]. cbn.
  destruct (_lock_expiry w) as [e|]; [|reflexivity].
  destruct (clock w (reads w) >=? e); reflexivity.
Qed.

(** While another session's lease has not run out, the expiry check made
    for [s] returns and leaves the lease as it is. *)
Lemma check_expired_foreign s w a e :
  _lock_owner w = Some a -> s <> Some a -> _lock_expiry w = Some e ->
  clock w (reads w) < e ->
  exists n, _check_expired s w = (Ok tt, set_reads (reads w + n) w).
Proof.
  intros O N X L. destruct (truthy (_lock_owner w)) eqn:T.
  - rewrite (check_expired_other s w e T); [|congruence|exact X].
    destruct (Z.geb_spec (clock w (reads w)) e); [lia|].
    exists 1%nat. rewrite Nat.add_1_r. reflexivity.
  - rewrite (check_expired_falsy s w T). exists 0%nat. rewrite Nat.add_0_r.
    destruct w; reflexivity.
Qed.

(** C2 (the code at the failing input): on an agent whose lease was never
    held, [target_lock(S1)] succeeds and leaves the expiry unset, so that the
    [target_lock(S2)] that follows at once does not return [False]: it stops
    in the expiry check with a [TypeError]. *)
Theorem target_lock_contention_raises w s1 s2 :
  _lock_owner w = None -> _lock_expiry w = None ->
  truthy s1 = true -> s2 <> s1 ->
  exists w1 w2,
    target_lock s1 w = (Ok true, w1) /\
    _lock_owner w1 = s1 /\ _lock_expiry w1 = None /\
    target_lock s2 w1 = (Raise TypeError, w2).
Proof.
  intros O X T N.
  exists (set_lock_owner s1 w), (set_reads (S (reads w)) (set_lock_owner s1 w)).
  assert (F : truthy (_lock_owner w) = false) by (rewrite O; reflexivity).
  split.
  - unfold target_lock. rewrite (bind_ok _ _ _ _ _ (check_expired_falsy s1 w F)).
    unfold bind, target_owner, gets, modify, ret. rewrite O. reflexivity.
  - split; [reflexivity|]. split; [exact X|].
    unfold target_lock. apply bind_raise.
    apply (check_expired_no_expiry s2 (set_lock_owner s1 w)); cbn; assumption.
Qed.

(** C3 (as amended): a call from the lease owner pushes the expiry to
    now + timeout whenever it is made, also after the expiry time has
    passed; the lease is reclaimed only by a call from another session made
    at or after the expiry time, and after that the former owner holds
    nothing until [target_lock] makes it the owner again. *)
Theorem lease_renewal_and_reclaim w s other e :
  _lock_owner w = s -> truthy s = true -> _lock_expiry w = Some e -> other <> s ->
  let now := clock w (reads w) in
  (exists w1, _check_expired s w = (Ok tt, w1) /\
      _lock_owner w1 = s /\ _lock_expiry w1 = Some (now + _lock_timeout w * 60)) /\
  (now < e ->
   exists w1, _check_expired other w = (Ok tt, w1) /\
      _lock_owner w1 = s /\ _lock_expiry w1 = Some e) /\
  (e <= now ->
   exists w1 w2, _check_expired other w = (Ok tt, w1) /\
      _lock_owner w1 = None /\
      target_lock s w1 = (Ok true, w2) /\ _lock_owner w2 = s).
Proof.
  intros O T X N now. subst now. repeat split.
  - eexists. split; [apply check_expired_owner; assumption|].
    split; [cbn; exact O | reflexivity].
  - intros L. eexists. split.
    + apply (check_expired_other other w e); [rewrite O; exact T|congruence|exact X].
    + destruct (Z.geb_spec (clock w (reads w)) e); [lia|]. split; cbn; assumption.
  - intros L.
    exists (set_lock_owner None (set_reads (S (reads w)) w)).
    exists (set_lock_owner s (set_lock_owner None (set_reads (S (reads w)) w))).
    split.
    + rewrite (check_expired_other other w e); [|rewrite O; exact T|congruence|exact X].
      destruct (Z.geb_spec (clock w (reads w)) e); [reflexivity|lia].
    + split; [reflexivity|]. split; [|reflexivity].
      unfold target_lock. erewrite bind_ok by (apply check_expired_falsy; reflexivity).
      reflexivity.
Qed.

End Lease.

Section Gates.

Context {HW zobj bobj : Type}.
Implicit Types (w : World HW zobj bobj) (s : session).

(** Worlds that agree up to the lease agree on every other attribute. *)
Lemma forget_lease_fields w w' :
  forget_lease w' = forget_lease w ->
  console_logger w' = console_logger w /\
  power_controller w' = power_controller w /\
  sdmux_controller w' = sdmux_controller w /\
  _sd_bytes_written w' = _sd_bytes_written w /\
  _sd_mounted w' = _sd_mounted w /\
  _sd_opened w' = _sd_opened w /\
  blksz w' = blksz w /\
  bz2dec w' = bz2dec w /\
  zdec w' = zdec w /\
  zdata w' = zdata w /\
  fbintvl w' = fbintvl w /\
  usb_switches w' = usb_switches w /\
  _lock_timeout w' = _lock_timeout w /\
  zlib w' = zlib w /\
  bz2 w' = bz2 w /\
  hw w' = hw w /\
  trace w' = trace w /\
  stderr w' = stderr w /\
  clock w' = clock w.
Proof.
  intros H.
  repeat split;
    match goal with
    | |- ?f w' = ?f w => change (f (forget_lease w') = f (forget_lease w)); now rewrite H
    end.
Qed.

(** *** A lease held by somebody else *)

Lemma held_until_later a e k n w :
  held_until a e (n + k) w -> held_until a e k (set_reads (reads w + n) w).
Proof.
  intros (O & X & L). repeat split; [exact O|exact X|].
  intros j Hj. cbn. rewrite <- Nat.add_assoc. apply L. lia.
Qed.

Lemma held_until_weaken a e k k' w :
  (k' <= k)%nat -> held_until a e k w -> held_until a e k' w.
Proof.
  intros Hk (O & X & L). repeat split; [exact O|exact X|].
  intros j Hj. apply L. lia.
Qed.

(** The expiry check made for another session leaves such a lease alone. *)
Lemma check_expired_held b a e k w :
  b <> Some a -> held_until a e (S k) w ->
  exists w0, _check_expired b w = (Ok tt, w0) /\ held_until a e k w0 /\
             forget_lease w0 = forget_lease w.
Proof.
  intros N H. pose proof H as (O & X & L).
  assert (L0 : clock w (reads w) < e).
  { specialize (L 0%nat). rewrite Nat.add_0_r in L. apply L. lia. }
  destruct (truthy (_lock_owner w)) eqn:T.
  - rewrite (check_expired_other b w e T); [|congruence|exact X].
    destruct (Z.geb_spec (clock w (reads w)) e); [lia|].
    eexists. split; [reflexivity|]. split; [|reflexivity].
    rewrite <- (Nat.add_1_r (reads w)). apply held_until_later. exact H.
  - rewrite (check_expired_falsy b w T).
    eexists. split; [reflexivity|]. split; [|reflexivity].
    apply (held_until_weaken a e (S k)); [lia|exact H].
Qed.

Lemma check_locked_held b a w :
  b <> Some a -> _lock_owner w = Some a -> _check_locked b w = (Ok true, w).
Proof.
  intros N O. unfold _check_locked, target_owner, bind, gets, ret.
  rewrite O. rewrite (session_eqb_neq _ _ N). reflexivity.
Qed.

Lemma power_locked_held b a e k w :
  b <> Some a -> held_until a e (S k) w ->
  exists w0, power_locked b w = (Ok true, w0) /\ held_until a e k w0 /\
             forget_lease w0 = forget_lease w.
Proof.
  intros N H. destruct (check_expired_held b a e k w N H) as (w0 & E & H0 & F).
  exists w0. split; [|split; assumption].
  unfold power_locked. rewrite (bind_ok _ _ _ _ _ E).
  rewrite (bind_ok _ _ _ _ _ (check_locked_held b a w0 N (proj1 H0))).
  reflexivity.
Qed.

Lemma sd_locked_held b a e k w :
  b <> Some a -> held_until a e (S k) w ->
  exists w0, sd_locked b w = (Ok true, w0) /\ held_until a e k w0 /\
             forget_lease w0 = forget_lease w.
Proof.
  intros N H. destruct (check_expired_held b a e k w N H) as (w0 & E & H0 & F).
  exists w0. split; [|split; assumption].
  unfold sd_locked. rewrite (bind_ok _ _ _ _ _ E).
  rewrite (bind_ok _ _ _ _ _ (check_locked_held b a w0 N (proj1 H0))).
  reflexivity.
Qed.

End Gates.

(** ** Relations kept by every step *)

Section Stepwise.

Context {HW zobj bobj : Type}.
Variable R : World HW zobj bobj -> World HW zobj bobj -> Prop.
Hypothesis SW : stepwise R.

Lemma keeps_ret {A} (a : A) : keeps R (ret a).
Proof. intros w. apply (sw_refl R SW). Qed.

Lemma keeps_raise {A} (e : exn) : keeps R (@raise HW zobj bobj A e).
Proof. intros w. apply (sw_refl R SW). Qed.

Lemma keeps_diverge {A} : keeps R (@diverge HW zobj bobj A).
Proof. intros w. apply (sw_refl R SW). Qed.

Lemma keeps_gets {A} (f : World HW zobj bobj -> A) : keeps R (gets f).
Proof. intros w. apply (sw_refl R SW). Qed.

Lemma keeps_deref {A} (f : World HW zobj bobj -> option A) : keeps R (deref f).
Proof. intros w. unfold deref. destruct (f w); apply (sw_refl R SW). Qed.

Lemma keeps_bind {A B} (c : M A) (k : A -> M B) :
  keeps R c -> (forall a, keeps R (k a)) -> keeps R (bind c k).
Proof.
  intros Hc Hk w. unfold bind. specialize (Hc w).
  destruct (c w) as [[a|e|] w']; cbn in *; try assumption.
  apply (sw_trans R SW _ w'); [assumption|apply Hk].
Qed.

Lemma keeps_try {A} (c h : M A) (E : exn -> bool) :
  keeps R c -> keeps R h -> keeps R (try_except c E h).
Proof.
  intros Hc Hh w. unfold try_except. specialize (Hc w).
  destruct (c w) as [[a|e|] w']; cbn in *; try assumption.
  destruct (E e); cbn; [|assumption].
  apply (sw_trans R SW _ w'); [assumption|apply Hh].
Qed.

Lemma keeps_modify (f : World HW zobj bobj -> World HW zobj bobj) :
  (forall w, R w (f w)) -> keeps R (modify f).
Proof. intros H w. apply H. Qed.

Lemma keeps_call {A} (ev : event) (f : HW -> A * HW) : keeps R (call ev f).
Proof.
  intros w. unfold call. destruct (f (hw w)) as [r h]. apply (sw_call R SW).
Qed.

Lemma keeps_time : keeps R time_monotonic.
Proof. intros w. apply (sw_reads R SW). Qed.

Lemma keeps_print (msg : string) : keeps R (print_stderr msg).
Proof. intros w. apply (sw_stderr R SW). Qed.

Lemma keeps_index {A} (xs : list A) (i : Z) : keeps R (index xs i).
Proof.
  unfold index. destruct (_ <? 0); [apply keeps_raise|].
  destruct (nth_error _ _); [apply keeps_ret|apply keeps_raise].
Qed.

Create HintDb keeps discriminated.

#[local] Hint Resolve keeps_ret keeps_raise keeps_diverge keeps_gets keeps_deref
  keeps_call keeps_time keeps_print keeps_index : keeps.
(** An assignment to one attribute. *)
Ltac keeps_leaf :=
  first [ apply (sw_reads R SW) | apply (sw_lock_owner R SW)
        | apply (sw_lock_expiry R SW) | apply (sw_bz2dec R SW)
        | apply (sw_zdec R SW) | apply (sw_zdata R SW)
        | apply (sw_sd_opened R SW) | apply (sw_sd_bytes_written R SW)
        | apply (sw_stderr R SW) ].

(** Follow the shape of a method: sequencing, handlers, branches. *)
Ltac keeps_tac :=
  repeat (intros; first
    [ solve [auto with keeps]
    | apply keeps_bind
    | apply keeps_try
    | apply keeps_modify; intros; cbv beta; keeps_leaf
    | match goal with
      | |- keeps _ (if ?b then _ else _) => destruct b
      | |- keeps _ (match ?x with _ => _ end) => destruct x
      end ]).

Lemma check_expired_keeps s : keeps R (_check_expired (HW:=HW) (zobj:=zobj) (bobj:=bobj) s).
Proof. unfold _check_expired. keeps_tac. Qed.
#[local] Hint Resolve check_expired_keeps : keeps.

Lemma check_locked_keeps s : keeps R (_check_locked (HW:=HW) (zobj:=zobj) (bobj:=bobj) s).
Proof. unfold _check_locked, target_owner. keeps_tac. Qed.
#[local] Hint Resolve check_locked_keeps : keeps.

Lemma target_lock_keeps s : keeps R (target_lock (HW:=HW) (zobj:=zobj) (bobj:=bobj) s).
Proof. unfold target_lock, target_owner. keeps_tac. Qed.
#[local] Hint Resolve target_lock_keeps : keeps.

Lemma target_locked_keeps s : keeps R (target_locked (HW:=HW) (zobj:=zobj) (bobj:=bobj) s).
Proof. unfold target_locked. keeps_tac. Qed.
#[local] Hint Resolve target_locked_keeps : keeps.

Lemma target_unlock_keeps s : keeps R (target_unlock (HW:=HW) (zobj:=zobj) (bobj:=bobj) s).
Proof. unfold target_unlock, target_owner. keeps_tac. Qed.
#[local] Hint Resolve target_unlock_keeps : keeps.

Lemma console_locked_keeps s : keeps R (console_locked (HW:=HW) (zobj:=zobj) (bobj:=bobj) s).
Proof. unfold console_locked. keeps_tac. Qed.
#[local] Hint Resolve console_locked_keeps : keeps.

Lemma logger_or_none_keeps m : keeps R (logger_or_none (HW:=HW) (zobj:=zobj) (bobj:=bobj) m).
Proof. unfold logger_or_none. keeps_tac. Qed.
#[local] Hint Resolve logger_or_none_keeps : keeps.

Lemma console_gated_keeps m s : keeps R (console_gated (HW:=HW) (zobj:=zobj) (bobj:=bobj) m s).
Proof. unfold console_gated. keeps_tac. Qed.
#[local] Hint Resolve console_gated_keeps : keeps.

Lemma console_open_keeps m s : keeps R (console_open (HW:=HW) (zobj:=zobj) (bobj:=bobj) m s).
Proof. unfold console_open. keeps_tac. Qed.
#[local] Hint Resolve console_open_keeps : keeps.

Lemma toggle_timestamps_keeps : keeps R (toggle_timestamps (HW:=HW) (zobj:=zobj) (bobj:=bobj)).
Proof. unfold toggle_timestamps. keeps_tac. Qed.
#[local] Hint Resolve toggle_timestamps_keeps : keeps.

Lemma logger_do_keeps m : keeps R (logger_do (HW:=HW) (zobj:=zobj) (bobj:=bobj) m).
Proof. unfold logger_do. keeps_tac. Qed.
#[local] Hint Resolve logger_do_keeps : keeps.

Lemma power_locked_keeps s : keeps R (power_locked (HW:=HW) (zobj:=zobj) (bobj:=bobj) s).
Proof. unfold power_locked. keeps_tac. Qed.
#[local] Hint Resolve power_locked_keeps : keeps.

Lemma target_status_keeps s : keeps R (target_status (HW:=HW) (zobj:=zobj) (bobj:=bobj) s).
Proof. unfold target_status. keeps_tac. Qed.
#[local] Hint Resolve target_status_keeps : keeps.

Lemma target_on_keeps s : keeps R (target_on (HW:=HW) (zobj:=zobj) (bobj:=bobj) s).
Proof. unfold target_on. keeps_tac. Qed.
#[local] Hint Resolve target_on_keeps : keeps.

Lemma target_off_keeps s : keeps R (target_off (HW:=HW) (zobj:=zobj) (bobj:=bobj) s).
Proof. unfold target_off. keeps_tac. Qed.
#[local] Hint Resolve target_off_keeps : keeps.

Lemma target_toggle_keeps s : keeps R (target_toggle (HW:=HW) (zobj:=zobj) (bobj:=bobj) s).
Proof. unfold target_toggle. keeps_tac. Qed.
#[local] Hint Resolve target_toggle_keeps : keeps.

Lemma sd_bytes_written_keeps s : keeps R (sd_bytes_written (HW:=HW) (zobj:=zobj) (bobj:=bobj) s).
Proof. unfold sd_bytes_written. keeps_tac. Qed.
#[local] Hint Resolve sd_bytes_written_keeps : keeps.

Lemma sd_close_keeps s : keeps R (sd_close (HW:=HW) (zobj:=zobj) (bobj:=bobj) s).
Proof. unfold sd_close. keeps_tac. Qed.
#[local] Hint Resolve sd_close_keeps : keeps.

Lemma sd_locked_keeps s : keeps R (sd_locked (HW:=HW) (zobj:=zobj) (bobj:=bobj) s).
Proof. unfold sd_locked. keeps_tac. Qed.
#[local] Hint Resolve sd_locked_keeps : keeps.

Lemma sd_update_keeps dst offset data s : keeps R (sd_update (HW:=HW) (zobj:=zobj) (bobj:=bobj) dst offset data s).
Proof. unfold sd_update. keeps_tac. Qed.
#[local] Hint Resolve sd_update_keeps : keeps.

Lemma sd_open_keeps s : keeps R (sd_open (HW:=HW) (zobj:=zobj) (bobj:=bobj) s).
Proof. unfold sd_open. keeps_tac. Qed.
#[local] Hint Resolve sd_open_keeps : keeps.

Lemma sd_status_keeps s : keeps R (sd_status (HW:=HW) (zobj:=zobj) (bobj:=bobj) s).
Proof. unfold sd_status. keeps_tac. Qed.
#[local] Hint Resolve sd_status_keeps : keeps.

Lemma sd_to_host_keeps s : keeps R (sd_to_host (HW:=HW) (zobj:=zobj) (bobj:=bobj) s).
Proof. unfold sd_to_host. keeps_tac. Qed.
#[local] Hint Resolve sd_to_host_keeps : keeps.

Lemma sd_to_target_keeps s : keeps R (sd_to_target (HW:=HW) (zobj:=zobj) (bobj:=bobj) s).
Proof. unfold sd_to_target. keeps_tac. Qed.
#[local] Hint Resolve sd_to_target_keeps : keeps.

Lemma sd_toggle_keeps s : keeps R (sd_toggle (HW:=HW) (zobj:=zobj) (bobj:=bobj) s).
Proof. unfold sd_toggle. keeps_tac. Qed.
#[local] Hint Resolve sd_toggle_keeps : keeps.

Lemma sd_write_raw_keeps data s : keeps R (sd_write_raw (HW:=HW) (zobj:=zobj) (bobj:=bobj) data s).
Proof. unfold sd_write_raw. keeps_tac. Qed.
#[local] Hint Resolve sd_write_raw_keeps : keeps.

Lemma zdec_decompress_keeps data : keeps R (zdec_decompress (HW:=HW) (zobj:=zobj) (bobj:=bobj) data).
Proof. unfold zdec_decompress. keeps_tac. Qed.
#[local] Hint Resolve zdec_decompress_keeps : keeps.

Lemma sd_write_gz_step_keeps data : keeps R (_sd_write_gz (HW:=HW) (zobj:=zobj) (bobj:=bobj) data).
Proof. unfold _sd_write_gz. keeps_tac. Qed.
#[local] Hint Resolve sd_write_gz_step_keeps : keeps.

Lemma bz2dec_decompress_keeps data : keeps R (bz2dec_decompress (HW:=HW) (zobj:=zobj) (bobj:=bobj) data).
Proof. unfold bz2dec_decompress. keeps_tac. Qed.
#[local] Hint Resolve bz2dec_decompress_keeps : keeps.

Lemma sd_write_bz2_step_keeps data : keeps R (_sd_write_bz2 (HW:=HW) (zobj:=zobj) (bobj:=bobj) data).
Proof. unfold _sd_write_bz2. keeps_tac. Qed.
#[local] Hint Resolve sd_write_bz2_step_keeps : keeps.

Lemma sd_write_bz2_turn_keeps data start : keeps R (sd_write_bz2_turn (HW:=HW) (zobj:=zobj) (bobj:=bobj) data start).
Proof. unfold sd_write_bz2_turn. keeps_tac. Qed.
#[local] Hint Resolve sd_write_bz2_turn_keeps : keeps.

Lemma sd_write_gz_loop_keeps fuel data start :
  keeps R (sd_write_gz_loop (HW:=HW) (zobj:=zobj) (bobj:=bobj) fuel data start).
Proof.
  revert data. induction fuel as [|fuel IH]; intros data; cbn [sd_write_gz_loop];
    keeps_tac.
Qed.
#[local] Hint Resolve sd_write_gz_loop_keeps : keeps.

Lemma sd_write_gz_keeps fuel data s :
  keeps R (sd_write_gz (HW:=HW) (zobj:=zobj) (bobj:=bobj) fuel data s).
Proof. unfold sd_write_gz. keeps_tac. Qed.
#[local] Hint Resolve sd_write_gz_keeps : keeps.

Lemma sd_write_bz2_loop_keeps fuel data start :
  keeps R (sd_write_bz2_loop (HW:=HW) (zobj:=zobj) (bobj:=bobj) fuel data start).
Proof.
  revert data. induction fuel as [|fuel IH]; intros data; cbn [sd_write_bz2_loop];
    keeps_tac.
Qed.
#[local] Hint Resolve sd_write_bz2_loop_keeps : keeps.

Lemma sd_write_bz2_keeps fuel data s :
  keeps R (sd_write_bz2 (HW:=HW) (zobj:=zobj) (bobj:=bobj) fuel data s).
Proof. unfold sd_write_bz2. keeps_tac. Qed.
#[local] Hint Resolve sd_write_bz2_keeps : keeps.

Lemma usb_find_by_class_keeps cls s :
  keeps R (usb_find_by_class (HW:=HW) (zobj:=zobj) (bobj:=bobj) cls s).
Proof. unfold usb_find_by_class. keeps_tac. Qed.
#[local] Hint Resolve usb_find_by_class_keeps : keeps.

Lemma usb_by_index_keeps ndx s :
  keeps R (usb_on (HW:=HW) (zobj:=zobj) (bobj:=bobj) ndx s) /\
  keeps R (usb_off (HW:=HW) (zobj:=zobj) (bobj:=bobj) ndx s) /\
  keeps R (usb_toggle (HW:=HW) (zobj:=zobj) (bobj:=bobj) ndx s) /\
  keeps R (usb_status (HW:=HW) (zobj:=zobj) (bobj:=bobj) ndx s).
Proof.
  unfold usb_on, usb_off, usb_toggle, usb_status, invalid_switch.
  repeat split; keeps_tac.
Qed.

Lemma usb_by_class_keeps cls s :
  keeps R (usb_has_class (HW:=HW) (zobj:=zobj) (bobj:=bobj) cls s) /\
  keeps R (usb_on_by_class (HW:=HW) (zobj:=zobj) (bobj:=bobj) cls s) /\
  keeps R (usb_off_by_class (HW:=HW) (zobj:=zobj) (bobj:=bobj) cls s).
Proof.
  unfold usb_has_class, usb_on_by_class, usb_off_by_class.
  repeat split; keeps_tac.
Qed.

Lemma usb_ports_keeps s : keeps R (usb_ports (HW:=HW) (zobj:=zobj) (bobj:=bobj) s).
Proof. unfold usb_ports. keeps_tac. Qed.
#[local] Hint Resolve usb_ports_keeps : keeps.

(** The first turn of either write loop decodes its input and hands the
    output to the driver's [write]; what follows keeps [R]. *)
Lemma sd_write_gz_loop_first fuel data start w d m out d' :
  zdec w = Some d -> sdmux_controller w = Some m ->
  z_decompress (zlib w) d data (blksz w) = inr (out, d') ->
  R (set_trace (trace w ++ [MuxWrite out])
       (set_hw (snd (mx_write m out (hw w))) (set_zdec (Some d') w)))
    (snd (sd_write_gz_loop (S fuel) (Some data) start w)).
Proof.
  intros Hd Hm Hz. cbn [sd_write_gz_loop]. unfold _sd_write_gz, zdec_decompress.
  unfold bind at 1. unfold bind at 1. unfold bind at 1. unfold deref at 1. rewrite Hd.
  unfold bind at 1, gets at 1. unfold bind at 1, gets at 1. rewrite Hz.
  unfold bind at 1, modify at 1, ret at 1.
  unfold bind at 1, deref at 1. cbn [sdmux_controller set_zdec]. rewrite Hm.
  unfold bind at 1, call at 1. cbn [hw set_zdec trace].
  destruct (mx_write m out (hw w)) as [st h]. cbn [snd].
  match goal with
  | |- R ?wc (snd (let (r, w') := ?k ?wc' in _)) =>
      change wc' with wc;
      assert (K : keeps R (bind k (fun status =>
                 bind (modify (set_zdata (Value None))) (fun _ =>
                 if negb (status =? 0) then ret status else
                 bind (deref zdec) (fun d0 =>
                 bind (gets zlib) (fun z =>
                 bind time_monotonic (fun now =>
                 bind (gets fbintvl) (fun interval =>
                 if now - start >=? interval
                 then bind (modify (set_zdata (Value (Some (unconsumed_tail z d0)))))
                        (fun _ => ret status)
                 else sd_write_gz_loop fuel (Some (unconsumed_tail z d0)) start))))))))
        by keeps_tac;
      apply (K wc)
  end.
Qed.

Lemma sd_write_bz2_loop_first fuel data start w d m out d' :
  bz2dec w = Some d -> sdmux_controller w = Some m ->
  b_decompress (bz2 w) d data (blksz w) = inr (out, d') ->
  R (set_trace (trace w ++ [MuxWrite out])
       (set_hw (snd (mx_write m out (hw w))) (set_bz2dec (Some d') w)))
    (snd (sd_write_bz2_loop (S fuel) data start w)).
Proof.
  intros Hd Hm Hz. cbn [sd_write_bz2_loop].
  unfold sd_write_bz2_turn, _sd_write_bz2, bz2dec_decompress.
  unfold bind at 1, try_except at 1.
  unfold bind at 1. unfold bind at 1. unfold bind at 1. unfold deref at 1. rewrite Hd.
  unfold bind at 1, gets at 1. unfold bind at 1, gets at 1. rewrite Hz.
  unfold bind at 1, modify at 1, ret at 1.
  unfold bind at 1, deref at 1. cbn [sdmux_controller set_bz2dec]. rewrite Hm.
  unfold bind at 1, call at 1. cbn [hw set_bz2dec trace].
  destruct (mx_write m out (hw w)) as [st h]. cbn [snd].
  match goal with
  | |- R ?wc (snd (let (r, w') :=
                     match (let (r0, w0) := ?k ?wc' in _) with _ => _ end in _)) =>
      change wc' with wc;
      assert (K : keeps R (bind
                 (try_except
                    (bind k (fun status =>
                       if negb (status =? 0) then ret (Leave status) else
                       bind time_monotonic (fun now =>
                       bind (gets fbintvl) (fun interval =>
                       if now - start >=? interval then ret (Leave status)
                       else ret (Again [])))))
                    is_EOFError
                    (bind (deref bz2dec) (fun d0 =>
                     bind (gets bz2) (fun b =>
                     bind (modify (set_bz2dec (Some (BZ2Decompressor b)))) (fun _ =>
                     if len (unused_data b d0) >? 0
                     then ret (Again (unused_data b d0)) else ret (Leave 0))))))
                 (fun t => match t with
                           | Leave status => ret status
                           | Again data' => sd_write_bz2_loop fuel data' start
                           end)))
        by keeps_tac;
      apply (K wc)
  end.
Qed.

(** Every request keeps [R] as soon as [sd_mount] does. *)
Lemma serve_keeps fuel r :
  (forall part s, keeps R (sd_mount (HW:=HW) (zobj:=zobj) (bobj:=bobj) part s)) ->
  keeps R (serve (HW:=HW) (zobj:=zobj) (bobj:=bobj) fuel r).
Proof.
  intros Hm.
  destruct r; cbn [serve]; unfold void; apply keeps_bind; try (intros; apply keeps_ret);
    unfold console_clear, console_flush, console_head, console_lines, console_print,
      console_prompt, console_run, console_send, console_tail, target_owner;
    try solve [auto with keeps];
    try solve [apply usb_by_index_keeps];
    try solve [apply usb_by_class_keeps].
Qed.

Lemma serve_all_keeps fuel rs :
  (forall part s, keeps R (sd_mount (HW:=HW) (zobj:=zobj) (bobj:=bobj) part s)) ->
  forall w, R w (serve_all fuel rs w).
Proof.
  intros Hm. induction rs as [|r rs IH]; intros w; cbn [serve_all].
  - apply (sw_refl R SW).
  - apply (sw_trans R SW _ (snd (serve fuel r w))); [apply serve_keeps; exact Hm|apply IH].
Qed.

End Stepwise.

(** ** The mounted flag *)

Section Mounted.

Context {HW zobj bobj : Type}.
Implicit Types (w : World HW zobj bobj) (s : session).

Lemma mounted_stays_stepwise : stepwise (@mounted_stays HW zobj bobj).
Proof. constructor; unfold mounted_stays; intros; cbn; auto. Qed.

(** [sd_mount] on a mounted agent: the expiry check and nothing else. *)
Lemma sd_mount_mounted part s w :
  _sd_mounted w = true ->
  sd_mount part s w =
    (match fst (_check_expired s w) with Ok _ => Ok true | Raise e => Raise e
                                    | Diverge => Diverge end,
     snd (_check_expired s w)).
Proof.
  intros Hm. unfold sd_mount, bind at 1.
  pose proof (check_expired_frame s w) as F.
  destruct (_check_expired s w) as [[[]|e|] w0]; cbn in *; try reflexivity.
  apply forget_lease_fields in F.
  unfold bind, gets, ret.
  replace (_sd_mounted w0) with true; [reflexivity|].
  symmetry. destruct F as (_ & _ & _ & _ & -> & _). exact Hm.
Qed.

Lemma sd_mount_keeps_mounted part s :
  keeps (@mounted_stays HW zobj bobj) (sd_mount part s).
Proof.
  intros w Hm. rewrite (sd_mount_mounted part s w Hm). cbn [snd].
  pose proof (check_expired_frame s w) as F. apply forget_lease_fields in F.
  destruct F as (_ & _ & _ & _ & Fm & _). rewrite Fm. exact Hm.
Qed.

(** A [sd_mount] that has returned [True] leaves the flag set: it was set
    before, or the driver has accepted the mount and its answer was
    stored. *)
Lemma sd_mount_true_mounted part s w w0 :
  sd_mount part s w = (Ok true, w0) -> _sd_mounted w0 = true.
Proof.
  unfold sd_mount, bind at 1.
  destruct (_check_expired s w) as [[[]|e|] wa]; try discriminate.
  unfold bind, gets, ret, modify, call.
  destruct (_sd_mounted wa) eqn:Hm.
  - intros E. injection E as <-. exact Hm.
  - destruct (sdmux_controller wa) as [m|]; [|discriminate].
    destruct (mx_mount m part (hw wa)) as [st h]. intros E.
    injection E as -> <-. reflexivity.
Qed.

(** C10: no request clears the mounted flag.  Once a [sd_mount] has
    returned [True] the flag is set; whatever requests are served next
    (closing, opening, swapping, locking, raising or not), it is still set;
    and from then on, whatever mux driver [m'] the agent is left with, the
    same, another one or none, [sd_mount] does not reach a driver and, the
    lease being well-formed, returns [True] for every partition and
    session. *)
Theorem mounted_is_never_cleared fuel rs part0 s0 part s m' w w0 :
  sd_mount part0 s0 w = (Ok true, w0) ->
  let w1 := serve_all fuel rs w0 in
  let w2 := with_sdmux m' w1 in
  _sd_mounted w0 = true /\
  _sd_mounted w1 = true /\
  trace (snd (sd_mount part s w2)) = trace w1 /\
  hw (snd (sd_mount part s w2)) = hw w1 /\
  _sd_mounted (snd (sd_mount part s w2)) = true /\
  fst (sd_mount part s w2) <> Ok false /\
  (lease_wf w1 -> fst (sd_mount part s w2) = Ok true).
Proof.
  intros E w1 w2.
  pose proof (sd_mount_true_mounted part0 s0 w w0 E) as H0.
  assert (H1 : _sd_mounted w1 = true).
  { apply (serve_all_keeps _ mounted_stays_stepwise fuel rs
             sd_mount_keeps_mounted w0 H0). }
  assert (H2 : _sd_mounted w2 = true) by exact H1.
  split; [exact H0|]. split; [exact H1|].
  rewrite (sd_mount_mounted part s w2 H2). cbn [fst snd].
  pose proof (check_expired_frame s w2) as F. apply forget_lease_fields in F.
  destruct F as (_ & _ & _ & _ & Fm & _ & _ & _ & _ & _ & _ & _ & _ & _ & _ & Fh & Ft & _).
  change (trace w2) with (trace w1) in Ft. change (hw w2) with (hw w1) in Fh.
  repeat split; try congruence.
  - destruct (fst (_check_expired s w2)) as [[]| |]; discriminate.
  - intros WF. destruct (check_expired_total s w2 WF) as (wa & Ea & _).
    rewrite Ea. reflexivity.
Qed.

End Mounted.

(** ** Closing the write session *)

Section Close.

Context {HW zobj bobj : Type}.
Implicit Types (w : World HW zobj bobj) (s : session).

Lemma drop_decoders_id w :
  bz2dec w = None -> zdec w = None -> set_zdec None (set_bz2dec None w) = w.
Proof. destruct w; cbn; intros -> ->; reflexivity. Qed.

Lemma sd_close_not_opened s w w0 m :
  _check_expired s w = (Ok tt, w0) -> sdmux_controller w0 = Some m ->
  _sd_opened w0 = false ->
  sd_close s w = (Ok true, set_zdec None (set_bz2dec None w0)).
Proof.
  intros E Hm Ho. unfold sd_close. rewrite (bind_ok _ _ _ _ _ E).
  unfold bind, gets, modify, ret. rewrite Hm. cbn. rewrite Ho. cbn. rewrite Ho.
  reflexivity.
Qed.

Lemma sd_close_opened s w w0 m :
  _check_expired s w = (Ok tt, w0) -> sdmux_controller w0 = Some m ->
  _sd_opened w0 = true ->
  sd_close s w =
    (Ok (fst (mx_close m (hw w0))),
     set_sd_opened (negb (fst (mx_close m (hw w0))))
       (set_trace (trace w0 ++ [MuxClose])
          (set_hw (snd (mx_close m (hw w0))) (set_zdec None (set_bz2dec None w0))))).
Proof.
  intros E Hm Ho. unfold sd_close. rewrite (bind_ok _ _ _ _ _ E).
  unfold bind, gets, modify, ret, deref, call.
  repeat (progress (cbn; rewrite ?Ho, ?Hm)).
  destruct (mx_close m (hw w0)) as [r h]. cbn. rewrite Bool.negb_involutive.
  reflexivity.
Qed.

(** C5: with a mux driver whose [close()] succeeds, [sd_close] twice in a
    row returns [True] both times, leaves no decoder and [_sd_opened] false
    both times, and the second call does not reach the driver: it changes
    nothing but, through the expiry check, the lease. *)
Theorem sd_close_twice w s1 s2 m :
  sdmux_controller w = Some m -> lease_wf w -> fst (mx_close m (hw w)) = true ->
  exists w1 w2,
    sd_close s1 w = (Ok true, w1) /\ sd_close s2 w1 = (Ok true, w2) /\
    (_sd_opened w1 = false /\ bz2dec w1 = None /\ zdec w1 = None) /\
    (_sd_opened w2 = false /\ bz2dec w2 = None /\ zdec w2 = None) /\
    trace w1 = trace w ++ (if _sd_opened w then [MuxClose] else []) /\
    trace w2 = trace w1 /\ hw w2 = hw w1 /\
    forget_lease w2 = forget_lease w1 /\
    (_lock_owner w = None -> w2 = w1).
Proof.
  intros Hm WF Hc.
  destruct (check_expired_total s1 w WF) as (w0 & E0 & WF0 & F0).
  pose proof (forget_lease_fields _ _ F0) as
    (_ & _ & Fm & _ & _ & Fo & _ & _ & _ & _ & _ & _ & _ & _ & _ & Fh & Ft & _).
  assert (Hm0 : sdmux_controller w0 = Some m) by congruence.
  assert (second : forall w1,
             sd_close s1 w = (Ok true, w1) ->
             sdmux_controller w1 = Some m -> lease_wf w1 ->
             _sd_opened w1 = false -> bz2dec w1 = None -> zdec w1 = None ->
             (_lock_owner w = None -> _lock_owner w1 = None) ->
             trace w1 = trace w ++ (if _sd_opened w then [MuxClose] else []) ->
             exists w1 w2,
               sd_close s1 w = (Ok true, w1) /\ sd_close s2 w1 = (Ok true, w2) /\
               (_sd_opened w1 = false /\ bz2dec w1 = None /\ zdec w1 = None) /\
               (_sd_opened w2 = false /\ bz2dec w2 = None /\ zdec w2 = None) /\
               trace w1 = trace w ++ (if _sd_opened w then [MuxClose] else []) /\
               trace w2 = trace w1 /\ hw w2 = hw w1 /\
               forget_lease w2 = forget_lease w1 /\
               (_lock_owner w = None -> w2 = w1)).
  { intros w1 C1 Hm1 WF1 Ho1 Hb1 Hz1 Hn1 Ht1.
    destruct (check_expired_total s2 w1 WF1) as (w1' & E1 & _ & F1).
    pose proof (forget_lease_fields _ _ F1) as
      (_ & _ & Gm & _ & _ & Go & _ & Gb & Gz & _ & _ & _ & _ & _ & _ & Gh & Gt & _).
    assert (D : set_zdec None (set_bz2dec None w1') = w1').
    { apply drop_decoders_id; congruence. }
    exists w1, w1'. split; [exact C1|]. split.
    - rewrite (sd_close_not_opened s2 w1 w1' m E1); [rewrite D; reflexivity| |]; congruence.
    - repeat split; try congruence.
      intros N. specialize (Hn1 N).
      rewrite check_expired_falsy in E1 by (rewrite Hn1; reflexivity). congruence. }
  destruct (_sd_opened w) eqn:Ho.
  - eapply second.
    + rewrite (sd_close_opened s1 w w0 m E0 Hm0) by congruence.
      rewrite Fh, Hc. reflexivity.
    + cbn. exact Hm0.
    + intros T. cbn in *. apply WF0. exact T.
    + reflexivity.
    + reflexivity.
    + reflexivity.
    + intros N. cbn. rewrite check_expired_falsy in E0 by (rewrite N; reflexivity).
      congruence.
    + cbn. rewrite Ft. reflexivity.
  - eapply second.
    + apply (sd_close_not_opened s1 w w0 m E0 Hm0). congruence.
    + cbn. exact Hm0.
    + intros T. cbn in *. apply WF0. exact T.
    + cbn. congruence.
    + reflexivity.
    + reflexivity.
    + intros N. cbn. rewrite check_expired_falsy in E0 by (rewrite N; reflexivity).
      congruence.
    + cbn. rewrite Ft, app_nil_r. reflexivity.
Qed.

End Close.

(** ** The gate of the host/target swap *)

Section Swap.

Context {HW zobj bobj : Type}.
Implicit Types (w : World HW zobj bobj) (s : session).



Lemma check_locked_run s w :
  _check_locked s w =
    (Ok match _lock_owner w with
        | None => false
        | Some _ => negb (session_eqb s (_lock_owner w))
        end, w).
Proof.
  unfold _check_locked, target_owner, bind, gets, ret.
  destruct (_lock_owner w); [|reflexivity].
  destruct (session_eqb s _); reflexivity.
Qed.




(** When [sd_locked] answers [True], neither swap does anything more. *)
Lemma swap_refused s w w0 w1 :
  _check_expired s w = (Ok tt, w0) -> sd_locked s w0 = (Ok true, w1) ->
  sd_to_host s w = (Ok false, w1) /\ sd_to_target s w = (Ok false, w1).
Proof.
  intros E L. unfold sd_to_host, sd_to_target.
  rewrite !(bind_ok _ _ _ _ _ E), !(bind_ok _ _ _ _ _ L). split; reflexivity.
Qed.



End Swap.

(** ** What a lease held by another session stops, and what it does not *)

Section Foreign.

Context {HW zobj bobj : Type}.
Implicit Types (w : World HW zobj bobj) (s : session).

Lemma trace_grows_stepwise : stepwise (@trace_grows HW zobj bobj).
Proof.
  constructor; unfold trace_grows; intros; cbn;
    try (exists []; rewrite app_nil_r; reflexivity).
  - destruct H as [t Ht], H0 as [u Hu]. exists (t ++ u).
    rewrite Hu, Ht. symmetry. apply app_assoc.
  - eexists. reflexivity.
Qed.

Lemma driver_calls_app t u : driver_calls (t ++ u) = driver_calls t ++ driver_calls u.
Proof. apply filter_app. Qed.

(** The log and the hardware of worlds that agree up to the lease. *)
Lemma frame_env w w' :
  forget_lease w' = forget_lease w -> trace w' = trace w /\ hw w' = hw w.
Proof. intros F. apply forget_lease_fields in F. split; apply F. Qed.

Lemma held_owner a e k w :
  held_until a e k w -> _lock_owner w = Some a /\ _lock_expiry w = Some e.
Proof. intros (O & X & _). split; assumption. Qed.

Lemma target_on_held b a e w :
  b <> Some a -> held_until a e 2 w ->
  exists w', target_on b w = (Ok false, w') /\
             driver_calls (trace w') = driver_calls (trace w) /\
             _lock_owner w' = Some a /\ _lock_expiry w' = Some e.
Proof.
  intros N H.
  assert (G : forall wa, held_until a e 2 wa ->
            exists w', bind (_check_expired b) (fun _ =>
                         bind (power_locked b) (fun locked =>
                           if negb locked
                           then bind (deref power_controller)
                                  (fun p => call PowerOn (pc_on p))
                           else ret false)) wa = (Ok false, w') /\
                       trace w' = trace wa /\
                       _lock_owner w' = Some a /\ _lock_expiry w' = Some e).
  { intros wa Ha.
    destruct (check_expired_held b a e 1 wa N Ha) as (w0 & E0 & H0 & F0).
    destruct (power_locked_held b a e 0 w0 N H0) as (w1 & L & H1 & F1).
    exists w1. rewrite (bind_ok _ _ _ _ _ E0), (bind_ok _ _ _ _ _ L).
    split; [reflexivity|]. apply frame_env in F0, F1. apply held_owner in H1.
    intuition congruence. }
  unfold target_on. unfold bind at 1, gets at 1.
  destruct (console_logger w) as [l|] eqn:Hl.
  - unfold bind at 1, logger_do at 1. unfold bind at 1, deref at 1. rewrite Hl.
    unfold bind at 1, call at 1. destruct (cl_call l LResume (hw w)) as [r h].
    unfold ret at 1.
    destruct (G (set_trace (trace w ++ [LoggerCall LResume]) (set_hw h w)))
      as (w' & E & T & O); [exact H|].
    exists w'. split; [exact E|]. split; [|exact O].
    rewrite T. cbn. rewrite driver_calls_app. cbn. apply app_nil_r.
  - unfold bind at 1, ret at 1.
    destruct (G w H) as (w' & E & T & O).
    exists w'. split; [exact E|]. split; [congruence|exact O].
Qed.

Lemma target_off_held b a e w :
  b <> Some a -> held_until a e 2 w ->
  exists w', target_off b w = (Ok false, w') /\
             trace w' = trace w /\ hw w' = hw w /\
             _lock_owner w' = Some a /\ _lock_expiry w' = Some e.
Proof.
  intros N H.
  destruct (check_expired_held b a e 1 w N H) as (w0 & E0 & H0 & F0).
  destruct (power_locked_held b a e 0 w0 N H0) as (w1 & L & H1 & F1).
  exists w1. unfold target_off.
  rewrite (bind_ok _ _ _ _ _ E0), (bind_ok _ _ _ _ _ L).
  split; [reflexivity|]. apply frame_env in F0, F1. apply held_owner in H1.
  intuition congruence.
Qed.

Lemma target_toggle_held b a e w p :
  b <> Some a -> held_until a e 2 w -> power_controller w = Some p ->
  exists w', target_toggle b w = (Ok (POWER_LOCKED p), w') /\
             trace w' = trace w /\ hw w' = hw w /\
             _lock_owner w' = Some a /\ _lock_expiry w' = Some e.
Proof.
  intros N H Hp.
  destruct (check_expired_held b a e 1 w N H) as (w0 & E0 & H0 & F0).
  destruct (power_locked_held b a e 0 w0 N H0) as (w1 & L & H1 & F1).
  exists w1. unfold target_toggle.
  rewrite (bind_ok _ _ _ _ _ E0), (bind_ok _ _ _ _ _ L).
  assert (Hp1 : power_controller w1 = Some p).
  { apply forget_lease_fields in F0, F1.
    destruct F0 as (_ & -> & _) in F1. destruct F1 as (_ & -> & _). exact Hp. }
  split.
  - cbn [negb]. unfold bind, deref, ret. rewrite Hp1. reflexivity.
  - apply frame_env in F0, F1. apply held_owner in H1. intuition congruence.
Qed.

Lemma sd_swap_held b a e w :
  b <> Some a -> held_until a e 2 w ->
  exists w', sd_to_host b w = (Ok false, w') /\ sd_to_target b w = (Ok false, w') /\
             trace w' = trace w /\ hw w' = hw w /\
             _lock_owner w' = Some a /\ _lock_expiry w' = Some e.
Proof.
  intros N H.
  destruct (check_expired_held b a e 1 w N H) as (w0 & E0 & H0 & F0).
  destruct (sd_locked_held b a e 0 w0 N H0) as (w1 & L & H1 & F1).
  exists w1. destruct (swap_refused b w w0 w1 E0 L) as [-> ->].
  split; [reflexivity|]. split; [reflexivity|].
  apply frame_env in F0, F1. apply held_owner in H1. intuition congruence.
Qed.

Lemma sd_write_raw_held b a e w m data :
  b <> Some a -> held_until a e 1 w -> sdmux_controller w = Some m ->
  exists st w', sd_write_raw data b w = (Ok st, w') /\
                trace w' = trace w ++ [MuxWrite data].
Proof.
  intros N H Hm.
  destruct (check_expired_held b a e 0 w N H) as (w0 & E0 & _ & F0).
  pose proof (forget_lease_fields _ _ F0) as
    (_ & _ & Fm & _ & _ & _ & _ & _ & _ & _ & _ & _ & _ & _ & _ & Fh & Ft & _).
  unfold sd_write_raw. rewrite (bind_ok _ _ _ _ _ E0). mrun. rewrite Fm, Hm. cbn.
  destruct (mx_write m data (hw w0)) as [st h]. cbn.
  destruct st; cbn; eexists; eexists; (split; [reflexivity|]); cbn; congruence.
Qed.

Lemma sd_mount_held b a e w m part :
  b <> Some a -> held_until a e 1 w -> sdmux_controller w = Some m ->
  _sd_mounted w = false ->
  exists st w', sd_mount part b w = (Ok st, w') /\
                trace w' = trace w ++ [MuxMount part].
Proof.
  intros N H Hm Hn.
  destruct (check_expired_held b a e 0 w N H) as (w0 & E0 & _ & F0).
  pose proof (forget_lease_fields _ _ F0) as
    (_ & _ & Fm & _ & Fn & _ & _ & _ & _ & _ & _ & _ & _ & _ & _ & Fh & Ft & _).
  unfold sd_mount. rewrite (bind_ok _ _ _ _ _ E0). mrun. rewrite Fn, Hn. cbn.
  rewrite Fm, Hm. cbn.
  destruct (mx_mount m part (hw w0)) as [st h]. cbn.
  eexists; eexists; (split; [reflexivity|]); cbn; congruence.
Qed.

Lemma sd_close_held b a e w m :
  b <> Some a -> held_until a e 1 w -> sdmux_controller w = Some m ->
  _sd_opened w = true ->
  exists st w', sd_close b w = (Ok st, w') /\ trace w' = trace w ++ [MuxClose].
Proof.
  intros N H Hm Ho.
  destruct (check_expired_held b a e 0 w N H) as (w0 & E0 & _ & F0).
  pose proof (forget_lease_fields _ _ F0) as
    (_ & _ & Fm & _ & _ & Fo & _ & _ & _ & _ & _ & _ & _ & _ & _ & Fh & Ft & _).
  rewrite (sd_close_opened b w w0 m E0) by congruence.
  eexists; eexists; (split; [reflexivity|]); cbn; congruence.
Qed.

Lemma sd_open_held b a e w m :
  b <> Some a -> held_until a e 2 w -> sdmux_controller w = Some m ->
  exists st w', sd_open b w = (Ok st, w') /\
                trace w' = trace w ++ (if _sd_opened w then [MuxClose] else [])
                             ++ [MuxOpen].
Proof.
  intros N H Hm.
  destruct (check_expired_held b a e 1 w N H) as (w0 & E0 & H0 & F0).
  assert (N' : None <> Some a) by discriminate.
  destruct (check_expired_held None a e 0 w0 N' H0) as (w1 & E1 & _ & F1).
  pose proof (forget_lease_fields _ _ F0) as
    (_ & _ & Fm & _ & _ & Fo & _ & _ & _ & _ & _ & _ & _ & _ & _ & Fh & Ft & _).
  pose proof (forget_lease_fields _ _ F1) as
    (_ & _ & Gm & _ & _ & Go & _ & _ & _ & _ & _ & _ & _ & _ & _ & Gh & Gt & _).
  assert (Hm1 : sdmux_controller w1 = Some m) by congruence.
  unfold sd_open. rewrite (bind_ok _ _ _ _ _ E0).
  unfold bind at 1, gets at 1. rewrite Fm, Hm.
  destruct (_sd_opened w) eqn:Ho.
  - rewrite (bind_ok _ _ _ _ _ (sd_close_opened None w0 w1 m E1 Hm1 ltac:(congruence))).
    mrun. rewrite Hm1. cbn.
    destruct (mx_open m _) as [st h]. cbn.
    eexists; eexists; (split; [reflexivity|]); cbn.
    rewrite Gt, Ft, <- app_assoc. reflexivity.
  - rewrite (bind_ok _ _ _ _ _ (sd_close_not_opened None w0 w1 m E1 Hm1 ltac:(congruence))).
    mrun. rewrite Hm1. cbn.
    destruct (mx_open m _) as [st h]. cbn.
    eexists; eexists; (split; [reflexivity|]); cbn. congruence.
Qed.

Lemma sd_write_gz_held b a e w m fuel data out d' :
  b <> Some a -> held_until a e 1 w -> sdmux_controller w = Some m ->
  data <> [] ->
  z_decompress (zlib w)
    (match zdec w with Some d => d | None => decompressobj (zlib w) end)
    data (blksz w) = inr (out, d') ->
  exists t, trace (snd (sd_write_gz (S fuel) data b w)) = trace w ++ MuxWrite out :: t.
Proof.
  intros N H Hm Hd Hz.
  destruct (check_expired_held b a e 0 w N H) as (w0 & E0 & _ & F0).
  pose proof (forget_lease_fields _ _ F0) as
    (_ & _ & Fm & _ & _ & _ & Fb & _ & Fz & _ & _ & _ & _ & Fl & _ & Fh & Ft & _).
  assert (L : (len data =? 0) = false).
  { destruct data; [contradiction|]. unfold len. cbn [List.length]. apply Z.eqb_neq. lia. }
  unfold sd_write_gz. rewrite (bind_ok _ _ _ _ _ E0).
  unfold bind at 1, gets at 1. rewrite Fm, Hm.
  unfold bind at 1. unfold bind at 1, gets at 1. rewrite Fz.
  destruct (zdec w) as [d|] eqn:Hzd.
  - unfold ret at 1. rewrite L. unfold bind at 1, ret at 1.
    unfold bind at 1, time_monotonic at 1.
    match goal with
    | |- context [sd_write_gz_loop _ _ ?st ?wx] =>
        destruct (sd_write_gz_loop_first trace_grows trace_grows_stepwise
                    fuel data st wx d m out d') as [t Ht];
          [cbn; congruence | cbn; congruence | cbn; congruence |]
    end.
    exists t. rewrite Ht. cbn. rewrite Ft, <- app_assoc. reflexivity.
  - unfold bind at 1, gets at 1. unfold modify at 1. rewrite L.
    unfold bind at 1, ret at 1. unfold bind at 1, time_monotonic at 1.
    match goal with
    | |- context [sd_write_gz_loop _ _ ?st ?wx] =>
        destruct (sd_write_gz_loop_first trace_grows trace_grows_stepwise
                    fuel data st wx (decompressobj (zlib w)) m out d') as [t Ht];
          [cbn; congruence | cbn; congruence | cbn; congruence |]
    end.
    exists t. rewrite Ht. cbn. rewrite Ft, <- app_assoc. reflexivity.
Qed.

Lemma sd_write_bz2_held b a e w m fuel data out d' :
  b <> Some a -> held_until a e 1 w -> sdmux_controller w = Some m ->
  b_decompress (bz2 w)
    (match bz2dec w with Some d => d | None => BZ2Decompressor (bz2 w) end)
    data (blksz w) = inr (out, d') ->
  exists t, trace (snd (sd_write_bz2 (S fuel) data b w)) = trace w ++ MuxWrite out :: t.
Proof.
  intros N H Hm Hz.
  destruct (check_expired_held b a e 0 w N H) as (w0 & E0 & _ & F0).
  pose proof (forget_lease_fields _ _ F0) as
    (_ & _ & Fm & _ & _ & _ & Fb & Fz & _ & _ & _ & _ & _ & _ & Fl & Fh & Ft & _).
  unfold sd_write_bz2. rewrite (bind_ok _ _ _ _ _ E0).
  unfold bind at 1, gets at 1. rewrite Fm, Hm.
  unfold bind at 1. unfold bind at 1, gets at 1. rewrite Fz.
  destruct (bz2dec w) as [d|] eqn:Hzd.
  - unfold ret at 1. unfold bind at 1, time_monotonic at 1.
    match goal with
    | |- context [sd_write_bz2_loop _ _ ?st ?wx] =>
        destruct (sd_write_bz2_loop_first trace_grows trace_grows_stepwise
                    fuel data st wx d m out d') as [t Ht];
          [cbn; congruence | cbn; congruence | cbn; congruence |]
    end.
    exists t. rewrite Ht. cbn. rewrite Ft, <- app_assoc. reflexivity.
  - unfold bind at 1, gets at 1. unfold modify at 1.
    unfold bind at 1, time_monotonic at 1.
    match goal with
    | |- context [sd_write_bz2_loop _ _ ?st ?wx] =>
        destruct (sd_write_bz2_loop_first trace_grows trace_grows_stepwise
                    fuel data st wx (BZ2Decompressor (bz2 w)) m out d') as [t Ht];
          [cbn; congruence | cbn; congruence | cbn; congruence |]
    end.
    exists t. rewrite Ht. cbn. rewrite Ft, <- app_assoc. reflexivity.
Qed.

(** C1 (as amended): while [a] holds the lease (owner and expiry set, the
    expiry not reached during the call), a call by another session [b] to
    power on, off or toggle or to either swap returns the locked value
    ([False]; the controller's [POWER_LOCKED] for toggle, given a power
    controller) with no call to the power or mux driver and the lease left
    as it was.  The write-pipeline operations are not gated by the lease:
    with a mux driver, [b]'s [sd_open], [sd_close], [sd_mount],
    [sd_write_raw], [sd_write_gz] and [sd_write_bz2] reach the driver. *)
Theorem foreign_lease_gate b a e w :
  b <> Some a -> held_until a e 2 w ->
  (exists w', target_on b w = (Ok false, w') /\
              driver_calls (trace w') = driver_calls (trace w) /\
              _lock_owner w' = Some a /\ _lock_expiry w' = Some e) /\
  (exists w', target_off b w = (Ok false, w') /\
              trace w' = trace w /\ hw w' = hw w /\
              _lock_owner w' = Some a /\ _lock_expiry w' = Some e) /\
  (forall p, power_controller w = Some p ->
   exists w', target_toggle b w = (Ok (POWER_LOCKED p), w') /\
              trace w' = trace w /\ hw w' = hw w /\
              _lock_owner w' = Some a /\ _lock_expiry w' = Some e) /\
  (exists w', sd_to_host b w = (Ok false, w') /\ sd_to_target b w = (Ok false, w') /\
              trace w' = trace w /\ hw w' = hw w /\
              _lock_owner w' = Some a /\ _lock_expiry w' = Some e) /\
  (forall m, sdmux_controller w = Some m ->
     (exists st w', sd_open b w = (Ok st, w') /\
        trace w' = trace w ++ (if _sd_opened w then [MuxClose] else []) ++ [MuxOpen]) /\
     (_sd_opened w = true ->
      exists st w', sd_close b w = (Ok st, w') /\ trace w' = trace w ++ [MuxClose]) /\
     (forall part, _sd_mounted w = false ->
      exists st w', sd_mount part b w = (Ok st, w') /\
                    trace w' = trace w ++ [MuxMount part]) /\
     (forall data,
      exists st w', sd_write_raw data b w = (Ok st, w') /\
                    trace w' = trace w ++ [MuxWrite data]) /\
     (forall fuel data out d', data <> [] ->
      z_decompress (zlib w)
        (match zdec w with Some d => d | None => decompressobj (zlib w) end)
        data (blksz w) = inr (out, d') ->
      exists t, trace (snd (sd_write_gz (S fuel) data b w))
                = trace w ++ MuxWrite out :: t) /\
     (forall fuel data out d',
      b_decompress (bz2 w)
        (match bz2dec w with Some d => d | None => BZ2Decompressor (bz2 w) end)
        data (blksz w) = inr (out, d') ->
      exists t, trace (snd (sd_write_bz2 (S fuel) data b w))
                = trace w ++ MuxWrite out :: t)).
Proof.
  intros N H.
  assert (H1 : held_until a e 1 w) by (apply (held_until_weaken a e 2); [lia|exact H]).
  split; [apply (target_on_held b a e w N H)|].
  split; [apply (target_off_held b a e w N H)|].
  split; [intros p; apply (target_toggle_held b a e w p N H)|].
  split; [apply (sd_swap_held b a e w N H)|].
  intros m Hm.
  split; [apply (sd_open_held b a e w m N H Hm)|].
  split; [apply (sd_close_held b a e w m N H1 Hm)|].
  split; [intros part; apply (sd_mount_held b a e w m part N H1 Hm)|].
  split; [intros data; apply (sd_write_raw_held b a e w m data N H1 Hm)|].
  split.
  - intros fuel data out d'. apply (sd_write_gz_held b a e w m fuel data out d' N H1 Hm).
  - intros fuel data out d'. apply (sd_write_bz2_held b a e w m fuel data out d' N H1 Hm).
Qed.

End Foreign.

(** ** USB switches addressed by index *)

Section Usb.

Context {HW zobj bobj : Type}.
Implicit Types (w : World HW zobj bobj) (s : session).

Lemma index_out_of_range {A} (xs : list A) (i : Z) w :
  len xs <= i -> index xs i w = (Raise IndexError, w).
Proof.
  intros H. unfold index, len in *.
  destruct (Z.ltb_spec i 0); [lia|]. destruct (Z.ltb_spec i 0); [lia|].
  destruct (nth_error xs (Z.to_nat i)) eqn:E; [|reflexivity].
  assert (nth_error xs (Z.to_nat i) <> None) by congruence.
  apply nth_error_Some in H2. lia.
Qed.

(** C8 (as amended): an index of 0 or less is skipped in silence -- the
    call returns, nothing is printed, [usb_status] answers "???" -- and an
    index above the number of switches is reported: the call returns, the
    message goes to stderr and [usb_status] answers "ERR".  Both ways no
    switch is called: nothing changes but the lease, through the expiry
    check, and stderr. *)
Theorem usb_bad_index s w ndx :
  lease_wf w ->
  exists w0,
    _check_expired s w = (Ok tt, w0) /\ forget_lease w0 = forget_lease w /\
    (ndx <= 0 ->
       usb_on ndx s w = (Ok tt, w0) /\ usb_off ndx s w = (Ok tt, w0) /\
       usb_toggle ndx s w = (Ok tt, w0) /\ usb_status ndx s w = (Ok "???", w0)) /\
    (len (usb_switches w) < ndx ->
       let w1 := set_stderr (stderr w0 ++ [invalid_switch ndx]) w0 in
       usb_on ndx s w = (Ok tt, w1) /\ usb_off ndx s w = (Ok tt, w1) /\
       usb_toggle ndx s w = (Ok tt, w1) /\ usb_status ndx s w = (Ok "ERR", w1)).
Proof.
  intros WF. destruct (check_expired_total s w WF) as (w0 & E & _ & F).
  exists w0. split; [exact E|]. split; [exact F|].
  pose proof (forget_lease_fields _ _ F) as
    (_ & _ & _ & _ & _ & _ & _ & _ & _ & _ & _ & Fu & _).
  split.
  - intros Hn. assert (G : (ndx >? 0) = false) by (rewrite Z.gtb_ltb; apply Z.ltb_ge; lia).
    unfold usb_on, usb_off, usb_toggle, usb_status.
    rewrite !(bind_ok _ _ _ _ _ E), G. repeat split; reflexivity.
  - intros Hn w1.
    assert (G : (ndx >? 0) = true).
    { rewrite Z.gtb_ltb. apply Z.ltb_lt. unfold len in Hn. lia. }
    assert (I : index (usb_switches w0) (ndx - 1) w0 = (Raise IndexError, w0)).
    { apply index_out_of_range. rewrite Fu. lia. }
    assert (K : forall B (k : UsbSwitch HW -> M B),
               bind (gets usb_switches) (fun sw => bind (index sw (ndx - 1)) k) w0
               = (Raise IndexError, w0)).
    { intros B k. unfold bind, gets. rewrite I. reflexivity. }
    unfold usb_on, usb_off, usb_toggle, usb_status.
    rewrite !(bind_ok _ _ _ _ _ E), G.
    repeat split; [| | |unfold bind at 1]; unfold try_except; rewrite K; reflexivity.
Qed.

End Usb.

(** ** Calls that raise *)

Section Raising.

Context {HW zobj bobj : Type}.
Implicit Types (w : World HW zobj bobj) (s : session).

Lemma power_locked_after s w w0 :
  _check_expired s w = (Ok tt, w0) ->
  power_locked s w =
    (Ok (match _lock_owner w0 with
         | None => false
         | Some _ => negb (session_eqb s (_lock_owner w0))
         end
         || match power_controller w0 with None => true | Some _ => false end), w0).
Proof.
  intros E. unfold power_locked.
  rewrite (bind_ok _ _ _ _ _ E), (bind_ok _ _ _ _ _ (check_locked_run s w0)).
  destruct (match _lock_owner w0 with
            | None => false
            | Some _ => negb (session_eqb s (_lock_owner w0))
            end); [reflexivity|].
  unfold bind, gets. destruct (power_controller w0); reflexivity.
Qed.

(** C9 (the code at the failing inputs): with no power controller
    configured, [target_toggle] does not return a sentinel: it reads
    [POWER_LOCKED] from the controller that is not there and raises
    [AttributeError].  With a mux driver configured, [sd_write_gz] given an
    empty buffer raises as well: [AttributeError] when [self.zdata] was never
    assigned, [TypeError] when it holds [None]. *)
Theorem unavailable_raises s w :
  lease_wf w ->
  (power_controller w = None -> fst (target_toggle s w) = Raise AttributeError) /\
  (forall m fuel, sdmux_controller w = Some m -> zdata w = Unset ->
     fst (sd_write_gz fuel [] s w) = Raise AttributeError) /\
  (forall m fuel, sdmux_controller w = Some m -> zdata w = Value None ->
     fst (sd_write_gz (S fuel) [] s w) = Raise TypeError).
Proof.
  intros WF. destruct (check_expired_total s w WF) as (w0 & E & WF0 & F).
  pose proof (forget_lease_fields _ _ F) as
    (_ & Fp & Fm & _ & _ & _ & _ & _ & Fz & Fd & _).
  repeat split.
  - intros Hp. unfold target_toggle. rewrite (bind_ok _ _ _ _ _ E).
    destruct (check_expired_total s w0 WF0) as (w1 & E1 & _ & F1).
    pose proof (forget_lease_fields _ _ F1) as (_ & Gp & _).
    rewrite (bind_ok _ _ _ _ _ (power_locked_after s w0 w1 E1)).
    rewrite Gp, Fp, Hp, Bool.orb_true_r. cbn [negb].
    unfold bind, deref. rewrite Gp, Fp, Hp. reflexivity.
  - intros m fuel Hm Hz. unfold sd_write_gz. rewrite (bind_ok _ _ _ _ _ E).
    mrun. rewrite Fm, Hm. cbn. destruct (zdec w0); cbn; rewrite Fd, Hz; reflexivity.
  - intros m fuel Hm Hz. unfold sd_write_gz. rewrite (bind_ok _ _ _ _ _ E).
    mrun. rewrite Fm, Hm. cbn.
    destruct (zdec w0) eqn:Z0; cbn; rewrite Fd, Hz; cbn;
      unfold _sd_write_gz, zdec_decompress; mrun; rewrite ?Z0; reflexivity.
Qed.

End Raising.

(** ** The gzip path *)

Lemma sink_app t u : sink (t ++ u) = sink t ++ sink u.
Proof.
  induction t as [|e t IH]; [reflexivity|].
  destruct e; cbn; rewrite ?IH, ?app_assoc; reflexivity.
Qed.

Lemma len_app {A} (l l' : list A) : len (l ++ l') = len l + len l'.
Proof. unfold len. rewrite length_app. lia. Qed.

Lemma len_nonneg {A} (l : list A) : 0 <= len l.
Proof. unfold len. lia. Qed.

Lemma len_pos_iff {A} (l : list A) : (len l >? 0) = true <-> l <> [].
Proof.
  rewrite Z.gtb_ltb, Z.ltb_lt. unfold len.
  destruct l; cbn [List.length]; split; intros; try congruence; lia.
Qed.

Section GzipPath.

Context {HW zobj bobj : Type}.
Variable m : SdmuxController HW.
Variable Zl : ZlibModule zobj.
Variable K : GzipContract Zl.
Variable B : Z.
Variables x0 x : bytes.
Hypothesis accepts : always_accepts m.
Hypothesis B_pos : 0 < B.
Implicit Types (w : World HW zobj bobj) (s : session).

Local Abbreviation inv := (gz_inv m Zl K B x0 x).
Local Abbreviation after := (gz_after m Zl K B x0 x).

(** One decompress-and-write with the decompressor in place. *)
Lemma gz_turn data rest rx w d :
  inv w (data ++ rest) rx -> zdec w = Some d ->
  exists out tail rx' w',
    _sd_write_gz (Some data) w = (Ok (if len tail >? 0 then 0 else B), w') /\
    inv w' (tail ++ rest) rx' /\
    (exists d', zdec w' = Some d' /\ unconsumed_tail Zl d' = tail) /\
    zdata w' = zdata w /\
    rx = out ++ rx' /\ (tail <> [] -> len out = B).
Proof.
  intros (Hm & Hz & Hb & WF & Hr & Hs & Hn) Hd.
  unfold cur_zdec in Hr. rewrite Hd in Hr.
  destruct (gz_step K d (data ++ rest) rx data rest B Hr B_pos eq_refl)
    as (out & d' & used & rx' & Hdec & Hdata & Hrx & Hr' & Hle & Hfull).
  pose proof (accepts out (hw w)) as Hacc.
  destruct (mx_write m out (hw w)) as [st h] eqn:Hw. cbn in Hacc. subst st.
  exists out, (unconsumed_tail Zl d'), rx'.
  eexists. split.
  - unfold _sd_write_gz, zdec_decompress. mrun. rewrite Hd. cbn.
    rewrite Hz, Hb, Hdec. cbn. rewrite Hm. cbn. rewrite Hw. cbn. rewrite Hz.
    destruct (len (unconsumed_tail Zl d') >? 0); cbn; [reflexivity|].
    rewrite Hb. reflexivity.
  - split; [|split; [|split; [|split]]].
    + unfold gz_inv, cur_zdec. cbn. rewrite Hz.
      split; [exact Hm|]. split; [reflexivity|]. split; [exact Hb|].
      split; [exact WF|]. split; [exact Hr'|]. split.
      * rewrite sink_app. cbn. rewrite app_nil_r, <- app_assoc, <- Hrx. exact Hs.
      * rewrite Hrx, len_app in Hn. lia.
    + exists d'. split; reflexivity.
    + reflexivity.
    + exact Hrx.
    + exact Hfull.
Qed.

Lemma gz_inv_env w w' rc rx :
  sdmux_controller w' = sdmux_controller w -> zlib w' = zlib w ->
  blksz w' = blksz w -> _lock_owner w' = _lock_owner w ->
  _lock_expiry w' = _lock_expiry w -> zdec w' = zdec w ->
  trace w' = trace w -> _sd_bytes_written w' = _sd_bytes_written w ->
  inv w rc rx -> inv w' rc rx.
Proof.
  unfold gz_inv, cur_zdec, lease_wf.
  intros -> -> -> -> -> -> -> -> H. exact H.
Qed.

Lemma gz_inv_frame w w' rc rx :
  forget_lease w' = forget_lease w -> lease_wf w' -> inv w rc rx -> inv w' rc rx.
Proof.
  intros F WF (Hm & Hz & Hb & _ & Hr & Hs & Hn).
  pose proof (forget_lease_fields _ _ F) as
    (_ & _ & Fm & Fn & _ & _ & Fb & _ & Fz & _ & _ & _ & _ & Fl & _ & _ & Ft & _).
  unfold gz_inv, cur_zdec. rewrite Fm, Fl, Fb, Fz, Ft, Fn.
  repeat split; assumption.
Qed.

(** The [while] loop of [sd_write_gz] ends within [length rx + 1] turns. *)
Lemma gz_loop n :
  forall fuel data rest rx start w d,
    (List.length rx <= n)%nat -> (n < fuel)%nat ->
    inv w (data ++ rest) rx -> zdec w = Some d ->
    exists st w',
      sd_write_gz_loop fuel (Some data) start w = (Ok st, w') /\
      after rest rx st w'.
Proof.
  induction n as [|n IH]; intros fuel data rest rx start w d Hn Hf Hi Hd;
    (destruct fuel as [|fuel]; [lia|]);
    destruct (gz_turn data rest rx w d Hi Hd)
      as (out & tail & rx' & w1 & E & Hi1 & (d1 & Hd1 & Ht1) & Hz1 & Hrx & Hfull);
    cbn [sd_write_gz_loop]; rewrite (bind_ok _ _ _ _ _ E);
    pose proof Hi1 as (_ & Hzl & _);
    assert (Hle : (List.length rx' <= List.length rx)%nat)
      by (rewrite Hrx, length_app; lia);
    (destruct (len tail >? 0) eqn:Ht;
     [ apply len_pos_iff in Ht; pose proof (Hfull Ht) as Hout
     | assert (tail = []) by
         (destruct tail; [reflexivity|]; exfalso;
          assert ((len (b :: tail) >? 0) = true) by (apply len_pos_iff; discriminate);
          congruence) ]).
  - (* no content left, yet a full block: impossible *)
    exfalso. destruct rx; [|cbn in Hn; lia]. destruct out; [|discriminate].
    unfold len in Hout. cbn in Hout. lia.
  - exists B, (set_zdata (Value None) w1).
    split; [mrun; destruct (Z.eqb_spec B 0); [lia|]; reflexivity|].
    exists [], rx'. split; [|split; [|split]].
    + rewrite H in Hi1. revert Hi1. apply gz_inv_env; reflexivity.
    + exists d1. exact Hd1.
    + exact Hle.
    + left. repeat split; reflexivity.
  - assert (Hlt : (List.length rx' < List.length rx)%nat).
    { rewrite Hrx, length_app. unfold len in Hout. lia. }
    unfold bind at 1, modify at 1. cbn [negb Z.eqb].
    unfold bind at 1, deref at 1. cbn [zdec set_zdata]. rewrite Hd1.
    unfold bind at 1, gets at 1. cbn [zlib set_zdata]. rewrite Hzl, Ht1.
    unfold bind at 1, time_monotonic at 1.
    unfold bind at 1, gets at 1.
    match goal with
    | |- context [if ?c then _ else _] => destruct c
    end.
    + eexists 0, _. split; [reflexivity|].
      exists tail, rx'. split; [|split; [|split]].
      * revert Hi1. apply gz_inv_env; reflexivity.
      * exists d1. exact Hd1.
      * exact Hle.
      * right. repeat split; try reflexivity; assumption.
    + match goal with
      | |- context [sd_write_gz_loop fuel (Some tail) start ?w2] =>
          destruct (IH fuel tail rest rx' start w2 d1)
            as (st & w' & E' & data' & rx'' & Hi' & Hd' & Hle' & Hcase);
            [lia | lia | revert Hi1; apply gz_inv_env; reflexivity | exact Hd1 |]
      end.
      exists st, w'. split; [exact E'|].
      exists data', rx''. split; [exact Hi'|]. split; [exact Hd'|].
      split; [lia|].
      destruct Hcase as [?|(? & ? & ? & ?)]; [left; assumption|right].
      repeat split; try assumption. lia.
  - exists B, (set_zdata (Value None) w1).
    split; [mrun; destruct (Z.eqb_spec B 0); [lia|]; reflexivity|].
    exists [], rx'. split; [|split; [|split]].
    + rewrite H in Hi1. revert Hi1. apply gz_inv_env; reflexivity.
    + exists d1. exact Hd1.
    + exact Hle.
    + left. repeat split; reflexivity.
Qed.

(** A call with the next fragment. *)
Lemma gz_call_fragment fuel F rest rx s w :
  inv w (F ++ rest) rx -> F <> [] -> (List.length rx < fuel)%nat ->
  exists st w', sd_write_gz fuel F s w = (Ok st, w') /\ after rest rx st w'.
Proof.
  intros Hi HF Hf. pose proof Hi as (Hm & Hz & _ & WF & _).
  destruct (check_expired_total s w WF) as (w0 & E & WF0 & F0).
  pose proof (gz_inv_frame w w0 _ _ F0 WF0 Hi) as Hi0.
  pose proof Hi0 as (Hm0 & Hz0 & _).
  assert (L : (len F =? 0) = false).
  { destruct F; [contradiction|]. unfold len. cbn [List.length]. apply Z.eqb_neq. lia. }
  unfold sd_write_gz. rewrite (bind_ok _ _ _ _ _ E).
  unfold bind at 1, gets at 1. rewrite Hm0.
  unfold bind at 1. unfold bind at 1, gets at 1.
  destruct (zdec w0) as [d|] eqn:Hd.
  - unfold ret at 1. rewrite L. unfold bind at 1, ret at 1.
    unfold bind at 1, time_monotonic at 1.
    apply (gz_loop (List.length rx) fuel F rest rx _ _ d); [lia|lia| |exact Hd].
    revert Hi0. apply gz_inv_env; reflexivity.
  - unfold bind at 1, gets at 1. unfold modify at 1. rewrite L.
    unfold bind at 1, ret at 1. unfold bind at 1, time_monotonic at 1.
    apply (gz_loop (List.length rx) fuel F rest rx _ _ (decompressobj (zlib w0)));
      [lia|lia| |reflexivity].
    destruct Hi0 as (? & ? & ? & ? & Hr & ? & ?).
    unfold cur_zdec in Hr. rewrite Hd in Hr.
    unfold gz_inv, cur_zdec. cbn. repeat split; assumption.
Qed.

(** A call with an empty buffer after a status of 0. *)
Lemma gz_call_drain fuel tail rest rx s w d :
  inv w (tail ++ rest) rx -> zdec w = Some d -> zdata w = Value (Some tail) ->
  (List.length rx < fuel)%nat ->
  exists st w', sd_write_gz fuel [] s w = (Ok st, w') /\ after rest rx st w'.
Proof.
  intros Hi Hd Hz Hf. pose proof Hi as (Hm & _ & _ & WF & _).
  destruct (check_expired_total s w WF) as (w0 & E & WF0 & F0).
  pose proof (gz_inv_frame w w0 _ _ F0 WF0 Hi) as Hi0.
  pose proof Hi0 as (Hm0 & _).
  pose proof (forget_lease_fields _ _ F0) as
    (_ & _ & _ & _ & _ & _ & _ & _ & Fz & Fd & _).
  unfold sd_write_gz. rewrite (bind_ok _ _ _ _ _ E).
  unfold bind at 1, gets at 1. rewrite Hm0.
  unfold bind at 1. unfold bind at 1, gets at 1. rewrite Fz, Hd.
  unfold ret at 1. cbn [len List.length Z.of_nat Z.eqb].
  unfold bind at 1. unfold bind at 1, gets at 1. rewrite Fd, Hz.
  unfold ret at 1. unfold bind at 1, time_monotonic at 1.
  apply (gz_loop (List.length rx) fuel tail rest rx _ _ d); [lia|lia| |].
  - revert Hi0. apply gz_inv_env; reflexivity.
  - cbn. congruence.
Qed.

(** Draining after a call: the status becomes [B] within [length rx + 1]
    calls. *)
Lemma gz_drain n :
  forall wfuel dfuel (rest rx0 rx : bytes) st s w,
    (List.length rx <= n)%nat -> (n < dfuel)%nat -> (List.length rx0 < wfuel)%nat ->
    (List.length rx <= List.length rx0)%nat ->
    after rest rx st w ->
    exists w' rx',
      drain dfuel (fun data => sd_write_gz wfuel data s) st w = (Ok B, w') /\
      inv w' rest rx' /\ (List.length rx' <= List.length rx0)%nat.
Proof.
  induction n as [|n IH]; intros wfuel dfuel rest rx0 rx st s w Hn Hd Hw Hle
    (data' & rx' & Hi & (d & Hz) & Hle' & [(-> & -> & _)|(-> & Hne & Hzd & Hlt)]);
    try lia.
  - exists w, rx'. destruct dfuel; cbn [drain];
      (destruct (Z.eqb_spec B 0); [lia|]); (split; [reflexivity|]); split;
      try exact Hi; lia.
  - exists w, rx'. destruct dfuel; cbn [drain];
      (destruct (Z.eqb_spec B 0); [lia|]); (split; [reflexivity|]); split;
      try exact Hi; lia.
  - destruct dfuel as [|dfuel]; [lia|]. cbn [drain Z.eqb negb].
    destruct (gz_call_drain wfuel data' rest rx' s w d Hi Hz Hzd ltac:(lia))
      as (st' & w' & E & Ha).
    rewrite (bind_ok _ _ _ _ _ E).
    apply (IH wfuel dfuel rest rx0 rx' st' s w'); try assumption; lia.
Qed.

(** Feeding the fragments of what is left of the stream. *)
Lemma gz_feed fuel s :
  forall fragments w rx st0,
    Forall (fun f => f <> []) fragments ->
    inv w (List.concat fragments) rx -> (List.length rx < fuel)%nat ->
    exists st w' rx',
      feed fuel (fun data => sd_write_gz fuel data s) fragments st0 w = (Ok st, w') /\
      inv w' [] rx' /\ (fragments <> [] -> st = B).
Proof.
  induction fragments as [|F fs IH]; intros w rx st0 Hne Hi Hf.
  - exists st0, w, rx. split; [reflexivity|]. split; [exact Hi|congruence].
  - inversion Hne as [|? ? HF Hfs]; subst. cbn [List.concat] in Hi. cbn [feed].
    destruct (gz_call_fragment fuel F (List.concat fs) rx s w Hi HF Hf)
      as (st1 & w1 & E1 & Ha).
    rewrite (bind_ok _ _ _ _ _ E1).
    destruct (gz_drain (List.length rx) fuel fuel (List.concat fs) rx rx st1 s w1)
      as (w2 & rx2 & E2 & Hi2 & Hle); try lia; [exact Ha|].
    rewrite (bind_ok _ _ _ _ _ E2).
    destruct (Z.ltb_spec B 0); [lia|].
    destruct (IH w2 rx2 B Hfs Hi2 ltac:(lia)) as (st & w' & rx' & E & Hi' & Hst).
    exists st, w', rx'. split; [exact E|]. split; [exact Hi'|].
    intros _. destruct fs; [|apply Hst; discriminate].
    cbn in E. inversion E. reflexivity.
Qed.

End GzipPath.

(** ** The bzip2 path *)

Section Bzip2Path.

Context {HW zobj bobj : Type}.
Variable m : SdmuxController HW.
Variable Bz : Bz2Module bobj.
Variable K : Bz2Contract Bz.
Variable B : Z.
Variables X0 X : bytes.
Hypothesis accepts : always_accepts m.
Hypothesis B_pos : 0 < B.
Implicit Types (w : World HW zobj bobj) (s : session).

Local Abbreviation core := (bz_core m Bz B X0 X).
Local Abbreviation state := (bz_state m Bz K B X0 X).
Local Abbreviation written := (bz_written m).
Local Abbreviation ready := (bz_ready m Bz K B X0 X).
Local Abbreviation pend := (bz_pend m Bz K B X0 X).
Local Abbreviation after_input := (bz_after_input m Bz K B X0 X).
Local Abbreviation after_empty := (bz_after_empty m Bz K B X0 X).
Local Abbreviation spec_empty := (@bz_spec_empty HW zobj bobj m Bz K B X0 X).
Local Abbreviation spec_input := (@bz_spec_input HW zobj bobj m Bz K B X0 X).

Lemma bz_turn_step data start w d out d' :
  sdmux_controller w = Some m -> bz2 w = Bz -> blksz w = B ->
  bz2dec w = Some d -> b_decompress Bz d data B = inr (out, d') ->
  sd_write_bz2_turn data start w =
    if needs_input Bz d' then (Ok (Leave B), written out d' w)
    else if clock w (reads w) - start >=? fbintvl w
         then (Ok (Leave 0), set_reads (S (reads w)) (written out d' w))
         else (Ok (Again []), set_reads (S (reads w)) (written out d' w)).
Proof.
  intros Hm Hz Hb Hd Hdec. pose proof (accepts out (hw w)) as Hacc.
  unfold bz_written.
  destruct (mx_write m out (hw w)) as [st h] eqn:Hw. cbn in Hacc. subst st.
  unfold sd_write_bz2_turn, _sd_write_bz2, bz2dec_decompress. mrun.
  rewrite Hd. cbn. rewrite Hz, Hb, Hdec. cbn. rewrite Hm. cbn. rewrite Hw. cbn.
  rewrite Hz. destruct (needs_input Bz d'); cbn.
  - rewrite Hb. destruct (Z.eqb_spec B 0); [lia|]. reflexivity.
  - destruct (clock w (reads w) - start >=? fbintvl w); reflexivity.
Qed.

Lemma bz_turn_eof data start w d :
  bz2 w = Bz -> blksz w = B ->
  bz2dec w = Some d -> b_decompress Bz d data B = inl EOFError ->
  sd_write_bz2_turn data start w =
    (Ok (if len (unused_data Bz d) >? 0 then Again (unused_data Bz d) else Leave 0),
     set_bz2dec (Some (BZ2Decompressor Bz)) w).
Proof.
  intros Hz Hb Hd Hdec.
  unfold sd_write_bz2_turn, _sd_write_bz2, bz2dec_decompress. mrun.
  rewrite Hd. cbn. rewrite Hz, Hb, Hdec. cbn. rewrite Hd, Hz. cbn.
  destruct (len (unused_data Bz d) >? 0); reflexivity.
Qed.

Lemma bz_core_written out todo d' w :
  core w (out ++ todo) -> core (written out d' w) todo.
Proof.
  intros (Hm & Hz & Hb & WF & Hs & Hn). unfold bz_core, bz_written. cbn.
  repeat split; try assumption.
  - rewrite sink_app. cbn. rewrite app_nil_r, <- app_assoc. exact Hs.
  - rewrite len_app in Hn. lia.
Qed.

Lemma bz_core_env w w' todo :
  sdmux_controller w' = sdmux_controller w -> bz2 w' = bz2 w ->
  blksz w' = blksz w -> _lock_owner w' = _lock_owner w ->
  _lock_expiry w' = _lock_expiry w ->
  trace w' = trace w -> _sd_bytes_written w' = _sd_bytes_written w ->
  core w todo -> core w' todo.
Proof.
  unfold bz_core, lease_wf. intros -> -> -> -> -> -> -> H. exact H.
Qed.

Lemma bz_core_frame w w' todo :
  forget_lease w' = forget_lease w -> lease_wf w' -> core w todo -> core w' todo.
Proof.
  intros F WF (Hm & Hz & Hb & _ & Hs & Hn).
  pose proof (forget_lease_fields _ _ F) as
    (_ & _ & Fm & Fn & _ & _ & Fb & _ & _ & _ & _ & _ & _ & _ & Fl & _ & Ft & _).
  unfold bz_core. rewrite Fm, Fl, Fb, Ft, Fn. repeat split; assumption.
Qed.

Lemma bz_loop_leave data start w st w' :
  sd_write_bz2_turn data start w = (Ok (Leave st), w') ->
  bz_loop_ends data start w st w' 1.
Proof.
  intros E fuel Hf. destruct fuel as [|fuel]; [lia|].
  cbn [sd_write_bz2_loop]. rewrite (bind_ok _ _ _ _ _ E). reflexivity.
Qed.

Lemma bz_loop_again data start w data' w1 st w' n :
  sd_write_bz2_turn data start w = (Ok (Again data'), w1) ->
  bz_loop_ends data' start w1 st w' n ->
  bz_loop_ends data start w st w' (S n).
Proof.
  intros E H fuel Hf. destruct fuel as [|fuel]; [lia|].
  cbn [sd_write_bz2_loop]. rewrite (bind_ok _ _ _ _ _ E). apply H. lia.
Qed.

Lemma new_not_eof c x : bzip2_of K c x -> bz_eof K (BZ2Decompressor Bz) = false.
Proof. intros H. apply (bz_hungry K _ _ _ _ H (bz_fresh_hungry K)). Qed.

(** The state after a decompress-and-write inside a stream. *)
Lemma bz_state_written w R d out d' rc rc' extra extra' rx' later :
  core w ((out ++ rx') ++ contents later) ->
  bz_rep K d' rc' extra' rx' ->
  Forall (fun cx => bzip2_of K (fst cx) (snd cx)) later ->
  rc' ++ compressed later = extra' ++ R ->
  bz2dec w = Some d -> bz_rep K d rc extra (out ++ rx') ->
  state (written out d' w) R (S (List.length later)) /\
  state (set_reads (S (reads w)) (written out d' w)) R (S (List.length later)).
Proof.
  intros Hc Hr Hl Hrel Hd _. rewrite <- app_assoc in Hc.
  pose proof (bz_core_written out _ d' w Hc) as Hc1.
  split; apply (BzInside m Bz K B X0 X _ R rc' extra' rx' later); assumption.
Qed.

Lemma bz_after_empty_weaken n mu mu' R st w :
  (mu' <= mu)%nat -> after_empty n mu' R st w -> after_empty n mu R st w.
Proof.
  intros Hle [H|(-> & n' & Hp & Hd)]; [left; exact H|right].
  split; [reflexivity|]. exists n'. split; [exact Hp|].
  destruct Hd as [?|(? & ? & ?)]; [left; assumption|right].
  repeat split; try assumption. lia.
Qed.

Lemma bz_after_empty_input n n' mu R st w :
  (n' <= n)%nat -> after_empty n' mu R st w -> after_input n R st w.
Proof.
  intros Hle [(-> & k & Hk & Hr)|(-> & k & Hp & Hd)]; [left|right];
    (split; [reflexivity|]); exists k; (split; [|assumption]).
  - lia.
  - destruct Hd as [?|(? & _)]; lia.
Qed.

Lemma bz_input_from_empty n : spec_empty n -> spec_input n.
Proof.
  intros A w R data start d rc rx later Hc Hr Hl Hrel Hd He Hn.
  assert (S1 : exists out d' rx' rc' extra',
             b_decompress Bz d data B = inr (out, d') /\ rx = out ++ rx' /\
             bz_rep K d' rc' extra' rx' /\
             rc' ++ compressed later = extra' ++ R).
  { destruct (app_eq_app _ _ _ _ Hrel) as (l & [(H1 & H2)|(H1 & H2)]).
    - destruct (bz_step K d rc [] rx data [] l B Hr He B_pos H1 (or_introl eq_refl))
        as (out & d' & rx' & Hdec & Hrx & _ & Hr').
      rewrite app_nil_r in Hdec.
      exists out, d', rx', l, []. repeat split; try assumption. cbn. congruence.
    - assert (H0 : rc = rc ++ []) by (symmetry; apply app_nil_r).
      destruct (bz_step K d rc [] rx rc l [] B Hr He B_pos H0 (or_intror eq_refl))
        as (out & d' & rx' & Hdec & Hrx & _ & Hr').
      rewrite <- H1 in Hdec.
      exists out, d', rx', [], l. repeat split; try assumption. }
  destruct S1 as (out & d' & rx' & rc' & extra' & Hdec & Hrx & Hr' & Hrel').
  subst rx. pose proof Hc as (Hm & Hz & Hb & _).
  pose proof (bz_turn_step data start w d out d' Hm Hz Hb Hd Hdec) as E.
  destruct (bz_state_written w R d out d' rc rc' [] extra' rx' later
              Hc Hr' Hl Hrel' Hd Hr) as (S1 & S2).
  rewrite <- Hn in S1, S2.
  destruct (needs_input Bz d') eqn:Hni.
  - exists 1%nat, B, (written out d' w). split; [apply bz_loop_leave; exact E|].
    left. split; [reflexivity|]. exists n. split; [lia|]. split; [exact S1|exact Hni].
  - destruct (clock w (reads w) - start >=? fbintvl w).
    + eexists 1%nat, 0, _. split; [apply bz_loop_leave; exact E|].
      right. split; [reflexivity|]. exists n. split; [lia|].
      split; [exact S2|]. split; [left; exact Hni|discriminate].
    + destruct (A (bz_mu K d') _ R start d' S2 eq_refl Hni eq_refl)
        as (k & st & w' & Hk & Ha).
      exists (S k), st, w'. split; [apply (bz_loop_again _ _ _ _ _ _ _ _ E Hk)|].
      apply (bz_after_empty_input n n _ R st w' (le_n n) Ha).
Qed.

Lemma cur_in_place w d : bz2dec w = Some d -> cur_bz2dec w = d.
Proof. intros H. unfold cur_bz2dec. rewrite H. reflexivity. Qed.

Lemma bz_empty_from_input n :
  (forall n', (n' < n)%nat -> spec_input n') -> spec_empty n.
Proof.
  intros IHn mu. induction mu as [mu IHmu] using lt_wf_ind.
  intros w R start d Hs Hd Hni Hmu.
  pose proof (cur_in_place w d Hd) as Hcur.
  destruct Hs as [rc extra rx later Hc Hr Hl Hrel | Hc Hnew HR].
  2:{ exfalso. rewrite Hcur in Hnew. subst d.
      rewrite (bz_fresh_hungry K) in Hni. discriminate. }
  rewrite Hcur in Hr. pose proof Hc as (Hm & Hz & Hb & _).
  destruct (bz_eof K d) eqn:He.
  - (* the stream is finished: the next decompress raises *)
    destruct (bz_at_eof K d rc extra rx Hr He) as (Hrc & Hrx & Hu). subst rc rx.
    pose proof (bz_turn_eof [] start w d Hz Hb Hd (bz_raise K d [] B He)) as E.
    rewrite Hu in E. clear Hu. cbn [app] in Hrel, Hc.
    destruct later as [|[c2 x2] rest].
    + cbn in Hrel. symmetry in Hrel. apply app_eq_nil in Hrel.
      destruct Hrel as (Hx & HR). subst extra R. cbn in E.
      eexists 1%nat, 0, _. split; [apply bz_loop_leave; exact E|].
      right. split; [reflexivity|]. exists 0%nat. split; [|left; lia].
      split; [|split; [right; reflexivity|discriminate]].
      apply BzPast; [|reflexivity|reflexivity].
      revert Hc. apply bz_core_env; reflexivity.
    + pose proof (Forall_inv Hl) as Hv. pose proof (Forall_inv_tail Hl) as Hl'.
      cbn [fst snd] in Hv.
      assert (S2 : forall R', c2 ++ compressed rest = [] ++ R' ->
                   state (set_bz2dec (Some (BZ2Decompressor Bz)) w) R'
                     (S (List.length rest))).
      { intros R' HR'. apply (BzInside m Bz K B X0 X _ R' c2 [] x2 rest).
        - revert Hc. apply bz_core_env; reflexivity.
        - exact Hv.
        - exact Hl'.
        - exact HR'. }
      destruct (len extra >? 0) eqn:Hx.
      * assert (C2 : core (set_bz2dec (Some (BZ2Decompressor Bz)) w)
                       (x2 ++ contents rest)).
        { revert Hc. apply bz_core_env; reflexivity. }
        destruct (IHn (S (List.length rest)) ltac:(cbn; lia)
                    (set_bz2dec (Some (BZ2Decompressor Bz)) w) R extra start
                    (BZ2Decompressor Bz) c2 x2 rest C2 Hv Hl' Hrel eq_refl
                    (new_not_eof c2 x2 Hv) eq_refl)
          as (k & st & w' & Hk & Ha).
        exists (S k), st, w'. split; [apply (bz_loop_again _ _ _ _ _ _ _ _ E Hk)|].
        destruct Ha as [(-> & k' & Hk' & H')|(-> & k' & Hk' & H')]; [left|right];
          (split; [reflexivity|]); exists k'.
        -- split; [cbn; lia|exact H'].
        -- split; [exact H'|left; cbn; lia].
      * assert (extra = []).
        { destruct extra; [reflexivity|]. exfalso.
          assert ((len (b :: extra) >? 0) = true) by (apply len_pos_iff; discriminate).
          congruence. }
        subst extra.
        eexists 1%nat, 0, _. split; [apply bz_loop_leave; exact E|].
        right. split; [reflexivity|]. exists (S (List.length rest)).
        split; [|left; cbn; lia].
        split; [apply S2; exact Hrel|]. split; [right; reflexivity|discriminate].
  - (* inside the stream: decompress goes on without input *)
    destruct (bz_step K d rc extra rx [] [] rc B Hr He B_pos eq_refl (or_introl eq_refl))
      as (out & d' & rx' & Hdec & Hrx & _ & Hr').
    cbn [app] in Hdec. rewrite app_nil_r in Hr'. subst rx.
    pose proof (bz_progress K d rc extra _ out d' B Hr He Hni B_pos Hdec) as Hlt.
    pose proof (bz_turn_step [] start w d out d' Hm Hz Hb Hd Hdec) as E.
    destruct (bz_state_written w R d out d' rc rc extra extra rx' later
                Hc Hr' Hl Hrel Hd Hr) as (S1 & S2).
    destruct (needs_input Bz d') eqn:Hni'.
    + exists 1%nat, B, (written out d' w). split; [apply bz_loop_leave; exact E|].
      left. split; [reflexivity|]. exists (S (List.length later)).
      split; [lia|]. split; [exact S1|exact Hni'].
    + destruct (clock w (reads w) - start >=? fbintvl w).
      * eexists 1%nat, 0, _. split; [apply bz_loop_leave; exact E|].
        right. split; [reflexivity|]. exists (S (List.length later)).
        split; [split; [exact S2|split; [left; exact Hni'|discriminate]]|].
        right. split; [reflexivity|]. split; [exact Hni'|]. cbn. lia.
      * destruct (IHmu (bz_mu K d') ltac:(lia) _ R start d' S2 eq_refl Hni' eq_refl)
          as (k & st & w' & Hk & Ha).
        exists (S k), st, w'. split; [apply (bz_loop_again _ _ _ _ _ _ _ _ E Hk)|].
        apply (bz_after_empty_weaken _ mu (bz_mu K d')); [lia|exact Ha].
Qed.

(** The loop of [sd_write_bz2] ends, whichever way it is entered. *)
Lemma bz_spec n : spec_empty n /\ spec_input n.
Proof.
  induction n as [n IH] using lt_wf_ind.
  assert (A : spec_empty n).
  { apply bz_empty_from_input. intros n' Hn'. apply (IH n' Hn'). }
  split; [exact A|apply bz_input_from_empty; exact A].
Qed.

Lemma bz_state_env w w' R n :
  sdmux_controller w' = sdmux_controller w -> bz2 w' = bz2 w ->
  blksz w' = blksz w -> lease_wf w' ->
  sink (trace w') = sink (trace w) -> _sd_bytes_written w' = _sd_bytes_written w ->
  cur_bz2dec w' = cur_bz2dec w ->
  state w R n -> state w' R n.
Proof.
  intros Em Ez Eb WF Et En Ec Hs.
  assert (C : forall todo, core w todo -> core w' todo).
  { intros todo (Hm & Hz & Hb & _ & Hs' & Hn). unfold bz_core.
    rewrite Em, Ez, Eb, Et, En. repeat split; assumption. }
  destruct Hs as [rc extra rx later Hc Hr Hl Hrel | Hc Hnew HR].
  - apply (BzInside m Bz K B X0 X w' R rc extra rx later); auto. rewrite Ec. exact Hr.
  - apply BzPast; auto. rewrite Ec. exact Hnew.
Qed.

(** [sd_write_bz2] is its loop, run after the expiry check with the
    decompressor in place. *)
Lemma bz_call_unfold fuel data s w w0 :
  _check_expired s w = (Ok tt, w0) -> sdmux_controller w0 = Some m -> bz2 w0 = Bz ->
  sd_write_bz2 fuel data s w =
    sd_write_bz2_loop fuel data (clock w0 (reads w0))
      (set_reads (S (reads w0)) (set_bz2dec (Some (cur_bz2dec w0)) w0)).
Proof.
  intros E Hm Hz. unfold sd_write_bz2. rewrite (bind_ok _ _ _ _ _ E).
  unfold bind at 1, gets at 1. rewrite Hm.
  unfold bind at 1. unfold bind at 1, gets at 1. unfold cur_bz2dec.
  destruct (bz2dec w0) as [d|] eqn:Hd.
  - unfold ret at 1. unfold bind at 1, time_monotonic at 1.
    replace (set_bz2dec (Some d) w0) with w0; [reflexivity|].
    destruct w0; cbn in *; subst; reflexivity.
  - unfold bind at 1, gets at 1. unfold modify at 1.
    unfold bind at 1, time_monotonic at 1. reflexivity.
Qed.

(** The state after the expiry check, the decompressor in place. *)
Lemma bz_state_entered s w R n :
  state w R n ->
  exists w0 w1 d,
    _check_expired s w = (Ok tt, w0) /\ sdmux_controller w0 = Some m /\ bz2 w0 = Bz /\
    w1 = set_reads (S (reads w0)) (set_bz2dec (Some (cur_bz2dec w0)) w0) /\
    state w1 R n /\ bz2dec w1 = Some d /\ d = cur_bz2dec w.
Proof.
  intros Hs.
  assert (Hc : exists todo, core w todo).
  { destruct Hs as [? ? ? ? Hc|Hc]; eexists; exact Hc. }
  destruct Hc as (todo & Hm & Hz & Hb & WF & _).
  destruct (check_expired_total s w WF) as (w0 & E & WF0 & F0).
  pose proof (forget_lease_fields _ _ F0) as
    (_ & _ & Fm & Fn & _ & _ & Fb & Fd & _ & _ & _ & _ & _ & _ & Fl & _ & Ft & _).
  assert (Hcur : cur_bz2dec w0 = cur_bz2dec w).
  { unfold cur_bz2dec. rewrite Fd, Fl. reflexivity. }
  exists w0, (set_reads (S (reads w0)) (set_bz2dec (Some (cur_bz2dec w0)) w0)),
    (cur_bz2dec w).
  split; [exact E|]. split; [congruence|]. split; [congruence|].
  split; [reflexivity|]. split; [|split; [cbn; congruence|reflexivity]].
  revert Hs. apply bz_state_env; cbn; try assumption. rewrite Ft. reflexivity.
Qed.

(** A call with the next fragment, the decompressor wanting input. *)
Lemma bz_call_fragment s F R n w :
  ready w (F ++ R) n -> F <> [] ->
  exists k st w',
    (forall fuel, (k <= fuel)%nat -> sd_write_bz2 fuel F s w = (Ok st, w')) /\
    after_input n R st w'.
Proof.
  intros (Hs & Hni) HF.
  destruct (bz_state_entered s w (F ++ R) n Hs)
    as (w0 & w1 & d & E & Hm0 & Hz0 & Hw1 & Hs1 & Hd1 & Hd).
  rewrite <- Hd in Hni.
  destruct Hs1 as [rc extra rx later Hc Hr Hl Hrel | Hc Hnew HR].
  2:{ exfalso. destruct F; [contradiction|discriminate]. }
  rewrite (cur_in_place _ _ Hd1) in Hr.
  destruct (bz_hungry K d rc extra rx Hr Hni) as (He & _ & Hx). subst extra.
  cbn [app] in Hrel.
  destruct (proj2 (bz_spec (S (List.length later))) w1 R F (clock w0 (reads w0)) d
              rc rx later Hc Hr Hl Hrel Hd1 He eq_refl) as (k & st & w' & Hk & Ha).
  exists k, st, w'. split; [|exact Ha].
  intros fuel Hf. rewrite (bz_call_unfold fuel F s w w0 E Hm0 Hz0), <- Hw1.
  apply Hk. exact Hf.
Qed.

Lemma bz_call_drain s R n w :
  pend w R n ->
  exists k st w',
    (forall fuel, (k <= fuel)%nat -> sd_write_bz2 fuel [] s w = (Ok st, w')) /\
    after_empty n (bz_mu K (cur_bz2dec w)) R st w'.
Proof.
  intros (Hs & Hcase & _).
  destruct (bz_state_entered s w R n Hs)
    as (w0 & w1 & d & E & Hm0 & Hz0 & Hw1 & Hs1 & Hd1 & Hd).
  rewrite <- Hd in *.
  destruct Hcase as [Hni|Hnew].
  - destruct (proj1 (bz_spec n) (bz_mu K d) w1 R (clock w0 (reads w0)) d
                Hs1 Hd1 Hni eq_refl) as (k & st & w' & Hk & Ha).
    exists k, st, w'. split; [|exact Ha].
    intros fuel Hf. rewrite (bz_call_unfold fuel [] s w w0 E Hm0 Hz0), <- Hw1.
    apply Hk. exact Hf.
  - subst d.
    assert (Hc : exists todo, core w1 todo).
    { destruct Hs1 as [? ? ? ? Hc|Hc]; eexists; exact Hc. }
    destruct Hc as (todo & Hm & Hz & Hb & WF & _).
    pose proof (bz_turn_step [] (clock w0 (reads w0)) w1 _ [] _ Hm Hz Hb Hd1
                  (bz_fresh K B B_pos)) as T.
    rewrite (bz_fresh_hungry K) in T.
    exists 1%nat, B, (written [] (BZ2Decompressor Bz) w1). split.
    + intros fuel Hf. rewrite (bz_call_unfold fuel [] s w w0 E Hm0 Hz0), <- Hw1.
      apply (bz_loop_leave _ _ _ _ _ T). exact Hf.
    + left. split; [reflexivity|]. exists n. split; [lia|]. split.
      * revert Hs1. apply bz_state_env; cbn; try reflexivity; try assumption.
        -- rewrite sink_app. apply app_nil_r.
        -- unfold len; cbn; lia.
        -- symmetry. apply cur_in_place. exact Hd1.
      * cbn. apply (bz_fresh_hungry K).
Qed.

(** Draining after a status of 0: the status becomes [B]. *)
Lemma bz_drain s R n :
  forall mu w,
    pend w R n -> bz_mu K (cur_bz2dec w) = mu ->
    exists k w' n',
      (forall wfuel dfuel, (k <= wfuel)%nat -> (k <= dfuel)%nat ->
         drain dfuel (fun data => sd_write_bz2 wfuel data s) 0 w = (Ok B, w')) /\
      (n' <= n)%nat /\ ready w' R n'.
Proof.
  induction n as [n IHn] using lt_wf_ind.
  induction mu as [mu IHmu] using lt_wf_ind.
  intros w Hp Hmu.
  destruct (bz_call_drain s R n w Hp) as (k & st & w1 & Hk & Ha).
  rewrite Hmu in Ha.
  assert (Hstop : forall f w2, drain f (fun data => sd_write_bz2 k data s) B w2
                             = (Ok B, w2)).
  { intros f w2. destruct f; cbn [drain]; (destruct (Z.eqb_spec B 0); [lia|]);
      reflexivity. }
  destruct Ha as [(-> & n' & Hn' & Hr)|(-> & n' & Hp' & Hdec)].
  - exists (S k), w1, n'. split; [|split; assumption].
    intros wfuel dfuel Hw Hd. destruct dfuel as [|dfuel]; [lia|].
    cbn [drain Z.eqb negb]. rewrite (bind_ok _ _ _ _ _ (Hk wfuel ltac:(lia))).
    destruct dfuel; cbn [drain]; (destruct (Z.eqb_spec B 0); [lia|]); reflexivity.
  - assert (Hrec : exists k2 w' n'',
               (forall wfuel dfuel, (k2 <= wfuel)%nat -> (k2 <= dfuel)%nat ->
                  drain dfuel (fun data => sd_write_bz2 wfuel data s) 0 w1 = (Ok B, w')) /\
               (n'' <= n)%nat /\ ready w' R n'').
    { destruct Hdec as [Hlt|(-> & Hni & Hlt)].
      - destruct (IHn n' Hlt _ w1 Hp' eq_refl) as (k2 & w' & n'' & H2 & Hle & Hr).
        exists k2, w', n''. split; [exact H2|]. split; [lia|exact Hr].
      - apply (IHmu _ Hlt w1 Hp' eq_refl). }
    destruct Hrec as (k2 & w' & n'' & H2 & Hle & Hr).
    exists (S (k + k2)), w', n''. split; [|split; assumption].
    intros wfuel dfuel Hw Hd. destruct dfuel as [|dfuel]; [lia|].
    cbn [drain Z.eqb negb]. rewrite (bind_ok _ _ _ _ _ (Hk wfuel ltac:(lia))).
    apply H2; lia.
Qed.

Lemma bz_feed s :
  forall fragments n w st0,
    Forall (fun f => f <> []) fragments ->
    ready w (List.concat fragments) n ->
    exists k st w' n',
      (forall fuel, (k <= fuel)%nat ->
         feed fuel (fun data => sd_write_bz2 fuel data s) fragments st0 w = (Ok st, w')) /\
      ready w' [] n' /\ (fragments <> [] -> st = B).
Proof.
  induction fragments as [|F fs IH]; intros n w st0 Hne Hr.
  - exists 0%nat, st0, w, n. split; [reflexivity|]. split; [exact Hr|congruence].
  - pose proof (Forall_inv Hne) as HF. pose proof (Forall_inv_tail Hne) as Hfs.
    cbn [List.concat] in Hr.
    destruct (bz_call_fragment s F (List.concat fs) n w Hr HF)
      as (k1 & st1 & w1 & H1 & Ha).
    assert (D : exists k2 w2 n2,
               (forall wfuel dfuel, (k2 <= wfuel)%nat -> (k2 <= dfuel)%nat ->
                  drain dfuel (fun data => sd_write_bz2 wfuel data s) st1 w1
                  = (Ok B, w2)) /\
               ready w2 (List.concat fs) n2).
    { destruct Ha as [(-> & n1 & _ & Hr1)|(-> & n1 & _ & Hp1)].
      - exists 0%nat, w1, n1. split; [|exact Hr1].
        intros wfuel dfuel _ _.
        destruct dfuel; cbn [drain]; (destruct (Z.eqb_spec B 0); [lia|]); reflexivity.
      - destruct (bz_drain s (List.concat fs) n1 _ w1 Hp1 eq_refl)
          as (k2 & w2 & n2 & H2 & _ & Hr2).
        exists k2, w2, n2. split; assumption. }
    destruct D as (k2 & w2 & n2 & H2 & Hr2).
    destruct (IH n2 w2 B Hfs Hr2) as (k3 & st & w' & n' & H3 & Hr' & Hst).
    exists (k1 + k2 + k3)%nat, (match fs with [] => B | _ => st end), w', n'.
    split; [|split; [exact Hr'|]].
    + intros fuel Hf. cbn [feed].
      rewrite (bind_ok _ _ _ _ _ (H1 fuel ltac:(lia))).
      rewrite (bind_ok _ _ _ _ _ (H2 fuel fuel ltac:(lia) ltac:(lia))).
      destruct (Z.ltb_spec B 0); [lia|].
      rewrite (H3 fuel ltac:(lia)).
      destruct fs; [|reflexivity].
      specialize (H3 fuel ltac:(lia)). cbn in H3. inversion H3. reflexivity.
    + intros _. destruct fs; [reflexivity|]. apply Hst. discriminate.
Qed.

(** Once all the input is sent and the decompressor wants more, every
    stream is finished: the sink and the counter hold the contents. *)
Lemma bz_ready_end w n :
  ready w [] n -> sink (trace w) = X0 ++ X /\ _sd_bytes_written w = len X.
Proof.
  intros (Hs & Hni).
  destruct Hs as [rc extra rx later Hc Hr Hl Hrel | Hc Hnew HR].
  - exfalso. destruct (bz_hungry K _ rc extra rx Hr Hni) as (_ & Hrc & ->).
    cbn in Hrel. apply app_eq_nil in Hrel. apply Hrc, Hrel.
  - destruct Hc as (_ & _ & _ & _ & Hs & Hn). rewrite app_nil_r in Hs.
    unfold len in *. cbn in Hn. split; [exact Hs|lia].
Qed.

End Bzip2Path.






(** ** Round trips *)

Section RoundTrip.

Context {HW zobj bobj : Type}.
Implicit Types (w : World HW zobj bobj) (s : session).

(** Any sequence of bzip2 streams, cut into any fragments. *)
Lemma bz2_streams_round_trip w (K : Bz2Contract (bz2 w)) m s streams fragments :
  sdmux_controller w = Some m -> always_accepts m -> 0 < blksz w -> lease_wf w ->
  bz2dec w = None -> _sd_bytes_written w = 0 ->
  Forall (fun cx => bzip2_of K (fst cx) (snd cx)) streams ->
  List.concat fragments = compressed streams ->
  Forall (fun f => f <> []) fragments ->
  exists k, forall fuel, (k <= fuel)%nat ->
    exists w',
      feed fuel (fun data => sd_write_bz2 fuel data s) fragments (blksz w) w
      = (Ok (blksz w), w') /\
      sink (trace w') = sink (trace w) ++ contents streams /\
      _sd_bytes_written w' = len (contents streams).
Proof.
  intros Hm Hacc Hb WF Hd Hn Hv Hc Hne.
  assert (C : forall todo, todo = contents streams ->
              bz_core m (bz2 w) (blksz w) (sink (trace w)) (contents streams) w todo).
  { intros todo ->. repeat split; try assumption; try reflexivity. lia. }
  assert (R0 : exists n, bz_ready m (bz2 w) K (blksz w) (sink (trace w))
                           (contents streams) w (List.concat fragments) n).
  { unfold bz_ready.
    assert (Hcur : cur_bz2dec w = BZ2Decompressor (bz2 w)).
    { unfold cur_bz2dec. rewrite Hd. reflexivity. }
    rewrite Hcur, (bz_fresh_hungry K), Hc.
    destruct streams as [|[c x] later].
    - exists 0%nat. split; [|reflexivity].
      apply BzPast; [apply C|exact Hcur|]; reflexivity.
    - exists (S (List.length later)). split; [|reflexivity].
      apply (BzInside _ _ K _ _ _ w _ c [] x later).
      + apply C. reflexivity.
      + rewrite Hcur. apply (Forall_inv Hv).
      + apply (Forall_inv_tail Hv).
      + reflexivity. }
  destruct R0 as (n & R0).
  destruct (bz_feed m (bz2 w) K (blksz w) (sink (trace w)) (contents streams)
              Hacc Hb s fragments n w (blksz w) Hne R0)
    as (k & st & w' & n' & Hk & Hr & Hst).
  destruct (bz_ready_end m (bz2 w) K (blksz w) _ _ w' n' Hr) as (Hs' & Hn').
  exists k. intros fuel Hf. exists w'. split; [|split; assumption].
  rewrite (Hk fuel Hf). f_equal. f_equal.
  destruct fragments; [|apply Hst; discriminate].
  specialize (Hk fuel Hf). cbn in Hk. inversion Hk. reflexivity.
Qed.

(** C6: the compressed representation of a byte sequence [x], cut into
    any non-empty fragments and sent by the caller [feed], which answers
    every status of 0 with an empty buffer and sends the next fragment
    after a positive status only, leaves exactly [x] in the driver's write
    sink, in order, and the byte counter at [length x].  For gzip and for
    bzip2 alike; the decompressors are those of the libraries, taken with
    what they promise for a stream ([GzipContract], [Bz2Contract]); the
    driver accepts the writes and the lease is well-formed. *)
Theorem streaming_round_trip w (Kz : GzipContract (zlib w)) (Kb : Bz2Contract (bz2 w))
    m s x fragments :
  sdmux_controller w = Some m -> always_accepts m -> 0 < blksz w -> lease_wf w ->
  _sd_bytes_written w = 0 -> Forall (fun f => f <> []) fragments ->
  (zdec w = None -> gzip_of Kz (List.concat fragments) x ->
   forall fuel, (List.length x < fuel)%nat ->
   exists w',
     feed fuel (fun data => sd_write_gz fuel data s) fragments (blksz w) w
     = (Ok (blksz w), w') /\
     sink (trace w') = sink (trace w) ++ x /\ _sd_bytes_written w' = len x) /\
  (bz2dec w = None -> bzip2_of Kb (List.concat fragments) x ->
   exists k, forall fuel, (k <= fuel)%nat ->
   exists w',
     feed fuel (fun data => sd_write_bz2 fuel data s) fragments (blksz w) w
     = (Ok (blksz w), w') /\
     sink (trace w') = sink (trace w) ++ x /\ _sd_bytes_written w' = len x).
Proof.
  intros Hm Hacc Hb WF Hn Hne. split.
  - intros Hd Hg fuel Hf.
    assert (I : gz_inv m (zlib w) Kz (blksz w) (sink (trace w)) x w
                  (List.concat fragments) x).
    { repeat split; try assumption; try reflexivity.
      - unfold cur_zdec. rewrite Hd. exact Hg.
      - lia. }
    destruct (gz_feed m (zlib w) Kz (blksz w) (sink (trace w)) x Hacc Hb fuel s
                fragments w x (blksz w) Hne I Hf)
      as (st & w' & rx' & E & (_ & _ & _ & _ & Hr & Hs & Hc) & Hst).
    pose proof (gz_done Kz _ _ Hr) as ->. rewrite app_nil_r in Hs.
    exists w'. split; [|split].
    + rewrite E. f_equal. f_equal.
      destruct fragments; [|apply Hst; discriminate].
      cbn in E. inversion E. reflexivity.
    + exact Hs.
    + unfold len in *. cbn in Hc. lia.
  - intros Hd Hz.
    assert (Hc : List.concat fragments = compressed [(List.concat fragments, x)]).
    { unfold compressed. cbn. symmetry. apply app_nil_r. }
    assert (Hv : Forall (fun cx => bzip2_of Kb (fst cx) (snd cx))
                   [(List.concat fragments, x)]).
    { constructor; [exact Hz|constructor]. }
    destruct (bz2_streams_round_trip w Kb m s [(List.concat fragments, x)] fragments
                Hm Hacc Hb WF Hd Hn Hv Hc Hne)
      as (k & Hk).
    exists k. intros fuel Hf. destruct (Hk fuel Hf) as (w' & E & Hs & Hcnt).
    exists w'. unfold contents in Hs, Hcnt. cbn in Hs, Hcnt.
    rewrite app_nil_r in Hs, Hcnt. repeat split; assumption.
Qed.

(** C7: when [decompress] raises [EOFError], the loop of [sd_write_bz2]
    puts a new decompressor in place and, if the old one left unused data,
    goes on with that data in the same call; otherwise the call returns 0.
    Either way no error status is returned for the end of a stream.  So the
    concatenation of two bzip2 streams, cut into any non-empty fragments and
    sent by the caller [feed], which answers every status of 0 with an
    empty buffer and sends the next fragment after a positive status only,
    leaves the two contents, one after the other, in the driver's write
    sink. *)
Theorem bz2_multi_stream w (K : Bz2Contract (bz2 w)) m s c1 x1 c2 x2 fragments :
  (forall fuel data start d,
     bz2dec w = Some d -> b_decompress (bz2 w) d data (blksz w) = inl EOFError ->
     sd_write_bz2_loop (S fuel) data start w =
       if len (unused_data (bz2 w) d) >? 0
       then sd_write_bz2_loop fuel (unused_data (bz2 w) d) start
              (set_bz2dec (Some (BZ2Decompressor (bz2 w))) w)
       else (Ok 0, set_bz2dec (Some (BZ2Decompressor (bz2 w))) w)) /\
  (sdmux_controller w = Some m -> always_accepts m -> 0 < blksz w -> lease_wf w ->
   bz2dec w = None -> _sd_bytes_written w = 0 ->
   bzip2_of K c1 x1 -> bzip2_of K c2 x2 ->
   List.concat fragments = c1 ++ c2 -> Forall (fun f => f <> []) fragments ->
   exists k, forall fuel, (k <= fuel)%nat ->
   exists w',
     feed fuel (fun data => sd_write_bz2 fuel data s) fragments (blksz w) w
     = (Ok (blksz w), w') /\
     sink (trace w') = sink (trace w) ++ x1 ++ x2 /\
     _sd_bytes_written w' = len (x1 ++ x2)).
Proof.
  split.
  - intros fuel data start d Hd Hdec. cbn [sd_write_bz2_loop].
    rewrite (bind_ok _ _ _ _ _
               (bz_turn_eof (bz2 w) (blksz w) data start w d eq_refl eq_refl Hd Hdec)).
    destruct (len (unused_data (bz2 w) d) >? 0); reflexivity.
  - intros Hm Hacc Hb WF Hd Hn H1 H2 Hc Hne.
    assert (Hc' : List.concat fragments = compressed [(c1, x1); (c2, x2)]).
    { unfold compressed. cbn. rewrite app_nil_r. exact Hc. }
    assert (Hv : Forall (fun cx => bzip2_of K (fst cx) (snd cx))
                   [(c1, x1); (c2, x2)]).
    { constructor; [exact H1|constructor; [exact H2|constructor]]. }
    destruct (bz2_streams_round_trip w K m s [(c1, x1); (c2, x2)] fragments
                Hm Hacc Hb WF Hd Hn Hv Hc' Hne)
      as (k & Hk).
    exists k. intros fuel Hf. destruct (Hk fuel Hf) as (w' & E & Hs & Hcnt).
    exists w'. unfold contents in Hs, Hcnt. cbn in Hs, Hcnt.
    rewrite app_nil_r in Hs, Hcnt. repeat split; assumption.
Qed.

End RoundTrip.

(** ** Calls that the lease lets through *)

Section LetThrough.

Context {HW zobj bobj : Type}.
Implicit Types (w : World HW zobj bobj) (s : session).

(** An attribute that the lease does not hold is the same in two worlds
    equal up to the lease. *)
Lemma frame_proj {A} (f : World HW zobj bobj -> A) w w' :
  (forall x, f (forget_lease x) = f x) ->
  forget_lease w' = forget_lease w -> f w' = f w.
Proof. intros H F. rewrite <- (H w'), F. apply H. Qed.

Lemma frame_trans w0 w1 w2 :
  forget_lease w1 = forget_lease w0 -> forget_lease w2 = forget_lease w1 ->
  forget_lease w2 = forget_lease w0.
Proof. congruence. Qed.

(** The expiry check made for a session that the lease lets through: it
    returns, the session is still let through, and from then on the lease
    has an expiry whenever it has an owner to expire. *)
Lemma check_expired_admits s w :
  admits s w ->
  exists w0, _check_expired s w = (Ok tt, w0) /\ admits s w0 /\ lease_wf w0 /\
             _lock_owner w0 = _lock_owner w /\
             forget_lease w0 = forget_lease w.
Proof.
  intros A. destruct (truthy (_lock_owner w)) eqn:T.
  - assert (O : _lock_owner w = s).
    { destruct A as [O|O]; [rewrite O in T; discriminate|exact O]. }
    assert (Ts : truthy s = true) by (rewrite <- O; exact T).
    rewrite (check_expired_owner s w Ts O).
    eexists. split; [reflexivity|]. repeat split.
    + right. exact O.
    + intros _. cbn. discriminate.
  - rewrite (check_expired_falsy s w T).
    exists w. split; [reflexivity|]. repeat split; [exact A|].
    intros T'. congruence.
Qed.

(** A nested call made with the default session ([None]) on behalf of a
    session that the lease lets through. *)
Lemma check_expired_nested s s' w :
  admits s w -> lease_wf w ->
  exists w0, _check_expired s' w = (Ok tt, w0) /\ admits s w0 /\ lease_wf w0 /\
             forget_lease w0 = forget_lease w.
Proof.
  intros A WF. destruct (truthy (_lock_owner w)) eqn:T.
  - destruct (session_eqb s' (_lock_owner w)) eqn:E.
    + apply session_eqb_eq in E.
      assert (Ts : truthy s' = true) by (rewrite E; exact T).
      rewrite (check_expired_owner s' w Ts (eq_sym E)).
      eexists. split; [reflexivity|]. repeat split.
      * exact A.
      * intros _. cbn. discriminate.
    + assert (N : s' <> _lock_owner w).
      { intros ->. rewrite session_eqb_refl in E. discriminate. }
      destruct (_lock_expiry w) as [e|] eqn:X; [|exfalso; apply (WF T); exact X].
      rewrite (check_expired_other s' w e T N X).
      destruct (clock w (reads w) >=? e); eexists; (split; [reflexivity|]);
        repeat split.
      * left. reflexivity.
      * intros H. cbn in H. discriminate.
      * exact A.
      * intros _. cbn. congruence.
  - rewrite (check_expired_falsy s' w T).
    exists w. split; [reflexivity|]. repeat split; assumption.
Qed.

Lemma check_locked_admits s w : admits s w -> _check_locked s w = (Ok false, w).
Proof.
  intros A. rewrite check_locked_run. destruct A as [O|O].
  - rewrite O. reflexivity.
  - destruct (_lock_owner w) eqn:Ow; [|reflexivity].
    rewrite O, session_eqb_refl. reflexivity.
Qed.

Lemma power_locked_admits s w :
  admits s w ->
  exists w0, power_locked s w =
               (Ok match power_controller w with None => true | Some _ => false end, w0) /\
             admits s w0 /\ lease_wf w0 /\ forget_lease w0 = forget_lease w.
Proof.
  intros A. destruct (check_expired_admits s w A) as (w0 & E & A0 & WF0 & _ & F0).
  exists w0. split; [|repeat split; assumption].
  unfold power_locked. rewrite (bind_ok _ _ _ _ _ E).
  rewrite (bind_ok _ _ _ _ _ (check_locked_admits s w0 A0)).
  rewrite <- (frame_proj power_controller w w0 (fun _ => eq_refl) F0).
  unfold bind, gets, ret. destruct (power_controller w0); reflexivity.
Qed.

Lemma frame_update w0 w t h :
  forget_lease w0 = forget_lease w ->
  forget_lease (set_trace t (set_hw h w0)) = forget_lease (set_trace t (set_hw h w)).
Proof.
  intros F.
  change (set_trace t (set_hw h (forget_lease w0))
          = set_trace t (set_hw h (forget_lease w))).
  rewrite F. reflexivity.
Qed.

(** How a [yields_after] is shown: the call returns in [wf], which is, up
    to the lease, a world [w0] equal to [w] up to the lease, changed as
    said. *)
Lemma yields_after_intro {A} (f : World HW zobj bobj -> World HW zobj bobj)
    (c : World HW zobj bobj -> res A * World HW zobj bobj) w w0 r evs h wf :
  (forall x, forget_lease (f x) = f (forget_lease x)) ->
  forget_lease w0 = forget_lease w ->
  c w = (Ok r, wf) ->
  forget_lease wf = forget_lease (set_trace (trace w0 ++ evs) (set_hw h (f w0))) ->
  yields_after f c w r evs h.
Proof.
  intros Hf F E G. exists wf. split; [exact E|]. unfold same_but_lease.
  rewrite G, (frame_proj trace w w0 (fun _ => eq_refl) F).
  apply frame_update. rewrite !Hf, F. reflexivity.
Qed.

(** A call that returns having reached no collaborator. *)
Lemma yields_nothing {A} (c : World HW zobj bobj -> res A * World HW zobj bobj) w r w' :
  c w = (Ok r, w') -> forget_lease w' = forget_lease w -> yields c w r [] (hw w).
Proof.
  intros E F. exists w'. split; [exact E|]. unfold same_but_lease.
  rewrite F, app_nil_r. destruct w; reflexivity.
Qed.

(** A call that returns having reached collaborators from [w0] on. *)
Lemma yields_from {A} (c : World HW zobj bobj -> res A * World HW zobj bobj) w w0 r evs h :
  forget_lease w0 = forget_lease w ->
  c w = (Ok r, set_trace (trace w0 ++ evs) (set_hw h w0)) ->
  yields c w r evs h.
Proof.
  intros F E.
  apply (yields_after_intro (fun x => x) c w w0 r evs h _ (fun _ => eq_refl) F E).
  reflexivity.
Qed.

Lemma frame_ctx (g : World HW zobj bobj -> World HW zobj bobj) a b :
  (forall x, forget_lease (g x) = g (forget_lease x)) ->
  forget_lease a = forget_lease b -> forget_lease (g a) = forget_lease (g b).
Proof. intros Hg F. rewrite !Hg, F. reflexivity. Qed.

Lemma admits_env s w t h : admits s w -> admits s (set_trace t (set_hw h w)).
Proof. intros A. exact A. Qed.

Lemma lease_wf_env w t h : lease_wf w -> lease_wf (set_trace t (set_hw h w)).
Proof. intros A. exact A. Qed.

End LetThrough.

(** Replace a world by the one it equals up to the lease, step by step. *)
Ltac frame_tac :=
  repeat match goal with
  | F : forget_lease ?a = forget_lease ?b |- forget_lease ?X = _ =>
      is_var a;
      match X with context [a] => idtac end;
      let g := eval pattern a in X in
      lazymatch g with
      | ?g' a => transitivity (forget_lease (g' b));
                 [exact (frame_ctx g' a b (fun _ => eq_refl) F) | cbv beta]
      end
  end;
  cbn; rewrite <- ?app_assoc; try reflexivity.


(** ** Giving the lease back *)

Section Unlock.

Context {HW zobj bobj : Type}.
Implicit Types (w : World HW zobj bobj) (s : session).

Lemma target_locked_free s w :
  _lock_owner w = None -> target_locked s w = (Ok false, w).
Proof.
  intros O. unfold target_locked.
  rewrite (bind_ok _ _ _ _ _ (check_expired_falsy s w ltac:(rewrite O; reflexivity))).
  apply check_locked_admits. left. exact O.
Qed.

(** X1: only the owner gives the lease back.  While [a] holds the lease,
    [target_unlock] called by anybody else returns [False] and leaves the
    owner and the expiry as they are; called by [a] it returns [True], the
    agent has no owner any more and [target_locked] is [False] for every
    session. *)
Theorem unlock_only_by_owner a e b w :
  held_until a e 1 w -> b <> Some a ->
  (exists w', target_unlock b w = (Ok false, w') /\
              _lock_owner w' = Some a /\ _lock_expiry w' = Some e /\
              same_but_lease w w') /\
  (exists w', target_unlock (Some a) w = (Ok true, w') /\
              _lock_owner w' = None /\ same_but_lease w w' /\
              forall s, target_locked s w' = (Ok false, w')).
Proof.
  intros H N. split.
  - destruct (check_expired_held b a e 0 w N H) as (w0 & E & (O & X & _) & F).
    exists w0. split; [|repeat split; assumption].
    unfold target_unlock. rewrite (bind_ok _ _ _ _ _ E).
    unfold bind, target_owner, gets, ret. rewrite O, session_eqb_sym.
    rewrite (session_eqb_neq _ _ N). reflexivity.
  - destruct H as (O & _).
    destruct (check_expired_admits (Some a) w (or_intror O)) as (w0 & E & _ & _ & O0 & F).
    exists (set_lock_owner None w0). split; [|split; [reflexivity|split]].
    + unfold target_unlock. rewrite (bind_ok _ _ _ _ _ E).
      unfold bind, target_owner, gets, modify, ret. rewrite O0, O, session_eqb_refl.
      reflexivity.
    + unfold same_but_lease. rewrite <- F. reflexivity.
    + intros s. apply target_locked_free. reflexivity.
Qed.

(** X2: taking the lease and giving it back is a round trip.  On an agent
    that nobody holds, [target_lock(s)] then [target_unlock(s)] both return
    [True], whatever the token [s] is, and leave the agent without an owner
    and otherwise as it was; any session can take the lease next. *)
Theorem lock_unlock_round_trip s w :
  _lock_owner w = None ->
  exists w1 w2,
    target_lock s w = (Ok true, w1) /\ _lock_owner w1 = s /\
    target_unlock s w1 = (Ok true, w2) /\ _lock_owner w2 = None /\
    same_but_lease w w2 /\
    forall s', target_lock s' w2 = (Ok true, set_lock_owner s' w2).
Proof.
  intros O.
  assert (Free : forall s' w', _lock_owner w' = None ->
            target_lock s' w' = (Ok true, set_lock_owner s' w')).
  { intros s' w' O'. unfold target_lock.
    rewrite (bind_ok _ _ _ _ _ (check_expired_falsy s' w' ltac:(rewrite O'; reflexivity))).
    unfold bind, target_owner, gets, modify, ret. rewrite O'. reflexivity. }
  destruct (check_expired_admits s (set_lock_owner s w) (or_intror eq_refl))
    as (w0 & E & _ & _ & O0 & F).
  exists (set_lock_owner s w), (set_lock_owner None w0).
  split; [apply Free; exact O|]. split; [reflexivity|]. split; [|split; [reflexivity|split]].
  - unfold target_unlock. rewrite (bind_ok _ _ _ _ _ E).
    unfold bind, target_owner, gets, modify, ret. rewrite O0. cbn.
    rewrite session_eqb_refl. reflexivity.
  - unfold same_but_lease.
    change (forget_lease (set_lock_owner None w0)) with (forget_lease w0).
    rewrite F. reflexivity.
  - intros s'. apply Free. reflexivity.
Qed.

(** X3: a lease taken with the empty token never runs out.  The expiry
    check looks at the owner's truth value, and the empty string is false:
    [target_lock("")] succeeds on a free agent, and on any agent owned by
    the empty token every other session is refused the lease, is told that
    the target is locked and cannot unlock it, whatever the expiry and the
    clock are; these calls leave the agent exactly as it is, so that the
    next one finds the same. *)
Theorem empty_token_lease_is_permanent w :
  _lock_owner w = None ->
  target_lock (Some "") w = (Ok true, set_lock_owner (Some "") w) /\
  forall s w', _lock_owner w' = Some "" -> s <> Some "" ->
    target_lock s w' = (Ok false, w') /\
    target_locked s w' = (Ok true, w') /\
    target_unlock s w' = (Ok false, w') /\
    power_locked s w' = (Ok true, w') /\
    sd_locked s w' = (Ok true, w').
Proof.
  intros O. split.
  - unfold target_lock.
    rewrite (bind_ok _ _ _ _ _ (check_expired_falsy _ w ltac:(rewrite O; reflexivity))).
    unfold bind, target_owner, gets, modify, ret. rewrite O. reflexivity.
  - intros s w' O' N.
    assert (E : _check_expired s w' = (Ok tt, w')).
    { apply check_expired_falsy. rewrite O'. reflexivity. }
    assert (L : _check_locked s w' = (Ok true, w')).
    { apply (check_locked_held s ""); [exact N|exact O']. }
    assert (Q : session_eqb (Some "") s = false).
    { apply session_eqb_neq. congruence. }
    repeat split.
    + unfold target_lock. rewrite (bind_ok _ _ _ _ _ E).
      unfold bind, target_owner, gets, modify, ret. rewrite O', Q. reflexivity.
    + unfold target_locked. rewrite (bind_ok _ _ _ _ _ E). exact L.
    + unfold target_unlock. rewrite (bind_ok _ _ _ _ _ E).
      unfold bind, target_owner, gets, modify, ret. rewrite O', Q. reflexivity.
    + unfold power_locked. rewrite (bind_ok _ _ _ _ _ E), (bind_ok _ _ _ _ _ L).
      reflexivity.
    + unfold sd_locked. rewrite (bind_ok _ _ _ _ _ E), (bind_ok _ _ _ _ _ L).
      reflexivity.
Qed.

End Unlock.

(** ** The console and the lease *)

Section Console.

Context {HW zobj bobj : Type}.
Implicit Types (w : World HW zobj bobj) (s : session).

Lemma logger_or_none_run m w :
  logger_or_none m w =
    match console_logger w with
    | Some l => (Ok (Some (fst (cl_call l m (hw w)))),
                 set_trace (trace w ++ [LoggerCall m]) (set_hw (snd (cl_call l m (hw w))) w))
    | None => (Ok None, w)
    end.
Proof.
  unfold logger_or_none, bind, gets, call, ret.
  destruct (console_logger w) as [l|]; [|reflexivity].
  destruct (cl_call l m (hw w)); reflexivity.
Qed.

Lemma console_gated_held m b a e w :
  b <> Some a -> held_until a e 2 w -> yields (console_gated m b) w None [] (hw w).
Proof.
  intros N H.
  destruct (check_expired_held b a e 1 w N H) as (w0 & E0 & H0 & F0).
  destruct (check_expired_held b a e 0 w0 N H0) as (w1 & E1 & (O1 & _) & F1).
  apply (yields_nothing _ w None w1); [|congruence].
  unfold console_gated. rewrite (bind_ok _ _ _ _ _ E0).
  unfold console_locked. unfold bind at 1. unfold bind at 1. rewrite E1.
  rewrite (bind_ok _ _ _ _ _ (check_locked_held b a w1 N O1)). reflexivity.
Qed.

Lemma console_open_wf m s w l :
  lease_wf w -> console_logger w = Some l ->
  yields (console_open m s) w (Some (fst (cl_call l m (hw w)))) [LoggerCall m]
    (snd (cl_call l m (hw w))).
Proof.
  intros WF Hl. destruct (check_expired_total s w WF) as (w0 & E0 & _ & F0).
  apply (yields_from _ w w0); [exact F0|].
  unfold console_open. rewrite (bind_ok _ _ _ _ _ E0), logger_or_none_run.
  rewrite (frame_proj console_logger w w0 (fun _ => eq_refl) F0), Hl.
  rewrite (frame_proj hw w w0 (fun _ => eq_refl) F0). reflexivity.
Qed.

Lemma held_lease_wf a e k w : held_until a e k w -> lease_wf w.
Proof. intros (_ & X & _) _. congruence. Qed.

(** X4: the lease gates the console methods that act on the console
    (clear, flush, prompt, run, send, tail) and not those that read or
    print (head, lines, print), nor [toggle_timestamps], which takes no
    session.  While [a] holds the lease, the former called by anybody else
    return [None] without reaching the logger; the latter reach it and
    return what it returns. *)
Theorem console_lease_gate b a e w l newPrompt cmd data raw text :
  b <> Some a -> held_until a e 2 w -> console_logger w = Some l ->
  (forall c, In c [console_clear b; console_flush b; console_prompt newPrompt b;
                   console_run cmd b; console_send data raw b; console_tail b] ->
     yields c w None [] (hw w)) /\
  passes_to_logger (console_head b) w l LHead /\
  passes_to_logger (console_lines b) w l LLines /\
  passes_to_logger (console_print text b) w l (LPrint text) /\
  passes_to_logger toggle_timestamps w l LToggleTimestamps.
Proof.
  intros N H Hl. split.
  - intros c Hc. cbn in Hc.
    repeat (destruct Hc as [<-|Hc]; [apply (console_gated_held _ b a e w N H)|]).
    contradiction.
  - pose proof (held_lease_wf a e 2 w H) as WF.
    repeat split; try (apply (console_open_wf _ b w l WF Hl)).
    apply (yields_from _ w w); [reflexivity|].
    unfold toggle_timestamps, bind, gets, call, ret. rewrite Hl.
    destruct (cl_call l LToggleTimestamps (hw w)); reflexivity.
Qed.

(** X5: with no console logger, every console method returns [None] and
    changes nothing but the lease; [toggle_timestamps] says so on the error
    stream. *)
Theorem console_without_logger s w newPrompt cmd data raw text :
  lease_wf w -> console_logger w = None ->
  (forall c, In c [console_clear s; console_flush s; console_head s; console_lines s;
                   console_print text s; console_prompt newPrompt s;
                   console_run cmd s; console_send data raw s; console_tail s] ->
     yields c w None [] (hw w)) /\
  toggle_timestamps w =
    (Ok None, set_stderr (stderr w ++ ["no console configured/found!"]) w).
Proof.
  intros WF Hl. split.
  - assert (G : forall m, yields (console_gated m s) w None [] (hw w)).
    { intros m. destruct (check_expired_total s w WF) as (w0 & E0 & WF0 & F0).
      destruct (check_expired_total s w0 WF0) as (w1 & E1 & _ & F1).
      assert (L1 : console_logger w1 = None).
      { rewrite (frame_proj console_logger w0 w1 (fun _ => eq_refl) F1).
        rewrite (frame_proj console_logger w w0 (fun _ => eq_refl) F0). exact Hl. }
      apply (yields_nothing _ w None w1); [|congruence].
      unfold console_gated. rewrite (bind_ok _ _ _ _ _ E0).
      unfold console_locked. unfold bind at 1. unfold bind at 1. rewrite E1.
      unfold bind. rewrite check_locked_run.
      destruct (match _lock_owner w1 with None => false | Some _ => _ end);
        [reflexivity|].
      cbv beta iota. unfold ret. rewrite logger_or_none_run, L1. reflexivity. }
    assert (P : forall m, yields (console_open m s) w None [] (hw w)).
    { intros m. destruct (check_expired_total s w WF) as (w0 & E0 & WF0 & F0).
      apply (yields_nothing _ w None w0); [|exact F0].
      unfold console_open. rewrite (bind_ok _ _ _ _ _ E0), logger_or_none_run.
      rewrite (frame_proj console_logger w w0 (fun _ => eq_refl) F0), Hl. reflexivity. }
    intros c Hc. cbn in Hc.
    repeat (destruct Hc as [<-|Hc]; [first [apply G|apply P]|]). contradiction.
  - unfold toggle_timestamps, bind, gets, print_stderr, modify, ret. rewrite Hl.
    reflexivity.
Qed.

End Console.

(** ** Power commands that the lease lets through *)

Section Power.

Context {HW zobj bobj : Type}.
Implicit Types (w : World HW zobj bobj) (s : session).

(** Passing the gate of the power commands. *)
Lemma power_gate_admits {A} s w p (k : bool -> @M HW zobj bobj A) :
  admits s w -> power_controller w = Some p ->
  exists w1, bind (_check_expired s) (fun _ => bind (power_locked s) k) w = k false w1 /\
             admits s w1 /\ lease_wf w1 /\ forget_lease w1 = forget_lease w.
Proof.
  intros Ad Hp.
  destruct (check_expired_admits s w Ad) as (w0 & E0 & A0 & _ & _ & F0).
  destruct (power_locked_admits s w0 A0) as (w1 & L & A1 & WF1 & F1).
  exists w1. split; [|repeat split; [assumption|assumption|congruence]].
  rewrite (bind_ok _ _ _ _ _ E0), (bind_ok _ _ _ _ _ L).
  rewrite (frame_proj power_controller w w0 (fun _ => eq_refl) F0), Hp. reflexivity.
Qed.

Lemma logger_do_run m w l :
  console_logger w = Some l ->
  logger_do m w =
    (Ok tt, set_trace (trace w ++ [LoggerCall m]) (set_hw (snd (cl_call l m (hw w))) w)).
Proof.
  intros Hl. unfold logger_do, bind, deref, call, ret. rewrite Hl.
  destruct (cl_call l m (hw w)); reflexivity.
Qed.

Lemma logger_do_none m w :
  console_logger w = None -> logger_do m w = (Raise AttributeError, w).
Proof. intros Hl. unfold logger_do, bind, deref. rewrite Hl. reflexivity. Qed.

Lemma frame_step w1 wa t h :
  forget_lease w1 = forget_lease wa ->
  forget_lease (set_trace (trace w1 ++ t) (set_hw h w1))
  = forget_lease (set_trace (trace wa ++ t) (set_hw h wa)).
Proof.
  intros F. rewrite (frame_proj trace wa w1 (fun _ => eq_refl) F).
  apply frame_update. exact F.
Qed.

Lemma frame_raise {A} (c : @M HW zobj bobj A) w e wf evs h w0 :
  forget_lease w0 = forget_lease w ->
  c w = (Raise e, wf) ->
  forget_lease wf = forget_lease (set_trace (trace w0 ++ evs) (set_hw h w0)) ->
  exists w', c w = (Raise e, w') /\
             same_but_lease (set_trace (trace w ++ evs) (set_hw h w)) w'.
Proof.
  intros F E G. exists wf. split; [exact E|]. unfold same_but_lease.
  rewrite G. apply frame_step. exact F.
Qed.

(** X6: a power command that the lease lets through reaches the driver
    once and returns what the driver returns.  [target_on] tells the
    console logger to resume first; [target_off] tells it afterwards to
    reset its timer and, when the driver reports success, to pause. *)
Theorem power_commands_reach_driver s w p :
  admits s w -> power_controller w = Some p ->
  let l := console_logger w in
  (let h := logged l [LResume] (hw w) in
   yields (target_on s) w (fst (pc_on p h))
     (logger_calls l [LResume] ++ [PowerOn]) (snd (pc_on p h))) /\
  (let st := fst (pc_off p (hw w)) in
   let ms := LResetTimer :: (if st then [LPause] else []) in
   (l = None -> st = false) ->
   yields (target_off s) w st
     (PowerOff :: logger_calls l ms) (logged l ms (snd (pc_off p (hw w))))).
Proof.
  intros Ad Hp l. split.
  - intros h.
    pose (k := fun locked : bool =>
                 if negb locked
                 then bind (deref (power_controller (HW:=HW) (zobj:=zobj) (bobj:=bobj)))
                        (fun p => call PowerOn (pc_on p))
                 else ret false).
    assert (K : forall w1 wa, forget_lease w1 = forget_lease wa ->
                power_controller wa = Some p ->
                k false w1 = (Ok (fst (pc_on p (hw wa))),
                              set_trace (trace w1 ++ [PowerOn])
                                (set_hw (snd (pc_on p (hw wa))) w1))).
    { intros w1 wa F1 Hpa. unfold k. cbn [negb]. unfold bind, deref, call.
      rewrite (frame_proj power_controller wa w1 (fun _ => eq_refl) F1), Hpa.
      rewrite (frame_proj hw wa w1 (fun _ => eq_refl) F1).
      destruct (pc_on p (hw wa)); reflexivity. }
    destruct (console_logger w) as [cl|] eqn:Hl; subst l.
    + pose (wa := set_trace (trace w ++ [LoggerCall LResume])
                    (set_hw (snd (cl_call cl LResume (hw w))) w)).
      destruct (power_gate_admits s wa p k Ad Hp) as (w1 & E & _ & _ & F1).
      eapply (yields_after_intro (fun x => x) _ w w); [reflexivity|reflexivity| |].
      * unfold target_on. unfold bind at 1, gets at 1. rewrite Hl.
        unfold bind at 1. rewrite (logger_do_run LResume w cl Hl).
        fold k. fold wa. rewrite E. apply (K w1 wa F1 Hp).
      * rewrite (frame_step w1 wa _ _ F1). subst wa. cbn.
        rewrite <- app_assoc. reflexivity.
    + destruct (power_gate_admits s w p k Ad Hp) as (w1 & E & _ & _ & F1).
      eapply (yields_after_intro (fun x => x) _ w w1); [reflexivity|exact F1| |].
      * unfold target_on. unfold bind at 1, gets at 1. rewrite Hl.
        unfold bind at 1, ret at 1. fold k. rewrite E. apply (K w1 w F1 Hp).
      * reflexivity.
  - intros st ms Hst.
    pose (k := fun locked : bool =>
                 if negb locked
                 then bind (deref (power_controller (HW:=HW) (zobj:=zobj) (bobj:=bobj)))
                        (fun p =>
                      bind (call PowerOff (pc_off p)) (fun status =>
                      bind (gets console_logger) (fun cl =>
                      bind (match cl with Some _ => logger_do LResetTimer
                                        | None => ret tt end) (fun _ =>
                      bind (if status then logger_do LPause else ret tt) (fun _ =>
                      ret status)))))
                 else ret false).
    destruct (power_gate_admits s w p k Ad Hp) as (w1 & E & _ & _ & F1).
    pose proof (frame_proj power_controller w w1 (fun _ => eq_refl) F1) as P1.
    pose proof (frame_proj hw w w1 (fun _ => eq_refl) F1) as H1.
    pose proof (frame_proj console_logger w w1 (fun _ => eq_refl) F1) as L1.
    assert (R : target_off s w = k false w1) by (unfold target_off; fold k; exact E).
    subst st ms l. rewrite <- L1 in Hst |- *.
    assert (K : k false w1 =
                bind (call PowerOff (pc_off p)) (fun status =>
                bind (gets console_logger) (fun cl =>
                bind (match cl with Some _ => logger_do LResetTimer
                                  | None => ret tt end) (fun _ =>
                bind (if status then logger_do LPause else ret tt) (fun _ =>
                ret status)))) w1).
    { unfold k. cbn [negb]. unfold bind at 1, deref at 1. rewrite P1, Hp. reflexivity. }
    rewrite K in R. clear K E. unfold bind at 1, call at 1 in R. rewrite H1 in R.
    destruct (pc_off p (hw w)) as [st h1]. cbn [fst snd] in *.
    unfold bind at 1, gets at 1 in R. cbn [console_logger set_trace set_hw] in R.
    destruct (console_logger w1) as [cl|] eqn:Hl.
    + unfold bind at 1 in R.
      rewrite (logger_do_run LResetTimer _ cl) in R by exact Hl.
      destruct st.
      * unfold bind at 1 in R.
        rewrite (logger_do_run LPause _ cl) in R by exact Hl.
        eapply (yields_after_intro (fun x => x) _ w w1); [reflexivity|exact F1|exact R|].
        cbn. rewrite <- !app_assoc. reflexivity.
      * eapply (yields_after_intro (fun x => x) _ w w1); [reflexivity|exact F1|exact R|].
        cbn. rewrite <- !app_assoc. reflexivity.
    + rewrite (Hst eq_refl) in *.
      eapply (yields_after_intro (fun x => x) _ w w1); [reflexivity|exact F1|exact R|].
      reflexivity.
Qed.

(** X7: [target_off] with a power controller and no console logger.  The
    command reaches the driver; when the driver reports success the method
    goes on to pause a logger that is not there and raises
    [AttributeError], the power being off already. *)
Theorem target_off_without_logger s w p :
  admits s w -> power_controller w = Some p -> console_logger w = None ->
  fst (pc_off p (hw w)) = true ->
  raises (target_off s) w AttributeError [PowerOff] (snd (pc_off p (hw w))).
Proof.
  intros Ad Hp Hl Hst.
  pose (k := fun locked : bool =>
               if negb locked
               then bind (deref (power_controller (HW:=HW) (zobj:=zobj) (bobj:=bobj)))
                      (fun p =>
                    bind (call PowerOff (pc_off p)) (fun status =>
                    bind (gets console_logger) (fun cl =>
                    bind (match cl with Some _ => logger_do LResetTimer
                                      | None => ret tt end) (fun _ =>
                    bind (if status then logger_do LPause else ret tt) (fun _ =>
                    ret status)))))
               else ret false).
  destruct (power_gate_admits s w p k Ad Hp) as (w1 & E & _ & _ & F1).
  pose proof (frame_proj power_controller w w1 (fun _ => eq_refl) F1) as P1.
  pose proof (frame_proj hw w w1 (fun _ => eq_refl) F1) as H1.
  pose proof (frame_proj console_logger w w1 (fun _ => eq_refl) F1) as L1.
  assert (R : target_off s w = k false w1) by (unfold target_off; fold k; exact E).
  unfold k in R. cbn [negb] in R. unfold bind at 1, deref at 1 in R.
  rewrite P1, Hp in R. unfold bind at 1, call at 1 in R. rewrite H1 in R.
  destruct (pc_off p (hw w)) as [st h1]. cbn [fst snd] in *. subst st.
  unfold bind at 1, gets at 1 in R. cbn [console_logger set_trace set_hw] in R.
  rewrite L1, Hl in R. unfold bind at 1, ret at 1 in R. unfold bind at 1 in R.
  rewrite logger_do_none in R by (cbn; congruence).
  apply (frame_raise _ w _ _ _ _ w1 F1 R). reflexivity.
Qed.

(** X8: [target_toggle] let through by the lease reaches the driver once
    and returns the state the driver reports.  The console logger is told
    about it only when that state is [POWER_OFF]: it is resumed, paused and
    its timer reset, in this order; a toggle that ends in any other state
    leaves the logger alone. *)
Theorem target_toggle_and_logger s w p :
  admits s w -> power_controller w = Some p ->
  let st := fst (pc_toggle p (hw w)) in
  let ms := if (st =? POWER_OFF p)%string then [LResume; LPause; LResetTimer] else [] in
  yields (target_toggle s) w st
    (PowerToggle :: logger_calls (console_logger w) ms)
    (logged (console_logger w) ms (snd (pc_toggle p (hw w)))).
Proof.
  intros Ad Hp st ms.
  pose (k := fun locked : bool =>
               if negb locked
               then bind (deref (power_controller (HW:=HW) (zobj:=zobj) (bobj:=bobj)))
                      (fun p =>
                    bind (call PowerToggle (pc_toggle p)) (fun status =>
                    bind (gets console_logger) (fun cl =>
                    bind (match cl with
                          | Some _ =>
                              bind (if (status =? POWER_OFF p)%string
                                    then logger_do LResume else ret tt) (fun _ =>
                              if (status =? POWER_OFF p)%string
                              then bind (logger_do LPause)
                                     (fun _ => logger_do LResetTimer)
                              else ret tt)
                          | None => ret tt
                          end) (fun _ =>
                    ret status))))
               else bind (deref power_controller) (fun p => ret (POWER_LOCKED p))).
  destruct (power_gate_admits s w p k Ad Hp) as (w1 & E & _ & _ & F1).
  pose proof (frame_proj power_controller w w1 (fun _ => eq_refl) F1) as P1.
  pose proof (frame_proj hw w w1 (fun _ => eq_refl) F1) as H1.
  pose proof (frame_proj console_logger w w1 (fun _ => eq_refl) F1) as L1.
  assert (R : target_toggle s w = k false w1) by (unfold target_toggle; fold k; exact E).
  unfold k in R. cbn [negb] in R. unfold bind at 1, deref at 1 in R.
  rewrite P1, Hp in R. unfold bind at 1, call at 1 in R. rewrite H1 in R.
  subst st ms. rewrite <- L1.
  destruct (pc_toggle p (hw w)) as [st h1]. cbn [fst snd] in *.
  unfold bind at 1, gets at 1 in R. cbn [console_logger set_trace set_hw] in R.
  destruct (console_logger w1) as [cl|] eqn:Hl.
  - destruct (st =? POWER_OFF p)%string.
    + unfold bind at 1 in R. unfold bind at 1 in R.
      rewrite (logger_do_run LResume _ cl) in R by exact Hl.
      unfold bind at 1 in R.
      rewrite (logger_do_run LPause _ cl) in R by exact Hl.
      rewrite (logger_do_run LResetTimer _ cl) in R by exact Hl.
      eapply (yields_after_intro (fun x => x) _ w w1); [reflexivity|exact F1|exact R|].
      cbn. rewrite <- !app_assoc. reflexivity.
    + eapply (yields_after_intro (fun x => x) _ w w1); [reflexivity|exact F1|exact R|].
      reflexivity.
  - eapply (yields_after_intro (fun x => x) _ w w1); [reflexivity|exact F1|exact R|].
    destruct (st =? POWER_OFF p)%string; reflexivity.
Qed.

End Power.

(** ** Subsystems that are not configured *)

Section Unavailable.

Context {HW zobj bobj : Type}.
Implicit Types (w : World HW zobj bobj) (s : session).

Lemma power_locked_none s w :
  lease_wf w -> power_controller w = None ->
  exists w0, power_locked s w = (Ok true, w0) /\ lease_wf w0 /\
             forget_lease w0 = forget_lease w.
Proof.
  intros WF Hp. destruct (check_expired_total s w WF) as (w0 & E & WF0 & F0).
  exists w0. split; [|split; assumption].
  rewrite (power_locked_after s w w0 E).
  rewrite (frame_proj power_controller w w0 (fun _ => eq_refl) F0), Hp.
  rewrite orb_true_r. reflexivity.
Qed.

Lemma sd_locked_no_mux s w :
  lease_wf w -> sdmux_controller w = None ->
  exists w0, sd_locked s w = (Ok true, w0) /\ lease_wf w0 /\
             forget_lease w0 = forget_lease w.
Proof.
  intros WF Hm. destruct (check_expired_total s w WF) as (w0 & E & WF0 & F0).
  exists w0. split; [|split; assumption].
  unfold sd_locked. rewrite (bind_ok _ _ _ _ _ E).
  unfold bind at 1. rewrite check_locked_run.
  destruct (match _lock_owner w0 with None => false | Some _ => _ end); [reflexivity|].
  unfold bind, gets, ret.
  rewrite (frame_proj sdmux_controller w w0 (fun _ => eq_refl) F0), Hm. reflexivity.
Qed.

(** A method that checks the expiry and returns [r] when a driver is
    missing. *)
Lemma sentinel_after_check {A D} s w (field : World HW zobj bobj -> option D)
    (rest : D -> @M HW zobj bobj A) (r : A) :
  (forall x, field (forget_lease x) = field x) ->
  lease_wf w -> field w = None ->
  yields (bind (_check_expired s) (fun _ =>
          bind (gets field) (fun d =>
          match d with None => ret r | Some d => rest d end))) w r [] (hw w).
Proof.
  intros Hf WF Hn. destruct (check_expired_total s w WF) as (w0 & E & WF0 & F0).
  apply (yields_nothing _ w r w0); [|exact F0].
  rewrite (bind_ok _ _ _ _ _ E). unfold bind, gets, ret.
  rewrite (frame_proj field w w0 Hf F0), Hn. reflexivity.
Qed.

(** X9: what a subsystem that is not configured answers.  With no power
    controller the power commands return [False], the status is ["???"]
    and [power_locked] is true; with no mux driver the methods of the SD
    card return [False], [-1] or ["???"].  None of them reaches a driver or
    changes anything but the lease; [target_on] alone still tells the
    console logger, if there is one, to resume. *)
Theorem unavailable_sentinels s w part dst offset data fuel :
  lease_wf w ->
  (power_controller w = None ->
     yields (target_off s) w false [] (hw w) /\
     yields (target_status s) w "???" [] (hw w) /\
     yields (power_locked s) w true [] (hw w) /\
     yields (target_on s) w false (logger_calls (console_logger w) [LResume])
       (logged (console_logger w) [LResume] (hw w))) /\
  (sdmux_controller w = None ->
     (forall c, In c [sd_open s; sd_close s; sd_to_host s; sd_to_target s] ->
        yields c w false [] (hw w)) /\
     yields (sd_locked s) w true [] (hw w) /\
     (_sd_mounted w = false -> yields (sd_mount part s) w false [] (hw w)) /\
     (forall c, In c [sd_update dst offset data s; sd_write_raw data s;
                      sd_write_gz fuel data s; sd_write_bz2 fuel data s] ->
        yields c w (-1) [] (hw w)) /\
     (forall c, In c [sd_status s; sd_toggle s] -> yields c w "???" [] (hw w))).
Proof.
  intros WF. split.
  - intros Hp. repeat split.
    + destruct (check_expired_total s w WF) as (w0 & E & WF0 & F0).
      destruct (power_locked_none s w0 WF0) as (w1 & L & _ & F1).
      { rewrite (frame_proj power_controller w w0 (fun _ => eq_refl) F0). exact Hp. }
      apply (yields_nothing _ w false w1); [|congruence].
      unfold target_off. rewrite (bind_ok _ _ _ _ _ E), (bind_ok _ _ _ _ _ L).
      reflexivity.
    + apply (sentinel_after_check s w power_controller _ "???" (fun _ => eq_refl) WF Hp).
    + destruct (power_locked_none s w WF Hp) as (w0 & L & _ & F0).
      apply (yields_nothing _ w true w0); assumption.
    + assert (G : forall wa, lease_wf wa -> power_controller wa = None ->
                exists w1, bind (_check_expired s) (fun _ =>
                             bind (power_locked s) (fun locked =>
                               if negb locked
                               then bind (deref power_controller)
                                      (fun p => call PowerOn (pc_on p))
                               else ret false)) wa = (Ok false, w1) /\
                           forget_lease w1 = forget_lease wa).
      { intros wa WFa Hpa.
        destruct (check_expired_total s wa WFa) as (w0 & E & WF0 & F0).
        destruct (power_locked_none s w0 WF0) as (w1 & L & _ & F1).
        { rewrite (frame_proj power_controller wa w0 (fun _ => eq_refl) F0). exact Hpa. }
        exists w1. split; [|congruence].
        rewrite (bind_ok _ _ _ _ _ E), (bind_ok _ _ _ _ _ L). reflexivity. }
      destruct (console_logger w) as [cl|] eqn:Hl.
      * destruct (G (set_trace (trace w ++ [LoggerCall LResume])
                       (set_hw (snd (cl_call cl LResume (hw w))) w)) WF Hp)
          as (w1 & E & F1).
        eapply (yields_after_intro (fun x => x) _ w w); [reflexivity|reflexivity| |].
        -- unfold target_on. unfold bind at 1, gets at 1. rewrite Hl.
           unfold bind at 1. rewrite (logger_do_run LResume w cl Hl). exact E.
        -- rewrite F1. reflexivity.
      * destruct (G w WF Hp) as (w1 & E & F1).
        apply (yields_nothing _ w false w1); [|exact F1].
        unfold target_on. unfold bind at 1, gets at 1. rewrite Hl.
        unfold bind at 1, ret at 1. exact E.
  - intros Hm.
    assert (S : forall k : bool -> @M HW zobj bobj bool,
              (k true = ret false) ->
              yields (bind (_check_expired s) (fun _ => bind (sd_locked s) k))
                w false [] (hw w)).
    { intros k Hk. destruct (check_expired_total s w WF) as (w0 & E & WF0 & F0).
      destruct (sd_locked_no_mux s w0 WF0) as (w1 & L & _ & F1).
      { rewrite (frame_proj sdmux_controller w w0 (fun _ => eq_refl) F0). exact Hm. }
      apply (yields_nothing _ w false w1); [|congruence].
      rewrite (bind_ok _ _ _ _ _ E), (bind_ok _ _ _ _ _ L), Hk. reflexivity. }
    repeat split.
    + intros c Hc. cbn in Hc. destruct Hc as [<-|[<-|[<-|[<-|[]]]]].
      * apply (sentinel_after_check s w sdmux_controller _ false (fun _ => eq_refl) WF Hm).
      * apply (sentinel_after_check s w sdmux_controller _ false (fun _ => eq_refl) WF Hm).
      * apply S. reflexivity.
      * apply S. reflexivity.
    + destruct (sd_locked_no_mux s w WF Hm) as (w0 & L & _ & F0).
      apply (yields_nothing _ w true w0); assumption.
    + intros Hmt. destruct (check_expired_total s w WF) as (w0 & E & WF0 & F0).
      apply (yields_nothing _ w false w0); [|exact F0].
      unfold sd_mount. rewrite (bind_ok _ _ _ _ _ E). unfold bind, gets, ret.
      rewrite (frame_proj _sd_mounted w w0 (fun _ => eq_refl) F0), Hmt.
      rewrite (frame_proj sdmux_controller w w0 (fun _ => eq_refl) F0), Hm. reflexivity.
    + intros c Hc. cbn in Hc. destruct Hc as [<-|[<-|[<-|[<-|[]]]]];
        apply (sentinel_after_check s w sdmux_controller _ (-1) (fun _ => eq_refl) WF Hm).
    + intros c Hc. cbn in Hc. destruct Hc as [<-|[<-|[]]].
      * apply (sentinel_after_check s w sdmux_controller _ "???" (fun _ => eq_refl) WF Hm).
      * destruct (check_expired_total s w WF) as (w0 & E & WF0 & F0).
        destruct (sd_locked_no_mux s w0 WF0) as (w1 & L & WF1 & F1).
        { rewrite (frame_proj sdmux_controller w w0 (fun _ => eq_refl) F0). exact Hm. }
        destruct (check_expired_total s w1 WF1) as (w2 & E2 & _ & F2).
        apply (yields_nothing _ w "???" w2); [|congruence].
        unfold sd_toggle. rewrite (bind_ok _ _ _ _ _ E), (bind_ok _ _ _ _ _ L).
        cbn [negb]. unfold bind at 1, ret at 1.
        unfold sd_status. rewrite (bind_ok _ _ _ _ _ E2). unfold bind, gets, ret.
        rewrite (frame_proj sdmux_controller w1 w2 (fun _ => eq_refl) F2).
        rewrite (frame_proj sdmux_controller w0 w1 (fun _ => eq_refl) F1).
        rewrite (frame_proj sdmux_controller w w0 (fun _ => eq_refl) F0), Hm.
        reflexivity.
Qed.

End Unavailable.

(** ** The write session: opening, closing, mounting *)

Section Session.

Context {HW zobj bobj : Type}.
Implicit Types (w : World HW zobj bobj) (s : session).

(** What [sd_close] does with a mux driver, whoever calls it. *)
Lemma sd_close_run s w m :
  lease_wf w -> sdmux_controller w = Some m ->
  exists w0, forget_lease w0 = forget_lease w /\ lease_wf w0 /\
    sd_close s w =
      if _sd_opened w
      then (Ok (fst (mx_close m (hw w))),
            set_sd_opened (negb (fst (mx_close m (hw w))))
              (set_trace (trace w0 ++ [MuxClose])
                 (set_hw (snd (mx_close m (hw w))) (without_decoders w0))))
      else (Ok true, without_decoders w0).
Proof.
  intros WF Hm. destruct (check_expired_total s w WF) as (w0 & E & WF0 & F0).
  exists w0. split; [exact F0|]. split; [exact WF0|].
  pose proof (frame_proj sdmux_controller w w0 (fun _ => eq_refl) F0) as M0.
  pose proof (frame_proj _sd_opened w w0 (fun _ => eq_refl) F0) as O0.
  pose proof (frame_proj hw w w0 (fun _ => eq_refl) F0) as H0.
  destruct (_sd_opened w) eqn:Ho.
  - rewrite (sd_close_opened s w w0 m E); [|congruence|congruence].
    rewrite H0. reflexivity.
  - rewrite (sd_close_not_opened s w w0 m E); [|congruence|congruence]. reflexivity.
Qed.

(** X10: [sd_close] with a mux driver, whoever calls it.  The decompressors
    are dropped; the driver's [close()] is called when a session is open,
    and only then; the session stays open exactly when the driver refuses
    to close it, in which case the method returns [False], and the next
    [sd_close] finds the session open and calls the driver again. *)
Theorem sd_close_outcome s w m :
  lease_wf w -> sdmux_controller w = Some m ->
  let still := _sd_opened w && negb (fst (mx_close m (hw w))) in
  yields_after (fun x => set_sd_opened still (without_decoders x)) (sd_close s) w
    (negb still)
    (if _sd_opened w then [MuxClose] else [])
    (if _sd_opened w then snd (mx_close m (hw w)) else hw w).
Proof.
  intros WF Hm still. destruct (sd_close_run s w m WF Hm) as (w0 & F0 & _ & R).
  pose proof (frame_proj _sd_opened w w0 (fun _ => eq_refl) F0) as O0.
  subst still. destruct (_sd_opened w) eqn:Ho; cbn [andb] in *.
  - eapply (yields_after_intro _ _ w w0); [reflexivity|exact F0| |].
    + rewrite R, Bool.negb_involutive. reflexivity.
    + reflexivity.
  - eapply (yields_after_intro _ _ w w0); [reflexivity|exact F0|exact R|].
    pose proof (frame_proj hw w w0 (fun _ => eq_refl) F0) as H0.
    rewrite app_nil_r, <- H0. destruct w0. cbn in O0 |- *. rewrite O0. reflexivity.
Qed.

Lemma sd_open_tail (x : World HW zobj bobj) m :
  sdmux_controller x = Some m ->
  bind (modify (set_sd_bytes_written 0)) (fun _ =>
  bind (deref sdmux_controller) (fun m =>
  bind (call MuxOpen (mx_open m)) (fun status =>
  bind (modify (set_sd_opened status)) (fun _ => ret status)))) x =
  (Ok (fst (mx_open m (hw x))),
   set_sd_opened (fst (mx_open m (hw x)))
     (set_trace (trace x ++ [MuxOpen])
        (set_hw (snd (mx_open m (hw x))) (set_sd_bytes_written 0 x)))).
Proof.
  intros Hm. unfold bind, modify, deref, call, ret. cbn. rewrite Hm. cbn.
  destruct (mx_open m (hw x)); reflexivity.
Qed.

(** X11: [sd_open] starts a session afresh.  It closes the session that is
    open, if any, drops the decompressors, sets the byte counter to 0 and
    calls the driver's [open()], whose result is returned and becomes
    [_sd_opened], also when the close before it was refused. *)
Theorem sd_open_starts_afresh s w m :
  lease_wf w -> sdmux_controller w = Some m ->
  let h1 := if _sd_opened w then snd (mx_close m (hw w)) else hw w in
  let st := fst (mx_open m h1) in
  yields_after
    (fun x => set_sd_opened st (set_sd_bytes_written 0 (without_decoders x)))
    (sd_open s) w st
    ((if _sd_opened w then [MuxClose] else []) ++ [MuxOpen])
    (snd (mx_open m h1)).
Proof.
  intros WF Hm h1 st.
  destruct (check_expired_total s w WF) as (w0 & E & WF0 & F0).
  pose proof (frame_proj sdmux_controller w w0 (fun _ => eq_refl) F0) as M0.
  pose proof (frame_proj _sd_opened w w0 (fun _ => eq_refl) F0) as O0.
  pose proof (frame_proj hw w w0 (fun _ => eq_refl) F0) as H0.
  destruct (sd_close_run None w0 m WF0) as (w1 & F1 & _ & R); [congruence|].
  pose proof (frame_proj sdmux_controller w0 w1 (fun _ => eq_refl) F1) as M1.
  pose proof (frame_proj hw w0 w1 (fun _ => eq_refl) F1) as H1.
  rewrite O0, H0 in R.
  assert (Q : sd_open s w =
              bind (sd_close None) (fun _ =>
              bind (modify (set_sd_bytes_written 0)) (fun _ =>
              bind (deref sdmux_controller) (fun m =>
              bind (call MuxOpen (mx_open m)) (fun status =>
              bind (modify (set_sd_opened status)) (fun _ => ret status))))) w0).
  { unfold sd_open. rewrite (bind_ok _ _ _ _ _ E). unfold bind at 1, gets at 1.
    rewrite M0, Hm. reflexivity. }
  assert (F : forget_lease w1 = forget_lease w) by congruence.
  subst st h1. destruct (_sd_opened w) eqn:Ho.
  - rewrite (bind_ok _ _ _ _ _ R), (sd_open_tail _ m) in Q by (cbn; congruence).
    cbn [hw set_sd_opened set_trace set_hw] in Q.
    eapply (yields_after_intro _ _ w w1); [reflexivity|exact F|exact Q|].
    unfold forget_lease, without_decoders. cbn. rewrite <- app_assoc. reflexivity.
  - rewrite (bind_ok _ _ _ _ _ R), (sd_open_tail _ m) in Q by (cbn; congruence).
    cbn [hw without_decoders set_zdec set_bz2dec] in Q. rewrite H1, H0 in Q.
    eapply (yields_after_intro _ _ w w1); [reflexivity|exact F|exact Q|].
    reflexivity.
Qed.

(** X12: a mount that the driver refuses is tried again.  While the
    mounted flag is not set, [sd_mount] hands the partition to the driver
    and returns its answer, which becomes the flag; after a refusal the
    next [sd_mount] reaches the driver again, with its own partition. *)
Theorem sd_mount_failed_is_retried s1 s2 part1 part2 w m :
  lease_wf w -> sdmux_controller w = Some m -> _sd_mounted w = false ->
  let st1 := fst (mx_mount m part1 (hw w)) in
  let h1 := snd (mx_mount m part1 (hw w)) in
  yields_after (set_sd_mounted st1) (sd_mount part1 s1) w st1 [MuxMount part1] h1 /\
  (st1 = false ->
   forall w1, sd_mount part1 s1 w = (Ok false, w1) ->
     let st2 := fst (mx_mount m part2 h1) in
     yields_after (set_sd_mounted st2) (sd_mount part2 s2) w1 st2 [MuxMount part2]
       (snd (mx_mount m part2 h1))).
Proof.
  assert (G : forall s part (v : World HW zobj bobj), lease_wf v -> sdmux_controller v = Some m ->
            _sd_mounted v = false ->
            exists v0, forget_lease v0 = forget_lease v /\ lease_wf v0 /\
              sd_mount part s v =
                (Ok (fst (mx_mount m part (hw v))),
                 set_sd_mounted (fst (mx_mount m part (hw v)))
                   (set_trace (trace v0 ++ [MuxMount part])
                      (set_hw (snd (mx_mount m part (hw v))) v0)))).
  { intros s part v WFv Hmv Hmt.
    destruct (check_expired_total s v WFv) as (v0 & E & WF0 & F0).
    exists v0. split; [exact F0|]. split; [exact WF0|].
    unfold sd_mount. rewrite (bind_ok _ _ _ _ _ E).
    unfold bind, gets, call, modify, ret.
    rewrite (frame_proj _sd_mounted v v0 (fun _ => eq_refl) F0), Hmt.
    rewrite (frame_proj sdmux_controller v v0 (fun _ => eq_refl) F0), Hmv.
    rewrite (frame_proj hw v v0 (fun _ => eq_refl) F0).
    destruct (mx_mount m part (hw v)); reflexivity. }
  intros WF Hm Hmt st1 h1.
  destruct (G s1 part1 w WF Hm Hmt) as (w0 & F0 & WF0 & R).
  split.
  - eapply (yields_after_intro _ _ w w0); [reflexivity|exact F0|exact R|]. reflexivity.
  - intros Hst w1 R1 st2. rewrite R in R1. injection R1 as Hf Hw1.
    assert (WF1 : lease_wf w1) by (rewrite <- Hw1; exact WF0).
    assert (M1 : sdmux_controller w1 = Some m).
    { rewrite <- Hw1. cbn.
      rewrite (frame_proj sdmux_controller w w0 (fun _ => eq_refl) F0). exact Hm. }
    assert (T1 : _sd_mounted w1 = false) by (rewrite <- Hw1; cbn; exact Hf).
    assert (H1 : hw w1 = h1) by (rewrite <- Hw1; reflexivity).
    destruct (G s2 part2 w1 WF1 M1 T1) as (w2 & F2 & _ & R2).
    rewrite H1 in R2.
    eapply (yields_after_intro _ _ w1 w2); [reflexivity|exact F2|exact R2|]. reflexivity.
Qed.

End Session.

(** ** Writing to the card *)

Section Writes.

Context {HW zobj bobj : Type}.
Implicit Types (w : World HW zobj bobj) (s : session).

Lemma sd_write_raw_run data s w m :
  lease_wf w -> sdmux_controller w = Some m ->
  exists w0, forget_lease w0 = forget_lease w /\ lease_wf w0 /\
    sd_write_raw data s w =
      let w1 := set_trace (trace w0 ++ [MuxWrite data])
                  (set_hw (snd (mx_write m data (hw w))) w0) in
      if fst (mx_write m data (hw w))
      then (Ok (blksz w), set_sd_bytes_written (_sd_bytes_written w + len data) w1)
      else (Ok (-1), w1).
Proof.
  intros WF Hm. destruct (check_expired_total s w WF) as (w0 & E & WF0 & F0).
  exists w0. split; [exact F0|]. split; [exact WF0|].
  unfold sd_write_raw. rewrite (bind_ok _ _ _ _ _ E).
  unfold bind, gets, call, modify, ret.
  rewrite (frame_proj sdmux_controller w w0 (fun _ => eq_refl) F0), Hm.
  rewrite (frame_proj hw w w0 (fun _ => eq_refl) F0).
  destruct (mx_write m data (hw w)) as [[] h]; cbn; [|reflexivity].
  rewrite (frame_proj _sd_bytes_written w w0 (fun _ => eq_refl) F0).
  rewrite (frame_proj blksz w w0 (fun _ => eq_refl) F0). reflexivity.
Qed.

(** X13: raw writes add up.  A raw write that the driver accepts returns
    the block size, whatever the length of the data, and adds that length
    to the byte counter; after any sequence of raw writes, made by any
    sessions, the driver has received the data in order and the counter has
    grown by their total length. *)
Theorem raw_writes_add_up fuel (writes : list (bytes * session)) w m :
  lease_wf w -> sdmux_controller w = Some m -> always_accepts m ->
  (forall data s,
     yields_after (fun x => set_sd_bytes_written (_sd_bytes_written x + len data) x)
       (sd_write_raw data s) w (blksz w) [MuxWrite data]
       (snd (mx_write m data (hw w)))) /\
  let w' := serve_all fuel (map (fun ds => Sd_write_raw (fst ds) (snd ds)) writes) w in
  sink (trace w') = sink (trace w) ++ List.concat (map fst writes) /\
  _sd_bytes_written w' = _sd_bytes_written w + len (List.concat (map fst writes)).
Proof.
  intros WF Hm Hacc. split.
  - intros data s. destruct (sd_write_raw_run data s w m WF Hm) as (w0 & F0 & _ & R).
    rewrite (Hacc data (hw w)) in R.
    eapply (yields_after_intro _ _ w w0); [reflexivity|exact F0|exact R|].
    cbn. rewrite (frame_proj _sd_bytes_written w w0 (fun _ => eq_refl) F0). reflexivity.
  - revert w WF Hm. induction writes as [|[data s] writes IH]; intros w WF Hm.
    + cbn. rewrite app_nil_r. split; [reflexivity|]. unfold len. cbn. lia.
    + cbn [map serve_all fst snd List.concat]. cbn [serve]. unfold void.
      destruct (sd_write_raw_run data s w m WF Hm) as (w0 & F0 & WF0 & R).
      rewrite (Hacc data (hw w)) in R. cbv zeta in R.
      rewrite (bind_ok _ _ _ _ _ R). cbn [snd ret].
      match goal with |- context [serve_all fuel _ ?w1] =>
        destruct (IH w1) as (IHs & IHn) end.
      * exact WF0.
      * cbn. rewrite (frame_proj sdmux_controller w w0 (fun _ => eq_refl) F0). exact Hm.
      * cbv zeta in IHs, IHn. rewrite IHs, IHn. cbn.
        rewrite (frame_proj trace w w0 (fun _ => eq_refl) F0).
        rewrite sink_app, len_app. cbn. rewrite app_nil_r, <- app_assoc.
        split; [reflexivity|lia].
Qed.

Lemma len_eqb_0 (data : bytes) : data <> [] -> (len data =? 0) = false.
Proof.
  intros H. destruct data; [contradiction|].
  unfold len. cbn [List.length]. apply Z.eqb_neq. lia.
Qed.

(** Entering the loop of [sd_write_gz] with new data. *)
Lemma sd_write_gz_enter fuel data s w m :
  lease_wf w -> sdmux_controller w = Some m -> data <> [] ->
  exists w0, forget_lease w0 = forget_lease w /\
    sd_write_gz fuel data s w =
      sd_write_gz_loop fuel (Some data) (clock w0 (reads w0))
        (set_reads (S (reads w0)) (set_zdec (Some (cur_zdec w)) w0)).
Proof.
  intros WF Hm Hd. destruct (check_expired_total s w WF) as (w0 & E & _ & F0).
  exists w0. split; [exact F0|].
  unfold sd_write_gz. rewrite (bind_ok _ _ _ _ _ E).
  unfold bind at 1, gets at 1.
  rewrite (frame_proj sdmux_controller w w0 (fun _ => eq_refl) F0), Hm.
  unfold bind at 1. unfold bind at 1, gets at 1.
  pose proof (frame_proj zdec w w0 (fun _ => eq_refl) F0) as Z0.
  pose proof (frame_proj zlib w w0 (fun _ => eq_refl) F0) as L0.
  unfold cur_zdec. rewrite <- Z0, <- L0, (len_eqb_0 data Hd).
  destruct (zdec w0) as [d|] eqn:Hz.
  - unfold ret at 1. unfold bind at 1, ret at 1. unfold bind at 1, time_monotonic at 1.
    replace (set_zdec (Some d) w0) with w0; [reflexivity|].
    destruct w0; cbn in Hz; rewrite Hz; reflexivity.
  - unfold bind at 1, gets at 1. unfold modify at 1.
    unfold bind at 1, ret at 1. unfold bind at 1, time_monotonic at 1. reflexivity.
Qed.

(** Entering the loop of [sd_write_bz2]. *)
Lemma sd_write_bz2_enter fuel data s w m :
  lease_wf w -> sdmux_controller w = Some m ->
  exists w0, forget_lease w0 = forget_lease w /\
    sd_write_bz2 fuel data s w =
      sd_write_bz2_loop fuel data (clock w0 (reads w0))
        (set_reads (S (reads w0)) (set_bz2dec (Some (cur_bz2dec w)) w0)).
Proof.
  intros WF Hm. destruct (check_expired_total s w WF) as (w0 & E & _ & F0).
  exists w0. split; [exact F0|].
  unfold sd_write_bz2. rewrite (bind_ok _ _ _ _ _ E).
  unfold bind at 1, gets at 1.
  rewrite (frame_proj sdmux_controller w w0 (fun _ => eq_refl) F0), Hm.
  unfold bind at 1. unfold bind at 1, gets at 1.
  pose proof (frame_proj bz2dec w w0 (fun _ => eq_refl) F0) as Z0.
  pose proof (frame_proj bz2 w w0 (fun _ => eq_refl) F0) as L0.
  unfold cur_bz2dec. rewrite <- Z0, <- L0.
  destruct (bz2dec w0) as [d|] eqn:Hz.
  - unfold ret at 1. unfold bind at 1, time_monotonic at 1.
    replace (set_bz2dec (Some d) w0) with w0; [reflexivity|].
    destruct w0; cbn in Hz; rewrite Hz; reflexivity.
  - unfold bind at 1, gets at 1. unfold modify at 1.
    unfold bind at 1, time_monotonic at 1. reflexivity.
Qed.

(** The first turn of the gzip loop when the decompressor fails or the
    driver refuses the block. *)
Lemma gz_loop_fails fuel data start w d m :
  zdec w = Some d -> sdmux_controller w = Some m ->
  match z_decompress (zlib w) d data (blksz w) with
  | inl e => sd_write_gz_loop (S fuel) (Some data) start w = (Raise e, w)
  | inr (out, d') =>
      fst (mx_write m out (hw w)) = false ->
      sd_write_gz_loop (S fuel) (Some data) start w =
        (Ok (-1),
         set_zdata (Value None)
           (set_trace (trace w ++ [MuxWrite out])
              (set_hw (snd (mx_write m out (hw w))) (set_zdec (Some d') w))))
  end.
Proof.
  intros Hd Hm.
  destruct (z_decompress (zlib w) d data (blksz w)) as [e|[out d']] eqn:Hz;
    [|intros Hw];
    cbn [sd_write_gz_loop]; unfold _sd_write_gz, zdec_decompress;
    unfold bind at 1; unfold bind at 1; unfold bind at 1; unfold deref at 1; rewrite Hd;
    unfold bind at 1, gets at 1; unfold bind at 1, gets at 1; rewrite Hz;
    [reflexivity|].
  unfold bind at 1, modify at 1, ret at 1.
  unfold bind at 1, deref at 1. cbn [sdmux_controller set_zdec]. rewrite Hm.
  unfold bind at 1, call at 1. cbn [hw set_zdec trace].
  destruct (mx_write m out (hw w)) as [st h]. cbn [fst snd] in *. subst st.
  reflexivity.
Qed.

(** The same for the bzip2 loop; the end of a stream is not a failure. *)
Lemma bz2_loop_fails fuel data start w d m :
  bz2dec w = Some d -> sdmux_controller w = Some m ->
  match b_decompress (bz2 w) d data (blksz w) with
  | inl e => is_EOFError e = false ->
             sd_write_bz2_loop (S fuel) data start w = (Raise e, w)
  | inr (out, d') =>
      fst (mx_write m out (hw w)) = false ->
      sd_write_bz2_loop (S fuel) data start w =
        (Ok (-1),
         set_trace (trace w ++ [MuxWrite out])
           (set_hw (snd (mx_write m out (hw w))) (set_bz2dec (Some d') w)))
  end.
Proof.
  intros Hd Hm.
  destruct (b_decompress (bz2 w) d data (blksz w)) as [e|[out d']] eqn:Hz;
    [intros He|intros Hw];
    cbn [sd_write_bz2_loop];
    unfold sd_write_bz2_turn, _sd_write_bz2, bz2dec_decompress;
    unfold bind at 1, try_except at 1;
    unfold bind at 1; unfold bind at 1; unfold bind at 1; unfold deref at 1; rewrite Hd;
    unfold bind at 1, gets at 1; unfold bind at 1, gets at 1; rewrite Hz.
  - unfold raise. rewrite He. reflexivity.
  - unfold bind at 1, modify at 1, ret at 1.
    unfold bind at 1, deref at 1. cbn [sdmux_controller set_bz2dec]. rewrite Hm.
    unfold bind at 1, call at 1. cbn [hw set_bz2dec trace].
    destruct (mx_write m out (hw w)) as [st h]. cbn [fst snd] in *. subst st.
    reflexivity.
Qed.

(** X14: a block that the driver refuses is reported as [-1].  The raw,
    the gzip and the bzip2 write return [-1] as soon as the driver's
    [write] reports a failure; the byte counter is left as it was, and, for
    the compressed formats, the decompressor has consumed the data all the
    same. *)
Theorem refused_write_is_reported s w m data fuel :
  lease_wf w -> sdmux_controller w = Some m ->
  (fst (mx_write m data (hw w)) = false ->
     yields (sd_write_raw data s) w (-1) [MuxWrite data]
       (snd (mx_write m data (hw w)))) /\
  (forall out d', data <> [] ->
     z_decompress (zlib w) (cur_zdec w) data (blksz w) = inr (out, d') ->
     fst (mx_write m out (hw w)) = false ->
     yields_after (fun x => set_zdata (Value None) (set_zdec (Some d') x))
       (sd_write_gz (S fuel) data s) w (-1) [MuxWrite out]
       (snd (mx_write m out (hw w)))) /\
  (forall out d',
     b_decompress (bz2 w) (cur_bz2dec w) data (blksz w) = inr (out, d') ->
     fst (mx_write m out (hw w)) = false ->
     yields_after (set_bz2dec (Some d'))
       (sd_write_bz2 (S fuel) data s) w (-1) [MuxWrite out]
       (snd (mx_write m out (hw w)))).
Proof.
  intros WF Hm. repeat split.
  - intros Hw. destruct (sd_write_raw_run data s w m WF Hm) as (w0 & F0 & _ & R).
    rewrite Hw in R.
    eapply (yields_after_intro _ _ w w0); [reflexivity|exact F0|exact R|]. reflexivity.
  - intros out d' Hd Hz Hw.
    destruct (sd_write_gz_enter (S fuel) data s w m WF Hm Hd) as (w0 & F0 & R).
    pose proof (gz_loop_fails fuel data (clock w0 (reads w0))
                  (set_reads (S (reads w0)) (set_zdec (Some (cur_zdec w)) w0))
                  (cur_zdec w) m eq_refl) as G.
    cbn [sdmux_controller zlib blksz hw set_reads set_zdec] in G.
    rewrite (frame_proj sdmux_controller w w0 (fun _ => eq_refl) F0) in G.
    rewrite (frame_proj zlib w w0 (fun _ => eq_refl) F0) in G.
    rewrite (frame_proj blksz w w0 (fun _ => eq_refl) F0) in G.
    rewrite (frame_proj hw w w0 (fun _ => eq_refl) F0) in G.
    specialize (G Hm). rewrite Hz in G. specialize (G Hw).
    eapply (yields_after_intro _ _ w w0); [reflexivity|exact F0|exact (eq_trans R G)|].
    reflexivity.
  - intros out d' Hz Hw.
    destruct (sd_write_bz2_enter (S fuel) data s w m WF Hm) as (w0 & F0 & R).
    pose proof (bz2_loop_fails fuel data (clock w0 (reads w0))
                  (set_reads (S (reads w0)) (set_bz2dec (Some (cur_bz2dec w)) w0))
                  (cur_bz2dec w) m eq_refl) as G.
    cbn [sdmux_controller bz2 blksz hw set_reads set_bz2dec] in G.
    rewrite (frame_proj sdmux_controller w w0 (fun _ => eq_refl) F0) in G.
    rewrite (frame_proj bz2 w w0 (fun _ => eq_refl) F0) in G.
    rewrite (frame_proj blksz w w0 (fun _ => eq_refl) F0) in G.
    rewrite (frame_proj hw w w0 (fun _ => eq_refl) F0) in G.
    specialize (G Hm). rewrite Hz in G. specialize (G Hw).
    eapply (yields_after_intro _ _ w w0); [reflexivity|exact F0|exact (eq_trans R G)|].
    reflexivity.
Qed.

(** X15: a failure of the decompressor is not turned into a status.  When
    [decompress] raises on the data of the call (for bzip2: anything but the
    end of a stream, which the method handles), [sd_write_gz] and
    [sd_write_bz2] raise the same exception; nothing has reached the driver
    and nothing has changed but the decompressor being in place. *)
Theorem decoder_error_propagates s w m data fuel e :
  lease_wf w -> sdmux_controller w = Some m ->
  (data <> [] -> z_decompress (zlib w) (cur_zdec w) data (blksz w) = inl e ->
     exists w', sd_write_gz (S fuel) data s w = (Raise e, w') /\
                same_but_lease (set_zdec (Some (cur_zdec w)) w) w') /\
  (b_decompress (bz2 w) (cur_bz2dec w) data (blksz w) = inl e -> is_EOFError e = false ->
     exists w', sd_write_bz2 (S fuel) data s w = (Raise e, w') /\
                same_but_lease (set_bz2dec (Some (cur_bz2dec w)) w) w').
Proof.
  intros WF Hm. split.
  - intros Hd Hz.
    destruct (sd_write_gz_enter (S fuel) data s w m WF Hm Hd) as (w0 & F0 & R).
    pose proof (gz_loop_fails fuel data (clock w0 (reads w0))
                  (set_reads (S (reads w0)) (set_zdec (Some (cur_zdec w)) w0))
                  (cur_zdec w) m eq_refl) as G.
    cbn [sdmux_controller zlib blksz hw set_reads set_zdec] in G.
    rewrite (frame_proj sdmux_controller w w0 (fun _ => eq_refl) F0) in G.
    rewrite (frame_proj zlib w w0 (fun _ => eq_refl) F0) in G.
    rewrite (frame_proj blksz w w0 (fun _ => eq_refl) F0) in G.
    specialize (G Hm). rewrite Hz in G.
    eexists. split; [exact (eq_trans R G)|]. unfold same_but_lease.
    change (set_zdec (Some (cur_zdec w)) (forget_lease w0)
            = set_zdec (Some (cur_zdec w)) (forget_lease w)).
    rewrite F0. reflexivity.
  - intros Hz He.
    destruct (sd_write_bz2_enter (S fuel) data s w m WF Hm) as (w0 & F0 & R).
    pose proof (bz2_loop_fails fuel data (clock w0 (reads w0))
                  (set_reads (S (reads w0)) (set_bz2dec (Some (cur_bz2dec w)) w0))
                  (cur_bz2dec w) m eq_refl) as G.
    cbn [sdmux_controller bz2 blksz hw set_reads set_bz2dec] in G.
    rewrite (frame_proj sdmux_controller w w0 (fun _ => eq_refl) F0) in G.
    rewrite (frame_proj bz2 w w0 (fun _ => eq_refl) F0) in G.
    rewrite (frame_proj blksz w w0 (fun _ => eq_refl) F0) in G.
    specialize (G Hm). rewrite Hz in G. specialize (G He).
    eexists. split; [exact (eq_trans R G)|]. unfold same_but_lease.
    change (set_bz2dec (Some (cur_bz2dec w)) (forget_lease w0)
            = set_bz2dec (Some (cur_bz2dec w)) (forget_lease w)).
    rewrite F0. reflexivity.
Qed.

End Writes.

(** ** Swapping the card *)

Section Swaps.

Context {HW zobj bobj : Type}.
Implicit Types (w : World HW zobj bobj) (s : session).

(** [sd_locked] for a session that the lease lets through, with both
    drivers: the power status is read once. *)
Lemma sd_locked_admits s w m p :
  admits s w -> sdmux_controller w = Some m -> power_controller w = Some p ->
  exists w0, forget_lease w0 = forget_lease w /\ admits s w0 /\ lease_wf w0 /\
    sd_locked s w =
      (Ok (negb (fst (pc_status p (hw w)) =? "OFF")%string || _sd_opened w),
       set_trace (trace w0 ++ [PowerStatus]) (set_hw (snd (pc_status p (hw w))) w0)).
Proof.
  intros Ad Hm Hp.
  destruct (check_expired_admits s w Ad) as (w0 & E0 & A0 & WF0 & _ & F0).
  destruct (check_expired_nested s None w0 A0 WF0) as (w1 & E1 & A1 & WF1 & F1).
  exists w1. split; [congruence|]. split; [exact A1|]. split; [exact WF1|].
  unfold sd_locked. rewrite (bind_ok _ _ _ _ _ E0).
  rewrite (bind_ok _ _ _ _ _ (check_locked_admits s w0 A0)).
  unfold bind at 1, gets at 1.
  rewrite (frame_proj sdmux_controller w w0 (fun _ => eq_refl) F0), Hm.
  unfold bind at 1, gets at 1.
  rewrite (frame_proj power_controller w w0 (fun _ => eq_refl) F0), Hp.
  unfold target_status. unfold bind at 1. rewrite (bind_ok _ _ _ _ _ E1).
  unfold bind at 1, gets at 1.
  rewrite (frame_proj power_controller w0 w1 (fun _ => eq_refl) F1).
  rewrite (frame_proj power_controller w w0 (fun _ => eq_refl) F0), Hp.
  unfold call.
  rewrite (frame_proj hw w0 w1 (fun _ => eq_refl) F1).
  rewrite (frame_proj hw w w0 (fun _ => eq_refl) F0).
  destruct (pc_status p (hw w)) as [st h]. cbn [fst snd].
  destruct (st =? "OFF")%string; cbn [negb orb]; [|reflexivity].
  unfold bind, gets, ret. cbn [_sd_opened set_trace set_hw].
  rewrite (frame_proj _sd_opened w0 w1 (fun _ => eq_refl) F1).
  rewrite (frame_proj _sd_opened w w0 (fun _ => eq_refl) F0).
  destruct (_sd_opened w); reflexivity.
Qed.

(** Passing the gate of the swaps. *)
Lemma sd_gate_admits {A} s w m p (k : bool -> @M HW zobj bobj A) :
  admits s w -> sdmux_controller w = Some m -> power_controller w = Some p ->
  exists w1, forget_lease w1 = forget_lease w /\ admits s w1 /\ lease_wf w1 /\
    bind (_check_expired s) (fun _ => bind (sd_locked s) k) w =
      k (negb (fst (pc_status p (hw w)) =? "OFF")%string || _sd_opened w)
        (set_trace (trace w1 ++ [PowerStatus]) (set_hw (snd (pc_status p (hw w))) w1)).
Proof.
  intros Ad Hm Hp.
  destruct (check_expired_admits s w Ad) as (w0 & E0 & A0 & _ & _ & F0).
  destruct (sd_locked_admits s w0 m p A0) as (w1 & F1 & A1 & WF1 & L);
    [rewrite (frame_proj sdmux_controller w w0 (fun _ => eq_refl) F0); exact Hm
    |rewrite (frame_proj power_controller w w0 (fun _ => eq_refl) F0); exact Hp|].
  exists w1. split; [congruence|]. split; [exact A1|]. split; [exact WF1|].
  rewrite (bind_ok _ _ _ _ _ E0), (bind_ok _ _ _ _ _ L).
  rewrite (frame_proj hw w w0 (fun _ => eq_refl) F0).
  rewrite (frame_proj _sd_opened w w0 (fun _ => eq_refl) F0). reflexivity.
Qed.

Lemma sd_status_run s w m :
  lease_wf w -> sdmux_controller w = Some m ->
  exists w0, forget_lease w0 = forget_lease w /\ lease_wf w0 /\
    sd_status s w =
      (Ok (fst (mx_status m (hw w))),
       set_trace (trace w0 ++ [MuxStatus]) (set_hw (snd (mx_status m (hw w))) w0)).
Proof.
  intros WF Hm. destruct (check_expired_total s w WF) as (w0 & E & WF0 & F0).
  exists w0. split; [exact F0|]. split; [exact WF0|].
  unfold sd_status. rewrite (bind_ok _ _ _ _ _ E). unfold bind, gets, call.
  rewrite (frame_proj sdmux_controller w w0 (fun _ => eq_refl) F0), Hm.
  rewrite (frame_proj hw w w0 (fun _ => eq_refl) F0).
  destruct (mx_status m (hw w)); reflexivity.
Qed.

(** X16: a swap that nothing forbids reaches the driver.  For a session
    that the lease lets through, with both drivers, the power reported
    ["OFF"] and no write session open, [sd_to_host] and [sd_to_target] read
    the power status once, call the driver's primitive once and return its
    answer; [sd_to_target] drops the decompressors on the way, [sd_to_host]
    keeps them. *)
Theorem permitted_swap_reaches_driver s w m p :
  admits s w -> sdmux_controller w = Some m -> power_controller w = Some p ->
  fst (pc_status p (hw w)) = "OFF" -> _sd_opened w = false ->
  let h1 := snd (pc_status p (hw w)) in
  yields (sd_to_host s) w (fst (mx_to_host m h1))
    [PowerStatus; MuxToHost] (snd (mx_to_host m h1)) /\
  yields_after without_decoders (sd_to_target s) w (fst (mx_to_target m h1))
    [PowerStatus; MuxToTarget] (snd (mx_to_target m h1)).
Proof.
  intros Ad Hm Hp Hoff Ho h1. split.
  - pose (k := fun locked : bool =>
                 if negb locked
                 then bind (deref (sdmux_controller (HW:=HW) (zobj:=zobj) (bobj:=bobj)))
                        (fun m => call MuxToHost (mx_to_host m))
                 else ret false).
    destruct (sd_gate_admits s w m p k Ad Hm Hp) as (w1 & F1 & _ & _ & G).
    rewrite Hoff, Ho, String.eqb_refl in G. cbn [negb orb] in G. fold h1 in G.
    assert (R : sd_to_host s w = k false (set_trace (trace w1 ++ [PowerStatus])
                                            (set_hw h1 w1))) by exact G.
    clear G. unfold k in R. cbn [negb] in R.
    unfold bind, deref, call in R. cbn [sdmux_controller hw set_trace set_hw] in R.
    rewrite (frame_proj sdmux_controller w w1 (fun _ => eq_refl) F1), Hm in R.
    cbn [hw set_trace set_hw] in R.
    destruct (mx_to_host m h1) as [r h2]. cbn [fst snd].
    eapply (yields_after_intro (fun x => x) _ w w1); [reflexivity|exact F1|exact R|].
    cbn. rewrite <- app_assoc. reflexivity.
  - pose (k := fun locked : bool =>
                 if negb locked
                 then bind (sd_close None) (fun _ =>
                      bind (deref (sdmux_controller (HW:=HW) (zobj:=zobj) (bobj:=bobj)))
                        (fun m => call MuxToTarget (mx_to_target m)))
                 else ret false).
    destruct (sd_gate_admits s w m p k Ad Hm Hp) as (w1 & F1 & _ & WF1 & G).
    rewrite Hoff, Ho, String.eqb_refl in G. cbn [negb orb] in G. fold h1 in G.
    assert (R : sd_to_target s w = k false (set_trace (trace w1 ++ [PowerStatus])
                                              (set_hw h1 w1))) by exact G.
    clear G. unfold k in R. cbn [negb] in R.
    destruct (sd_close_run None
                (set_trace (trace w1 ++ [PowerStatus]) (set_hw h1 w1)) m)
      as (w2 & F2 & _ & C).
    { exact WF1. }
    { cbn. rewrite (frame_proj sdmux_controller w w1 (fun _ => eq_refl) F1). exact Hm. }
    cbn [_sd_opened set_trace set_hw] in C.
    rewrite (frame_proj _sd_opened w w1 (fun _ => eq_refl) F1), Ho in C.
    rewrite (bind_ok _ _ _ _ _ C) in R.
    unfold bind, deref, call in R.
    assert (M2 : sdmux_controller (without_decoders w2) = Some m).
    { cbn. rewrite (frame_proj sdmux_controller _ w2 (fun _ => eq_refl) F2). cbn.
      rewrite (frame_proj sdmux_controller w w1 (fun _ => eq_refl) F1). exact Hm. }
    rewrite M2 in R.
    assert (H2 : hw (without_decoders w2) = h1).
    { cbn. rewrite (frame_proj hw _ w2 (fun _ => eq_refl) F2). reflexivity. }
    rewrite H2 in R. destruct (mx_to_target m h1) as [r h2]. cbn [fst snd].
    eapply (yields_after_intro without_decoders _ w w);
      [reflexivity|reflexivity|exact R|].
    frame_tac.
Qed.

(** X17: [sd_toggle] for a session that the lease lets through, with
    both drivers.  While the power is not reported ["OFF"] or a write
    session is open it swaps nothing and returns the side the driver
    reports.  Otherwise it asks the driver for the side, sends the card to
    the other one with a single call (to the target from [SD_ON_HOST], to
    the host from [SD_ON_TARGET], nowhere from any other answer), asks the
    driver again and returns that second answer.  The decompressors are
    kept in every case. *)
Theorem sd_toggle_swaps_once s w m p :
  admits s w -> sdmux_controller w = Some m -> power_controller w = Some p ->
  let locked := negb (fst (pc_status p (hw w)) =? "OFF")%string || _sd_opened w in
  let h1 := snd (pc_status p (hw w)) in
  let side := fst (mx_status m h1) in
  let h2 := snd (mx_status m h1) in
  (locked = true -> yields (sd_toggle s) w side [PowerStatus; MuxStatus] h2) /\
  (locked = false -> side = SD_ON_HOST m ->
     let h3 := snd (mx_to_target m h2) in
     yields (sd_toggle s) w (fst (mx_status m h3))
       [PowerStatus; MuxStatus; MuxToTarget; MuxStatus] (snd (mx_status m h3))) /\
  (locked = false -> side <> SD_ON_HOST m -> side = SD_ON_TARGET m ->
     let h3 := snd (mx_to_host m h2) in
     yields (sd_toggle s) w (fst (mx_status m h3))
       [PowerStatus; MuxStatus; MuxToHost; MuxStatus] (snd (mx_status m h3))) /\
  (locked = false -> side <> SD_ON_HOST m -> side <> SD_ON_TARGET m ->
     yields (sd_toggle s) w (fst (mx_status m h2))
       [PowerStatus; MuxStatus; MuxStatus] (snd (mx_status m h2))).
Proof.
  intros Ad Hm Hp locked h1 side h2.
  pose (k := fun locked : bool =>
               bind (if negb locked then
                       bind (sd_status s) (fun status =>
                       bind (deref (sdmux_controller (HW:=HW) (zobj:=zobj) (bobj:=bobj)))
                         (fun m =>
                       if (status =? SD_ON_HOST m)%string then
                         bind (call MuxToTarget (mx_to_target m)) (fun _ => ret tt)
                       else if (status =? SD_ON_TARGET m)%string then
                         bind (call MuxToHost (mx_to_host m)) (fun _ => ret tt)
                       else ret tt))
                     else ret tt) (fun _ => sd_status s)).
  destruct (sd_gate_admits s w m p k Ad Hm Hp) as (w1 & F1 & _ & WF1 & G).
  fold locked h1 in G.
  assert (R : sd_toggle s w = k locked (set_trace (trace w1 ++ [PowerStatus])
                                          (set_hw h1 w1))) by exact G.
  clear G.
  pose proof (frame_proj sdmux_controller w w1 (fun _ => eq_refl) F1) as M1.
  destruct (sd_status_run s (set_trace (trace w1 ++ [PowerStatus]) (set_hw h1 w1)) m)
    as (w2 & F2 & WF2 & S2); [exact WF1|cbn; congruence|].
  cbn [hw set_trace set_hw] in S2. fold side h2 in S2.
  pose proof (frame_proj sdmux_controller _ w2 (fun _ => eq_refl) F2) as M2.
  cbn [sdmux_controller set_trace set_hw] in M2.
  assert (After : forall ev h3,
            exists w4, forget_lease w4 =
                       forget_lease (set_trace (trace w ++ [PowerStatus; MuxStatus; ev])
                                       (set_hw h3 w)) /\
              sd_status s
                (set_trace
                   (trace (set_trace (trace w2 ++ [MuxStatus]) (set_hw h2 w2)) ++ [ev])
                   (set_hw h3 (set_trace (trace w2 ++ [MuxStatus]) (set_hw h2 w2))))
              = (Ok (fst (mx_status m h3)),
                 set_trace (trace w4 ++ [MuxStatus]) (set_hw (snd (mx_status m h3)) w4))).
  { intros ev h3.
    match goal with |- context [sd_status s ?W] =>
      destruct (sd_status_run s W m) as (w4 & F4 & _ & S4);
        [exact WF2|cbn; congruence|]
    end.
    exists w4. split; [|exact S4]. frame_tac. }
  repeat split.
  - intros L. rewrite L in R. unfold k in R. cbn [negb] in R.
    unfold bind at 1, ret at 1 in R. rewrite S2 in R.
    eapply (yields_after_intro (fun x => x) _ w w); [reflexivity|reflexivity|exact R|].
    frame_tac.
  - intros L Hs h3. rewrite L in R. unfold k in R. cbn [negb] in R.
    unfold bind at 1 in R. unfold bind at 1 in R. rewrite S2 in R.
    unfold bind at 1, deref at 1 in R. cbn [sdmux_controller set_trace set_hw] in R.
    rewrite M2, M1, Hm, Hs, String.eqb_refl in R.
    unfold bind at 1, call at 1 in R. cbn [hw set_trace set_hw] in R. fold h3 in R.
    destruct (After MuxToTarget (snd (mx_to_target m h2))) as (w4 & F4 & S4).
    destruct (mx_to_target m h2) as [r hh]. cbn [snd] in *. unfold ret at 1 in R.
    rewrite S4 in R.
    eapply (yields_after_intro (fun x => x) _ w w); [reflexivity|reflexivity|exact R|].
    frame_tac.
  - intros L Hn Hs h3. rewrite L in R. unfold k in R. cbn [negb] in R.
    unfold bind at 1 in R. unfold bind at 1 in R. rewrite S2 in R.
    unfold bind at 1, deref at 1 in R. cbn [sdmux_controller set_trace set_hw] in R.
    rewrite M2, M1, Hm in R.
    destruct (String.eqb_spec side (SD_ON_HOST m)) as [|_]; [contradiction|].
    rewrite Hs, String.eqb_refl in R.
    unfold bind at 1, call at 1 in R. cbn [hw set_trace set_hw] in R.
    destruct (After MuxToHost (snd (mx_to_host m h2))) as (w4 & F4 & S4).
    subst h3. destruct (mx_to_host m h2) as [r hh]. cbn [snd] in *. unfold ret at 1 in R.
    rewrite S4 in R.
    eapply (yields_after_intro (fun x => x) _ w w); [reflexivity|reflexivity|exact R|].
    frame_tac.
  - intros L Hn Hn'. rewrite L in R. unfold k in R. cbn [negb] in R.
    unfold bind at 1 in R. unfold bind at 1 in R. rewrite S2 in R.
    unfold bind at 1, deref at 1 in R. cbn [sdmux_controller set_trace set_hw] in R.
    rewrite M2, M1, Hm in R.
    destruct (String.eqb_spec side (SD_ON_HOST m)) as [|_]; [contradiction|].
    destruct (String.eqb_spec side (SD_ON_TARGET m)) as [|_]; [contradiction|].
    unfold ret at 1 in R.
    match type of R with context [sd_status s ?W] =>
      destruct (sd_status_run s W m) as (w4 & F4 & _ & S4);
        [exact WF2|cbn; congruence|]
    end.
    cbn [hw set_trace set_hw] in S4. rewrite S4 in R.
    eapply (yields_after_intro (fun x => x) _ w w); [reflexivity|reflexivity|exact R|].
    frame_tac.
Qed.

End Swaps.

(** ** USB switches found by class and by index *)

Section UsbFound.

Context {HW zobj bobj : Type}.
Implicit Types (w : World HW zobj bobj) (s : session).

Lemma find_by_class_spec cls (l : list (UsbSwitch HW)) :
  match find_by_class cls l with
  | Some sw => exists l1 l2, l = l1 ++ sw :: l2 /\ className sw = cls /\
                             Forall (fun x => className x <> cls) l1
  | None => Forall (fun x => className x <> cls) l
  end.
Proof.
  induction l as [|x l IH]; cbn [find_by_class]; [constructor|].
  destruct (String.eqb_spec (className x) cls) as [Hx|Hx].
  - exists [], l. repeat split; [exact Hx|constructor].
  - destruct (find_by_class cls l) as [sw|].
    + destruct IH as (l1 & l2 & -> & Hc & Hl). exists (x :: l1), l2.
      repeat split; [exact Hc|constructor; assumption].
    + constructor; assumption.
Qed.

Lemma usb_find_by_class_run cls s w :
  lease_wf w ->
  exists w0, forget_lease w0 = forget_lease w /\ lease_wf w0 /\
    usb_find_by_class cls s w = (Ok (find_by_class cls (usb_switches w)), w0).
Proof.
  intros WF. destruct (check_expired_total s w WF) as (w0 & E & WF0 & F0).
  exists w0. split; [exact F0|]. split; [exact WF0|].
  unfold usb_find_by_class. rewrite (bind_ok _ _ _ _ _ E). unfold bind, gets, ret.
  rewrite (frame_proj usb_switches w w0 (fun _ => eq_refl) F0). reflexivity.
Qed.

(** X18: USB switches are found by class, the first one winning.
    [usb_find_by_class] returns the first switch of the registry whose
    class is the one asked for, [usb_has_class] tells whether there is
    one, and [usb_on_by_class] and [usb_off_by_class] act on that switch
    alone and return its answer, or return [False] without reaching any
    switch when the class is unknown. *)
Theorem usb_by_class_first_match cls s w :
  lease_wf w ->
  let found := find_by_class cls (usb_switches w) in
  match found with
  | Some sw =>
      (exists l1 l2, usb_switches w = l1 ++ sw :: l2 /\ className sw = cls /\
                     Forall (fun x => className x <> cls) l1) /\
      yields (usb_find_by_class cls s) w (Some sw) [] (hw w) /\
      yields (usb_has_class cls s) w true [] (hw w) /\
      yields (usb_on_by_class cls s) w (fst (us_on sw (hw w))) [UsbOn cls]
        (snd (us_on sw (hw w))) /\
      yields (usb_off_by_class cls s) w (fst (us_off sw (hw w))) [UsbOff cls]
        (snd (us_off sw (hw w)))
  | None =>
      Forall (fun x => className x <> cls) (usb_switches w) /\
      yields (usb_find_by_class cls s) w None [] (hw w) /\
      yields (usb_has_class cls s) w false [] (hw w) /\
      yields (usb_on_by_class cls s) w false [] (hw w) /\
      yields (usb_off_by_class cls s) w false [] (hw w)
  end.
Proof.
  intros WF found.
  pose proof (find_by_class_spec cls (usb_switches w)) as Spec. fold found in Spec.
  destruct (usb_find_by_class_run cls s w WF) as (wf & Ff & _ & Rf). fold found in Rf.
  destruct (check_expired_total s w WF) as (w0 & E & WF0 & F0).
  destruct (usb_find_by_class_run cls s w0 WF0) as (w1 & F1 & _ & R1).
  rewrite (frame_proj usb_switches w w0 (fun _ => eq_refl) F0) in R1. fold found in R1.
  pose proof (frame_proj hw w0 w1 (fun _ => eq_refl) F1) as H1.
  rewrite (frame_proj hw w w0 (fun _ => eq_refl) F0) in H1.
  assert (F : forget_lease w1 = forget_lease w) by congruence.
  destruct found as [sw|].
  - split; [exact Spec|]. destruct Spec as (_ & _ & _ & Hc & _).
    split; [apply (yields_nothing _ w _ wf Rf Ff)|]. split; [|split].
    + apply (yields_nothing _ w true w1); [|exact F].
      unfold usb_has_class. rewrite (bind_ok _ _ _ _ _ E), (bind_ok _ _ _ _ _ R1).
      reflexivity.
    + eapply (yields_after_intro (fun x => x) _ w w1); [reflexivity|exact F| |reflexivity].
      unfold usb_on_by_class. rewrite (bind_ok _ _ _ _ _ E), (bind_ok _ _ _ _ _ R1).
      unfold call. rewrite H1, Hc. destruct (us_on sw (hw w)); reflexivity.
    + eapply (yields_after_intro (fun x => x) _ w w1); [reflexivity|exact F| |reflexivity].
      unfold usb_off_by_class. rewrite (bind_ok _ _ _ _ _ E), (bind_ok _ _ _ _ _ R1).
      unfold call. rewrite H1, Hc. destruct (us_off sw (hw w)); reflexivity.
  - split; [exact Spec|].
    split; [apply (yields_nothing _ w _ wf Rf Ff)|]. split; [|split].
    + apply (yields_nothing _ w false w1); [|exact F].
      unfold usb_has_class. rewrite (bind_ok _ _ _ _ _ E), (bind_ok _ _ _ _ _ R1).
      reflexivity.
    + apply (yields_nothing _ w false w1); [|exact F].
      unfold usb_on_by_class. rewrite (bind_ok _ _ _ _ _ E), (bind_ok _ _ _ _ _ R1).
      reflexivity.
    + apply (yields_nothing _ w false w1); [|exact F].
      unfold usb_off_by_class. rewrite (bind_ok _ _ _ _ _ E), (bind_ok _ _ _ _ _ R1).
      reflexivity.
Qed.

Lemma index_in_range {A} (xs : list A) (i : Z) (x : A) w :
  0 <= i -> nth_error xs (Z.to_nat i) = Some x ->
  index (HW:=HW) (zobj:=zobj) (bobj:=bobj) xs i w = (Ok x, w).
Proof.
  intros Hi Hx. unfold index.
  destruct (Z.ltb_spec i 0); [lia|].
  destruct (Z.ltb_spec i 0); [lia|]. rewrite Hx. reflexivity.
Qed.

(** X19: USB switches are numbered from 1.  For an index between 1 and the
    size of the registry, [usb_on], [usb_off] and [usb_toggle] reach the
    switch at that position, and only it, once, and print nothing;
    [usb_status] asks it for its status and returns ["OFF"], ["ON"] or
    ["???"] as the answer is the switch's [POWERED_OFF], its [POWERED_ON],
    or neither; [usb_ports] is the size of the registry.  None of them is
    gated by the lease: any session may call them. *)
Theorem usb_index_is_one_based ndx s w sw :
  lease_wf w -> 0 < ndx -> nth_error (usb_switches w) (Z.to_nat (ndx - 1)) = Some sw ->
  yields (usb_on ndx s) w tt [UsbOn (className sw)] (snd (us_on sw (hw w))) /\
  yields (usb_off ndx s) w tt [UsbOff (className sw)] (snd (us_off sw (hw w))) /\
  yields (usb_toggle ndx s) w tt [UsbToggle (className sw)] (snd (us_toggle sw (hw w))) /\
  (let st := fst (us_status sw (hw w)) in
   yields (usb_status ndx s) w
     (if st =? POWERED_OFF sw then "OFF"
      else if st =? POWERED_ON sw then "ON" else "???")
     [UsbStatus (className sw)] (snd (us_status sw (hw w)))) /\
  yields (usb_ports s) w (len (usb_switches w)) [] (hw w) /\
  ndx <= len (usb_switches w).
Proof.
  intros WF Hn Hx.
  destruct (check_expired_total s w WF) as (w0 & E & _ & F0).
  pose proof (frame_proj usb_switches w w0 (fun _ => eq_refl) F0) as U0.
  pose proof (frame_proj hw w w0 (fun _ => eq_refl) F0) as H0.
  assert (G : (ndx >? 0) = true) by (apply Z.gtb_lt; lia).
  assert (I : forall w', index (usb_switches w) (ndx - 1) w' = (Ok sw, w')).
  { intros w'. apply index_in_range; [lia|exact Hx]. }
  repeat split.
  - eapply (yields_after_intro (fun x => x) _ w w0); [reflexivity|exact F0| |reflexivity].
    unfold usb_on. rewrite (bind_ok _ _ _ _ _ E). unfold try_except. rewrite G.
    unfold bind at 1, gets at 1. rewrite U0, (bind_ok _ _ _ _ _ (I w0)).
    unfold bind, call, ret. rewrite H0. destruct (us_on sw (hw w)); reflexivity.
  - eapply (yields_after_intro (fun x => x) _ w w0); [reflexivity|exact F0| |reflexivity].
    unfold usb_off. rewrite (bind_ok _ _ _ _ _ E). unfold try_except. rewrite G.
    unfold bind at 1, gets at 1. rewrite U0, (bind_ok _ _ _ _ _ (I w0)).
    unfold bind, call, ret. rewrite H0. destruct (us_off sw (hw w)); reflexivity.
  - eapply (yields_after_intro (fun x => x) _ w w0); [reflexivity|exact F0| |reflexivity].
    unfold usb_toggle. rewrite (bind_ok _ _ _ _ _ E). unfold try_except. rewrite G.
    unfold bind at 1, gets at 1. rewrite U0, (bind_ok _ _ _ _ _ (I w0)).
    unfold bind, call, ret. rewrite H0. destruct (us_toggle sw (hw w)); reflexivity.
  - eapply (yields_after_intro (fun x => x) _ w w0); [reflexivity|exact F0| |reflexivity].
    unfold usb_status. rewrite (bind_ok _ _ _ _ _ E).
    unfold bind at 1, try_except at 1. rewrite G.
    unfold bind at 1, gets at 1. rewrite U0, (bind_ok _ _ _ _ _ (I w0)).
    unfold bind at 1, call at 1. rewrite H0.
    destruct (us_status sw (hw w)) as [st h]. cbn [fst snd].
    destruct (st =? POWERED_OFF sw); [reflexivity|].
    destruct (st =? POWERED_ON sw); reflexivity.
  - apply (yields_nothing _ w _ w0); [|exact F0].
    unfold usb_ports. rewrite (bind_ok _ _ _ _ _ E). unfold bind, gets, ret.
    rewrite U0. reflexivity.
  - assert (Z.to_nat (ndx - 1) < List.length (usb_switches w))%nat.
    { apply nth_error_Some. congruence. }
    unfold len. lia.
Qed.

End UsbFound.

(** ** Updating a file of the card *)

Section Update.

Context {HW zobj bobj : Type}.
Implicit Types (w : World HW zobj bobj) (s : session).

Lemma sd_update_run dst offset data s w m :
  lease_wf w -> sdmux_controller w = Some m ->
  let r := fst (mx_update m dst offset data (hw w)) in
  exists w1, sd_update dst offset data s w = (Ok r, w1) /\
    lease_wf w1 /\ sdmux_controller w1 = Some m /\
    _sd_bytes_written w1 = (if offset =? 0 then 0 else _sd_bytes_written w)
                           + (if r >? 0 then r else 0) /\
    same_but_lease
      (set_trace (trace w ++ [MuxUpdate dst offset data])
         (set_hw (snd (mx_update m dst offset data (hw w)))
            (set_sd_bytes_written ((if offset =? 0 then 0 else _sd_bytes_written w)
                                   + (if r >? 0 then r else 0)) w))) w1.
Proof.
  intros WF Hm r. destruct (check_expired_total s w WF) as (w0 & E & WF0 & F0).
  pose proof (frame_proj sdmux_controller w w0 (fun _ => eq_refl) F0) as M0.
  pose proof (frame_proj hw w w0 (fun _ => eq_refl) F0) as H0.
  pose proof (frame_proj _sd_bytes_written w w0 (fun _ => eq_refl) F0) as N0.
  pose proof (frame_proj trace w w0 (fun _ => eq_refl) F0) as T0.
  unfold sd_update. rewrite (bind_ok _ _ _ _ _ E).
  unfold bind at 1, gets at 1. rewrite M0, Hm. subst r.
  assert (M0' : sdmux_controller w0 = Some m) by congruence.
  assert (Fin : forall base r h (v : World HW zobj bobj),
            forget_lease v = forget_lease
                               (set_trace (trace w0 ++ [MuxUpdate dst offset data])
                                  (set_hw h (set_sd_bytes_written base w0))) ->
            _sd_bytes_written v = base -> lease_wf v -> sdmux_controller v = Some m ->
            (let v1 := if r >? 0 then set_sd_bytes_written (_sd_bytes_written v + r) v
                       else v in
             lease_wf v1 /\ sdmux_controller v1 = Some m /\
             _sd_bytes_written v1 = base + (if r >? 0 then r else 0) /\
             same_but_lease
               (set_trace (trace w ++ [MuxUpdate dst offset data])
                  (set_hw h (set_sd_bytes_written
                               (base + (if r >? 0 then r else 0)) w))) v1)).
  { intros base r h v Fv Nv WFv Mv. cbv zeta.
    destruct (r >? 0).
    - split; [exact WFv|]. split; [exact Mv|]. split; [cbn; congruence|].
      unfold same_but_lease.
      rewrite (frame_ctx (set_sd_bytes_written (_sd_bytes_written v + r)) _ _
                 (fun _ => eq_refl) Fv), Nv.
      frame_tac.
    - split; [exact WFv|]. split; [exact Mv|]. split; [lia|].
      unfold same_but_lease. rewrite Fv, Z.add_0_r. frame_tac. }
  destruct (offset =? 0).
  - unfold bind at 1, modify at 1. unfold bind at 1, call at 1.
    cbn [hw set_sd_bytes_written]. rewrite H0.
    destruct (mx_update m dst offset data (hw w)) as [r h]. cbn [fst snd].
    specialize (Fin 0 r h
                  (set_trace (trace w0 ++ [MuxUpdate dst offset data])
                     (set_hw h (set_sd_bytes_written 0 w0)))
                  eq_refl eq_refl WF0 M0'). cbv zeta in Fin.
    destruct (r >? 0) eqn:Hr; (eexists; split; [|exact Fin]);
      unfold bind, modify, ret; cbn; rewrite ?Hr; reflexivity.
  - unfold bind at 1, ret at 1. unfold bind at 1, call at 1. rewrite H0.
    destruct (mx_update m dst offset data (hw w)) as [r h]. cbn [fst snd].
    assert (Fv : forget_lease (set_trace (trace w0 ++ [MuxUpdate dst offset data])
                                   (set_hw h w0))
                   = forget_lease (set_trace (trace w0 ++ [MuxUpdate dst offset data])
                                     (set_hw h (set_sd_bytes_written
                                                  (_sd_bytes_written w) w0)))).
    { rewrite <- N0. destruct w0; reflexivity. }
    specialize (Fin (_sd_bytes_written w) r h _ Fv N0 WF0 M0'). cbv zeta in Fin.
    destruct (r >? 0) eqn:Hr; (eexists; split; [|exact Fin]);
      unfold bind, modify, ret; cbn; rewrite ?Hr; reflexivity.
Qed.

(** X20: how [sd_update] counts.  An update at offset 0 starts the byte
    counter again from 0, also when the driver then writes nothing; the
    counter grows by what the driver reports, when that is positive, and
    the report is returned as it is.  So, with a driver that writes all it
    is given, a file sent in pieces, the first at offset 0 and the others
    further on, leaves the counter at the length of the file, whatever it
    was before. *)
Theorem sd_update_counts fuel dst s first (rest : list (Z * bytes)) w m :
  lease_wf w -> sdmux_controller w = Some m ->
  (forall offset data,
     let r := fst (mx_update m dst offset data (hw w)) in
     yields_after
       (fun x => set_sd_bytes_written
                   ((if offset =? 0 then 0 else _sd_bytes_written x)
                    + (if r >? 0 then r else 0)) x)
       (sd_update dst offset data s) w r [MuxUpdate dst offset data]
       (snd (mx_update m dst offset data (hw w)))) /\
  ((forall offset data h, fst (mx_update m dst offset data h) = len data) ->
   Forall (fun od => fst od <> 0) rest ->
   _sd_bytes_written
     (serve_all fuel
        (Sd_update dst 0 first s
         :: map (fun od => Sd_update dst (fst od) (snd od) s) rest) w)
   = len first + len (List.concat (map snd rest))).
Proof.
  intros WF Hm. split.
  - intros offset data r.
    destruct (sd_update_run dst offset data s w m WF Hm) as (w1 & R & _ & _ & _ & F).
    exists w1. split; [exact R|]. exact F.
  - intros Hall Hrest.
    assert (Pos : forall n : Z, 0 <= n -> (if n >? 0 then n else 0) = n).
    { intros n Hn. destruct (Z.gtb_spec n 0); lia. }
    assert (G : forall (v : World HW zobj bobj), lease_wf v -> sdmux_controller v = Some m ->
              _sd_bytes_written
                (serve_all fuel (map (fun od => Sd_update dst (fst od) (snd od) s) rest) v)
              = _sd_bytes_written v + len (List.concat (map snd rest))).
    { induction rest as [|[o d] rest IH]; intros v WFv Hmv.
      - cbn. unfold len. cbn. lia.
      - cbn [map serve_all fst snd List.concat]. cbn [serve]. unfold void.
        destruct (sd_update_run dst o d s v m WFv Hmv) as (v1 & R & WF1 & M1 & N1 & _).
        rewrite (bind_ok _ _ _ _ _ R). cbn [snd ret].
        rewrite (IH (Forall_inv_tail Hrest) v1 WF1 M1), N1, Hall.
        pose proof (Forall_inv Hrest) as Ho. cbn in Ho.
        destruct (Z.eqb_spec o 0); [contradiction|].
        rewrite (Pos _ (len_nonneg d)), len_app. lia. }
    cbn [serve_all]. cbn [serve]. unfold void.
    destruct (sd_update_run dst 0 first s w m WF Hm) as (w1 & R & WF1 & M1 & N1 & _).
    rewrite (bind_ok _ _ _ _ _ R). cbn [snd ret].
    rewrite (G w1 WF1 M1), N1, Hall. cbn [Z.eqb].
    rewrite (Pos _ (len_nonneg first)). lia.
Qed.

End Update.

(** ** What no request changes *)

Section Setup.

Context {HW zobj bobj : Type}.
Implicit Types (w : World HW zobj bobj) (s : session).

Lemma same_setup_stepwise : stepwise (@same_setup HW zobj bobj).
Proof.
  constructor; unfold same_setup; intros; cbn; try (repeat split; reflexivity).
  repeat match goal with H : _ /\ _ |- _ => destruct H end.
  repeat split; congruence.
Qed.

Lemma sd_mount_keeps_setup part s : keeps (@same_setup HW zobj bobj) (sd_mount part s).
Proof.
  pose proof same_setup_stepwise as SW.
  unfold sd_mount. apply (keeps_bind _ SW); [apply (check_expired_keeps _ SW)|]. intros _.
  apply (keeps_bind _ SW); [apply (keeps_gets _ SW)|]. intros mounted.
  destruct mounted; [apply (keeps_ret _ SW)|].
  apply (keeps_bind _ SW); [apply (keeps_gets _ SW)|]. intros [m|];
    [|apply (keeps_ret _ SW)].
  apply (keeps_bind _ SW); [apply (keeps_call _ SW)|]. intros status.
  apply (keeps_bind _ SW); [|intros; apply (keeps_ret _ SW)].
  intros w. cbn. repeat split.
Qed.

(** X21: no request changes what the agent was set up with.  After any
    sequence of requests, whatever each of them returned or raised, the
    console logger, the power controller, the mux driver and the USB
    registry are those the agent had, and so are the block size, the
    feedback interval, the lease timeout, the decompressor modules and the
    clock: a driver that is configured stays so, and one that is missing
    stays missing. *)
Theorem setup_is_never_changed fuel rs w :
  same_setup w (serve_all fuel rs w).
Proof.
  apply (serve_all_keeps _ same_setup_stepwise fuel rs sd_mount_keeps_setup).
Qed.

(** X22: the calls that only ask.  [target_owner], [target_locked],
    [console_locked], [power_locked], [sd_bytes_written], [usb_ports],
    [usb_find_by_class] and [usb_has_class] reach no collaborator and change
    nothing but the lease and the clock position, whatever they return and
    also when the expiry check raises. *)
Theorem queries_change_nothing s cls w :
  target_owner w = (Ok (_lock_owner w), w) /\
  forall c, In c [void (target_locked s); void (console_locked s);
                  void (power_locked s); void (sd_bytes_written s);
                  void (usb_ports s); void (usb_find_by_class cls s);
                  void (usb_has_class cls s)] ->
    same_but_lease w (snd (c w)).
Proof.
  split; [reflexivity|].
  assert (K : forall {A} (k : unit -> @M HW zobj bobj A),
            (forall x, snd (k tt x) = x) ->
            same_but_lease w (snd (void (bind (_check_expired s) k) w))).
  { intros A k Hk. unfold same_but_lease, void.
    pose proof (check_expired_frame s w) as F.
    unfold bind. destruct (_check_expired s w) as [[[]|e|] w0]; cbn [snd] in *;
      try exact F.
    specialize (Hk w0). destruct (k tt w0) as [[a|e|] w1]; cbn in *; subst; exact F. }
  assert (L : forall x : World HW zobj bobj, snd (_check_locked s x) = x).
  { intros x. rewrite check_locked_run. reflexivity. }
  intros c Hc. cbn in Hc.
  destruct Hc as [<-|[<-|[<-|[<-|[<-|[<-|[<-|[]]]]]]]].
  - apply K. intros x. apply L.
  - apply K. intros x. unfold bind. rewrite check_locked_run.
    destruct (match _lock_owner x with None => false | Some _ => _ end); reflexivity.
  - apply K. intros x. unfold bind. rewrite check_locked_run.
    destruct (match _lock_owner x with None => false | Some _ => _ end); [reflexivity|].
    unfold gets, ret. cbn. destruct (power_controller x); reflexivity.
  - apply K. intros x. reflexivity.
  - apply K. intros x. reflexivity.
  - apply K. intros x. reflexivity.
  - unfold usb_has_class, usb_find_by_class, same_but_lease, void.
    pose proof (check_expired_frame s w) as F.
    unfold bind at 1. unfold bind at 1.
    destruct (_check_expired s w) as [[[]|e|] w0]; cbn [snd] in *; try exact F.
    pose proof (check_expired_frame s w0) as F0.
    unfold bind. destruct (_check_expired s w0) as [[[]|e|] w1]; cbn in *;
      congruence.
Qed.

End Setup.

(** ** Configuration and start-up *)

(** Unfold the monad of the start-up methods and compute. *)
Ltac lrun :=
  unfold Startup.instantiate, Startup.configure_with, Startup.probe_call,
    Startup.on_ImportError, Startup.on_NoOptionError, Startup.int;
  unfold Startup.lift, Startup.record, Startup.print_stderr;
  unfold Startup.andthen, Startup.catch, Startup.attr, Startup.update, Startup.pure,
    Startup.throw; cbn.

Section Loading.

Context {HW Con : Type}.
Variable P : Startup.Platform HW Con.
Implicit Types (a : Startup.Agent HW Con) (parser : Startup.ConfigParser).

Lemma load_remote_config_run parser a c k :
  Startup.port_setting P parser "console" (Startup.conport a) = inr c ->
  Startup.port_setting P parser "control" (Startup.ctrlport a) = inr k ->
  (Startup.is_server a = false -> Startup.remote a = None ->
   forall e, Startup.get parser "remote" "host" = inl e ->
             e = Startup.NoSectionError \/ e = Startup.NoOptionError) ->
  let r := if Startup.is_server a then None
           else match Startup.remote a with
                | Some r => Some r
                | None => Startup.remote_host P parser
                end in
  exists a', Startup.load_remote_config P parser a = (Startup.Done tt, a') /\
    Startup.conport a' = c /\ Startup.ctrlport a' = k /\
    Startup.remote a' = r /\
    Startup.is_remote a' = (match r with Some _ => true | None => false end) /\
    Startup.is_server a' = Startup.is_server a /\
    Startup.config_files a' = Startup.config_files a /\
    Startup.same_drivers a a'.
Proof.
  intros Hc Hk Hh r. subst r.
  unfold Startup.port_setting in *.
  assert (Hhost : Startup.is_server a = false -> Startup.remote a = None ->
                  Startup.get_fallback parser "remote" "host" (@None string)
                  = inr (match Startup.get parser "remote" "host" with
                         | inr host => inl host
                         | inl _ => inr None
                         end)).
  { intros Hs Hr. unfold Startup.get_fallback.
    destruct (Startup.get parser "remote" "host") as [e|host] eqn:G; [|reflexivity].
    destruct (Hh Hs Hr e eq_refl) as [->| ->]; reflexivity. }
  unfold Startup.load_remote_config, Startup.remote_host.
  destruct (Startup.get_fallback parser "remote" "console" (Startup.conport a))
    as [e|v1] eqn:G1; [discriminate|].
  destruct (Startup.get_fallback parser "remote" "control" (Startup.ctrlport a))
    as [e|v2] eqn:G2; [discriminate|].
  assert (I1 : match v1 with
               | inl sv => Startup.int_of_str P sv = Some c
               | inr n => n = c
               end).
  { destruct v1 as [sv|n]; [destruct (Startup.int_of_str P sv)|]; congruence. }
  assert (I2 : match v2 with
               | inl sv => Startup.int_of_str P sv = Some k
               | inr n => n = k
               end).
  { destruct v2 as [sv|n]; [destruct (Startup.int_of_str P sv)|]; congruence. }
  clear Hc Hk.
  lrun. rewrite G1. cbn.
  destruct v1 as [sv1|n1]; [rewrite I1|subst n1]; cbn; rewrite G2; cbn;
    (destruct v2 as [sv2|n2]; [rewrite I2|subst n2]); cbn;
    (destruct (Startup.is_server a) eqn:Hs; cbn;
     [|destruct (Startup.remote a) as [r0|] eqn:Hr; cbn;
       [|rewrite (Hhost eq_refl eq_refl); cbn]]);
    (eexists; split; [reflexivity|]); cbn;
    (destruct (Startup.environ P "MTDA_REMOTE");
     destruct (Startup.get parser "remote" "host"));
    repeat split; cbn; rewrite ?Hs, ?Hr; reflexivity.
Qed.

(** X23: who is remote after the [remote] section is read.  The ports
    are those of the section, or stay as they are.  A server ends with no
    remote host and is not remote; a client that was given a host keeps it,
    whatever the environment and the section say; a client that was given
    none takes the host of [MTDA_REMOTE], or else the one of the section,
    and is remote exactly when it has found one.  No driver is touched. *)
Theorem remote_of_configuration parser a c k :
  Startup.port_setting P parser "console" (Startup.conport a) = inr c ->
  Startup.port_setting P parser "control" (Startup.ctrlport a) = inr k ->
  (forall e, Startup.get parser "remote" "host" = inl e ->
             e = Startup.NoSectionError \/ e = Startup.NoOptionError) ->
  exists a', Startup.load_remote_config P parser a = (Startup.Done tt, a') /\
    Startup.conport a' = c /\ Startup.ctrlport a' = k /\
    (Startup.is_server a = true ->
       Startup.remote a' = None /\ Startup.is_remote a' = false) /\
    (forall host, Startup.is_server a = false -> Startup.remote a = Some host ->
       Startup.remote a' = Some host /\ Startup.is_remote a' = true) /\
    (Startup.is_server a = false -> Startup.remote a = None ->
       Startup.remote a' = Startup.remote_host P parser /\
       Startup.is_remote a' = match Startup.remote_host P parser with
                              | Some _ => true
                              | None => false
                              end) /\
    Startup.same_drivers a a'.
Proof.
  intros Hc Hk Hh.
  destruct (load_remote_config_run parser a c k Hc Hk (fun _ _ => Hh))
    as (a' & R & C & K & Hr & Hi & _ & _ & D).
  exists a'. split; [exact R|]. split; [exact C|]. split; [exact K|].
  cbv zeta in Hr, Hi. split; [|split; [|split; [|exact D]]].
  - intros Hs. rewrite Hr, Hi, Hs. split; reflexivity.
  - intros host Hs Hg. rewrite Hr, Hi, Hs, Hg. split; reflexivity.
  - intros Hs Hg. rewrite Hr, Hi, Hs, Hg. split; reflexivity.
Qed.

Lemma same_drivers_refl a : Startup.same_drivers a a.
Proof. repeat split. Qed.

(** A server drops the remote host: what [load_remote_config] leaves. *)
Lemma load_remote_config_server parser a c k :
  Startup.port_setting P parser "console" (Startup.conport a) = inr c ->
  Startup.port_setting P parser "control" (Startup.ctrlport a) = inr k ->
  Startup.is_server a = true ->
  Startup.load_remote_config P parser a
  = (Startup.Done tt,
     Startup.set_is_remote false
       (Startup.set_remote None (Startup.set_ctrlport k (Startup.set_conport c a)))).
Proof.
  intros Hc Hk Hs. unfold Startup.port_setting in *.
  destruct (Startup.get_fallback parser "remote" "console" (Startup.conport a))
    as [e|v1] eqn:G1; [discriminate|].
  destruct (Startup.get_fallback parser "remote" "control" (Startup.ctrlport a))
    as [e|v2] eqn:G2; [discriminate|].
  assert (I1 : match v1 with
               | inl sv => Startup.int_of_str P sv = Some c
               | inr n => n = c
               end).
  { destruct v1 as [sv|n]; [destruct (Startup.int_of_str P sv)|]; congruence. }
  assert (I2 : match v2 with
               | inl sv => Startup.int_of_str P sv = Some k
               | inr n => n = k
               end).
  { destruct v2 as [sv|n]; [destruct (Startup.int_of_str P sv)|]; congruence. }
  clear Hc Hk.
  unfold Startup.load_remote_config. lrun. rewrite G1. cbn.
  destruct v1 as [sv1|n1]; [rewrite I1|subst n1]; cbn; rewrite G2; cbn;
    (destruct v2 as [sv2|n2]; [rewrite I2|subst n2]); cbn;
    rewrite Hs; reflexivity.
Qed.

Lemma same_role_refl a : Startup.same_role a a.
Proof. repeat split. Qed.

Lemma same_role_trans a b c :
  Startup.same_role a b -> Startup.same_role b c -> Startup.same_role a c.
Proof.
  intros (R1 & I1 & S1 & C1 & K1) (R2 & I2 & S2 & C2 & K2). repeat split; congruence.
Qed.

Lemma same_role_andthen {A B : Type} (c : Startup.L HW Con A) (k : A -> Startup.L HW Con B) :
  (forall a, Startup.same_role a (snd (c a))) ->
  (forall x a, Startup.same_role a (snd (k x a))) ->
  forall a, Startup.same_role a (snd (Startup.andthen c k a)).
Proof.
  intros Hc Hk a. unfold Startup.andthen. specialize (Hc a).
  destruct (c a) as [[x|e] a1]; cbn [snd] in *; [|exact Hc].
  apply (same_role_trans _ _ _ Hc). apply Hk.
Qed.

Lemma same_role_when (b : bool) (c : Startup.L HW Con unit) :
  (forall a, Startup.same_role a (snd (c a))) ->
  forall a, Startup.same_role a (snd ((if b then c else Startup.pure tt) a)).
Proof. intros Hc a. destruct b; [apply Hc|apply same_role_refl]. Qed.

(** The loaders of the drivers leave the role of the agent alone, whatever
    they end in. *)
Lemma load_console_keeps_role parser a :
  Startup.same_role a (snd (Startup.load_console_config P parser a)).
Proof.
  unfold Startup.load_console_config. lrun.
  destruct (Startup.get parser "console" "variant") as [e|v]; cbn.
  { destruct e; cbn; repeat split. }
  match goal with |- context [Startup.instantiate_console P ?nm ?k] =>
    destruct (Startup.instantiate_console P nm k) as [e|d] end; cbn.
  { destruct e; cbn; repeat split. }
  destruct (Startup.items parser "console") as [e|settings]; cbn.
  { destruct e; cbn; repeat split. }
  repeat split.
Qed.

Lemma load_power_keeps_role parser a :
  Startup.same_role a (snd (Startup.load_power_config P parser a)).
Proof.
  unfold Startup.load_power_config. lrun.
  destruct (Startup.get parser "power" "variant") as [e|v]; cbn.
  { destruct e; cbn; repeat split. }
  match goal with |- context [Startup.instantiate_power P ?nm ?k] =>
    destruct (Startup.instantiate_power P nm k) as [e|d] end; cbn.
  { destruct e; cbn; repeat split. }
  destruct (Startup.items parser "power") as [e|settings]; cbn.
  { destruct e; cbn; repeat split. }
  repeat split.
Qed.

Lemma load_sdmux_keeps_role parser a :
  Startup.same_role a (snd (Startup.load_sdmux_config P parser a)).
Proof.
  unfold Startup.load_sdmux_config. lrun.
  destruct (Startup.get parser "sdmux" "variant") as [e|v]; cbn.
  { destruct e; cbn; repeat split. }
  match goal with |- context [Startup.instantiate_sdmux P ?nm ?k] =>
    destruct (Startup.instantiate_sdmux P nm k) as [e|d] end; cbn.
  { destruct e; cbn; repeat split. }
  destruct (Startup.items parser "sdmux") as [e|settings]; cbn.
  { destruct e; cbn; repeat split. }
  repeat split.
Qed.

Lemma load_usb_port_keeps_role parser section a :
  Startup.same_role a (snd (Startup.load_usb_port_config P parser section a)).
Proof.
  unfold Startup.load_usb_port_config. lrun.
  destruct (Startup.get_fallback parser section "class" "") as [e|cv]; cbn.
  { destruct e; cbn; repeat split. }
  destruct (Startup.get parser section "variant") as [e|v]; cbn.
  { destruct e; cbn; repeat split. }
  match goal with |- context [Startup.instantiate_usb P ?nm ?k] =>
    destruct (Startup.instantiate_usb P nm k) as [e|d] end; cbn.
  { destruct e; cbn; repeat split. }
  destruct (Startup.items parser section) as [e|settings]; cbn.
  { destruct e; cbn; repeat split. }
  repeat split.
Qed.

Lemma for_range_keeps_role (body : Z -> Startup.L HW Con unit) :
  (forall port a, Startup.same_role a (snd (body port a))) ->
  forall n start a, Startup.same_role a (snd (Startup.for_range n start body a)).
Proof.
  intros Hb. induction n as [|n IH]; intros start a; cbn [Startup.for_range].
  - apply same_role_refl.
  - apply same_role_andthen; [apply Hb|]. intros _ b. apply IH.
Qed.

Lemma load_usb_keeps_role parser a :
  Startup.same_role a (snd (Startup.load_usb_config P parser a)).
Proof.
  unfold Startup.load_usb_config, Startup.catch.
  match goal with |- context [Startup.andthen ?c ?k a] =>
    assert (G : Startup.same_role a (snd (Startup.andthen c k a))) end.
  { apply same_role_andthen.
    - intros b. unfold Startup.lift.
      destruct (Startup.get parser "usb" "ports"); apply same_role_refl.
    - intros v b. apply same_role_andthen.
      + intros b0. unfold Startup.int.
        destruct (Startup.int_of_str P v); apply same_role_refl.
      + intros n b0. apply for_range_keeps_role. intros port b1.
        destruct (Startup.has_section parser ("usb" ++ str (port + 1))).
        * apply load_usb_port_keeps_role.
        * apply same_role_refl. }
  match goal with |- context [Startup.andthen ?c ?k a] =>
    destruct (Startup.andthen c k a) as [[[]|e] a1] end; cbn [snd] in *; [exact G|].
  destruct (Startup.is_NoOptionError e); exact G.
Qed.

(** The driver sections as [load_config] goes through them. *)
Lemma driver_sections_keep_role parser a :
  Startup.same_role a
    (snd (Startup.andthen
            (if Startup.has_section parser "console"
             then Startup.load_console_config P parser else Startup.pure tt)
            (fun _ => Startup.andthen
            (if Startup.has_section parser "power"
             then Startup.load_power_config P parser else Startup.pure tt)
            (fun _ => Startup.andthen
            (if Startup.has_section parser "sdmux"
             then Startup.load_sdmux_config P parser else Startup.pure tt)
            (fun _ =>
            (if Startup.has_section parser "usb"
             then Startup.load_usb_config P parser else Startup.pure tt)))) a)).
Proof.
  apply same_role_andthen;
    [apply same_role_when; apply load_console_keeps_role|intros _ a1].
  apply same_role_andthen;
    [apply same_role_when; apply load_power_keeps_role|intros _ a2].
  apply same_role_andthen;
    [apply same_role_when; apply load_sdmux_keeps_role|intros _ a3].
  apply same_role_when. apply load_usb_keeps_role.
Qed.

(** X24: an agent that is remote loads no driver, and a server is remote
    only without a [remote] section.  [load_config] given a remote host,
    for a client, returns with the agent remote, the host kept, and no
    driver instantiated, configured or stored, whatever sections the
    configuration has; so does it for a server when the configuration has
    no [remote] section.  With a [remote] section a server drops the host
    it was given: [load_config] does exactly what it does for a server
    given no host, the driver sections are gone through, and whatever they
    hold and end in the agent is left with no remote host, not remote and a
    server. *)
Theorem remote_agent_loads_nothing host a :
  let parser := Startup.read P (Startup.config_files a) in
  (Startup.has_section parser "remote" = true ->
   exists c k,
     Startup.port_setting P parser "console" (Startup.conport a) = inr c /\
     Startup.port_setting P parser "control" (Startup.ctrlport a) = inr k) ->
  (exists a', Startup.load_config P (Some host) false a = (Startup.Done tt, a') /\
     Startup.remote a' = Some host /\ Startup.is_remote a' = true /\
     Startup.is_server a' = false /\ Startup.same_drivers a a') /\
  (Startup.has_section parser "remote" = false ->
   exists a', Startup.load_config P (Some host) true a = (Startup.Done tt, a') /\
     Startup.remote a' = Some host /\ Startup.is_remote a' = true /\
     Startup.is_server a' = true /\ Startup.same_drivers a a') /\
  (Startup.has_section parser "remote" = true ->
   Startup.load_config P (Some host) true a = Startup.load_config P None true a /\
   let a' := snd (Startup.load_config P (Some host) true a) in
   Startup.remote a' = None /\ Startup.is_remote a' = false /\
   Startup.is_server a' = true).
Proof.
  intros parser Hports.
  pose (sections := fun r : bool =>
          if negb r then
            Startup.andthen
              (if Startup.has_section parser "console"
               then Startup.load_console_config P parser else Startup.pure tt)
              (fun _ => Startup.andthen
              (if Startup.has_section parser "power"
               then Startup.load_power_config P parser else Startup.pure tt)
              (fun _ => Startup.andthen
              (if Startup.has_section parser "sdmux"
               then Startup.load_sdmux_config P parser else Startup.pure tt)
              (fun _ =>
              (if Startup.has_section parser "usb"
               then Startup.load_usb_config P parser else Startup.pure tt))))
          else Startup.pure tt).
  assert (Go : forall r server,
            Startup.load_config P r server a =
            Startup.andthen
              (if Startup.has_section parser "remote"
               then Startup.load_remote_config P parser else Startup.pure tt)
              (fun _ => Startup.andthen (Startup.attr Startup.is_remote) sections)
              (Startup.set_is_server server
                 (Startup.set_is_remote (match r with Some _ => true | None => false end)
                    (Startup.set_remote r a)))).
  { intros r server. reflexivity. }
  split; [|split].
  - rewrite Go. set (a0 := Startup.set_is_server false _).
    destruct (Startup.has_section parser "remote") eqn:Hs.
    + destruct (Hports eq_refl) as (c & k & Hc & Hk).
      destruct (load_remote_config_run parser a0 c k Hc Hk)
        as (a' & R & _ & _ & Hr & Hi & Hv & _ & D); [discriminate|].
      exists a'. unfold Startup.andthen at 1. rewrite R.
      subst a0. cbn in Hr, Hi, Hv, D.
      unfold Startup.andthen, Startup.attr. rewrite Hi. cbn.
      repeat split; try assumption; apply D.
    + exists a0. repeat split.
  - intros Hs. rewrite Go, Hs. eexists. split; [reflexivity|]. repeat split.
  - intros Hs. destruct (Hports Hs) as (c & k & Hc & Hk).
    assert (E : forall r,
              Startup.load_config P r true a =
              sections false
                (Startup.set_is_remote false
                   (Startup.set_remote None
                      (Startup.set_ctrlport k
                         (Startup.set_conport c (Startup.set_is_server true a)))))).
    { intros r. rewrite Go, Hs. unfold Startup.andthen at 1.
      rewrite (load_remote_config_server parser
                 (Startup.set_is_server true
                    (Startup.set_is_remote (match r with Some _ => true | None => false end)
                       (Startup.set_remote r a))) c k Hc Hk eq_refl).
      reflexivity. }
    split; [rewrite (E (Some host)), (E None); reflexivity|].
    cbv zeta. rewrite (E (Some host)).
    destruct (driver_sections_keep_role parser
                (Startup.set_is_remote false
                   (Startup.set_remote None
                      (Startup.set_ctrlport k
                         (Startup.set_conport c (Startup.set_is_server true a))))))
      as (R & I & S & _).
    split; [exact R|]. split; [exact I | exact S].
Qed.

(** X25: what loading a driver section ends in.  When the section names
    no variant, or a variant whose module cannot be imported, the loader
    says so on the error stream and returns, the agent left without that
    driver and otherwise as it was (the message for an sdmux module that
    cannot be imported speaks of a power controller).  When the module can
    be imported, a new object is made by its factory, stored and then
    configured with the items of the section. *)
Theorem driver_section_outcomes parser a :
  let said msg := (Startup.Done tt, Startup.set_stderr (Startup.stderr a ++ [msg]) a) in
  let n := Startup.objects a in
  let stored {C} (set : option (Startup.Device C) ->
                        Startup.Agent HW Con -> Startup.Agent HW Con)
        (section name : string) (d : Startup.Device C) settings :=
    (Startup.Done tt,
     Startup.set_log (Startup.log a ++ [Startup.Instantiated name;
                                        Startup.Configured section settings])
       (Startup.set_hw (Startup.configure d settings (Startup.hw a))
          (set (Some d) (Startup.set_objects (S n) a)))) in
  (Startup.get parser "console" "variant" = inl Startup.NoOptionError ->
     Startup.load_console_config P parser a = said "console variant not defined!") /\
  (Startup.get parser "power" "variant" = inl Startup.NoOptionError ->
     Startup.load_power_config P parser a
     = said "power controller variant not defined!") /\
  (Startup.get parser "sdmux" "variant" = inl Startup.NoOptionError ->
     Startup.load_sdmux_config P parser a
     = said "sdmux controller variant not defined!") /\
  (forall v, Startup.get parser "console" "variant" = inr v ->
     let name := ("mtda.console." ++ v)%string in
     (Startup.instantiate_console P name n = inl Startup.ImportError ->
        Startup.load_console_config P parser a
        = said (Startup.not_found "console" v)) /\
     (forall d settings, Startup.instantiate_console P name n = inr d ->
        Startup.items parser "console" = inr settings ->
        Startup.load_console_config P parser a
        = stored Startup.set_console "console" name d settings)) /\
  (forall v, Startup.get parser "power" "variant" = inr v ->
     let name := ("mtda.power." ++ v)%string in
     (Startup.instantiate_power P name n = inl Startup.ImportError ->
        Startup.load_power_config P parser a
        = said (Startup.not_found "power controller" v)) /\
     (forall d settings, Startup.instantiate_power P name n = inr d ->
        Startup.items parser "power" = inr settings ->
        Startup.load_power_config P parser a
        = stored Startup.set_power_controller "power" name d settings)) /\
  (forall v, Startup.get parser "sdmux" "variant" = inr v ->
     let name := ("mtda.sdmux." ++ v)%string in
     (Startup.instantiate_sdmux P name n = inl Startup.ImportError ->
        Startup.load_sdmux_config P parser a
        = said (Startup.not_found "power controller" v)) /\
     (forall d settings, Startup.instantiate_sdmux P name n = inr d ->
        Startup.items parser "sdmux" = inr settings ->
        Startup.load_sdmux_config P parser a
        = stored Startup.set_sdmux_controller "sdmux" name d settings)).
Proof.
  cbv zeta.
  split; [|split; [|split; [|split; [|split]]]].
  - intros G. unfold Startup.load_console_config. lrun. rewrite G. reflexivity.
  - intros G. unfold Startup.load_power_config. lrun. rewrite G. reflexivity.
  - intros G. unfold Startup.load_sdmux_config. lrun. rewrite G. reflexivity.
  - intros v G. split.
    + intros I. cbn in I. unfold Startup.load_console_config. lrun. rewrite G. cbn.
      rewrite I. reflexivity.
    + intros d settings I S. cbn in I. unfold Startup.load_console_config. lrun.
      rewrite G. cbn. rewrite I. cbn. rewrite S. cbn.
      rewrite <- app_assoc. reflexivity.
  - intros v G. split.
    + intros I. cbn in I. unfold Startup.load_power_config. lrun. rewrite G. cbn.
      rewrite I. reflexivity.
    + intros d settings I S. cbn in I. unfold Startup.load_power_config. lrun.
      rewrite G. cbn. rewrite I. cbn. rewrite S. cbn.
      rewrite <- app_assoc. reflexivity.
  - intros v G. split.
    + intros I. cbn in I. unfold Startup.load_sdmux_config. lrun. rewrite G. cbn.
      rewrite I. reflexivity.
    + intros d settings I S. cbn in I. unfold Startup.load_sdmux_config. lrun.
      rewrite G. cbn. rewrite I. cbn. rewrite S. cbn.
      rewrite <- app_assoc. reflexivity.
Qed.

(** X26: what loading the section of one USB port ends in.  With no
    variant, or one whose module cannot be imported, a message is printed
    and the registry is left as it is.  Otherwise the new switch is
    configured with the items of the section, probed, given the class of
    the section (the empty string when the section has none) and appended
    to the registry: its index for the requests is one more than the number
    of switches loaded before it, whatever the number of its section. *)
Theorem usb_port_outcomes parser section a :
  let said msg := (Startup.Done tt, Startup.set_stderr (Startup.stderr a ++ [msg]) a) in
  let n := Startup.objects a in
  let cls := match Startup.get parser section "class" with
             | inr c => c
             | inl _ => ""
             end in
  (forall e, Startup.get parser section "class" = inl e ->
             e = Startup.NoSectionError \/ e = Startup.NoOptionError) ->
  (Startup.get parser section "variant" = inl Startup.NoOptionError ->
     Startup.load_usb_port_config P parser section a
     = said "usb switch variant not defined!") /\
  (forall v, Startup.get parser section "variant" = inr v ->
     let name := ("mtda.usb." ++ v)%string in
     (Startup.instantiate_usb P name n = inl Startup.ImportError ->
        Startup.load_usb_port_config P parser section a
        = said (Startup.not_found "usb switch" v)) /\
     (forall d settings, Startup.instantiate_usb P name n = inr d ->
        Startup.items parser section = inr settings ->
        let usb_switch := Startup.set_className cls (Startup.methods d) in
        exists a', Startup.load_usb_port_config P parser section a = (Startup.Done tt, a') /\
          Startup.usb_switches a' = Startup.usb_switches a ++ [usb_switch] /\
          nth_error (Startup.usb_switches a') (List.length (Startup.usb_switches a))
          = Some usb_switch /\
          className usb_switch = cls /\
          Startup.hw a'
          = snd (Startup.probe d (Startup.configure d settings (Startup.hw a))) /\
          Startup.log a' = Startup.log a ++ [Startup.Instantiated name;
                                             Startup.Configured section settings;
                                             Startup.Probed section] /\
          Startup.stderr a' = Startup.stderr a /\
          Startup.grows_by 1 a a')).
Proof.
  cbv zeta. intros Hc.
  assert (C : Startup.get_fallback parser section "class" ""
              = inr (match Startup.get parser section "class" with
                     | inr c => inl c
                     | inl _ => inr ""
                     end)).
  { unfold Startup.get_fallback.
    destruct (Startup.get parser section "class") as [e|c]; [|reflexivity].
    destruct (Hc e eq_refl) as [->| ->]; reflexivity. }
  split.
  - intros G. unfold Startup.load_usb_port_config. lrun. rewrite C. cbn.
    rewrite G. reflexivity.
  - intros v G. split.
    + intros I. cbn in I. unfold Startup.load_usb_port_config. lrun. rewrite C. cbn.
      rewrite G. cbn. rewrite I. reflexivity.
    + intros d settings I S. cbn in I. unfold Startup.load_usb_port_config. lrun.
      rewrite C. cbn. rewrite G. cbn. rewrite I. cbn. rewrite S. cbn.
      eexists. split; [reflexivity|]. cbn.
      destruct (Startup.get parser section "class") as [e|c]; cbn;
        (split; [reflexivity|]);
        (split; [rewrite nth_error_app2, Nat.sub_diag by lia; reflexivity|]);
        (split; [reflexivity|]); (split; [reflexivity|]);
        (split; [rewrite <- !app_assoc; reflexivity|]);
        (split; [reflexivity|]);
        (split; [eexists; split; [reflexivity|cbn; lia]|repeat split]).
Qed.

(** Whatever it ends in, loading one port adds at most one switch, at the
    end, and leaves the other drivers alone. *)
Lemma load_usb_port_grows parser section a :
  Startup.grows_by 1 a (snd (Startup.load_usb_port_config P parser section a)).
Proof.
  assert (Same : forall b, Startup.usb_switches b = Startup.usb_switches a ->
                 Startup.console b = Startup.console a ->
                 Startup.console_logger b = Startup.console_logger a ->
                 Startup.power_controller b = Startup.power_controller a ->
                 Startup.sdmux_controller b = Startup.sdmux_controller a ->
                 Startup.grows_by 1 a b).
  { intros b U ? ? ? ?. split; [|repeat split; assumption].
    exists []. rewrite app_nil_r. split; [exact U|cbn; lia]. }
  unfold Startup.load_usb_port_config. lrun.
  destruct (Startup.get_fallback parser section "class" "") as [e|cv]; cbn.
  { destruct e; cbn; apply Same; reflexivity. }
  destruct (Startup.get parser section "variant") as [e|v]; cbn.
  { destruct e; cbn; apply Same; reflexivity. }
  match goal with |- context [Startup.instantiate_usb P ?nm ?k] =>
    destruct (Startup.instantiate_usb P nm k) as [e|d] end; cbn.
  { destruct e; cbn; apply Same; reflexivity. }
  destruct (Startup.items parser section) as [e|settings]; cbn.
  { destruct e; cbn; apply Same; reflexivity. }
  split; [|repeat split]. eexists. split; [reflexivity|cbn; lia].
Qed.

Lemma grows_by_trans j k a b c :
  Startup.grows_by j a b -> Startup.grows_by k b c -> Startup.grows_by (j + k) a c.
Proof.
  intros ((n1 & U1 & L1) & C1 & G1 & P1 & M1) ((n2 & U2 & L2) & C2 & G2 & P2 & M2).
  split; [|repeat split; congruence].
  exists (n1 ++ n2). rewrite U2, U1, <- app_assoc, length_app. split; [reflexivity|lia].
Qed.

Lemma grows_by_refl a : Startup.grows_by 0 a a.
Proof. split; [|repeat split]. exists []. rewrite app_nil_r. split; [reflexivity|cbn; lia]. Qed.

Lemma for_range_grows parser n :
  forall start a,
    Startup.grows_by n a
      (snd (Startup.for_range n start
              (fun port =>
                 if Startup.has_section parser ("usb" ++ str (port + 1))
                 then Startup.load_usb_port_config P parser ("usb" ++ str (port + 1))
                 else Startup.pure tt) a)).
Proof.
  induction n as [|n IH]; intros start a; cbn [Startup.for_range].
  - apply grows_by_refl.
  - unfold Startup.andthen.
    assert (B : Startup.grows_by 1 a
                  (snd ((if Startup.has_section parser ("usb" ++ str (start + 1))
                         then Startup.load_usb_port_config P parser
                                ("usb" ++ str (start + 1))
                         else Startup.pure tt) a))).
    { destruct (Startup.has_section parser ("usb" ++ str (start + 1))).
      - apply load_usb_port_grows.
      - split; [|repeat split]. exists []. rewrite app_nil_r.
        split; [reflexivity|cbn; lia]. }
    destruct ((if Startup.has_section parser ("usb" ++ str (start + 1))
               then Startup.load_usb_port_config P parser ("usb" ++ str (start + 1))
               else Startup.pure tt) a) as [[[]|e] a1]; cbn [snd] in *.
    + apply (grows_by_trans 1 n a a1 _ B). apply IH.
    + destruct B as ((new & U & L) & R). split; [|exact R].
      exists new. split; [exact U|lia].
Qed.

(** X27: loading the USB section.  With no [ports] option nothing is
    loaded and nothing is said; a [ports] that is not a number raises
    [ValueError].  Otherwise the sections [usb1], [usb2], ... up to that
    number are loaded in this order, those that exist: whatever happens on
    the way, the registry keeps the switches it had, at most that many are
    added at its end, and the other drivers are left alone; when none of
    these sections exists nothing changes at all. *)
Theorem usb_section_outcomes parser a :
  (Startup.get parser "usb" "ports" = inl Startup.NoOptionError ->
     Startup.load_usb_config P parser a = (Startup.Done tt, a)) /\
  (forall v, Startup.get parser "usb" "ports" = inr v ->
     (Startup.int_of_str P v = None ->
        Startup.load_usb_config P parser a = (Startup.Failed Startup.ValueError, a)) /\
     (forall n, Startup.int_of_str P v = Some n ->
        Startup.grows_by (Z.to_nat n) a (snd (Startup.load_usb_config P parser a)) /\
        ((forall port, Startup.has_section parser ("usb" ++ str port) = false) ->
         Startup.load_usb_config P parser a = (Startup.Done tt, a)))).
Proof.
  split.
  - intros G. unfold Startup.load_usb_config. lrun. rewrite G. reflexivity.
  - intros v G. split.
    + intros I. unfold Startup.load_usb_config. lrun. rewrite G. cbn. rewrite I.
      reflexivity.
    + intros n I.
      assert (R : Startup.load_usb_config P parser a =
                  Startup.catch
                    (Startup.for_range (Z.to_nat n) 0
                       (fun port =>
                          if Startup.has_section parser ("usb" ++ str (port + 1))
                          then Startup.load_usb_port_config P parser
                                 ("usb" ++ str (port + 1))
                          else Startup.pure tt))
                    (fun e => if Startup.is_NoOptionError e then Startup.pure tt
                              else Startup.throw e) a).
      { unfold Startup.load_usb_config.
        unfold Startup.catch at 1, Startup.andthen at 1, Startup.lift at 1.
        rewrite G. unfold Startup.pure at 1.
        unfold Startup.andthen at 1, Startup.int at 1. rewrite I.
        unfold Startup.pure at 1. reflexivity. }
      split.
      * rewrite R. pose proof (for_range_grows parser (Z.to_nat n) 0 a) as G0.
        unfold Startup.catch.
        destruct (Startup.for_range _ _ _ a) as [[[]|e] a1]; cbn [snd] in *;
          [exact G0|].
        destruct (Startup.is_NoOptionError e); exact G0.
      * intros Hno. rewrite R. unfold Startup.catch.
        assert (F : forall k start b,
                  Startup.for_range k start
                    (fun port =>
                       if Startup.has_section parser ("usb" ++ str (port + 1))
                       then Startup.load_usb_port_config P parser
                              ("usb" ++ str (port + 1))
                       else Startup.pure tt) b = (Startup.Done tt, b)).
        { induction k as [|k IH]; intros start b; cbn [Startup.for_range];
            [reflexivity|].
          unfold Startup.andthen. rewrite Hno. unfold Startup.pure at 1. apply IH. }
        rewrite F. reflexivity.
Qed.

End Loading.

Section Starting.

Context {HW Con : Type}.
Variable P : Startup.Platform HW Con.
Implicit Types (a : Startup.Agent HW Con).

(** X28: what [start] ends in.  A remote agent starts at once, nothing
    being probed.  Otherwise the power controller is probed, then the mux
    driver, those that are configured; the first probe that fails is
    reported on the error stream and [start] returns [False] without going
    further: no later probe, no console logger.  When no probe fails
    [start] returns [True]; the console, if one is configured, is probed
    and a console logger is created for it and started, with a socket bound
    to the console port when the agent is a server and with none otherwise;
    with no console the agent stays without a logger. *)
Theorem start_outcomes a :
  let probed {C} (what : string) (d : option (Startup.Device C)) (h : HW) :=
    match d with
    | Some d => (Startup.probe d h, [Startup.Probed what])
    | None => ((true, h), [])
    end in
  let p := probed "power" (Startup.power_controller a) (Startup.hw a) in
  let m := probed "sdmux" (Startup.sdmux_controller a) (snd (fst p)) in
  let address := ("tcp://*:" ++ str (Startup.conport a))%string in
  (Startup.is_remote a = true -> Startup.start P a = (Startup.Done true, a)) /\
  (Startup.is_remote a = false ->
   exists a', Startup.start P a = (Startup.Done (fst (fst p) && fst (fst m)), a') /\
     (fst (fst p) = false ->
        Startup.hw a' = snd (fst p) /\
        Startup.log a' = Startup.log a ++ snd p /\
        Startup.stderr a'
        = Startup.stderr a ++ ["Probe of the Power Controller failed!"] /\
        Startup.console_logger a' = Startup.console_logger a) /\
     (fst (fst p) = true -> fst (fst m) = false ->
        Startup.hw a' = snd (fst m) /\
        Startup.log a' = Startup.log a ++ snd p ++ snd m /\
        Startup.stderr a'
        = Startup.stderr a ++ ["Probe of the SDMUX Controller failed!"] /\
        Startup.console_logger a' = Startup.console_logger a) /\
     (fst (fst p) = true -> fst (fst m) = true ->
        Startup.stderr a' = Startup.stderr a /\
        match Startup.console a with
        | None =>
            Startup.hw a' = snd (fst m) /\
            Startup.log a' = Startup.log a ++ snd p ++ snd m /\
            Startup.console_logger a' = Startup.console_logger a
        | Some c =>
            Startup.hw a' = snd (Startup.probe c (snd (fst m))) /\
            Startup.log a'
            = Startup.log a ++ snd p ++ snd m
              ++ (if Startup.is_server a then [Startup.Bound address] else [])
              ++ [Startup.Probed "console"; Startup.LoggerStarted] /\
            Startup.console_logger a'
            = Some (Startup.new_logger P (Startup.methods c)
                      (if Startup.is_server a then Some address else None)
                      (match Startup.power_controller a with
                       | Some d => Some (Startup.methods d)
                       | None => None
                       end))
        end) /\
     Startup.power_controller a' = Startup.power_controller a /\
     Startup.sdmux_controller a' = Startup.sdmux_controller a /\
     Startup.console a' = Startup.console a /\
     Startup.usb_switches a' = Startup.usb_switches a).
Proof.
  cbv zeta. split.
  - intros R. unfold Startup.start. lrun. rewrite R. reflexivity.
  - intros R.
    destruct (Startup.power_controller a) as [pd|] eqn:Hp;
      destruct (Startup.sdmux_controller a) as [md|] eqn:Hm;
      destruct (Startup.console a) as [c|] eqn:Hc;
      destruct (Startup.is_server a) eqn:Hs;
      unfold Startup.start; lrun;
      repeat (progress (rewrite ?R, ?Hp, ?Hm, ?Hc, ?Hs; cbn));
      repeat match goal with
             | |- context [Startup.probe ?d ?h] =>
                 destruct (Startup.probe d h) as [[] ?]; cbn;
                 repeat (progress (rewrite ?R, ?Hp, ?Hm, ?Hc, ?Hs; cbn))
             end;
      (eexists; split; [reflexivity|]); cbn; rewrite ?Hp, ?Hm, ?Hc, ?Hs;
      repeat split; try discriminate; intros;
      rewrite ?app_nil_r, <- ?app_assoc; reflexivity.
Qed.

(** X29: the console endpoints of a client are created when they are
    first needed.  [console_getkey] creates and starts the console input
    on its first call only, and reads one key at each call;
    [console_remote] creates and starts the remote console output for the
    host and the console port when the agent is remote, and does nothing
    when it is not. *)
Theorem console_endpoints_on_demand a host :
  (let k1 := Startup.getkey P (Startup.hw a) in
   let k2 := Startup.getkey P (snd k1) in
   exists a1 a2,
     Startup.console_getkey P a = (Startup.Done (fst k1), a1) /\
     Startup.console_getkey P a1 = (Startup.Done (fst k2), a2) /\
     Startup.console_input a1 = true /\
     Startup.log a1 = Startup.log a
                      ++ (if Startup.console_input a then [] else [Startup.InputStarted])
                      ++ [Startup.KeyRead] /\
     Startup.log a2 = Startup.log a1 ++ [Startup.KeyRead] /\
     Startup.hw a2 = snd k2) /\
  (Startup.is_remote a = false -> Startup.console_remote host a = (Startup.Done tt, a)) /\
  (Startup.is_remote a = true ->
   exists a', Startup.console_remote host a = (Startup.Done tt, a') /\
     Startup.console_output a' = Some (host, Startup.conport a) /\
     Startup.log a' = Startup.log a ++ [Startup.OutputStarted host (Startup.conport a)]).
Proof.
  split; [|split].
  - cbv zeta. unfold Startup.console_getkey. lrun.
    destruct (Startup.console_input a) eqn:Hi; cbn;
      destruct (Startup.getkey P (Startup.hw a)) as [k1 h1]; cbn;
      destruct (Startup.getkey P h1) as [k2 h2] eqn:K2; cbn;
      (eexists; eexists; split; [reflexivity|]); cbn;
      repeat (progress (rewrite ?Hi, ?K2; cbn));
      (split; [reflexivity|]); cbn; rewrite ?Hi;
      repeat split; rewrite <- ?app_assoc; reflexivity.
  - intros R. unfold Startup.console_remote. lrun. rewrite R. reflexivity.
  - intros R. unfold Startup.console_remote. lrun. rewrite R. cbn.
    eexists. split; [reflexivity|]. split; reflexivity.
Qed.

(** X30: an agent with nothing configured starts.  When the configuration
    files hold no section, [load_config] for a local agent leaves the agent
    as [__init__] made it, and [start] returns [True] on it, having probed
    nothing: the agent is left with no driver, no console logger and no
    USB switch. *)
Theorem unconfigured_agent_starts h :
  (forall files section, Startup.has_section (Startup.read P files) section = false) ->
  let a := Startup.__init__ P h in
  Startup.load_config P None false a = (Startup.Done tt, a) /\
  Startup.start P a = (Startup.Done true, a) /\
  Startup.power_controller a = None /\ Startup.sdmux_controller a = None /\
  Startup.console_logger a = None /\ Startup.usb_switches a = [].
Proof.
  intros Hno a. split; [|split; [|repeat split]].
  - unfold Startup.load_config. lrun. rewrite !Hno. reflexivity.
  - unfold Startup.start. lrun. reflexivity.
Qed.

End Starting.

(** * The properties on the bench *)

Lemma target_lock_contention_on_bench :
  exists w1 w2,
    target_lock (Some "S1") Demo.fresh = (Ok true, w1) /\
    _lock_owner w1 = Some "S1" /\ _lock_expiry w1 = None /\
    target_lock (Some "S2") w1 = (Raise TypeError, w2).
Proof.
  apply (target_lock_contention_raises Demo.fresh (Some "S1") (Some "S2"));
    [reflexivity | reflexivity | reflexivity | discriminate].
Defined.

(** C3 (counterexample): "S1" held the lease until 100; its call at 200, with
    no call from anybody else in between, does not find the lease reclaimed:
    "S1" is still the owner, now until 200 + 5 * 60. *)
Lemma late_owner_call_keeps_lease :
  _lock_owner Demo.late = Some "S1" /\ _lock_expiry Demo.late = Some 100 /\
  clock Demo.late (reads Demo.late) = 200 /\
  fst (target_locked (Some "S1") Demo.late) = Ok false /\
  _lock_owner (snd (target_locked (Some "S1") Demo.late)) = Some "S1" /\
  _lock_expiry (snd (target_locked (Some "S1") Demo.late)) = Some 500.
Proof. repeat split. Qed.

Lemma lease_renewal_and_reclaim_on_bench :
  (exists w1, _check_expired (Some "S1") Demo.late = (Ok tt, w1) /\
      _lock_owner w1 = Some "S1" /\ _lock_expiry w1 = Some (200 + 5 * 60)) /\
  (200 < 100 ->
   exists w1, _check_expired (Some "S2") Demo.late = (Ok tt, w1) /\
      _lock_owner w1 = Some "S1" /\ _lock_expiry w1 = Some 100) /\
  (100 <= 200 ->
   exists w1 w2, _check_expired (Some "S2") Demo.late = (Ok tt, w1) /\
      _lock_owner w1 = None /\
      target_lock (Some "S1") w1 = (Ok true, w2) /\ _lock_owner w2 = Some "S1").
Proof.
  apply (lease_renewal_and_reclaim Demo.late (Some "S1") (Some "S2") 100);
    [reflexivity | reflexivity | reflexivity | discriminate].
Defined.

(** C1 (counterexample): "A" holds the lease until 1000 and it is 0; "B" calls
    [sd_open]: the call is not refused, the driver's [open] is invoked and
    its result [True] is returned. *)
Lemma foreign_sd_open_reaches_driver :
  _lock_owner Demo.held = Some "A" /\ _lock_expiry Demo.held = Some 1000 /\
  fst (sd_open (Some "B") Demo.held) = Ok true /\
  trace (snd (sd_open (Some "B") Demo.held)) = [MuxOpen] /\
  _sd_opened (snd (sd_open (Some "B") Demo.held)) = true.
Proof. repeat split. Qed.

Lemma held_on_bench : held_until "A" 1000 2 Demo.held.
Proof.
  split; [reflexivity|]. split; [reflexivity|]. intros k _. reflexivity.
Defined.

Lemma foreign_lease_gate_on_bench :
  held_until "A" 1000 2 Demo.held /\
  exists w', target_on (Some "B") Demo.held = (Ok false, w') /\
             driver_calls (trace w') = driver_calls (trace Demo.held) /\
             _lock_owner w' = Some "A" /\ _lock_expiry w' = Some 1000.
Proof.
  split; [exact held_on_bench|].
  apply (foreign_lease_gate (Some "B") "A" 1000 Demo.held);
    [discriminate | exact held_on_bench].
Defined.

Lemma wf_equipped t : lease_wf (Demo.equipped t).
Proof. intros H. discriminate H. Defined.


Lemma sd_close_twice_on_bench :
  exists w1 w2,
    sd_close None Demo.writing = (Ok true, w1) /\ sd_close None w1 = (Ok true, w2) /\
    (_sd_opened w1 = false /\ bz2dec w1 = None /\ zdec w1 = None) /\
    (_sd_opened w2 = false /\ bz2dec w2 = None /\ zdec w2 = None) /\
    trace w1 = trace Demo.writing ++ (if _sd_opened Demo.writing then [MuxClose] else []) /\
    trace w2 = trace w1 /\ hw w2 = hw w1 /\
    forget_lease w2 = forget_lease w1 /\
    (_lock_owner Demo.writing = None -> w2 = w1).
Proof.
  apply (sd_close_twice Demo.writing None None Demo.mux);
    [reflexivity | intros H; discriminate H | reflexivity].
Defined.

(** C8 (counterexample): on the three-switch registry [usb_status(0)] does
    not report an error: it answers "???" and prints nothing. *)
Lemma usb_status_zero_is_silent :
  usb_status 0 None (Demo.equipped 0) = (Ok "???", Demo.equipped 0) /\
  stderr (snd (usb_on 0 None (Demo.equipped 0))) = [].
Proof. split; reflexivity. Qed.

Lemma usb_bad_index_on_bench :
  lease_wf (Demo.equipped 0) /\
  exists w0,
    _check_expired None (Demo.equipped 0) = (Ok tt, w0) /\
    forget_lease w0 = forget_lease (Demo.equipped 0) /\
    (5 <= 0 ->
       usb_on 5 None (Demo.equipped 0) = (Ok tt, w0) /\
       usb_off 5 None (Demo.equipped 0) = (Ok tt, w0) /\
       usb_toggle 5 None (Demo.equipped 0) = (Ok tt, w0) /\
       usb_status 5 None (Demo.equipped 0) = (Ok "???", w0)) /\
    (len (usb_switches (Demo.equipped 0)) < 5 ->
       let w1 := set_stderr (stderr w0 ++ [invalid_switch 5]) w0 in
       usb_on 5 None (Demo.equipped 0) = (Ok tt, w1) /\
       usb_off 5 None (Demo.equipped 0) = (Ok tt, w1) /\
       usb_toggle 5 None (Demo.equipped 0) = (Ok tt, w1) /\
       usb_status 5 None (Demo.equipped 0) = (Ok "ERR", w1)).
Proof.
  split; [apply wf_equipped|].
  apply (usb_bad_index None (Demo.equipped 0) 5). apply wf_equipped.
Defined.

(** The two scenarios of the specification, run. *)
Example usb_scenarios :
  usb_on 0 None (Demo.equipped 0) = (Ok tt, Demo.equipped 0) /\
  fst (usb_status 5 None (Demo.equipped 0)) = Ok "ERR" /\
  stderr (snd (usb_status 5 None (Demo.equipped 0))) = ["invalid USB switch #5"] /\
  hw (snd (usb_status 5 None (Demo.equipped 0))) = hw (Demo.equipped 0) /\
  trace (snd (usb_status 5 None (Demo.equipped 0))) = [].
Proof. repeat split. Qed.

Lemma unavailable_raises_on_bench :
  lease_wf (Demo.bare 0) /\
  fst (target_toggle None (Demo.bare 0)) = Raise AttributeError.
Proof.
  split; [intros H; discriminate H|].
  apply (unavailable_raises None (Demo.bare 0)); [intros H; discriminate H|reflexivity].
Defined.

(** [sd_write_gz] with an empty buffer on the equipped bench, before and
    after a first call; and [target_off] with no console logger. *)
Example more_raising_calls :
  fst (sd_write_gz 4 [] None (Demo.equipped 0)) = Raise AttributeError /\
  fst (sd_write_gz 4 [] None (snd (sd_write_gz 4 [x1f] None (Demo.equipped 0))))
    = Raise TypeError /\
  fst (target_off None (Demo.equipped 0)) = Raise AttributeError.
Proof. repeat split. Qed.

(** A mount that the driver accepts, the requests of [Demo.after_mount],
    the driver lost, and a mount by another session for another partition. *)
Lemma mounted_is_never_cleared_on_bench :
  let w0 := snd (sd_mount (Some "p1") None (Demo.equipped 0)) in
  let w1 := serve_all 4 Demo.after_mount w0 in
  let w2 := with_sdmux None w1 in
  _sd_mounted (Demo.equipped 0) = false /\
  sd_mount (Some "p1") None (Demo.equipped 0) = (Ok true, w0) /\
  trace w0 = [MuxMount (Some "p1")] /\
  _sd_mounted w0 = true /\
  _sd_mounted w1 = true /\
  lease_wf w1 /\
  fst (sd_mount (Some "p2") (Some "S2") w2) = Ok true /\
  trace (snd (sd_mount (Some "p2") (Some "S2") w2)) = trace w1.
Proof.
  cbv zeta.
  pose proof (mounted_is_never_cleared 4 Demo.after_mount (Some "p1") None (Some "p2")
                (Some "S2") None (Demo.equipped 0) _ eq_refl) as H.
  cbv zeta in H. destruct H as (H0 & H1 & Ht & _ & _ & _ & Hok).
  assert (WF : lease_wf (serve_all 4 Demo.after_mount
                           (snd (sd_mount (Some "p1") None (Demo.equipped 0))))).
  { intros _ E. discriminate E. }
  split; [reflexivity|]. split; [reflexivity|]. split; [reflexivity|].
  split; [exact H0|]. split; [exact H1|]. split; [exact WF|].
  split; [exact (Hok WF) | exact Ht].
Defined.

(** *** The stand-in decompressors keep the promises of the libraries *)

Lemma stored_step (d rc rx data rest : bytes) (max : Z) :
  rc = rx -> 0 < max -> rc = data ++ rest ->
  exists out d' used rx',
    z_decompress Demo.stored_zlib d data max = inr (out, d') /\
    data = used ++ unconsumed_tail Demo.stored_zlib d' /\
    rx = out ++ rx' /\
    unconsumed_tail Demo.stored_zlib d' ++ rest = rx' /\
    len out <= max /\
    (unconsumed_tail Demo.stored_zlib d' <> [] -> len out = max).
Proof.
  intros <- Hmax ->. cbn.
  exists (firstn (Z.to_nat max) data), (skipn (Z.to_nat max) data),
    (firstn (Z.to_nat max) data), (skipn (Z.to_nat max) data ++ rest).
  split; [reflexivity|]. split; [symmetry; apply firstn_skipn|].
  split; [rewrite app_assoc, firstn_skipn; reflexivity|]. split; [reflexivity|].
  unfold len. rewrite length_firstn. split; [lia|].
  intros Hne.
  assert (List.length (skipn (Z.to_nat max) data) <> 0)%nat.
  { destruct (skipn (Z.to_nat max) data); [contradiction|discriminate]. }
  rewrite length_skipn in H. lia.
Qed.

Definition stored_contract : GzipContract Demo.stored_zlib :=
  {| gz_rep := fun _ rc rx => rc = rx;
     gz_step := stored_step;
     gz_done := fun _ rx (H : [] = rx) => eq_sym H |}.

Lemma pair_step (d : Demo.phase) (rc extra rx a b rc' : bytes) (max : Z) :
  Demo.pair_rep d rc extra rx -> Demo.pair_eof d = false -> 0 < max ->
  rc = a ++ rc' -> (b = [] \/ rc' = []) ->
  exists out d' rx',
    b_decompress Demo.pair_bz2 d (a ++ b) max = inr (out, d') /\
    rx = out ++ rx' /\ len out <= max /\
    Demo.pair_rep d' rc' (extra ++ b) rx'.
Proof.
  intros Hr He Hmax Hrc Hb. unfold len.
  destruct d as [| |u]; [| |discriminate]; cbn in Hr.
  - destruct Hr as (b0 & e & -> & -> & ->).
    destruct a as [|a0 [|a1 [|a2 a]]]; cbn in Hrc; inversion Hrc; subst.
    + destruct Hb as [->|Hb]; [|discriminate].
      exists [], Demo.Content, [b0]. cbn. repeat split; try lia. exists b0, e. auto.
    + destruct Hb as [->|Hb]; [|discriminate].
      exists [a0], Demo.Marker, []. cbn. repeat split; try lia. exists e. auto.
    + exists [a0], (Demo.Finished b), []. cbn. repeat split; lia.
  - destruct Hr as (e & -> & -> & ->).
    destruct a as [|a0 [|a1 a]]; cbn in Hrc; inversion Hrc; subst.
    + destruct Hb as [->|Hb]; [|discriminate].
      exists [], Demo.Marker, []. cbn. repeat split; try lia. exists e. auto.
    + exists [], (Demo.Finished b), []. cbn. repeat split; lia.
Qed.

Lemma pair_at_eof (d : Demo.phase) (rc extra rx : bytes) :
  Demo.pair_rep d rc extra rx -> Demo.pair_eof d = true ->
  rc = [] /\ rx = [] /\ unused_data Demo.pair_bz2 d = extra.
Proof. destruct d; cbn; intros H E; try discriminate. exact H. Qed.

Lemma pair_hungry (d : Demo.phase) (rc extra rx : bytes) :
  Demo.pair_rep d rc extra rx -> needs_input Demo.pair_bz2 d = true ->
  Demo.pair_eof d = false /\ rc <> [] /\ extra = [].
Proof.
  destruct d; cbn; intros H E; try discriminate.
  - destruct H as (b & e & -> & _ & ->). repeat split. discriminate.
  - destruct H as (e & -> & _ & ->). repeat split. discriminate.
Qed.

Lemma pair_progress (d : Demo.phase) (rc extra rx out : bytes) (d' : Demo.phase) (max : Z) :
  Demo.pair_rep d rc extra rx -> Demo.pair_eof d = false ->
  needs_input Demo.pair_bz2 d = false -> 0 < max ->
  b_decompress Demo.pair_bz2 d [] max = inr (out, d') -> (0 < 0)%nat.
Proof. destruct d; cbn; intros; discriminate. Qed.

Lemma pair_raise (d : Demo.phase) (data : bytes) (max : Z) :
  Demo.pair_eof d = true -> b_decompress Demo.pair_bz2 d data max = inl EOFError.
Proof. destruct d; cbn; intros H; try discriminate. reflexivity. Qed.

Definition pair_contract : Bz2Contract Demo.pair_bz2 :=
  {| bz_eof := Demo.pair_eof;
     bz_rep := Demo.pair_rep;
     bz_mu := fun _ => 0%nat;
     bz_step := pair_step;
     bz_raise := pair_raise;
     bz_at_eof := pair_at_eof;
     bz_hungry := pair_hungry;
     bz_progress := pair_progress;
     bz_fresh := fun _ _ => eq_refl;
     bz_fresh_hungry := eq_refl |}.

Lemma mux_accepts : always_accepts Demo.mux.
Proof. intros data h. reflexivity. Defined.

Lemma streaming_round_trip_on_bench :
  gzip_of stored_contract [x01; x02; x03] [x01; x02; x03] /\
  bzip2_of pair_contract [x41; x00] [x41] /\
  (exists w',
     feed 4 (fun data => sd_write_gz 4 data None) [[x01]; [x02; x03]] 65536
       (Demo.equipped 0) = (Ok 65536, w') /\
     sink (trace w') = [x01; x02; x03] /\ _sd_bytes_written w' = 3) /\
  (exists k, forall fuel, (k <= fuel)%nat ->
   exists w',
     feed fuel (fun data => sd_write_bz2 fuel data None) [[x41]; [x00]] 65536
       (Demo.equipped 0) = (Ok 65536, w') /\
     sink (trace w') = [x41] /\ _sd_bytes_written w' = 1).
Proof.
  assert (G : gzip_of stored_contract [x01; x02; x03] [x01; x02; x03]) by reflexivity.
  assert (Z : bzip2_of pair_contract [x41; x00] [x41]).
  { exists x41, x00. repeat split. }
  split; [exact G|]. split; [exact Z|]. split.
  - apply (streaming_round_trip (Demo.equipped 0) stored_contract pair_contract
             Demo.mux None [x01; x02; x03] [[x01]; [x02; x03]]);
      try reflexivity; try exact mux_accepts; try exact (wf_equipped 0);
      try exact G; try (cbn; lia).
    repeat constructor; discriminate.
  - apply (streaming_round_trip (Demo.equipped 0) stored_contract pair_contract
             Demo.mux None [x41] [[x41]; [x00]]);
      try reflexivity; try exact mux_accepts; try exact (wf_equipped 0);
      try exact Z; try (cbn; lia).
    repeat constructor; discriminate.
Defined.

Lemma bz2_multi_stream_on_bench :
  bzip2_of pair_contract [x41; x00] [x41] /\
  bzip2_of pair_contract [x42; x00] [x42] /\
  exists k, forall fuel, (k <= fuel)%nat ->
  exists w',
    feed fuel (fun data => sd_write_bz2 fuel data None) [[x41]; [x00; x42]; [x00]] 65536
      (Demo.equipped 0) = (Ok 65536, w') /\
    sink (trace w') = [x41; x42] /\ _sd_bytes_written w' = 2.
Proof.
  assert (Z1 : bzip2_of pair_contract [x41; x00] [x41]).
  { exists x41, x00. repeat split. }
  assert (Z2 : bzip2_of pair_contract [x42; x00] [x42]).
  { exists x42, x00. repeat split. }
  split; [exact Z1|]. split; [exact Z2|].
  apply (bz2_multi_stream (Demo.equipped 0) pair_contract Demo.mux None
           [x41; x00] [x41] [x42; x00] [x42] [[x41]; [x00; x42]; [x00]]);
    try reflexivity; try exact mux_accepts; try exact (wf_equipped 0);
    try exact Z1; try exact Z2.
  repeat constructor; discriminate.
Defined.

(** C6 (counterexample): seven stored bytes sent in two fragments to the
    hurried agent, whose blocks are of two bytes and whose calls all reach
    the feedback interval.  The first call writes one block and returns 0
    with three bytes cached; the caller [feed_next] answers with the second
    fragment: the cached bytes are dropped, the sink holds four bytes of
    the seven and the last status is positive. *)
Lemma next_fragment_on_zero_drops_tail :
  gzip_of stored_contract [x01; x02; x03; x04; x05; x06; x07]
    [x01; x02; x03; x04; x05; x06; x07] /\
  List.concat [[x01; x02; x03; x04; x05]; [x06; x07]]
  = [x01; x02; x03; x04; x05; x06; x07] /\
  fst (sd_write_gz 8 [x01; x02; x03; x04; x05] None Demo.hurried) = Ok 0 /\
  fst (feed_next 8 (fun data => sd_write_gz 8 data None)
         [[x01; x02; x03; x04; x05]; [x06; x07]] 2 Demo.hurried) = Ok 2 /\
  sink (trace (snd (feed_next 8 (fun data => sd_write_gz 8 data None)
                      [[x01; x02; x03; x04; x05]; [x06; x07]] 2 Demo.hurried)))
  = [x01; x02; x06; x07] /\
  _sd_bytes_written
    (snd (feed_next 8 (fun data => sd_write_gz 8 data None)
            [[x01; x02; x03; x04; x05]; [x06; x07]] 2 Demo.hurried)) = 4 /\
  sink (trace (snd (feed_next 8 (fun data => sd_write_gz 8 data None)
                      [[x01; x02; x03; x04; x05]; [x06; x07]] 2 Demo.hurried)))
  <> [x01; x02; x03; x04; x05; x06; x07].
Proof. repeat split. intros E. discriminate E. Qed.

(** C7 (counterexample): two bzip2 streams sent as two fragments to the
    hurried agent.  The first call writes the first content and returns 0,
    the decompressor being at the end of its stream; the caller [feed_next]
    answers with the second stream: [decompress] raises [EOFError], the
    handler goes on with the unused data of the old decompressor, which is
    empty, and the second stream is dropped.  No error status is returned
    and the sink holds the first content alone. *)
Lemma next_fragment_on_zero_drops_stream :
  bzip2_of pair_contract [x41; x00] [x41] /\
  bzip2_of pair_contract [x42; x00] [x42] /\
  fst (sd_write_bz2 8 [x41; x00] None Demo.hurried) = Ok 0 /\
  fst (feed_next 8 (fun data => sd_write_bz2 8 data None)
         [[x41; x00]; [x42; x00]] 2 Demo.hurried) = Ok 2 /\
  sink (trace (snd (feed_next 8 (fun data => sd_write_bz2 8 data None)
                      [[x41; x00]; [x42; x00]] 2 Demo.hurried)))
  = [x41] /\
  sink (trace (snd (feed_next 8 (fun data => sd_write_bz2 8 data None)
                      [[x41; x00]; [x42; x00]] 2 Demo.hurried)))
  <> [x41] ++ [x42].
Proof.
  split; [exists x41, x00; repeat split|].
  split; [exists x42, x00; repeat split|].
  repeat split. intros E. discriminate E.
Qed.

(** The two streams sent as one buffer, and byte by byte, run. *)
Example bz2_two_streams_run :
  sink (trace (snd (feed 8 (fun data => sd_write_bz2 8 data None)
                      [[x41; x00; x42; x00]] 65536 (Demo.equipped 0))))
    = [x41; x42] /\
  fst (feed 8 (fun data => sd_write_bz2 8 data None)
         [[x41]; [x00]; [x42]; [x00]] 65536 (Demo.equipped 0)) = Ok 65536 /\
  sink (trace (snd (feed 8 (fun data => sd_write_bz2 8 data None)
                      [[x41]; [x00]; [x42]; [x00]] 65536 (Demo.equipped 0))))
    = [x41; x42].
Proof. repeat split. Qed.

(** Five stored bytes sent as one buffer to the hurried agent: the first
    call writes one block and returns 0, the caller drains twice, and the
    sink holds the five bytes in three writes. *)
Example gz_time_boxed_run :
  fst (sd_write_gz 8 [x01; x02; x03; x04; x05] None Demo.hurried) = Ok 0 /\
  zdata (snd (sd_write_gz 8 [x01; x02; x03; x04; x05] None Demo.hurried))
    = Value (Some [x03; x04; x05]) /\
  fst (feed 8 (fun data => sd_write_gz 8 data None) [[x01; x02; x03; x04; x05]] 2
         Demo.hurried) = Ok 2 /\
  trace (snd (feed 8 (fun data => sd_write_gz 8 data None) [[x01; x02; x03; x04; x05]] 2
                Demo.hurried))
    = [MuxWrite [x01; x02]; MuxWrite [x03; x04]; MuxWrite [x05]] /\
  _sd_bytes_written
    (snd (feed 8 (fun data => sd_write_gz 8 data None) [[x01; x02; x03; x04; x05]] 2
            Demo.hurried)) = 5.
Proof. repeat split. Qed.

(** ** More properties on the bench *)

Lemma held_once_on_bench : held_until "A" 1000 1 Demo.held.
Proof.
  split; [reflexivity|]. split; [reflexivity|]. intros k _. reflexivity.
Defined.

Lemma logging_held_on_bench : held_until "A" 1000 2 Rig.logging_held.
Proof.
  split; [reflexivity|]. split; [reflexivity|]. intros k _. reflexivity.
Defined.

Lemma free_equipped s t : admits s (Demo.equipped t).
Proof. left. reflexivity. Defined.

Lemma free_logging s : admits s Rig.logging.
Proof. left. reflexivity. Defined.

Lemma wf_bare t : lease_wf (Demo.bare t).
Proof. intros H. discriminate H. Defined.

Lemma wf_writing : lease_wf Demo.writing.
Proof. intros H. discriminate H. Defined.

Lemma wf_refused : lease_wf Rig.refused.
Proof. intros H. discriminate H. Defined.

Lemma wf_refused_writing : lease_wf Rig.refused_writing.
Proof. intros H. discriminate H. Defined.

Lemma wf_corrupt : lease_wf Rig.corrupt.
Proof. intros H. discriminate H. Defined.

Lemma unlock_only_by_owner_on_bench :
  (exists w', target_unlock (Some "B") Demo.held = (Ok false, w') /\
              _lock_owner w' = Some "A" /\ _lock_expiry w' = Some 1000 /\
              same_but_lease Demo.held w') /\
  (exists w', target_unlock (Some "A") Demo.held = (Ok true, w') /\
              _lock_owner w' = None /\ same_but_lease Demo.held w' /\
              forall s, target_locked s w' = (Ok false, w')).
Proof.
  apply (unlock_only_by_owner "A" 1000 (Some "B") Demo.held);
    [exact held_once_on_bench | discriminate].
Defined.

Lemma lock_unlock_round_trip_on_bench :
  exists w1 w2,
    target_lock (Some "S1") Demo.fresh = (Ok true, w1) /\ _lock_owner w1 = Some "S1" /\
    target_unlock (Some "S1") w1 = (Ok true, w2) /\ _lock_owner w2 = None /\
    same_but_lease Demo.fresh w2 /\
    forall s', target_lock s' w2 = (Ok true, set_lock_owner s' w2).
Proof. apply (lock_unlock_round_trip (Some "S1") Demo.fresh). reflexivity. Defined.

Lemma empty_token_lease_on_bench :
  let w' := set_lock_owner (Some "") Demo.fresh in
  target_lock (Some "") Demo.fresh = (Ok true, w') /\
  target_lock (Some "B") w' = (Ok false, w') /\
  target_locked (Some "B") w' = (Ok true, w') /\
  target_unlock (Some "B") w' = (Ok false, w') /\
  power_locked (Some "B") w' = (Ok true, w') /\
  sd_locked (Some "B") w' = (Ok true, w').
Proof.
  destruct (empty_token_lease_is_permanent Demo.fresh eq_refl) as [H1 H2].
  split; [exact H1|]. apply H2; [reflexivity | discriminate].
Defined.

Lemma console_lease_gate_on_bench :
  (forall c, In c [console_clear (Some "B"); console_flush (Some "B");
                   console_prompt None (Some "B"); console_run "ls" (Some "B");
                   console_send "x" false (Some "B"); console_tail (Some "B")] ->
     yields c Rig.logging_held None [] (hw Rig.logging_held)) /\
  passes_to_logger (console_head (Some "B")) Rig.logging_held Rig.logger LHead /\
  passes_to_logger (console_lines (Some "B")) Rig.logging_held Rig.logger LLines /\
  passes_to_logger (console_print "hello" (Some "B")) Rig.logging_held Rig.logger
    (LPrint "hello") /\
  passes_to_logger toggle_timestamps Rig.logging_held Rig.logger LToggleTimestamps.
Proof.
  apply (console_lease_gate (Some "B") "A" 1000 Rig.logging_held Rig.logger None "ls" "x"
           false "hello");
    [discriminate | exact logging_held_on_bench | reflexivity].
Defined.

Lemma console_without_logger_on_bench :
  (forall c, In c [console_clear None; console_flush None; console_head None;
                   console_lines None; console_print "hello" None;
                   console_prompt None None; console_run "ls" None;
                   console_send "x" false None; console_tail None] ->
     yields c (Demo.equipped 0) None [] (hw (Demo.equipped 0))) /\
  toggle_timestamps (Demo.equipped 0) =
    (Ok None, set_stderr (stderr (Demo.equipped 0) ++ ["no console configured/found!"])
                (Demo.equipped 0)).
Proof.
  apply (console_without_logger None (Demo.equipped 0) None "ls" "x" false "hello");
    [exact (wf_equipped 0) | reflexivity].
Defined.

Lemma power_commands_on_bench :
  yields (target_on None) Rig.logging true [LoggerCall LResume; PowerOn]
    (Demo.set_powered true Demo.bench0) /\
  yields (target_off None) Rig.logging true
    [PowerOff; LoggerCall LResetTimer; LoggerCall LPause]
    (Demo.set_powered false Demo.bench0).
Proof.
  destruct (power_commands_reach_driver None Rig.logging Demo.relay (free_logging None)
              eq_refl) as [H1 H2].
  split; [exact H1|]. apply H2. discriminate.
Defined.

Lemma target_off_without_logger_on_bench :
  raises (target_off None) (Demo.equipped 0) AttributeError [PowerOff]
    (Demo.set_powered false Demo.bench0).
Proof.
  apply (target_off_without_logger None (Demo.equipped 0) Demo.relay);
    [exact (free_equipped None 0) | reflexivity | reflexivity | reflexivity].
Defined.

Lemma target_toggle_on_bench :
  yields (target_toggle None) Rig.logging "ON" [PowerToggle]
    (Demo.set_powered true Demo.bench0).
Proof.
  apply (target_toggle_and_logger None Rig.logging Demo.relay);
    [exact (free_logging None) | reflexivity].
Defined.

Lemma unavailable_sentinels_on_bench :
  (yields (target_off None) (Demo.bare 0) false [] Demo.bench0 /\
   yields (target_status None) (Demo.bare 0) "???" [] Demo.bench0 /\
   yields (power_locked None) (Demo.bare 0) true [] Demo.bench0 /\
   yields (target_on None) (Demo.bare 0) false [] Demo.bench0) /\
  (forall c, In c [sd_open None; sd_close None; sd_to_host None; sd_to_target None] ->
     yields c (Demo.bare 0) false [] Demo.bench0) /\
  yields (sd_locked None) (Demo.bare 0) true [] Demo.bench0 /\
  yields (sd_mount (Some "p1") None) (Demo.bare 0) false [] Demo.bench0 /\
  (forall c, In c [sd_update "f" 0 [x01] None; sd_write_raw [x01] None;
                   sd_write_gz 1 [x01] None; sd_write_bz2 1 [x01] None] ->
     yields c (Demo.bare 0) (-1) [] Demo.bench0) /\
  (forall c, In c [sd_status None; sd_toggle None] ->
     yields c (Demo.bare 0) "???" [] Demo.bench0).
Proof.
  destruct (unavailable_sentinels None (Demo.bare 0) (Some "p1") "f" 0 [x01] 1
              (wf_bare 0)) as [H1 H2].
  split; [exact (H1 eq_refl)|].
  destruct (H2 eq_refl) as (A & B & C & D & E).
  split; [exact A|]. split; [exact B|]. split; [exact (C eq_refl)|].
  split; [exact D | exact E].
Defined.

Lemma sd_close_outcome_on_bench :
  yields_after (fun x => set_sd_opened true (without_decoders x)) (sd_close None)
    Rig.refused_writing false [MuxClose] Demo.bench0.
Proof.
  apply (sd_close_outcome None Rig.refused_writing Rig.refusing);
    [exact wf_refused_writing | reflexivity].
Defined.

Lemma sd_open_starts_afresh_on_bench :
  yields_after
    (fun x => set_sd_opened true (set_sd_bytes_written 0 (without_decoders x)))
    (sd_open None) Demo.writing true [MuxClose; MuxOpen] Demo.bench0.
Proof.
  apply (sd_open_starts_afresh None Demo.writing Demo.mux);
    [exact wf_writing | reflexivity].
Defined.

Lemma sd_mount_retried_on_bench :
  yields_after (set_sd_mounted false) (sd_mount (Some "p1") None) Rig.refused false
    [MuxMount (Some "p1")] Demo.bench0 /\
  yields_after (set_sd_mounted false) (sd_mount (Some "p2") (Some "B"))
    (snd (sd_mount (Some "p1") None Rig.refused)) false
    [MuxMount (Some "p2")] Demo.bench0.
Proof.
  destruct (sd_mount_failed_is_retried None (Some "B") (Some "p1") (Some "p2")
              Rig.refused Rig.refusing wf_refused eq_refl eq_refl) as [H1 H2].
  split; [exact H1|].
  exact (H2 eq_refl (snd (sd_mount (Some "p1") None Rig.refused)) eq_refl).
Defined.

Lemma raw_writes_add_up_on_bench :
  (forall data s,
     yields_after (fun x => set_sd_bytes_written (_sd_bytes_written x + len data) x)
       (sd_write_raw data s) (Demo.equipped 0) 65536 [MuxWrite data] Demo.bench0) /\
  let w' := serve_all 1 [Sd_write_raw [x01] None; Sd_write_raw [x02; x03] (Some "B")]
              (Demo.equipped 0) in
  sink (trace w') = [x01; x02; x03] /\ _sd_bytes_written w' = 3.
Proof.
  apply (raw_writes_add_up 1 [([x01], None); ([x02; x03], Some "B")] (Demo.equipped 0)
           Demo.mux (wf_equipped 0) eq_refl mux_accepts).
Defined.

Lemma refused_write_on_bench :
  yields (sd_write_raw [x01] None) Rig.refused (-1) [MuxWrite [x01]] Demo.bench0 /\
  yields_after (fun x => set_zdata (Value None) (set_zdec (Some []) x))
    (sd_write_gz 1 [x01] None) Rig.refused (-1) [MuxWrite [x01]] Demo.bench0 /\
  yields_after (set_bz2dec (Some Demo.Marker))
    (sd_write_bz2 1 [x01] None) Rig.refused (-1) [MuxWrite [x01]] Demo.bench0.
Proof.
  destruct (refused_write_is_reported None Rig.refused Rig.refusing [x01] 0 wf_refused
              eq_refl) as (H1 & H2 & H3).
  split; [exact (H1 eq_refl)|]. split.
  - apply (H2 [x01] []); [discriminate | reflexivity | reflexivity].
  - apply (H3 [x01] Demo.Marker); reflexivity.
Defined.

Lemma decoder_error_on_bench :
  (exists w', sd_write_gz 1 [x01] None Rig.corrupt = (Raise CodecError, w') /\
              same_but_lease (set_zdec (Some []) Rig.corrupt) w') /\
  (exists w', sd_write_bz2 1 [x01] None Rig.corrupt = (Raise CodecError, w') /\
              same_but_lease (set_bz2dec (Some Demo.Content) Rig.corrupt) w').
Proof.
  destruct (decoder_error_propagates None Rig.corrupt Demo.mux [x01] 0 CodecError
              wf_corrupt eq_refl) as [H1 H2].
  split.
  - apply H1; [discriminate | reflexivity].
  - apply H2; reflexivity.
Defined.

Lemma permitted_swap_on_bench :
  yields (sd_to_host None) (Demo.equipped 0) true [PowerStatus; MuxToHost]
    (Demo.set_on_host true Demo.bench0) /\
  yields_after without_decoders (sd_to_target None) (Demo.equipped 0) true
    [PowerStatus; MuxToTarget] (Demo.set_on_host false Demo.bench0).
Proof.
  apply (permitted_swap_reaches_driver None (Demo.equipped 0) Demo.mux Demo.relay
           (free_equipped None 0) eq_refl eq_refl eq_refl eq_refl).
Defined.

Lemma sd_toggle_on_bench :
  yields (sd_toggle None) (Demo.equipped 0) "TARGET"
    [PowerStatus; MuxStatus; MuxToTarget; MuxStatus] (Demo.set_on_host false Demo.bench0) /\
  yields (sd_toggle None) Demo.writing "HOST" [PowerStatus; MuxStatus] Demo.bench0.
Proof.
  split.
  - destruct (sd_toggle_swaps_once None (Demo.equipped 0) Demo.mux Demo.relay
                (free_equipped None 0) eq_refl eq_refl) as (_ & H & _).
    exact (H eq_refl eq_refl).
  - destruct (sd_toggle_swaps_once None Demo.writing Demo.mux Demo.relay
                (or_introl eq_refl) eq_refl eq_refl) as (H & _).
    exact (H eq_refl).
Defined.

Lemma usb_by_class_on_bench :
  exists sw, nth_error Demo.three_switches 1 = Some sw /\
    yields (usb_find_by_class "STORAGE" (Some "B")) Demo.held (Some sw) [] Demo.bench0 /\
    yields (usb_has_class "STORAGE" (Some "B")) Demo.held true [] Demo.bench0 /\
    yields (usb_on_by_class "STORAGE" (Some "B")) Demo.held true [UsbOn "STORAGE"]
      (snd (us_on sw Demo.bench0)) /\
    yields (usb_off_by_class "STORAGE" (Some "B")) Demo.held true [UsbOff "STORAGE"]
      (snd (us_off sw Demo.bench0)) /\
    yields (usb_has_class "AUDIO" (Some "B")) Demo.held false [] Demo.bench0 /\
    yields (usb_on_by_class "AUDIO" (Some "B")) Demo.held false [] Demo.bench0.
Proof.
  assert (W : lease_wf Demo.held) by (intros _ H; discriminate H).
  pose proof (usb_by_class_first_match "STORAGE" (Some "B") Demo.held W) as H.
  pose proof (usb_by_class_first_match "AUDIO" (Some "B") Demo.held W) as N.
  destruct H as (_ & H1 & H2 & H3 & H4). destruct N as (_ & _ & N2 & N3 & _).
  eexists. split; [reflexivity|].
  split; [exact H1|]. split; [exact H2|]. split; [exact H3|]. split; [exact H4|].
  split; [exact N2 | exact N3].
Defined.

Lemma usb_index_on_bench :
  exists sw, nth_error Demo.three_switches 1 = Some sw /\
    yields (usb_on 2 (Some "B")) Demo.held tt [UsbOn "STORAGE"]
      (snd (us_on sw Demo.bench0)) /\
    yields (usb_off 2 (Some "B")) Demo.held tt [UsbOff "STORAGE"]
      (snd (us_off sw Demo.bench0)) /\
    yields (usb_toggle 2 (Some "B")) Demo.held tt [UsbToggle "STORAGE"]
      (snd (us_toggle sw Demo.bench0)) /\
    yields (usb_status 2 (Some "B")) Demo.held "OFF" [UsbStatus "STORAGE"] Demo.bench0 /\
    yields (usb_ports (Some "B")) Demo.held 3 [] Demo.bench0.
Proof.
  assert (W : lease_wf Demo.held) by (intros _ H; discriminate H).
  eexists. split; [reflexivity|].
  destruct (usb_index_is_one_based 2 (Some "B") Demo.held _ W eq_refl eq_refl)
    as (H1 & H2 & H3 & H4 & H5 & _).
  split; [exact H1|]. split; [exact H2|]. split; [exact H3|].
  split; [exact H4 | exact H5].
Defined.

Lemma sd_update_counts_on_bench :
  (forall offset data,
     yields_after
       (fun x => set_sd_bytes_written
                   ((if offset =? 0 then 0 else _sd_bytes_written x)
                    + (if len data >? 0 then len data else 0)) x)
       (sd_update "f" offset data None) (Demo.equipped 0) (len data)
       [MuxUpdate "f" offset data] Demo.bench0) /\
  _sd_bytes_written
    (serve_all 1 [Sd_update "f" 0 [x01; x02] None; Sd_update "f" 2 [x03] None]
       (Demo.equipped 0)) = 3.
Proof.
  destruct (sd_update_counts 1 "f" None [x01; x02] [(2, [x03])] (Demo.equipped 0)
              Demo.mux (wf_equipped 0) eq_refl) as [H1 H2].
  split; [exact H1|]. apply H2.
  - intros offset data h. reflexivity.
  - repeat constructor; discriminate.
Defined.

(** *** Loading the laboratory's configuration *)

Lemma remote_of_configuration_on_bench :
  exists a', Startup.load_remote_config (Rig.platform Rig.lab) (Rig.parser_of Rig.lab)
               Rig.lab_agent = (Startup.Done tt, a') /\
    Startup.conport a' = 6000 /\ Startup.ctrlport a' = 5556 /\
    Startup.remote a' = Some "lab" /\ Startup.is_remote a' = true /\
    Startup.same_drivers Rig.lab_agent a'.
Proof.
  destruct (remote_of_configuration (Rig.platform Rig.lab) (Rig.parser_of Rig.lab)
              Rig.lab_agent 6000 5556 eq_refl eq_refl)
    as (a' & R & C & K & _ & _ & H & D).
  - intros e G. discriminate G.
  - exists a'. destruct (H eq_refl eq_refl) as [Hr Hi].
    split; [exact R|]. split; [exact C|]. split; [exact K|].
    split; [exact Hr|]. split; [exact Hi | exact D].
Defined.

(** A client given a host, a server given a host with no remote section
    to read, and a server given a host with the remote section of the
    laboratory: the last one loads the console as a local agent does. *)
Lemma remote_agent_loads_nothing_on_bench :
  (exists a', Startup.load_config (Rig.platform Rig.lab) (Some "bench") false Rig.lab_agent
              = (Startup.Done tt, a') /\
     Startup.remote a' = Some "bench" /\ Startup.is_remote a' = true /\
     Startup.is_server a' = false /\ Startup.same_drivers Rig.lab_agent a') /\
  (exists a', Startup.load_config (Rig.platform Rig.standalone) (Some "bench") true
                Rig.standalone_agent = (Startup.Done tt, a') /\
     Startup.remote a' = Some "bench" /\ Startup.is_remote a' = true /\
     Startup.is_server a' = true /\ Startup.same_drivers Rig.standalone_agent a') /\
  (Startup.load_config (Rig.platform Rig.lab) (Some "bench") true Rig.lab_agent
   = Startup.load_config (Rig.platform Rig.lab) None true Rig.lab_agent /\
   let a' := snd (Startup.load_config (Rig.platform Rig.lab) (Some "bench") true
                    Rig.lab_agent) in
   Startup.remote a' = None /\ Startup.is_remote a' = false /\
   Startup.is_server a' = true /\
   Startup.console a' = Some (Rig.device tt)).
Proof.
  destruct (remote_agent_loads_nothing (Rig.platform Rig.lab) "bench" Rig.lab_agent)
    as (H1 & _ & H3).
  { intros _. exists 6000, 5556. split; reflexivity. }
  destruct (remote_agent_loads_nothing (Rig.platform Rig.standalone) "bench"
              Rig.standalone_agent) as (_ & H2 & _).
  { intros E. discriminate E. }
  split; [exact H1|]. split; [exact (H2 eq_refl)|].
  destruct (H3 eq_refl) as (E & R & I & S).
  split; [exact E|]. cbv zeta.
  split; [exact R|]. split; [exact I|]. split; [exact S | reflexivity].
Defined.

Lemma driver_sections_on_bench :
  Startup.load_power_config (Rig.platform Rig.lab) (Rig.parser_of Rig.lab) Rig.lab_agent
  = (Startup.Done tt,
     Startup.set_stderr ["power controller variant not defined!"] Rig.lab_agent) /\
  Startup.load_sdmux_config (Rig.platform Rig.lab) (Rig.parser_of Rig.lab) Rig.lab_agent
  = (Startup.Done tt,
     Startup.set_stderr [Startup.not_found "power controller" "samsung"] Rig.lab_agent) /\
  Startup.load_console_config (Rig.platform Rig.lab) (Rig.parser_of Rig.lab) Rig.lab_agent
  = (Startup.Done tt,
     Startup.set_log [Startup.Instantiated "mtda.console.serial";
                      Startup.Configured "console"
                        [("variant", "serial"); ("rate", "115200")]]
       (Startup.set_hw Demo.bench0
          (Startup.set_console (Some (Rig.device tt))
             (Startup.set_objects 1 Rig.lab_agent)))).
Proof.
  destruct (driver_section_outcomes (Rig.platform Rig.lab) (Rig.parser_of Rig.lab)
              Rig.lab_agent) as (_ & Hp & _ & Hc & _ & Hm).
  split; [exact (Hp eq_refl)|]. split.
  - exact (proj1 (Hm "samsung" eq_refl) eq_refl).
  - exact (proj2 (Hc "serial" eq_refl) (Rig.device tt) _ eq_refl eq_refl).
Defined.

Lemma usb_port_outcomes_on_bench :
  let usb_switch := Startup.set_className "" Rig.hub in
  exists a', Startup.load_usb_port_config (Rig.platform Rig.lab) (Rig.parser_of Rig.lab)
               "usb2" Rig.lab_agent = (Startup.Done tt, a') /\
    Startup.usb_switches a' = [usb_switch] /\
    Startup.log a' = [Startup.Instantiated "mtda.usb.hub";
                      Startup.Configured "usb2" [("variant", "hub")];
                      Startup.Probed "usb2"] /\
    Startup.stderr a' = [].
Proof.
  destruct (usb_port_outcomes (Rig.platform Rig.lab) (Rig.parser_of Rig.lab) "usb2"
              Rig.lab_agent) as [_ H].
  - intros e G. injection G as <-. right. reflexivity.
  - destruct (proj2 (H "hub" eq_refl) (Rig.device Rig.hub) _ eq_refl eq_refl)
      as (a' & R & U & _ & _ & _ & L & E & _).
    exists a'. split; [exact R|]. split; [exact U|]. split; [exact L | exact E].
Defined.

Lemma usb_section_on_bench :
  Startup.grows_by 2 Rig.lab_agent
    (snd (Startup.load_usb_config (Rig.platform Rig.lab) (Rig.parser_of Rig.lab)
            Rig.lab_agent)).
Proof.
  destruct (usb_section_outcomes (Rig.platform Rig.lab) (Rig.parser_of Rig.lab)
              Rig.lab_agent) as [_ H].
  exact (proj1 (proj2 (H "2" eq_refl) 2 eq_refl)).
Defined.

Lemma start_outcomes_on_bench :
  let a := Startup.set_power_controller (Some Rig.absent_relay) Rig.lab_agent in
  exists a', Startup.start (Rig.platform Rig.lab) a = (Startup.Done false, a') /\
    Startup.log a' = [Startup.Probed "power"] /\
    Startup.stderr a' = ["Probe of the Power Controller failed!"] /\
    Startup.console_logger a' = None.
Proof.
  cbv zeta.
  destruct (start_outcomes (Rig.platform Rig.lab)
              (Startup.set_power_controller (Some Rig.absent_relay) Rig.lab_agent))
    as [_ H].
  destruct (H eq_refl) as (a' & R & F & _).
  destruct (F eq_refl) as (_ & L & E & C).
  exists a'. split; [exact R|]. split; [exact L|]. split; [exact E | exact C].
Defined.

Lemma unconfigured_agent_starts_on_bench :
  Startup.load_config (Rig.platform []) None false Rig.plain_agent
  = (Startup.Done tt, Rig.plain_agent) /\
  Startup.start (Rig.platform []) Rig.plain_agent = (Startup.Done true, Rig.plain_agent) /\
  Startup.config_files Rig.plain_agent
  = ["mtda.ini"; "/home/lab/.mtda/config"; "/etc/mtda/config"].
Proof.
  destruct (unconfigured_agent_starts (Rig.platform []) Demo.bench0) as (H1 & H2 & _).
  - intros files section. reflexivity.
  - split; [exact H1|]. split; [exact H2 | reflexivity].
Defined.

Lemma console_endpoints_on_bench :
  (exists a1 a2,
     Startup.console_getkey (Rig.platform Rig.lab) Rig.lab_agent = (Startup.Done "k", a1) /\
     Startup.console_getkey (Rig.platform Rig.lab) a1 = (Startup.Done "k", a2) /\
     Startup.log a1 = [Startup.InputStarted; Startup.KeyRead] /\
     Startup.log a2 = [Startup.InputStarted; Startup.KeyRead; Startup.KeyRead]) /\
  Startup.console_remote "bench" Rig.lab_agent = (Startup.Done tt, Rig.lab_agent) /\
  (exists a', Startup.console_remote "bench" (Startup.set_is_remote true Rig.lab_agent)
              = (Startup.Done tt, a') /\
     Startup.console_output a' = Some ("bench", 5557) /\
     Startup.log a' = [Startup.OutputStarted "bench" 5557]).
Proof.
  split; [|split].
  - destruct (console_endpoints_on_demand (Rig.platform Rig.lab) Rig.lab_agent "bench")
      as ((a1 & a2 & R1 & R2 & _ & L1 & L2 & _) & _).
    exists a1, a2. split; [exact R1|]. split; [exact R2|]. split; [exact L1|].
    rewrite L2, L1. reflexivity.
  - destruct (console_endpoints_on_demand (Rig.platform Rig.lab) Rig.lab_agent "bench")
      as (_ & H & _).
    exact (H eq_refl).
  - destruct (console_endpoints_on_demand (Rig.platform Rig.lab)
                (Startup.set_is_remote true Rig.lab_agent) "bench") as (_ & _ & H).
    exact (H eq_refl).
Defined.

